(** * Tegra210 XUSB pad controller: PLL bring-up, shared enable, SuperSpeed
      port power sequencing, lane map and OTG VBUS/ID arbiter

    Shallow embedding of [drivers/phy/tegra/xusb-tegra210.c].  Registers are
    32-bit values kept in [Z]; every driver routine is a computation in a
    state monad over the mutable part of the pad controller ([world]),
    parameterised by the immutable board description and by the behaviour
    of the hardware and of the kernel services it calls ([platform]).  A
    computation yields [None] when the C code would not return: a
    [mutex_lock] on a mutex that is already held, or a loop that is still
    running when the model's round budget is used up. *)

From Stdlib Require Import ZArith List String Bool Lia.
From coqutil Require Import Z.bitblast.
Import ListNotations.
Local Open Scope Z_scope.

(* ================================================================== *)
(** * Part I: the model                                                 *)
(* ================================================================== *)

(** ** 32-bit values *)

(** Truncation to [u32], as an assignment to a [u32] lvalue does. *)
Definition u32 (x : Z) : Z := Z.land x 0xffffffff.

(** [BIT(n)] *)
Definition BIT (n : Z) : Z := Z.shiftl 1 n.

(** [value &= ~mask] on a [u32] *)
Definition clear_bits (value mask : Z) : Z := Z.land value (Z.lnot mask).

(** [value |= mask] *)
Definition set_bits (value mask : Z) : Z := Z.lor value mask.

Definition ENODEV : Z := 19.
Definition EINVAL : Z := 22.
Definition ETIMEDOUT : Z := 110.

(** ** Register offsets and fields (names as in the driver) *)

Definition XUSB_PADCTL_SS_PORT_MAP : Z := 0x014.
Definition XUSB_PADCTL_SS_PORT_MAP_PORTX_INTERNAL (x : Z) : Z := Z.shiftl 1 (x * 5 + 4).
Definition XUSB_PADCTL_SS_PORT_MAP_PORTX_MAP_SHIFT (x : Z) : Z := x * 5.
Definition XUSB_PADCTL_SS_PORT_MAP_PORTX_MAP_MASK (x : Z) : Z := Z.shiftl 0x7 (x * 5).
Definition XUSB_PADCTL_SS_PORT_MAP_PORTX_MAP_DISABLED (x : Z) : Z := Z.shiftl 0x7 (x * 5).
Definition XUSB_PADCTL_SS_PORT_MAP_PORTX_MAP (x v : Z) : Z := Z.shiftl (Z.land v 0x7) (x * 5).

Definition XUSB_PADCTL_ELPG_PROGRAM_1 : Z := 0x024.
Definition SSPX_ELPG_CLAMP_EN (x : Z) : Z := BIT (0 + x * 3).
Definition SSPX_ELPG_CLAMP_EN_EARLY (x : Z) : Z := BIT (1 + x * 3).
Definition SSPX_ELPG_VCORE_DOWN (x : Z) : Z := BIT (2 + x * 3).
Definition AUX_MUX_LP0_CLAMP_EN : Z := BIT 29.
Definition AUX_MUX_LP0_CLAMP_EN_EARLY : Z := BIT 30.
Definition AUX_MUX_LP0_VCORE_DOWN : Z := BIT 31.

Definition XUSB_PADCTL_UPHY_PLL_P0_CTL1 : Z := 0x360.
Definition XUSB_PADCTL_UPHY_PLL_CTL1_FREQ_NDIV_SHIFT : Z := 20.
Definition XUSB_PADCTL_UPHY_PLL_CTL1_FREQ_NDIV_MASK : Z := 0xff.
Definition XUSB_PADCTL_UPHY_PLL_CTL1_FREQ_NDIV_USB_VAL : Z := 0x19.
Definition XUSB_PADCTL_UPHY_PLL_CTL1_FREQ_NDIV_SATA_VAL : Z := 0x1e.
Definition XUSB_PADCTL_UPHY_PLL_CTL1_FREQ_MDIV_SHIFT : Z := 16.
Definition XUSB_PADCTL_UPHY_PLL_CTL1_FREQ_MDIV_MASK : Z := 0x3.
Definition XUSB_PADCTL_UPHY_PLL_CTL1_LOCKDET_STATUS : Z := Z.shiftl 1 15.
Definition XUSB_PADCTL_UPHY_PLL_CTL1_PWR_OVRD : Z := Z.shiftl 1 4.
Definition XUSB_PADCTL_UPHY_PLL_CTL1_ENABLE : Z := Z.shiftl 1 3.
Definition XUSB_PADCTL_UPHY_PLL_CTL1_SLEEP_SHIFT : Z := 1.
Definition XUSB_PADCTL_UPHY_PLL_CTL1_SLEEP_MASK : Z := 0x3.
Definition XUSB_PADCTL_UPHY_PLL_CTL1_IDDQ : Z := Z.shiftl 1 0.

Definition XUSB_PADCTL_UPHY_PLL_P0_CTL2 : Z := 0x364.
Definition XUSB_PADCTL_UPHY_PLL_CTL2_CAL_CTRL_SHIFT : Z := 4.
Definition XUSB_PADCTL_UPHY_PLL_CTL2_CAL_CTRL_MASK : Z := 0xffffff.
Definition XUSB_PADCTL_UPHY_PLL_CTL2_CAL_CTRL_VAL : Z := 0x136.
Definition XUSB_PADCTL_UPHY_PLL_CTL2_CAL_OVRD : Z := Z.shiftl 1 2.
Definition XUSB_PADCTL_UPHY_PLL_CTL2_CAL_DONE : Z := Z.shiftl 1 1.
Definition XUSB_PADCTL_UPHY_PLL_CTL2_CAL_EN : Z := Z.shiftl 1 0.

Definition XUSB_PADCTL_UPHY_PLL_P0_CTL4 : Z := 0x36c.
Definition XUSB_PADCTL_UPHY_PLL_CTL4_TXCLKREF_EN : Z := Z.shiftl 1 15.
Definition XUSB_PADCTL_UPHY_PLL_CTL4_TXCLKREF_SEL_SHIFT : Z := 12.
Definition XUSB_PADCTL_UPHY_PLL_CTL4_TXCLKREF_SEL_MASK : Z := 0x3.
Definition XUSB_PADCTL_UPHY_PLL_CTL4_TXCLKREF_SEL_USB_VAL : Z := 0x2.
Definition XUSB_PADCTL_UPHY_PLL_CTL4_TXCLKREF_SEL_SATA_VAL : Z := 0x0.
Definition XUSB_PADCTL_UPHY_PLL_CTL4_REFCLKBUF_EN : Z := Z.shiftl 1 8.
Definition XUSB_PADCTL_UPHY_PLL_CTL4_REFCLK_SEL_SHIFT : Z := 4.
Definition XUSB_PADCTL_UPHY_PLL_CTL4_REFCLK_SEL_MASK : Z := 0xf.

Definition XUSB_PADCTL_UPHY_PLL_P0_CTL5 : Z := 0x370.
Definition XUSB_PADCTL_UPHY_PLL_CTL5_DCO_CTRL_SHIFT : Z := 16.
Definition XUSB_PADCTL_UPHY_PLL_CTL5_DCO_CTRL_MASK : Z := 0xff.
Definition XUSB_PADCTL_UPHY_PLL_CTL5_DCO_CTRL_VAL : Z := 0x2a.

Definition XUSB_PADCTL_UPHY_PLL_P0_CTL8 : Z := 0x37c.
Definition XUSB_PADCTL_UPHY_PLL_CTL8_RCAL_DONE : Z := Z.shiftl 1 31.
Definition XUSB_PADCTL_UPHY_PLL_CTL8_RCAL_OVRD : Z := Z.shiftl 1 15.
Definition XUSB_PADCTL_UPHY_PLL_CTL8_RCAL_CLK_EN : Z := Z.shiftl 1 13.
Definition XUSB_PADCTL_UPHY_PLL_CTL8_RCAL_EN : Z := Z.shiftl 1 12.

Definition CFG_ADDR (x : Z) : Z := Z.shiftl (Z.land x 0xff) 16.
Definition CFG_WDATA (x : Z) : Z := Z.shiftl (Z.land x 0xffff) 0.
Definition CFG_RESET : Z := Z.shiftl 1 27.
Definition CFG_WS : Z := Z.shiftl 1 24.

Definition XUSB_PADCTL_UPHY_PLL_S0_CTL1 : Z := 0x860.
Definition XUSB_PADCTL_UPHY_PLL_S0_CTL2 : Z := 0x864.
Definition XUSB_PADCTL_UPHY_PLL_S0_CTL4 : Z := 0x86c.
Definition XUSB_PADCTL_UPHY_PLL_S0_CTL5 : Z := 0x870.
Definition XUSB_PADCTL_UPHY_PLL_S0_CTL8 : Z := 0x87c.
Definition XUSB_PADCTL_UPHY_PLL_S0_CTL10 : Z := 0x384.

Definition XUSB_PADCTL_UPHY_USB3_PADX_ECTL1 (x : Z) : Z := 0xa60 + x * 0x40.
Definition XUSB_PADCTL_UPHY_USB3_PAD_ECTL1_TX_TERM_CTRL_SHIFT : Z := 16.
Definition XUSB_PADCTL_UPHY_USB3_PAD_ECTL1_TX_TERM_CTRL_MASK : Z := 0x3.
Definition XUSB_PADCTL_UPHY_USB3_PAD_ECTL1_TX_TERM_CTRL_VAL : Z := 0x2.

Definition XUSB_PADCTL_UPHY_USB3_PADX_ECTL2 (x : Z) : Z := 0xa64 + x * 0x40.
Definition XUSB_PADCTL_UPHY_USB3_PAD_ECTL2_RX_CTLE_SHIFT : Z := 0.
Definition XUSB_PADCTL_UPHY_USB3_PAD_ECTL2_RX_CTLE_MASK : Z := 0xffff.
Definition XUSB_PADCTL_UPHY_USB3_PAD_ECTL2_RX_CTLE_VAL : Z := 0x00fc.

Definition XUSB_PADCTL_UPHY_USB3_PADX_ECTL3 (x : Z) : Z := 0xa68 + x * 0x40.
Definition XUSB_PADCTL_UPHY_USB3_PAD_ECTL3_RX_DFE_VAL : Z := 0xc0077f1f.

Definition XUSB_PADCTL_UPHY_USB3_PADX_ECTL4 (x : Z) : Z := 0xa6c + x * 0x40.
Definition XUSB_PADCTL_UPHY_USB3_PAD_ECTL4_RX_CDR_CTRL_SHIFT : Z := 16.
Definition XUSB_PADCTL_UPHY_USB3_PAD_ECTL4_RX_CDR_CTRL_MASK : Z := 0xffff.
Definition XUSB_PADCTL_UPHY_USB3_PAD_ECTL4_RX_CDR_CTRL_VAL : Z := 0x01c7.

Definition XUSB_PADCTL_UPHY_USB3_PADX_ECTL6 (x : Z) : Z := 0xa74 + x * 0x40.
Definition XUSB_PADCTL_UPHY_USB3_PAD_ECTL6_RX_EQ_CTRL_H_VAL : Z := 0xfcf01368.

Definition XUSB_PADCTL_USB2_VBUS_ID : Z := 0xc60.
Definition VBUS_OVERRIDE_VBUS_ON : Z := BIT 14.
Definition ID_OVERRIDE (x : Z) : Z := Z.shiftl (Z.land x 0xf) 18.
Definition ID_OVERRIDE_GROUNDED : Z := ID_OVERRIDE 0.
Definition ID_OVERRIDE_FLOATING : Z := ID_OVERRIDE 8.

(** [struct init_data] and the table written on tegra210b01. *)
Record init_data := mk_init_data { cfg_addr : Z; cfg_wdata : Z }.

Definition usb3_pll_g1_init_data : list init_data :=
  [ mk_init_data 0x2 0x0000; mk_init_data 0x3 0x7051;
    mk_init_data 0x25 0x0130; mk_init_data 0x1E 0x0017 ].

(** ** The mutable state of the pad controller and what it emits *)

Inductive reset_line := pex_rst | sata_rst.
Inductive clock := plle | uphy_mgmt_clk.

(** Calls that leave the driver: resets, clocks, the clock driver's PLL
    sequencer hooks, the work queue, the regulator and the over-current
    pin control. *)
Inductive extcall :=
| reset_control_deassert (r : reset_line)
| clk_prepare_enable (c : clock)
| tegra210_xusb_pll_hw_control_enable
| tegra210_xusb_pll_hw_sequence_start
| tegra210_sata_pll_hw_control_enable
| tegra210_sata_pll_hw_sequence_start
| tegra210_plle_hw_sequence_start
| schedule_work_otg_vbus_work
| regulator_enable (usb2_index : Z)
| regulator_disable (usb2_index : Z)
| tegra_xusb_select_vbus_en_state (pin : Z) (on : bool).

Inductive event :=
| EvWrite (value offset : Z)      (* padctl_writel(padctl, value, offset) *)
| EvSleep (min max : Z)           (* usleep_range(min, max) *)
| EvCall (c : extcall)
| EvErr (msg : string)            (* dev_err / dev_info *)
| EvWarn.                         (* a WARN_ON that fired *)

(** [trace] holds the events with the newest first. *)
Record world := mk_world {
  regs : Z -> Z;            (* what was last written at each offset *)
  now : Z;                  (* microseconds since boot *)
  trace : list event;
  enable : Z;               (* padctl->enable, an unsigned int *)
  lock : bool;              (* padctl->lock is held *)
  otg_vbus_on : bool        (* padctl->otg_vbus_on *)
}.

(** [struct tegra_xusb_usb2_port], the fields the VBUS path looks at. *)
Record tegra_xusb_usb2_port := mk_usb2_port {
  supply : bool;            (* port->supply is not NULL *)
  oc_pin : Z
}.

(** The board and the environment: device-tree data fixed at probe time,
    and the answers of the hardware and of the kernel to what the driver
    asks, each as a function of the state in which it is asked. *)
Record platform := mk_platform {
  compatible : option string;         (* of_get_property(np, "compatible") *)
  sata_used_by_xusb : bool;
  otg_vbus_alwayson : bool;
  oc_pinctrl : bool;                  (* padctl->oc_pinctrl is not NULL *)
  tegra_xusb_find_usb2_port : Z -> option tegra_xusb_usb2_port;
  usecs_per_jiffy : positive;         (* 1000000 / HZ *)
  hw_status : world -> Z -> Z;        (* status bits as the PLL drives them *)
  sleep_len : world -> Z;             (* how long a sleep really takes *)
  call_result : world -> extcall -> Z;
  tegra210_plle_hw_sequence_is_enabled : world -> bool;
  regulator_is_enabled : world -> Z -> Z
}.

(** ** The monad *)

Definition M (A : Type) : Type := world -> option (A * world).

Definition ret {A} (a : A) : M A := fun w => Some (a, w).

Definition bind {A B} (m : M A) (k : A -> M B) : M B :=
  fun w => match m w with
           | Some (a, w') => k a w'
           | None => None
           end.

Notation "x <- m ;; k" := (bind m (fun x => k))
  (at level 61, m at next level, right associativity).
Notation "m ;; k" := (bind m (fun _ => k))
  (at level 61, right associativity).

(** Never returns. *)
Definition hang {A} : M A := fun _ => None.

Definition when (c : bool) (m : M unit) : M unit := if c then m else ret tt.

(** State changes, one field at a time. *)
Definition record (e : event) (w : world) : world :=
  mk_world (regs w) (now w) (e :: trace w) (enable w) (lock w) (otg_vbus_on w).

Definition store (value offset : Z) (w : world) : world :=
  mk_world (fun o => if o =? offset then value else regs w o)
           (now w) (trace w) (enable w) (lock w) (otg_vbus_on w).

Definition elapse (d : Z) (w : world) : world :=
  mk_world (regs w) (now w + d) (trace w) (enable w) (lock w) (otg_vbus_on w).

Definition with_enable (n : Z) (w : world) : world :=
  mk_world (regs w) (now w) (trace w) n (lock w) (otg_vbus_on w).

Definition with_lock (b : bool) (w : world) : world :=
  mk_world (regs w) (now w) (trace w) (enable w) b (otg_vbus_on w).

Definition with_otg_vbus_on (b : bool) (w : world) : world :=
  mk_world (regs w) (now w) (trace w) (enable w) (lock w) b.

Definition emit (e : event) : M unit := fun w => Some (tt, record e w).

Definition dev_err (msg : string) : M unit := emit (EvErr msg).

Definition mutex_lock : M unit :=
  fun w => if lock w then None else Some (tt, with_lock true w).

Definition mutex_unlock : M unit := fun w => Some (tt, with_lock false w).

Definition get_enable : M Z := fun w => Some (enable w, w).

(** Assignment to [padctl->enable], an [unsigned int]. *)
Definition set_enable (n : Z) : M unit := fun w => Some (tt, with_enable (u32 n) w).

Definition get_otg_vbus_on : M bool := fun w => Some (otg_vbus_on w, w).

Definition set_otg_vbus_on (b : bool) : M unit :=
  fun w => Some (tt, with_otg_vbus_on b w).

(** [WARN_ON(c)]: warns when [c] holds, and yields [c]. *)
Definition WARN_ON (c : bool) : M bool := when c (emit EvWarn) ;; ret c.

(** ** Driver routines *)

Section Driver.

Variable pf : platform.

(** *** Register access, time and external calls *)

(** The status bits that the PLL hardware drives; the driver only polls
    them. *)
Definition status_bits (offset : Z) : Z :=
  if (offset =? XUSB_PADCTL_UPHY_PLL_P0_CTL1) || (offset =? XUSB_PADCTL_UPHY_PLL_S0_CTL1)
  then XUSB_PADCTL_UPHY_PLL_CTL1_LOCKDET_STATUS
  else if (offset =? XUSB_PADCTL_UPHY_PLL_P0_CTL2) || (offset =? XUSB_PADCTL_UPHY_PLL_S0_CTL2)
  then XUSB_PADCTL_UPHY_PLL_CTL2_CAL_DONE
  else if (offset =? XUSB_PADCTL_UPHY_PLL_P0_CTL8) || (offset =? XUSB_PADCTL_UPHY_PLL_S0_CTL8)
  then XUSB_PADCTL_UPHY_PLL_CTL8_RCAL_DONE
  else 0.

(** Modelled from the spec: [padctl_readl] and [padctl_writel] are declared
    in [xusb.h], which is not among the sources.  The spec describes the
    register block as a flat register file addressed by byte offset and
    accessed by 32-bit reads and writes.  A read gives back what was last
    written, except for the status bits above, which show what the
    hardware reports at that moment. *)
Definition register_value (w : world) (offset : Z) : Z :=
  u32 (Z.lor (clear_bits (regs w offset) (status_bits offset))
             (Z.land (hw_status pf w offset) (status_bits offset))).

Definition padctl_readl (offset : Z) : M Z :=
  fun w => Some (register_value w offset, w).

Definition padctl_writel (value offset : Z) : M unit :=
  fun w => Some (tt, record (EvWrite (u32 value) offset) (store (u32 value) offset w)).

(** A read-modify-write of one register:
    [value = padctl_readl(padctl, offset); value = f(value);
     padctl_writel(padctl, value, offset);] *)
Definition rmw (offset : Z) (f : Z -> Z) : M unit :=
  value <- padctl_readl offset ;;
  padctl_writel (f value) offset.

(** [usleep_range(min, max)]: the platform says how long the sleep lasts,
    kept within the requested range. *)
Definition usleep_range (min max : Z) : M unit :=
  fun w => Some (tt, record (EvSleep min max)
                            (elapse (Z.max min (Z.min max (sleep_len pf w))) w)).

Definition jiffies : M Z :=
  fun w => Some (now w / Zpos (usecs_per_jiffy pf), w).

(** Rounds up, as the kernel's conversion does. *)
Definition msecs_to_jiffies (m : Z) : Z :=
  (m * 1000 + Zpos (usecs_per_jiffy pf) - 1) / Zpos (usecs_per_jiffy pf).

(** [time_before(a, b)] and [time_after_eq(a, b)]; the clock of the model
    does not wrap around. *)
Definition time_before (a b : Z) : bool := a <? b.
Definition time_after_eq (a b : Z) : bool := b <=? a.

(** An external call: its result is the platform's answer in the state
    in which it is made. *)
Definition call (c : extcall) : M Z :=
  fun w => Some (call_result pf w c, record (EvCall c) w).

Definition strstr (haystack needle : string) : bool :=
  match String.index 0 needle haystack with
  | Some _ => true
  | None => false
  end.

Definition t210b01_compatible : M Z :=
  match compatible pf with
  | None => dev_err "Failed to get compatible property" ;; ret (- ENODEV)
  | Some s => if strstr s "tegra210b01" then ret 1 else ret 0
  end.

(** *** Bounded polling of a status bit *)

(** [while (time_before(jiffies, timeout)) {
       value = padctl_readl(padctl, offset);
       if (done(value)) break;
       usleep_range(10, 20);
     }]
    [rounds] bounds the number of iterations the model is willing to
    follow; [poll_rounds_returns] below shows that [poll_budget] is never
    used up. *)
Fixpoint poll_rounds (rounds : nat) (offset : Z) (done : Z -> bool)
         (timeout : Z) : M unit :=
  match rounds with
  | O => hang
  | S rounds' =>
      j <- jiffies ;;
      if time_before j timeout then
        value <- padctl_readl offset ;;
        if done value then ret tt
        else usleep_range 10 20 ;; poll_rounds rounds' offset done timeout
      else ret tt
  end.

Definition poll_budget : nat :=
  S (Z.to_nat (msecs_to_jiffies 100 * Zpos (usecs_per_jiffy pf))).

(** [timeout = jiffies + msecs_to_jiffies(100);
     while (...) { ... }
     if (time_after_eq(jiffies, timeout)) err = -ETIMEDOUT;]
    The result is the new value of the local [err]. *)
Definition poll (offset : Z) (done : Z -> bool) (err : Z) : M Z :=
  j <- jiffies ;;
  let timeout := j + msecs_to_jiffies 100 in
  poll_rounds poll_budget offset done timeout ;;
  j' <- jiffies ;;
  ret (if time_after_eq j' timeout then - ETIMEDOUT else err).

(** [value & mask] is non-zero *)
Definition bit_set (mask value : Z) : bool := negb (Z.land value mask =? 0).
Definition bit_clear (mask value : Z) : bool := Z.land value mask =? 0.

(** *** PLL calibration *)

Fixpoint write_pll_init_data (l : list init_data) : M unit :=
  match l with
  | [] => ret tt
  | d :: l' =>
      let value := 0 in
      let value := set_bits value (CFG_ADDR (cfg_addr d)) in
      let value := set_bits value (CFG_WDATA (cfg_wdata d)) in
      let value := set_bits value CFG_RESET in
      let value := set_bits value CFG_WS in
      padctl_writel value XUSB_PADCTL_UPHY_PLL_S0_CTL10 ;;
      write_pll_init_data l'
  end.

(** must be called under padctl->lock *)
Definition tegra210_pex_uphy_enable : M Z :=
  err <- call (reset_control_deassert pex_rst) ;;
  when (err <? 0) (dev_err "failed to deassert UPHY PEX PLL reset") ;;
  c <- t210b01_compatible ;;
  (if c =? 1 then write_pll_init_data usb3_pll_g1_init_data
   else
     rmw XUSB_PADCTL_UPHY_PLL_P0_CTL2 (fun value =>
       set_bits (clear_bits value (Z.shiftl XUSB_PADCTL_UPHY_PLL_CTL2_CAL_CTRL_MASK
                                            XUSB_PADCTL_UPHY_PLL_CTL2_CAL_CTRL_SHIFT))
                (Z.shiftl XUSB_PADCTL_UPHY_PLL_CTL2_CAL_CTRL_VAL
                          XUSB_PADCTL_UPHY_PLL_CTL2_CAL_CTRL_SHIFT)) ;;
     rmw XUSB_PADCTL_UPHY_PLL_P0_CTL5 (fun value =>
       set_bits (clear_bits value (Z.shiftl XUSB_PADCTL_UPHY_PLL_CTL5_DCO_CTRL_MASK
                                            XUSB_PADCTL_UPHY_PLL_CTL5_DCO_CTRL_SHIFT))
                (Z.shiftl XUSB_PADCTL_UPHY_PLL_CTL5_DCO_CTRL_VAL
                          XUSB_PADCTL_UPHY_PLL_CTL5_DCO_CTRL_SHIFT))) ;;
  rmw XUSB_PADCTL_UPHY_PLL_P0_CTL1 (fun value =>
    set_bits value XUSB_PADCTL_UPHY_PLL_CTL1_PWR_OVRD) ;;
  rmw XUSB_PADCTL_UPHY_PLL_P0_CTL2 (fun value =>
    set_bits value XUSB_PADCTL_UPHY_PLL_CTL2_CAL_OVRD) ;;
  rmw XUSB_PADCTL_UPHY_PLL_P0_CTL8 (fun value =>
    set_bits value XUSB_PADCTL_UPHY_PLL_CTL8_RCAL_OVRD) ;;
  rmw XUSB_PADCTL_UPHY_PLL_P0_CTL4 (fun value =>
    set_bits (clear_bits value
                (Z.lor (Z.shiftl XUSB_PADCTL_UPHY_PLL_CTL4_TXCLKREF_SEL_MASK
                                 XUSB_PADCTL_UPHY_PLL_CTL4_TXCLKREF_SEL_SHIFT)
                       (Z.shiftl XUSB_PADCTL_UPHY_PLL_CTL4_REFCLK_SEL_MASK
                                 XUSB_PADCTL_UPHY_PLL_CTL4_REFCLK_SEL_SHIFT)))
             (Z.lor (Z.shiftl XUSB_PADCTL_UPHY_PLL_CTL4_TXCLKREF_SEL_USB_VAL
                              XUSB_PADCTL_UPHY_PLL_CTL4_TXCLKREF_SEL_SHIFT)
                    XUSB_PADCTL_UPHY_PLL_CTL4_TXCLKREF_EN)) ;;
  rmw XUSB_PADCTL_UPHY_PLL_P0_CTL1 (fun value =>
    set_bits (clear_bits value
                (Z.lor (Z.shiftl XUSB_PADCTL_UPHY_PLL_CTL1_FREQ_MDIV_MASK
                                 XUSB_PADCTL_UPHY_PLL_CTL1_FREQ_MDIV_SHIFT)
                       (Z.shiftl XUSB_PADCTL_UPHY_PLL_CTL1_FREQ_NDIV_MASK
                                 XUSB_PADCTL_UPHY_PLL_CTL1_FREQ_NDIV_SHIFT)))
             (Z.shiftl XUSB_PADCTL_UPHY_PLL_CTL1_FREQ_NDIV_USB_VAL
                       XUSB_PADCTL_UPHY_PLL_CTL1_FREQ_NDIV_SHIFT)) ;;
  rmw XUSB_PADCTL_UPHY_PLL_P0_CTL1 (fun value =>
    clear_bits value XUSB_PADCTL_UPHY_PLL_CTL1_IDDQ) ;;
  rmw XUSB_PADCTL_UPHY_PLL_P0_CTL1 (fun value =>
    clear_bits value (Z.shiftl XUSB_PADCTL_UPHY_PLL_CTL1_SLEEP_MASK
                               XUSB_PADCTL_UPHY_PLL_CTL1_SLEEP_SHIFT)) ;;
  usleep_range 10 20 ;;
  rmw XUSB_PADCTL_UPHY_PLL_P0_CTL4 (fun value =>
    set_bits value XUSB_PADCTL_UPHY_PLL_CTL4_REFCLKBUF_EN) ;;
  rmw XUSB_PADCTL_UPHY_PLL_P0_CTL2 (fun value =>
    set_bits value XUSB_PADCTL_UPHY_PLL_CTL2_CAL_EN) ;;
  err <- poll XUSB_PADCTL_UPHY_PLL_P0_CTL2
              (bit_set XUSB_PADCTL_UPHY_PLL_CTL2_CAL_DONE) err ;;
  rmw XUSB_PADCTL_UPHY_PLL_P0_CTL2 (fun value =>
    clear_bits value XUSB_PADCTL_UPHY_PLL_CTL2_CAL_EN) ;;
  err <- poll XUSB_PADCTL_UPHY_PLL_P0_CTL2
              (bit_clear XUSB_PADCTL_UPHY_PLL_CTL2_CAL_DONE) err ;;
  rmw XUSB_PADCTL_UPHY_PLL_P0_CTL1 (fun value =>
    set_bits value XUSB_PADCTL_UPHY_PLL_CTL1_ENABLE) ;;
  err <- poll XUSB_PADCTL_UPHY_PLL_P0_CTL1
              (bit_set XUSB_PADCTL_UPHY_PLL_CTL1_LOCKDET_STATUS) err ;;
  rmw XUSB_PADCTL_UPHY_PLL_P0_CTL8 (fun value =>
    set_bits value (Z.lor XUSB_PADCTL_UPHY_PLL_CTL8_RCAL_EN
                          XUSB_PADCTL_UPHY_PLL_CTL8_RCAL_CLK_EN)) ;;
  err <- poll XUSB_PADCTL_UPHY_PLL_P0_CTL8
              (bit_set XUSB_PADCTL_UPHY_PLL_CTL8_RCAL_DONE) err ;;
  rmw XUSB_PADCTL_UPHY_PLL_P0_CTL8 (fun value =>
    clear_bits value XUSB_PADCTL_UPHY_PLL_CTL8_RCAL_EN) ;;
  err <- poll XUSB_PADCTL_UPHY_PLL_P0_CTL8
              (bit_clear XUSB_PADCTL_UPHY_PLL_CTL8_RCAL_DONE) err ;;
  rmw XUSB_PADCTL_UPHY_PLL_P0_CTL8 (fun value =>
    clear_bits value XUSB_PADCTL_UPHY_PLL_CTL8_RCAL_CLK_EN) ;;
  when (err =? - ETIMEDOUT) (dev_err "UPHY PEX PLL calibration timeout") ;;
  (* enable PCIE PLL in HW *)
  call tegra210_xusb_pll_hw_control_enable ;;
  rmw XUSB_PADCTL_UPHY_PLL_P0_CTL1 (fun value =>
    clear_bits value XUSB_PADCTL_UPHY_PLL_CTL1_PWR_OVRD) ;;
  rmw XUSB_PADCTL_UPHY_PLL_P0_CTL2 (fun value =>
    clear_bits value XUSB_PADCTL_UPHY_PLL_CTL2_CAL_OVRD) ;;
  rmw XUSB_PADCTL_UPHY_PLL_P0_CTL8 (fun value =>
    clear_bits value XUSB_PADCTL_UPHY_PLL_CTL8_RCAL_OVRD) ;;
  usleep_range 10 20 ;;
  call tegra210_xusb_pll_hw_sequence_start ;;
  ret 0.

(** must be called under padctl->lock *)
Definition tegra210_sata_uphy_enable : M Z :=
  err <- call (reset_control_deassert sata_rst) ;;
  when (err <? 0) (dev_err "failed to deassert UPHY SATA PLL reset") ;;
  rmw XUSB_PADCTL_UPHY_PLL_S0_CTL2 (fun value =>
    set_bits (clear_bits value (Z.shiftl XUSB_PADCTL_UPHY_PLL_CTL2_CAL_CTRL_MASK
                                         XUSB_PADCTL_UPHY_PLL_CTL2_CAL_CTRL_SHIFT))
             (Z.shiftl XUSB_PADCTL_UPHY_PLL_CTL2_CAL_CTRL_VAL
                       XUSB_PADCTL_UPHY_PLL_CTL2_CAL_CTRL_SHIFT)) ;;
  rmw XUSB_PADCTL_UPHY_PLL_S0_CTL5 (fun value =>
    set_bits (clear_bits value (Z.shiftl XUSB_PADCTL_UPHY_PLL_CTL5_DCO_CTRL_MASK
                                         XUSB_PADCTL_UPHY_PLL_CTL5_DCO_CTRL_SHIFT))
             (Z.shiftl XUSB_PADCTL_UPHY_PLL_CTL5_DCO_CTRL_VAL
                       XUSB_PADCTL_UPHY_PLL_CTL5_DCO_CTRL_SHIFT)) ;;
  rmw XUSB_PADCTL_UPHY_PLL_S0_CTL1 (fun value =>
    set_bits value XUSB_PADCTL_UPHY_PLL_CTL1_PWR_OVRD) ;;
  rmw XUSB_PADCTL_UPHY_PLL_S0_CTL2 (fun value =>
    set_bits value XUSB_PADCTL_UPHY_PLL_CTL2_CAL_OVRD) ;;
  rmw XUSB_PADCTL_UPHY_PLL_S0_CTL8 (fun value =>
    set_bits value XUSB_PADCTL_UPHY_PLL_CTL8_RCAL_OVRD) ;;
  value <- padctl_readl XUSB_PADCTL_UPHY_PLL_S0_CTL4 ;;
  let value :=
    clear_bits value
      (Z.lor (Z.shiftl XUSB_PADCTL_UPHY_PLL_CTL4_TXCLKREF_SEL_MASK
                       XUSB_PADCTL_UPHY_PLL_CTL4_TXCLKREF_SEL_SHIFT)
             (Z.shiftl XUSB_PADCTL_UPHY_PLL_CTL4_REFCLK_SEL_MASK
                       XUSB_PADCTL_UPHY_PLL_CTL4_REFCLK_SEL_SHIFT)) in
  let value := set_bits value XUSB_PADCTL_UPHY_PLL_CTL4_TXCLKREF_EN in
  let value :=
    if sata_used_by_xusb pf
    then set_bits value (Z.shiftl XUSB_PADCTL_UPHY_PLL_CTL4_TXCLKREF_SEL_USB_VAL
                                  XUSB_PADCTL_UPHY_PLL_CTL4_TXCLKREF_SEL_SHIFT)
    else set_bits value (Z.shiftl XUSB_PADCTL_UPHY_PLL_CTL4_TXCLKREF_SEL_SATA_VAL
                                  XUSB_PADCTL_UPHY_PLL_CTL4_TXCLKREF_SEL_SHIFT) in
  (* [value] is not written back: the source has the padctl_writel to
     S0_CTL4 commented out, and the next statement reloads [value] from
     S0_CTL1. *)
  rmw XUSB_PADCTL_UPHY_PLL_S0_CTL1 (fun value =>
    let value :=
      clear_bits value
        (Z.lor (Z.shiftl XUSB_PADCTL_UPHY_PLL_CTL1_FREQ_MDIV_MASK
                         XUSB_PADCTL_UPHY_PLL_CTL1_FREQ_MDIV_SHIFT)
               (Z.shiftl XUSB_PADCTL_UPHY_PLL_CTL1_FREQ_NDIV_MASK
                         XUSB_PADCTL_UPHY_PLL_CTL1_FREQ_NDIV_SHIFT)) in
    if sata_used_by_xusb pf
    then set_bits value (Z.shiftl XUSB_PADCTL_UPHY_PLL_CTL1_FREQ_NDIV_USB_VAL
                                  XUSB_PADCTL_UPHY_PLL_CTL1_FREQ_NDIV_SHIFT)
    else set_bits value (Z.shiftl XUSB_PADCTL_UPHY_PLL_CTL1_FREQ_NDIV_SATA_VAL
                                  XUSB_PADCTL_UPHY_PLL_CTL1_FREQ_NDIV_SHIFT)) ;;
  rmw XUSB_PADCTL_UPHY_PLL_S0_CTL1 (fun value =>
    clear_bits value XUSB_PADCTL_UPHY_PLL_CTL1_IDDQ) ;;
  rmw XUSB_PADCTL_UPHY_PLL_S0_CTL1 (fun value =>
    clear_bits value (Z.shiftl XUSB_PADCTL_UPHY_PLL_CTL1_SLEEP_MASK
                               XUSB_PADCTL_UPHY_PLL_CTL1_SLEEP_SHIFT)) ;;
  usleep_range 10 20 ;;
  rmw XUSB_PADCTL_UPHY_PLL_S0_CTL4 (fun value =>
    set_bits value XUSB_PADCTL_UPHY_PLL_CTL4_REFCLKBUF_EN) ;;
  rmw XUSB_PADCTL_UPHY_PLL_S0_CTL2 (fun value =>
    set_bits value XUSB_PADCTL_UPHY_PLL_CTL2_CAL_EN) ;;
  err <- poll XUSB_PADCTL_UPHY_PLL_S0_CTL2
              (bit_set XUSB_PADCTL_UPHY_PLL_CTL2_CAL_DONE) err ;;
  rmw XUSB_PADCTL_UPHY_PLL_S0_CTL2 (fun value =>
    clear_bits value XUSB_PADCTL_UPHY_PLL_CTL2_CAL_EN) ;;
  err <- poll XUSB_PADCTL_UPHY_PLL_S0_CTL2
              (bit_clear XUSB_PADCTL_UPHY_PLL_CTL2_CAL_DONE) err ;;
  rmw XUSB_PADCTL_UPHY_PLL_S0_CTL1 (fun value =>
    set_bits value XUSB_PADCTL_UPHY_PLL_CTL1_ENABLE) ;;
  err <- poll XUSB_PADCTL_UPHY_PLL_S0_CTL1
              (bit_set XUSB_PADCTL_UPHY_PLL_CTL1_LOCKDET_STATUS) err ;;
  rmw XUSB_PADCTL_UPHY_PLL_S0_CTL8 (fun value =>
    set_bits value (Z.lor XUSB_PADCTL_UPHY_PLL_CTL8_RCAL_EN
                          XUSB_PADCTL_UPHY_PLL_CTL8_RCAL_CLK_EN)) ;;
  err <- poll XUSB_PADCTL_UPHY_PLL_S0_CTL8
              (bit_set XUSB_PADCTL_UPHY_PLL_CTL8_RCAL_DONE) err ;;
  rmw XUSB_PADCTL_UPHY_PLL_S0_CTL8 (fun value =>
    clear_bits value XUSB_PADCTL_UPHY_PLL_CTL8_RCAL_EN) ;;
  err <- poll XUSB_PADCTL_UPHY_PLL_S0_CTL8
              (bit_clear XUSB_PADCTL_UPHY_PLL_CTL8_RCAL_DONE) err ;;
  rmw XUSB_PADCTL_UPHY_PLL_S0_CTL8 (fun value =>
    clear_bits value XUSB_PADCTL_UPHY_PLL_CTL8_RCAL_CLK_EN) ;;
  when (err =? - ETIMEDOUT) (dev_err "UPHY SATA PLL calibration timeout") ;;
  (* enable SATA PLL in HW *)
  call tegra210_sata_pll_hw_control_enable ;;
  rmw XUSB_PADCTL_UPHY_PLL_S0_CTL1 (fun value =>
    clear_bits value XUSB_PADCTL_UPHY_PLL_CTL1_PWR_OVRD) ;;
  rmw XUSB_PADCTL_UPHY_PLL_S0_CTL2 (fun value =>
    clear_bits value XUSB_PADCTL_UPHY_PLL_CTL2_CAL_OVRD) ;;
  rmw XUSB_PADCTL_UPHY_PLL_S0_CTL8 (fun value =>
    clear_bits value XUSB_PADCTL_UPHY_PLL_CTL8_RCAL_OVRD) ;;
  usleep_range 10 20 ;;
  call tegra210_sata_pll_hw_sequence_start ;;
  ret 0.

(** *** Shared enable and disable *)

Definition tegra210_xusb_padctl_enable : M Z :=
  mutex_lock ;;
  (* if (padctl->enable++ > 0) goto out; *)
  old <- get_enable ;;
  set_enable (old + 1) ;;
  if old >? 0 then mutex_unlock ;; ret 0
  else
    in_hw <- (fun w => Some (tegra210_plle_hw_sequence_is_enabled pf w, w)) ;;
    when in_hw (dev_err "PLLE was in HW before init!") ;;
    (* enable PLLE in SW *)
    err <- call (clk_prepare_enable plle) ;;
    if err <? 0 then ret err
    else
      c <- t210b01_compatible ;;
      err <- (if c =? 1 then call (clk_prepare_enable uphy_mgmt_clk)
              else ret err) ;;
      if err <? 0 then ret err
      else
        (* enable PCIE & SATA PLL in HW *)
        tegra210_pex_uphy_enable ;;
        c <- t210b01_compatible ;;
        (if c =? 0 then tegra210_sata_uphy_enable ;; ret tt else ret tt) ;;
        (* enable PLLE in HW *)
        call tegra210_plle_hw_sequence_start ;;
        rmw XUSB_PADCTL_ELPG_PROGRAM_1 (fun value =>
          clear_bits value AUX_MUX_LP0_CLAMP_EN) ;;
        usleep_range 100 200 ;;
        rmw XUSB_PADCTL_ELPG_PROGRAM_1 (fun value =>
          clear_bits value AUX_MUX_LP0_CLAMP_EN_EARLY) ;;
        usleep_range 100 200 ;;
        rmw XUSB_PADCTL_ELPG_PROGRAM_1 (fun value =>
          clear_bits value AUX_MUX_LP0_VCORE_DOWN) ;;
        mutex_unlock ;;
        ret 0.

Definition tegra210_xusb_padctl_disable : M Z :=
  mutex_lock ;;
  n <- get_enable ;;
  warned <- WARN_ON (n =? 0) ;;
  if warned then mutex_unlock ;; ret 0
  else
    (* if (--padctl->enable > 0) goto out; *)
    set_enable (n - 1) ;;
    n <- get_enable ;;
    if n >? 0 then mutex_unlock ;; ret 0
    else
      rmw XUSB_PADCTL_ELPG_PROGRAM_1 (fun value =>
        set_bits value AUX_MUX_LP0_VCORE_DOWN) ;;
      usleep_range 100 200 ;;
      rmw XUSB_PADCTL_ELPG_PROGRAM_1 (fun value =>
        set_bits value AUX_MUX_LP0_CLAMP_EN_EARLY) ;;
      usleep_range 100 200 ;;
      rmw XUSB_PADCTL_ELPG_PROGRAM_1 (fun value =>
        set_bits value AUX_MUX_LP0_CLAMP_EN) ;;
      mutex_unlock ;;
      ret 0.

(** *** SuperSpeed ports *)

(** [struct tegra_xusb_lane]: its index within the pad and the name of the
    pad it belongs to ([lane->pad->soc->name]). *)
Record tegra_xusb_lane := mk_lane {
  lane_index : Z;
  lane_pad_name : string
}.

(** [struct tegra_xusb_usb3_port] *)
Record tegra_xusb_usb3_port := mk_usb3_port {
  usb3_index : Z;               (* usb3->base.index *)
  usb3_internal : bool;         (* usb3->internal *)
  usb3_port : Z;                (* usb3->port *)
  usb3_lane : tegra_xusb_lane   (* usb3->base.lane *)
}.

(** must be called under padctl->lock *)
Definition tegra210_usb3_port_enable (usb3 : tegra_xusb_usb3_port) : M Z :=
  let index := usb3_index usb3 in
  rmw XUSB_PADCTL_SS_PORT_MAP (fun value =>
    let value :=
      if negb (usb3_internal usb3)
      then clear_bits value (XUSB_PADCTL_SS_PORT_MAP_PORTX_INTERNAL index)
      else set_bits value (XUSB_PADCTL_SS_PORT_MAP_PORTX_INTERNAL index) in
    let value := clear_bits value (XUSB_PADCTL_SS_PORT_MAP_PORTX_MAP_MASK index) in
    set_bits value (XUSB_PADCTL_SS_PORT_MAP_PORTX_MAP index (usb3_port usb3))) ;;
  rmw (XUSB_PADCTL_UPHY_USB3_PADX_ECTL1 index) (fun value =>
    set_bits (clear_bits value
                (Z.shiftl XUSB_PADCTL_UPHY_USB3_PAD_ECTL1_TX_TERM_CTRL_MASK
                          XUSB_PADCTL_UPHY_USB3_PAD_ECTL1_TX_TERM_CTRL_SHIFT))
             (Z.shiftl XUSB_PADCTL_UPHY_USB3_PAD_ECTL1_TX_TERM_CTRL_VAL
                       XUSB_PADCTL_UPHY_USB3_PAD_ECTL1_TX_TERM_CTRL_SHIFT)) ;;
  rmw (XUSB_PADCTL_UPHY_USB3_PADX_ECTL2 index) (fun value =>
    set_bits (clear_bits value
                (Z.shiftl XUSB_PADCTL_UPHY_USB3_PAD_ECTL2_RX_CTLE_MASK
                          XUSB_PADCTL_UPHY_USB3_PAD_ECTL2_RX_CTLE_SHIFT))
             (Z.shiftl XUSB_PADCTL_UPHY_USB3_PAD_ECTL2_RX_CTLE_VAL
                       XUSB_PADCTL_UPHY_USB3_PAD_ECTL2_RX_CTLE_SHIFT)) ;;
  padctl_writel XUSB_PADCTL_UPHY_USB3_PAD_ECTL3_RX_DFE_VAL
                (XUSB_PADCTL_UPHY_USB3_PADX_ECTL3 index) ;;
  rmw (XUSB_PADCTL_UPHY_USB3_PADX_ECTL4 index) (fun value =>
    set_bits (clear_bits value
                (Z.shiftl XUSB_PADCTL_UPHY_USB3_PAD_ECTL4_RX_CDR_CTRL_MASK
                          XUSB_PADCTL_UPHY_USB3_PAD_ECTL4_RX_CDR_CTRL_SHIFT))
             (Z.shiftl XUSB_PADCTL_UPHY_USB3_PAD_ECTL4_RX_CDR_CTRL_VAL
                       XUSB_PADCTL_UPHY_USB3_PAD_ECTL4_RX_CDR_CTRL_SHIFT)) ;;
  padctl_writel XUSB_PADCTL_UPHY_USB3_PAD_ECTL6_RX_EQ_CTRL_H_VAL
                (XUSB_PADCTL_UPHY_USB3_PADX_ECTL6 index) ;;
  rmw XUSB_PADCTL_ELPG_PROGRAM_1 (fun value =>
    clear_bits value (SSPX_ELPG_VCORE_DOWN index)) ;;
  usleep_range 100 200 ;;
  rmw XUSB_PADCTL_ELPG_PROGRAM_1 (fun value =>
    clear_bits value (SSPX_ELPG_CLAMP_EN_EARLY index)) ;;
  usleep_range 100 200 ;;
  rmw XUSB_PADCTL_ELPG_PROGRAM_1 (fun value =>
    clear_bits value (SSPX_ELPG_CLAMP_EN index)) ;;
  ret 0.

(** must be called under padctl->lock *)
Definition tegra210_usb3_port_disable (usb3 : tegra_xusb_usb3_port) : M unit :=
  let index := usb3_index usb3 in
  rmw XUSB_PADCTL_ELPG_PROGRAM_1 (fun value =>
    set_bits value (SSPX_ELPG_CLAMP_EN_EARLY index)) ;;
  usleep_range 100 200 ;;
  rmw XUSB_PADCTL_ELPG_PROGRAM_1 (fun value =>
    set_bits value (SSPX_ELPG_CLAMP_EN index)) ;;
  usleep_range 250 350 ;;
  rmw XUSB_PADCTL_ELPG_PROGRAM_1 (fun value =>
    set_bits value (SSPX_ELPG_VCORE_DOWN index)) ;;
  rmw XUSB_PADCTL_SS_PORT_MAP (fun value =>
    set_bits (clear_bits value (XUSB_PADCTL_SS_PORT_MAP_PORTX_MAP_MASK index))
             (XUSB_PADCTL_SS_PORT_MAP_PORTX_MAP index 0x7)).

(** *** The port-to-lane tables *)

(** [struct tegra_xusb_lane_map]: [{ port, type, index }]; a table ends
    with an entry whose [type] is [NULL]. *)
Record tegra_xusb_lane_map := mk_lane_map {
  map_port : Z;
  map_type : option string;
  map_index : Z
}.

Definition tegra210_usb3_map : list tegra_xusb_lane_map :=
  [ mk_lane_map 0 (Some "pcie"%string) 6;
    mk_lane_map 1 (Some "pcie"%string) 5;
    mk_lane_map 2 (Some "pcie"%string) 0;
    mk_lane_map 2 (Some "pcie"%string) 3;
    mk_lane_map 3 (Some "pcie"%string) 4;
    mk_lane_map 3 (Some "sata"%string) 0;
    mk_lane_map 0 None 0 ].

Definition tegra210b01_usb3_map : list tegra_xusb_lane_map :=
  [ mk_lane_map 0 (Some "pcie"%string) 5;
    mk_lane_map 1 (Some "pcie"%string) 4;
    mk_lane_map 2 (Some "pcie"%string) 1;
    mk_lane_map 0 None 0 ].

(** The scan stops at the terminating entry; the result is an
    [unsigned int], so [-1] comes out as [0xffffffff]. *)
Fixpoint tegra210_usb3_lane_find_port_index (lane : tegra_xusb_lane)
         (map : list tegra_xusb_lane_map) (function : string) : Z :=
  match map with
  | [] => u32 (-1)
  | m :: map' =>
      match map_type m with
      | None => u32 (-1)
      | Some type =>
          if (map_index m =? lane_index lane) && String.eqb type (lane_pad_name lane)
          then map_port m
          else tegra210_usb3_lane_find_port_index lane map' function
      end
  end.

Definition tegra210_usb3_lane_map (lane : tegra_xusb_lane) : M Z :=
  err <- t210b01_compatible ;;
  if err =? 1 then
    ret (tegra210_usb3_lane_find_port_index lane tegra210b01_usb3_map "xusb")
  else if err =? 0 then
    ret (tegra210_usb3_lane_find_port_index lane tegra210_usb3_map "xusb")
  else ret (u32 err).

(** Modelled from the spec: [tegra_xusb_port_find_lane], the forward
    lookup that [tegra210_usb3_port_map] calls, lives in [xusb.c], which is
    not among the sources.  The spec has it as a linear scan of the table
    of the active SoC revision in which the first match wins, and the
    absence of a match as an error for the caller.  Whether a lane named
    by the table exists on the board and is muxed to the port's function
    is configuration: [usable] stands for it, and [fun _ => true] gives
    the lookup on the table alone. *)
Fixpoint tegra_xusb_port_find_lane (usable : tegra_xusb_lane -> bool)
         (port_index : Z) (map : list tegra_xusb_lane_map)
  : option tegra_xusb_lane :=
  match map with
  | [] => None
  | m :: map' =>
      match map_type m with
      | None => None
      | Some type =>
          let lane := mk_lane (map_index m) type in
          if (map_port m =? port_index) && usable lane then Some lane
          else tegra_xusb_port_find_lane usable port_index map'
      end
  end.

Definition tegra210_usb3_port_map (usable : tegra_xusb_lane -> bool)
           (port_index : Z) : M (option tegra_xusb_lane) :=
  err <- t210b01_compatible ;;
  if err =? 1 then
    ret (tegra_xusb_port_find_lane usable port_index tegra210b01_usb3_map)
  else
    ret (tegra_xusb_port_find_lane usable port_index tegra210_usb3_map).

(** *** OTG VBUS / ID *)

Definition tegra210_xusb_padctl_vbus_override (set : bool) : M Z :=
  reg <- padctl_readl XUSB_PADCTL_USB2_VBUS_ID ;;
  let reg :=
    if set then
      let reg := set_bits reg VBUS_OVERRIDE_VBUS_ON in
      let reg := clear_bits reg (ID_OVERRIDE (Z.lnot 0)) in
      set_bits reg ID_OVERRIDE_FLOATING
    else clear_bits reg VBUS_OVERRIDE_VBUS_ON in
  padctl_writel reg XUSB_PADCTL_USB2_VBUS_ID ;;
  call schedule_work_otg_vbus_work ;;
  ret 0.

Definition tegra210_xusb_padctl_id_override (set : bool) : M Z :=
  reg <- padctl_readl XUSB_PADCTL_USB2_VBUS_ID ;;
  reg <- (if set then
            reg <- (if bit_set VBUS_OVERRIDE_VBUS_ON reg then
                      let reg := clear_bits reg VBUS_OVERRIDE_VBUS_ON in
                      padctl_writel reg XUSB_PADCTL_USB2_VBUS_ID ;;
                      usleep_range 1000 2000 ;;
                      padctl_readl XUSB_PADCTL_USB2_VBUS_ID
                    else ret reg) ;;
            let reg := clear_bits reg (ID_OVERRIDE (Z.lnot 0)) in
            ret (set_bits reg ID_OVERRIDE_GROUNDED)
          else
            let reg := clear_bits reg (ID_OVERRIDE (Z.lnot 0)) in
            ret (set_bits reg ID_OVERRIDE_FLOATING)) ;;
  padctl_writel reg XUSB_PADCTL_USB2_VBUS_ID ;;
  call schedule_work_otg_vbus_work ;;
  ret 0.

Definition tegra210_xusb_padctl_vbus_power_on (index : Z) : M Z :=
  match tegra_xusb_find_usb2_port pf index with
  | None => dev_err "no port found for USB2 lane" ;; ret (- ENODEV)
  | Some port =>
      if negb (supply port) then
        dev_err "no vbus-supply found for USB2" ;; ret (- ENODEV)
      else
        mutex_lock ;;
        rc <- (if oc_pinctrl pf && (oc_pin port >=? 0) then
                 (* tegra210_enable_vbus_oc is still to be implemented *)
                 call (tegra_xusb_select_vbus_en_state (oc_pin port) true)
               else
                 status <- (fun w => Some (regulator_is_enabled pf w index, w)) ;;
                 if status =? 0 then
                   rc <- call (regulator_enable index) ;;
                   when (negb (rc =? 0)) (dev_err "enable usb2 vbus failed") ;;
                   ret rc
                 else ret 0) ;;
        mutex_unlock ;;
        ret rc
  end.

Definition tegra210_xusb_padctl_vbus_power_off (index : Z) : M Z :=
  match tegra_xusb_find_usb2_port pf index with
  | None => dev_err "no port found for USB2 lane" ;; ret (- ENODEV)
  | Some port =>
      if otg_vbus_alwayson pf then
        dev_err "usb2 vbus cannot off due to alwayson" ;; ret (- EINVAL)
      else if negb (supply port) then
        dev_err "no vbus-supply found for USB2" ;; ret (- ENODEV)
      else
        mutex_lock ;;
        rc <- (if oc_pinctrl pf && (oc_pin port >=? 0) then
                 (* tegra210_disable_vbus_oc is still to be implemented *)
                 call (tegra_xusb_select_vbus_en_state (oc_pin port) false)
               else
                 status <- (fun w => Some (regulator_is_enabled pf w index, w)) ;;
                 if negb (status =? 0) then
                   rc <- call (regulator_disable index) ;;
                   when (negb (rc =? 0)) (dev_err "disable usb2 vbus failed") ;;
                   ret rc
                 else ret 0) ;;
        mutex_unlock ;;
        ret rc
  end.

Definition tegra210_xusb_padctl_otg_vbus_handle (index : Z) : M unit :=
  reg <- padctl_readl XUSB_PADCTL_USB2_VBUS_ID ;;
  if Z.land reg (ID_OVERRIDE (Z.lnot 0)) =? ID_OVERRIDE_GROUNDED then
    (* entering host mode role *)
    on <- get_otg_vbus_on ;;
    if negb on then
      err <- tegra210_xusb_padctl_vbus_power_on index ;;
      when (err =? 0) (set_otg_vbus_on true)
    else ret tt
  else if Z.land reg (ID_OVERRIDE (Z.lnot 0)) =? ID_OVERRIDE_FLOATING then
    (* leaving host mode role *)
    on <- get_otg_vbus_on ;;
    if on then
      err <- tegra210_xusb_padctl_vbus_power_off index ;;
      when (err =? 0) (set_otg_vbus_on false)
    else ret tt
  else ret tt.

End Driver.

(** ** What a run does, seen from outside *)

(** [emitted w w' es]: between [w] and [w'] the events [es] were added to
    the trace, listed here in program order. *)
Definition emitted (w w' : world) (es : list event) : Prop :=
  trace w' = rev es ++ trace w.

(** The events added to the trace between [w] and a later state [w'], in
    program order. *)
Definition events_since (w w' : world) : list event :=
  rev (firstn (List.length (trace w') - List.length (trace w)) (trace w')).

(** The register writes and external calls of a run, without the values
    written, the sleeps and the log messages. *)
Inductive action :=
| DoWrite (offset : Z)
| DoCall (c : extcall).

Definition action_of (e : event) : option action :=
  match e with
  | EvWrite _ offset => Some (DoWrite offset)
  | EvCall c => Some (DoCall c)
  | _ => None
  end.

Fixpoint actions (tr : list event) : list action :=
  match tr with
  | [] => []
  | e :: tr' =>
      match action_of e with
      | Some a => a :: actions tr'
      | None => actions tr'
      end
  end.

(** [performed w w' acts]: the actions between [w] and [w'], in program
    order. *)
Definition performed (w w' : world) (acts : list action) : Prop :=
  actions (trace w') = rev acts ++ actions (trace w).

(** The actions added between [w] and a later state [w'], in program
    order. *)
Definition actions_since (w w' : world) : list action :=
  rev (firstn (List.length (actions (trace w')) - List.length (actions (trace w)))
              (actions (trace w'))).

(** The value [t210b01_compatible] returns on a platform. *)
Definition compatible_code (pf : platform) : Z :=
  match compatible pf with
  | None => - ENODEV
  | Some s => if strstr s "tegra210b01" then 1 else 0
  end.

(** The PCIe PLL calibration as a list of steps (section 4.1 of the
    spec); [b01] says whether the SoC is a tegra210b01. *)
Definition pex_uphy_actions (b01 : bool) : list action :=
  [ DoCall (reset_control_deassert pex_rst) ] ++
  (if b01
   then [ DoWrite XUSB_PADCTL_UPHY_PLL_S0_CTL10; DoWrite XUSB_PADCTL_UPHY_PLL_S0_CTL10;
          DoWrite XUSB_PADCTL_UPHY_PLL_S0_CTL10; DoWrite XUSB_PADCTL_UPHY_PLL_S0_CTL10 ]
   else [ DoWrite XUSB_PADCTL_UPHY_PLL_P0_CTL2;    (* calibration control *)
          DoWrite XUSB_PADCTL_UPHY_PLL_P0_CTL5 ])  (* DCO control *) ++
  [ DoWrite XUSB_PADCTL_UPHY_PLL_P0_CTL1;          (* power override *)
    DoWrite XUSB_PADCTL_UPHY_PLL_P0_CTL2;          (* calibration override *)
    DoWrite XUSB_PADCTL_UPHY_PLL_P0_CTL8;          (* resistance calibration override *)
    DoWrite XUSB_PADCTL_UPHY_PLL_P0_CTL4;          (* clock reference *)
    DoWrite XUSB_PADCTL_UPHY_PLL_P0_CTL1;          (* dividers *)
    DoWrite XUSB_PADCTL_UPHY_PLL_P0_CTL1;          (* IDDQ *)
    DoWrite XUSB_PADCTL_UPHY_PLL_P0_CTL1;          (* SLEEP *)
    DoWrite XUSB_PADCTL_UPHY_PLL_P0_CTL4;          (* reference clock buffer *)
    DoWrite XUSB_PADCTL_UPHY_PLL_P0_CTL2;          (* calibration enable, then poll *)
    DoWrite XUSB_PADCTL_UPHY_PLL_P0_CTL2;          (* calibration disable, then poll *)
    DoWrite XUSB_PADCTL_UPHY_PLL_P0_CTL1;          (* PLL enable, then poll *)
    DoWrite XUSB_PADCTL_UPHY_PLL_P0_CTL8;          (* resistance calibration on, then poll *)
    DoWrite XUSB_PADCTL_UPHY_PLL_P0_CTL8;          (* resistance calibration off, then poll *)
    DoWrite XUSB_PADCTL_UPHY_PLL_P0_CTL8;          (* resistance calibration clock off *)
    DoCall tegra210_xusb_pll_hw_control_enable;
    DoWrite XUSB_PADCTL_UPHY_PLL_P0_CTL1;          (* power override off *)
    DoWrite XUSB_PADCTL_UPHY_PLL_P0_CTL2;          (* calibration override off *)
    DoWrite XUSB_PADCTL_UPHY_PLL_P0_CTL8;          (* resistance calibration override off *)
    DoCall tegra210_xusb_pll_hw_sequence_start ].

(** The SATA PLL calibration as a list of steps. *)
Definition sata_uphy_actions : list action :=
  [ DoCall (reset_control_deassert sata_rst);
    DoWrite XUSB_PADCTL_UPHY_PLL_S0_CTL2;
    DoWrite XUSB_PADCTL_UPHY_PLL_S0_CTL5;
    DoWrite XUSB_PADCTL_UPHY_PLL_S0_CTL1;
    DoWrite XUSB_PADCTL_UPHY_PLL_S0_CTL2;
    DoWrite XUSB_PADCTL_UPHY_PLL_S0_CTL8;
    DoWrite XUSB_PADCTL_UPHY_PLL_S0_CTL1;
    DoWrite XUSB_PADCTL_UPHY_PLL_S0_CTL1;
    DoWrite XUSB_PADCTL_UPHY_PLL_S0_CTL1;
    DoWrite XUSB_PADCTL_UPHY_PLL_S0_CTL4;
    DoWrite XUSB_PADCTL_UPHY_PLL_S0_CTL2;
    DoWrite XUSB_PADCTL_UPHY_PLL_S0_CTL2;
    DoWrite XUSB_PADCTL_UPHY_PLL_S0_CTL1;
    DoWrite XUSB_PADCTL_UPHY_PLL_S0_CTL8;
    DoWrite XUSB_PADCTL_UPHY_PLL_S0_CTL8;
    DoWrite XUSB_PADCTL_UPHY_PLL_S0_CTL8;
    DoCall tegra210_sata_pll_hw_control_enable;
    DoWrite XUSB_PADCTL_UPHY_PLL_S0_CTL1;
    DoWrite XUSB_PADCTL_UPHY_PLL_S0_CTL2;
    DoWrite XUSB_PADCTL_UPHY_PLL_S0_CTL8;
    DoCall tegra210_sata_pll_hw_sequence_start ].

(** The three software overrides of a PLL read back as released:
    PWR_OVRD in CTL1, CAL_OVRD in CTL2, RCAL_OVRD in CTL8. *)
Definition overrides_released (pf : platform) (ctl1 ctl2 ctl8 : Z) (w : world) : Prop :=
  Z.land (register_value pf w ctl1) XUSB_PADCTL_UPHY_PLL_CTL1_PWR_OVRD = 0 /\
  Z.land (register_value pf w ctl2) XUSB_PADCTL_UPHY_PLL_CTL2_CAL_OVRD = 0 /\
  Z.land (register_value pf w ctl8) XUSB_PADCTL_UPHY_PLL_CTL8_RCAL_OVRD = 0.

(** ** Boards and hardware to run the model on *)

(** A PLL that answers at once: calibration is done while it is enabled,
    lock is reported while the PLL is enabled, resistance calibration is
    done while it is enabled. *)
Definition responsive_pll (w : world) (offset : Z) : Z :=
  if (offset =? XUSB_PADCTL_UPHY_PLL_P0_CTL1) || (offset =? XUSB_PADCTL_UPHY_PLL_S0_CTL1)
  then (if Z.testbit (regs w offset) 3 then XUSB_PADCTL_UPHY_PLL_CTL1_LOCKDET_STATUS else 0)
  else if (offset =? XUSB_PADCTL_UPHY_PLL_P0_CTL2) || (offset =? XUSB_PADCTL_UPHY_PLL_S0_CTL2)
  then (if Z.testbit (regs w offset) 0 then XUSB_PADCTL_UPHY_PLL_CTL2_CAL_DONE else 0)
  else if (offset =? XUSB_PADCTL_UPHY_PLL_P0_CTL8) || (offset =? XUSB_PADCTL_UPHY_PLL_S0_CTL8)
  then (if Z.testbit (regs w offset) 12 then XUSB_PADCTL_UPHY_PLL_CTL8_RCAL_DONE else 0)
  else 0.

(** A PLL whose status bits never come up. *)
Definition dead_pll (w : world) (offset : Z) : Z := 0.

(** A tegra210 board at HZ = 250 with one USB2 port that has a VBUS
    regulator; every external call succeeds. *)
Definition tegra210_board : platform :=
  mk_platform (Some "nvidia,tegra210-xusb-padctl"%string) false false false
              (fun i => if i =? 0 then Some (mk_usb2_port true (-1)) else None)
              4000%positive responsive_pll (fun _ => 150)
              (fun _ _ => 0) (fun _ => false) (fun _ _ => 0).

Definition with_hw (hw : world -> Z -> Z) (pf : platform) : platform :=
  mk_platform (compatible pf) (sata_used_by_xusb pf) (otg_vbus_alwayson pf)
              (oc_pinctrl pf) (tegra_xusb_find_usb2_port pf) (usecs_per_jiffy pf)
              hw (sleep_len pf) (call_result pf)
              (tegra210_plle_hw_sequence_is_enabled pf) (regulator_is_enabled pf).

Definition with_call_result (res : world -> extcall -> Z) (pf : platform) : platform :=
  mk_platform (compatible pf) (sata_used_by_xusb pf) (otg_vbus_alwayson pf)
              (oc_pinctrl pf) (tegra_xusb_find_usb2_port pf) (usecs_per_jiffy pf)
              (hw_status pf) (sleep_len pf) res
              (tegra210_plle_hw_sequence_is_enabled pf) (regulator_is_enabled pf).

Definition with_compatible (s : option string) (pf : platform) : platform :=
  mk_platform s (sata_used_by_xusb pf) (otg_vbus_alwayson pf)
              (oc_pinctrl pf) (tegra_xusb_find_usb2_port pf) (usecs_per_jiffy pf)
              (hw_status pf) (sleep_len pf) (call_result pf)
              (tegra210_plle_hw_sequence_is_enabled pf) (regulator_is_enabled pf).

(** The controller before anything has been enabled: all registers read
    zero. *)
Definition idle_world : world := mk_world (fun _ => 0) 0 [] 0 false false.

(** Both reset lines refuse to deassert. *)
Definition reset_fails (w : world) (c : extcall) : Z :=
  match c with
  | reset_control_deassert _ => - EINVAL
  | _ => 0
  end.

(** The PLLE clock cannot be enabled. *)
Definition plle_fails (w : world) (c : extcall) : Z :=
  match c with
  | clk_prepare_enable plle => - EINVAL
  | _ => 0
  end.

(** What the first [tegra210_xusb_padctl_enable] does when its clocks come
    up; [code] is what [t210b01_compatible] returns. *)
Definition padctl_enable_actions (code : Z) : list action :=
  [ DoCall (clk_prepare_enable plle) ] ++
  (if code =? 1 then [ DoCall (clk_prepare_enable uphy_mgmt_clk) ] else []) ++
  pex_uphy_actions (code =? 1) ++
  (if code =? 0 then sata_uphy_actions else []) ++
  [ DoCall tegra210_plle_hw_sequence_start;
    DoWrite XUSB_PADCTL_ELPG_PROGRAM_1;      (* clamp off *)
    DoWrite XUSB_PADCTL_ELPG_PROGRAM_1;      (* early clamp off *)
    DoWrite XUSB_PADCTL_ELPG_PROGRAM_1 ].    (* core rail up *)

(** What the last [tegra210_xusb_padctl_disable] does. *)
Definition padctl_disable_actions : list action :=
  [ DoWrite XUSB_PADCTL_ELPG_PROGRAM_1;      (* core rail down *)
    DoWrite XUSB_PADCTL_ELPG_PROGRAM_1;      (* early clamp on *)
    DoWrite XUSB_PADCTL_ELPG_PROGRAM_1 ].    (* clamp on *)

Definition AUX_MUX_LP0_CLAMPS : Z :=
  Z.lor AUX_MUX_LP0_CLAMP_EN (Z.lor AUX_MUX_LP0_CLAMP_EN_EARLY AUX_MUX_LP0_VCORE_DOWN).

(** The three controller-wide clamp bits read back as zero, or as one. *)
Definition top_clamps_released (pf : platform) (w : world) : Prop :=
  Z.land (register_value pf w XUSB_PADCTL_ELPG_PROGRAM_1) AUX_MUX_LP0_CLAMPS = 0.

Definition top_clamps_applied (pf : platform) (w : world) : Prop :=
  Z.land (register_value pf w XUSB_PADCTL_ELPG_PROGRAM_1) AUX_MUX_LP0_CLAMPS
  = AUX_MUX_LP0_CLAMPS.

Fixpoint count_action (a : action -> bool) (l : list action) : nat :=
  match l with
  | [] => O
  | x :: l' => if a x then S (count_action a l') else count_action a l'
  end.

Definition is_call (c : extcall -> bool) (a : action) : bool :=
  match a with
  | DoCall c' => c c'
  | DoWrite _ => false
  end.

Definition is_write_to (offset : Z) (a : action) : bool :=
  match a with
  | DoWrite o => o =? offset
  | DoCall _ => false
  end.

(** A calibration run starts with the release of the PLL's reset line. *)
Definition starts_calibration (r : reset_line) (c : extcall) : bool :=
  match c, r with
  | reset_control_deassert pex_rst, pex_rst => true
  | reset_control_deassert sata_rst, sata_rst => true
  | _, _ => false
  end.

(** The callers of the shared enable and disable. *)
Inductive padctl_call := shared_enable | shared_disable.

Definition run_call (pf : platform) (c : padctl_call) : M Z :=
  match c with
  | shared_enable => tegra210_xusb_padctl_enable pf
  | shared_disable => tegra210_xusb_padctl_disable pf
  end.

(** The states the controller can get into from [w0] by calls of the
    shared enable and disable that return. *)
Inductive reachable (pf : platform) (w0 : world) : world -> Prop :=
| reachable_start : reachable pf w0 w0
| reachable_call w c r w' :
    reachable pf w0 w -> run_call pf c w = Some (r, w') -> reachable pf w0 w'.

(** The calibration routine of the PLL behind a reset line, its steps and
    the message it logs when the reset line cannot be released. *)
Definition uphy_enable (pf : platform) (r : reset_line) : M Z :=
  match r with
  | pex_rst => tegra210_pex_uphy_enable pf
  | sata_rst => tegra210_sata_uphy_enable pf
  end.

Definition uphy_actions (pf : platform) (r : reset_line) : list action :=
  match r with
  | pex_rst => pex_uphy_actions (compatible_code pf =? 1)
  | sata_rst => sata_uphy_actions
  end.

Definition reset_failure_message (r : reset_line) : string :=
  match r with
  | pex_rst => "failed to deassert UPHY PEX PLL reset"
  | sata_rst => "failed to deassert UPHY SATA PLL reset"
  end.

Definition uphy_overrides_released (pf : platform) (r : reset_line) (w : world) : Prop :=
  match r with
  | pex_rst => overrides_released pf XUSB_PADCTL_UPHY_PLL_P0_CTL1
                 XUSB_PADCTL_UPHY_PLL_P0_CTL2 XUSB_PADCTL_UPHY_PLL_P0_CTL8 w
  | sata_rst => overrides_released pf XUSB_PADCTL_UPHY_PLL_S0_CTL1
                  XUSB_PADCTL_UPHY_PLL_S0_CTL2 XUSB_PADCTL_UPHY_PLL_S0_CTL8 w
  end.

(** [logged msg w]: the message is in the log of [w]. *)
Definition logged (msg : string) (w : world) : bool :=
  existsb (fun e => match e with
                    | EvErr m => String.eqb m msg
                    | _ => false
                    end) (trace w).

(** ** The lane tables as relations *)

(** The lanes a table names, up to its terminating entry. *)
Fixpoint map_lanes (map : list tegra_xusb_lane_map) : list tegra_xusb_lane :=
  match map with
  | [] => []
  | m :: map' =>
      match map_type m with
      | None => []
      | Some type => mk_lane (map_index m) type :: map_lanes map'
      end
  end.

(** A table is a bijection between its lanes and its ports when no two of
    its lanes stand for the same port. *)
Definition lane_map_bijective (map : list tegra_xusb_lane_map) : Prop :=
  forall l1 l2, In l1 (map_lanes map) -> In l2 (map_lanes map) ->
    tegra210_usb3_lane_find_port_index l1 map "xusb"
    = tegra210_usb3_lane_find_port_index l2 map "xusb" ->
    l1 = l2.

(** ** The OTG arbiter seen from outside *)

(** What the ID-override field of the VBUS/ID register reads. *)
Definition id_override_reads (pf : platform) (w : world) : Z :=
  Z.land (register_value pf w XUSB_PADCTL_USB2_VBUS_ID) (ID_OVERRIDE (Z.lnot 0)).

(** The calls that switch bus power on: enabling the regulator, or
    selecting the enabled state of the VBUS-enable pin. *)
Definition switches_vbus_on (e : event) : bool :=
  match e with
  | EvCall (regulator_enable _) => true
  | EvCall (tegra_xusb_select_vbus_en_state _ true) => true
  | _ => false
  end.

(** The overrides and the deferred work that [schedule_work] queues; the
    work function calls [tegra210_xusb_padctl_otg_vbus_handle]. *)
Inductive otg_op :=
| op_id_override (set : bool)
| op_vbus_override (set : bool)
| op_otg_vbus_work (index : Z).

Definition run_otg_op (pf : platform) (op : otg_op) : M unit :=
  match op with
  | op_id_override set => tegra210_xusb_padctl_id_override pf set ;; ret tt
  | op_vbus_override set => tegra210_xusb_padctl_vbus_override pf set ;; ret tt
  | op_otg_vbus_work index => tegra210_xusb_padctl_otg_vbus_handle pf index
  end.

Fixpoint run_otg_ops (pf : platform) (ops : list otg_op) : M unit :=
  match ops with
  | [] => ret tt
  | op :: ops' => run_otg_op pf op ;; run_otg_ops pf ops'
  end.

(** ** SuperSpeed port power sequencing seen from outside *)

(** What [tegra210_usb3_port_enable] does between [w] and [w']: it writes
    the port map register first (the port's internal flag, and [usb3->port]
    in the port's 3-bit field), then the five electrical trims, then
    clears core-rail-down, waits, clears early-clamp, waits, and clears
    clamp, each clamp write changing one bit of what was read. *)
Definition usb3_port_enable_effect (pf : platform) (usb3 : tegra_xusb_usb3_port)
           (w w' : world) : Prop :=
  let index := usb3_index usb3 in
  exists m t1 t2 t4 c1 c2 c3,
    emitted w w'
      [ EvWrite m XUSB_PADCTL_SS_PORT_MAP;
        EvWrite t1 (XUSB_PADCTL_UPHY_USB3_PADX_ECTL1 index);
        EvWrite t2 (XUSB_PADCTL_UPHY_USB3_PADX_ECTL2 index);
        EvWrite XUSB_PADCTL_UPHY_USB3_PAD_ECTL3_RX_DFE_VAL
                (XUSB_PADCTL_UPHY_USB3_PADX_ECTL3 index);
        EvWrite t4 (XUSB_PADCTL_UPHY_USB3_PADX_ECTL4 index);
        EvWrite XUSB_PADCTL_UPHY_USB3_PAD_ECTL6_RX_EQ_CTRL_H_VAL
                (XUSB_PADCTL_UPHY_USB3_PADX_ECTL6 index);
        EvWrite c1 XUSB_PADCTL_ELPG_PROGRAM_1; EvSleep 100 200;
        EvWrite c2 XUSB_PADCTL_ELPG_PROGRAM_1; EvSleep 100 200;
        EvWrite c3 XUSB_PADCTL_ELPG_PROGRAM_1 ] /\
    (* the port map register *)
    Z.land (Z.shiftr m (index * 5)) 0x7 = Z.land (usb3_port usb3) 0x7 /\
    Z.testbit m (index * 5 + 4) = usb3_internal usb3 /\
    (* termination control, CTLE, CDR *)
    Z.land (Z.shiftr t1 16) 0x3 = XUSB_PADCTL_UPHY_USB3_PAD_ECTL1_TX_TERM_CTRL_VAL /\
    Z.land t2 0xffff = XUSB_PADCTL_UPHY_USB3_PAD_ECTL2_RX_CTLE_VAL /\
    Z.land (Z.shiftr t4 16) 0xffff = XUSB_PADCTL_UPHY_USB3_PAD_ECTL4_RX_CDR_CTRL_VAL /\
    (* the clamps *)
    c1 = u32 (clear_bits (register_value pf w XUSB_PADCTL_ELPG_PROGRAM_1)
                         (SSPX_ELPG_VCORE_DOWN index)) /\
    c2 = u32 (clear_bits c1 (SSPX_ELPG_CLAMP_EN_EARLY index)) /\
    c3 = u32 (clear_bits c2 (SSPX_ELPG_CLAMP_EN index)) /\
    (* what reads back afterwards *)
    register_value pf w' XUSB_PADCTL_SS_PORT_MAP = m /\
    register_value pf w' XUSB_PADCTL_ELPG_PROGRAM_1 = c3.

(** What [tegra210_usb3_port_disable] does between [w] and [w']: it sets
    early-clamp, waits 100 to 200 microseconds, sets clamp, waits 250 to
    350 microseconds, sets core-rail-down, and then writes 7, the value
    for a port that is not mapped, into the port's field of the port map
    register. *)
Definition usb3_port_disable_effect (pf : platform) (usb3 : tegra_xusb_usb3_port)
           (w w' : world) : Prop :=
  let index := usb3_index usb3 in
  exists c1 c2 c3 m,
    emitted w w'
      [ EvWrite c1 XUSB_PADCTL_ELPG_PROGRAM_1; EvSleep 100 200;
        EvWrite c2 XUSB_PADCTL_ELPG_PROGRAM_1; EvSleep 250 350;
        EvWrite c3 XUSB_PADCTL_ELPG_PROGRAM_1;
        EvWrite m XUSB_PADCTL_SS_PORT_MAP ] /\
    c1 = u32 (set_bits (register_value pf w XUSB_PADCTL_ELPG_PROGRAM_1)
                       (SSPX_ELPG_CLAMP_EN_EARLY index)) /\
    c2 = u32 (set_bits c1 (SSPX_ELPG_CLAMP_EN index)) /\
    c3 = u32 (set_bits c2 (SSPX_ELPG_VCORE_DOWN index)) /\
    Z.land m (XUSB_PADCTL_SS_PORT_MAP_PORTX_MAP_MASK index)
    = XUSB_PADCTL_SS_PORT_MAP_PORTX_MAP_DISABLED index /\
    register_value pf w' XUSB_PADCTL_ELPG_PROGRAM_1 = c3 /\
    register_value pf w' XUSB_PADCTL_SS_PORT_MAP = m.

(** The position, in a list of events in program order, of the first
    write to [offset] whose value satisfies [p]. *)
Fixpoint first_write (p : Z -> bool) (offset : Z) (es : list event) : option nat :=
  match es with
  | [] => None
  | e :: es' =>
      match e with
      | EvWrite v o =>
          if (o =? offset) && p v then Some O
          else option_map S (first_write p offset es')
      | _ => option_map S (first_write p offset es')
      end
  end.

Definition comes_before (a b : option nat) : bool :=
  match a, b with
  | Some i, Some j => Nat.ltb i j
  | _, _ => false
  end.

(** The order of which the spec speaks for powering a port on: the clamp
    bits are cleared, then the trims are programmed, and the port map
    register is written last. *)
Definition power_on_order_of_the_spec (index : Z) (es : list event) : bool :=
  comes_before (first_write (fun _ => true) XUSB_PADCTL_ELPG_PROGRAM_1 es)
               (first_write (fun _ => true) (XUSB_PADCTL_UPHY_USB3_PADX_ECTL1 index) es)
  && comes_before (first_write (fun _ => true) (XUSB_PADCTL_UPHY_USB3_PADX_ECTL1 index) es)
                  (first_write (fun _ => true) XUSB_PADCTL_SS_PORT_MAP es).

(** The order of which the spec speaks for powering a port off: clamp is
    set before early-clamp, and early-clamp before core-rail-down. *)
Definition power_off_order_of_the_spec (index : Z) (es : list event) : bool :=
  comes_before (first_write (fun v => Z.testbit v (0 + index * 3)) XUSB_PADCTL_ELPG_PROGRAM_1 es)
               (first_write (fun v => Z.testbit v (1 + index * 3)) XUSB_PADCTL_ELPG_PROGRAM_1 es)
  && comes_before (first_write (fun v => Z.testbit v (1 + index * 3)) XUSB_PADCTL_ELPG_PROGRAM_1 es)
                  (first_write (fun v => Z.testbit v (2 + index * 3)) XUSB_PADCTL_ELPG_PROGRAM_1 es).

(** The order the driver follows for powering a port off. *)
Definition power_off_order_of_the_driver (index : Z) (es : list event) : bool :=
  comes_before (first_write (fun v => Z.testbit v (1 + index * 3)) XUSB_PADCTL_ELPG_PROGRAM_1 es)
               (first_write (fun v => Z.testbit v (0 + index * 3)) XUSB_PADCTL_ELPG_PROGRAM_1 es)
  && comes_before (first_write (fun v => Z.testbit v (0 + index * 3)) XUSB_PADCTL_ELPG_PROGRAM_1 es)
                  (first_write (fun v => Z.testbit v (2 + index * 3)) XUSB_PADCTL_ELPG_PROGRAM_1 es).

(** SuperSpeed port 0 of the example in the spec, mapped to lane pcie-6;
    its [usb3->port] is 1. *)
Definition usb3_port_0 : tegra_xusb_usb3_port :=
  mk_usb3_port 0 false 1 (mk_lane 6 "pcie").

(** The controller with every port powered down: all clamp bits set, and
    every field of the port map register at 7. *)
Definition powered_down_world : world :=
  mk_world (fun o => if o =? XUSB_PADCTL_ELPG_PROGRAM_1 then 0xffffffff
                     else if o =? XUSB_PADCTL_SS_PORT_MAP then 0x39ce7
                     else 0)
           0 [] 0 false false.

(** ** Notions used to reason about runs *)

(** [wp m w Q]: run from [w], [m] returns, and its result and final state
    satisfy [Q]. *)
Definition wp {A} (m : M A) (w : world) (Q : A -> world -> Prop) : Prop :=
  exists a w', m w = Some (a, w') /\ Q a w'.

(** [quiet w w']: no register was written and no call made between [w]
    and [w'], and the controller's bookkeeping is as it was; time may
    have passed and messages may have been logged. *)
Definition quiet (w w' : world) : Prop :=
  regs w' = regs w /\ actions (trace w') = actions (trace w) /\
  enable w' = enable w /\ lock w' = lock w /\ otg_vbus_on w' = otg_vbus_on w /\
  (forall e, In e (trace w) -> In e (trace w')).

(** The first enable: what it leaves behind, by how it returns. *)
Definition first_enable_post (pf : platform) (w : world) (r : Z) (w' : world) : Prop :=
  enable w' = 1 /\ otg_vbus_on w' = otg_vbus_on w /\
  ((r < 0 /\ lock w' = true /\ regs w' = regs w /\
    (performed w w' [DoCall (clk_prepare_enable plle)] \/
     performed w w' [DoCall (clk_prepare_enable plle);
                     DoCall (clk_prepare_enable uphy_mgmt_clk)])) \/
   (r = 0 /\ lock w' = false /\
    performed w w' (padctl_enable_actions (compatible_code pf)) /\
    top_clamps_released pf w')).

(** ** Runs as sequences of steps *)

(** What a routine does between two states, one step at a time: it
    changes bits of a register it has just read, stores a word, sleeps,
    polls a status bit against a deadline of 100 ms, calls into another
    driver, or logs a message; it waits without sleeping, takes or
    releases the lock, or has the registers programmed behind
    [padctl_writel] (the product settings of the board). *)
Inductive step :=
| SetBits (offset bits : Z)          (* value |= bits *)
| ClearBits (offset bits : Z)        (* value &= ~bits *)
| SetField (offset mask bits : Z)    (* value &= ~mask; value |= bits *)
| Store (value offset : Z)           (* a write of a word that was not read *)
| Sleep (min max : Z)
| Poll (offset : Z) (done : Z -> bool) (timed_out : bool)
| Call (c : extcall)
| Log (msg : string)
| Delay (d : Z)                      (* udelay *)
| Lock
| Unlock
| Settings (f : (Z -> Z) -> Z -> Z). (* the register block as a whole *)

(** The state after [padctl_writel(padctl, value, offset)]. *)
Definition written (value offset : Z) (w : world) : world :=
  record (EvWrite (u32 value) offset) (store (u32 value) offset w).

Definition jiffies_at (pf : platform) (w : world) : Z :=
  now w / Zpos (usecs_per_jiffy pf).

(** [n] rounds of a polling loop that go on: in each the deadline has not
    come, the register is read, the bit waited for is not there, and the
    loop sleeps 10 to 20 microseconds. *)
Fixpoint polled (pf : platform) (offset : Z) (done : Z -> bool) (deadline : Z)
         (n : nat) (w w' : world) : Prop :=
  match n with
  | O => w' = w
  | S n' =>
      jiffies_at pf w < deadline /\
      done (register_value pf w offset) = false /\
      exists d, 10 <= d <= 20 /\
        polled pf offset done deadline n' (record (EvSleep 10 20) (elapse d w)) w'
  end.

(** A poll from [w] to [w']: some rounds that go on, and then either the
    bit is read as waited for, before the deadline, or the deadline of
    100 ms has come ([timed_out]). *)
Definition poll_run (pf : platform) (offset : Z) (done : Z -> bool) (timed_out : bool)
           (w w' : world) : Prop :=
  let deadline := jiffies_at pf w + msecs_to_jiffies pf 100 in
  exists n, polled pf offset done deadline n w w' /\
    if timed_out then deadline <= jiffies_at pf w'
    else jiffies_at pf w' < deadline /\ done (register_value pf w' offset) = true.

Definition step_run (pf : platform) (s : step) (w w' : world) : Prop :=
  match s with
  | SetBits offset bits =>
      w' = written (set_bits (register_value pf w offset) bits) offset w
  | ClearBits offset bits =>
      w' = written (clear_bits (register_value pf w offset) bits) offset w
  | SetField offset mask bits =>
      w' = written (set_bits (clear_bits (register_value pf w offset) mask) bits) offset w
  | Store value offset => w' = written value offset w
  | Sleep min max =>
      exists d, min <= d <= max /\ w' = record (EvSleep min max) (elapse d w)
  | Poll offset done timed_out => poll_run pf offset done timed_out w w'
  | Call c => w' = record (EvCall c) w
  | Log msg => w' = record (EvErr msg) w
  | Delay d => w' = elapse d w
  | Lock => lock w = false /\ w' = with_lock true w
  | Unlock => w' = with_lock false w
  | Settings f =>
      w' = mk_world (f (regs w)) (now w) (trace w) (enable w) (lock w) (otg_vbus_on w)
  end.

(** [steps_run pf l w w']: the steps [l], in this order and with nothing
    in between, lead from [w] to [w']. *)
Fixpoint steps_run (pf : platform) (l : list step) (w w' : world) : Prop :=
  match l with
  | [] => w' = w
  | s :: l' => exists w1, step_run pf s w w1 /\ steps_run pf l' w1 w'
  end.



(** ** The PLL calibration, step by step *)

(** Which of the five polls of a calibration ran into their deadline. *)
Record poll_timeouts := mk_poll_timeouts {
  cal_done_timeout : bool;     (* step 5: calibration done *)
  cal_clear_timeout : bool;    (* step 6: calibration done cleared *)
  lock_timeout : bool;         (* step 7: lock detect *)
  rcal_done_timeout : bool;    (* step 8: resistance calibration done *)
  rcal_clear_timeout : bool    (* step 8: resistance calibration done cleared *)
}.

Definition any_timeout (t : poll_timeouts) : bool :=
  cal_done_timeout t || cal_clear_timeout t || lock_timeout t
  || rcal_done_timeout t || rcal_clear_timeout t.

(** The registers of a PLL and what differs between the two routines. *)
Record pll_block := mk_pll_block {
  pll_ctl1 : Z; pll_ctl2 : Z; pll_ctl4 : Z; pll_ctl5 : Z; pll_ctl8 : Z;
  pll_timeout_message : string;
  pll_hw_control_enable : extcall;
  pll_hw_sequence_start : extcall
}.

Definition pll_block_of (r : reset_line) : pll_block :=
  match r with
  | pex_rst =>
      mk_pll_block XUSB_PADCTL_UPHY_PLL_P0_CTL1 XUSB_PADCTL_UPHY_PLL_P0_CTL2
                   XUSB_PADCTL_UPHY_PLL_P0_CTL4 XUSB_PADCTL_UPHY_PLL_P0_CTL5
                   XUSB_PADCTL_UPHY_PLL_P0_CTL8
                   "UPHY PEX PLL calibration timeout"
                   tegra210_xusb_pll_hw_control_enable tegra210_xusb_pll_hw_sequence_start
  | sata_rst =>
      mk_pll_block XUSB_PADCTL_UPHY_PLL_S0_CTL1 XUSB_PADCTL_UPHY_PLL_S0_CTL2
                   XUSB_PADCTL_UPHY_PLL_S0_CTL4 XUSB_PADCTL_UPHY_PLL_S0_CTL5
                   XUSB_PADCTL_UPHY_PLL_S0_CTL8
                   "UPHY SATA PLL calibration timeout"
                   tegra210_sata_pll_hw_control_enable tegra210_sata_pll_hw_sequence_start
  end.

(** The word that carries one entry of an init table. *)
Definition init_word (d : init_data) : Z :=
  Z.lor (Z.lor (Z.lor (CFG_ADDR (cfg_addr d)) (CFG_WDATA (cfg_wdata d))) CFG_RESET) CFG_WS.

(** Step 2: calibration and DCO control, or the init table on a
    tegra210b01, where the lookup of the compatible string is logged when
    it fails. *)
Definition pll_control_steps (b : pll_block) : list step :=
  [ SetField (pll_ctl2 b)
             (Z.shiftl XUSB_PADCTL_UPHY_PLL_CTL2_CAL_CTRL_MASK
                       XUSB_PADCTL_UPHY_PLL_CTL2_CAL_CTRL_SHIFT)
             (Z.shiftl XUSB_PADCTL_UPHY_PLL_CTL2_CAL_CTRL_VAL
                       XUSB_PADCTL_UPHY_PLL_CTL2_CAL_CTRL_SHIFT);
    SetField (pll_ctl5 b)
             (Z.shiftl XUSB_PADCTL_UPHY_PLL_CTL5_DCO_CTRL_MASK
                       XUSB_PADCTL_UPHY_PLL_CTL5_DCO_CTRL_SHIFT)
             (Z.shiftl XUSB_PADCTL_UPHY_PLL_CTL5_DCO_CTRL_VAL
                       XUSB_PADCTL_UPHY_PLL_CTL5_DCO_CTRL_SHIFT) ].

Definition pll_setup_steps (pf : platform) (r : reset_line) : list step :=
  match r with
  | pex_rst =>
      match compatible pf with
      | None => [ Log "Failed to get compatible property" ]
      | Some _ => []
      end ++
      (if compatible_code pf =? 1
       then map (fun d => Store (init_word d) XUSB_PADCTL_UPHY_PLL_S0_CTL10)
                usb3_pll_g1_init_data
       else pll_control_steps (pll_block_of pex_rst))
  | sata_rst => pll_control_steps (pll_block_of sata_rst)
  end.

(** Step 3: the three software overrides. *)
Definition pll_override_steps (b : pll_block) : list step :=
  [ SetBits (pll_ctl1 b) XUSB_PADCTL_UPHY_PLL_CTL1_PWR_OVRD;
    SetBits (pll_ctl2 b) XUSB_PADCTL_UPHY_PLL_CTL2_CAL_OVRD;
    SetBits (pll_ctl8 b) XUSB_PADCTL_UPHY_PLL_CTL8_RCAL_OVRD ].

(** Step 4: clock reference and dividers.  The SATA routine writes no
    clock reference, and its divider depends on who uses the SATA lane. *)
Definition pll_clock_steps (pf : platform) (r : reset_line) : list step :=
  let dividers :=
    Z.lor (Z.shiftl XUSB_PADCTL_UPHY_PLL_CTL1_FREQ_MDIV_MASK
                    XUSB_PADCTL_UPHY_PLL_CTL1_FREQ_MDIV_SHIFT)
          (Z.shiftl XUSB_PADCTL_UPHY_PLL_CTL1_FREQ_NDIV_MASK
                    XUSB_PADCTL_UPHY_PLL_CTL1_FREQ_NDIV_SHIFT) in
  match r with
  | pex_rst =>
      [ SetField XUSB_PADCTL_UPHY_PLL_P0_CTL4
                 (Z.lor (Z.shiftl XUSB_PADCTL_UPHY_PLL_CTL4_TXCLKREF_SEL_MASK
                                  XUSB_PADCTL_UPHY_PLL_CTL4_TXCLKREF_SEL_SHIFT)
                        (Z.shiftl XUSB_PADCTL_UPHY_PLL_CTL4_REFCLK_SEL_MASK
                                  XUSB_PADCTL_UPHY_PLL_CTL4_REFCLK_SEL_SHIFT))
                 (Z.lor (Z.shiftl XUSB_PADCTL_UPHY_PLL_CTL4_TXCLKREF_SEL_USB_VAL
                                  XUSB_PADCTL_UPHY_PLL_CTL4_TXCLKREF_SEL_SHIFT)
                        XUSB_PADCTL_UPHY_PLL_CTL4_TXCLKREF_EN);
        SetField XUSB_PADCTL_UPHY_PLL_P0_CTL1 dividers
                 (Z.shiftl XUSB_PADCTL_UPHY_PLL_CTL1_FREQ_NDIV_USB_VAL
                           XUSB_PADCTL_UPHY_PLL_CTL1_FREQ_NDIV_SHIFT) ]
  | sata_rst =>
      [ SetField XUSB_PADCTL_UPHY_PLL_S0_CTL1 dividers
                 (Z.shiftl (if sata_used_by_xusb pf
                            then XUSB_PADCTL_UPHY_PLL_CTL1_FREQ_NDIV_USB_VAL
                            else XUSB_PADCTL_UPHY_PLL_CTL1_FREQ_NDIV_SATA_VAL)
                           XUSB_PADCTL_UPHY_PLL_CTL1_FREQ_NDIV_SHIFT) ]
  end.

(** Steps 4 to 8: power up, then calibration, lock and resistance
    calibration, each waited for by a poll.  What follows a poll is the
    same whether the poll timed out or not. *)
Definition pll_bring_up_steps (b : pll_block) (t : poll_timeouts) : list step :=
  [ ClearBits (pll_ctl1 b) XUSB_PADCTL_UPHY_PLL_CTL1_IDDQ;
    ClearBits (pll_ctl1 b) (Z.shiftl XUSB_PADCTL_UPHY_PLL_CTL1_SLEEP_MASK
                                     XUSB_PADCTL_UPHY_PLL_CTL1_SLEEP_SHIFT);
    Sleep 10 20;
    SetBits (pll_ctl4 b) XUSB_PADCTL_UPHY_PLL_CTL4_REFCLKBUF_EN;
    SetBits (pll_ctl2 b) XUSB_PADCTL_UPHY_PLL_CTL2_CAL_EN;
    Poll (pll_ctl2 b) (bit_set XUSB_PADCTL_UPHY_PLL_CTL2_CAL_DONE) (cal_done_timeout t);
    ClearBits (pll_ctl2 b) XUSB_PADCTL_UPHY_PLL_CTL2_CAL_EN;
    Poll (pll_ctl2 b) (bit_clear XUSB_PADCTL_UPHY_PLL_CTL2_CAL_DONE) (cal_clear_timeout t);
    SetBits (pll_ctl1 b) XUSB_PADCTL_UPHY_PLL_CTL1_ENABLE;
    Poll (pll_ctl1 b) (bit_set XUSB_PADCTL_UPHY_PLL_CTL1_LOCKDET_STATUS) (lock_timeout t);
    SetBits (pll_ctl8 b) (Z.lor XUSB_PADCTL_UPHY_PLL_CTL8_RCAL_EN
                                XUSB_PADCTL_UPHY_PLL_CTL8_RCAL_CLK_EN);
    Poll (pll_ctl8 b) (bit_set XUSB_PADCTL_UPHY_PLL_CTL8_RCAL_DONE) (rcal_done_timeout t);
    ClearBits (pll_ctl8 b) XUSB_PADCTL_UPHY_PLL_CTL8_RCAL_EN;
    Poll (pll_ctl8 b) (bit_clear XUSB_PADCTL_UPHY_PLL_CTL8_RCAL_DONE) (rcal_clear_timeout t);
    ClearBits (pll_ctl8 b) XUSB_PADCTL_UPHY_PLL_CTL8_RCAL_CLK_EN ].

(** Steps 9 and 10: the hand-over to the hardware sequencer, with the
    three overrides cleared in between. *)
Definition pll_hand_over_steps (b : pll_block) : list step :=
  [ Call (pll_hw_control_enable b);
    ClearBits (pll_ctl1 b) XUSB_PADCTL_UPHY_PLL_CTL1_PWR_OVRD;
    ClearBits (pll_ctl2 b) XUSB_PADCTL_UPHY_PLL_CTL2_CAL_OVRD;
    ClearBits (pll_ctl8 b) XUSB_PADCTL_UPHY_PLL_CTL8_RCAL_OVRD;
    Sleep 10 20;
    Call (pll_hw_sequence_start b) ].

(** All that follows the release of the reset line, whose result is
    [err].  The timeout is logged when a poll timed out; [err] is the
    variable that the polls set, so the message also comes when the
    reset line itself answered [-ETIMEDOUT]. *)
Definition uphy_calibration_steps (pf : platform) (r : reset_line) (err : Z)
           (t : poll_timeouts) : list step :=
  pll_setup_steps pf r ++
  pll_override_steps (pll_block_of r) ++
  pll_clock_steps pf r ++
  pll_bring_up_steps (pll_block_of r) t ++
  (if any_timeout t || (err =? - ETIMEDOUT)
   then [ Log (pll_timeout_message (pll_block_of r)) ] else []) ++
  pll_hand_over_steps (pll_block_of r).

(** The whole routine: step 1, the release of the reset line, is logged
    when it fails. *)
Definition uphy_steps (pf : platform) (r : reset_line) (err : Z) (t : poll_timeouts)
  : list step :=
  Call (reset_control_deassert r) ::
  (if err <? 0 then [ Log (reset_failure_message r) ] else []) ++
  uphy_calibration_steps pf r err t.

(** A PLL that never reports: none of its status bits is ever driven. *)
Definition never_reports (pf : platform) : Prop :=
  forall w offset, Z.land (hw_status pf w offset) (status_bits offset) = 0.

(** [does pf m w Q]: run from [w], [m] returns, and its result, the steps
    that it took and its final state satisfy [Q]. *)
Definition does {A} (pf : platform) (m : M A) (w : world)
           (Q : A -> list step -> world -> Prop) : Prop :=
  exists a l w', m w = Some (a, w') /\ steps_run pf l w w' /\ Q a l w'.

(* ================================================================== *)
(** * Part I, continued: the other routines of the driver              *)
(* ================================================================== *)

(** Wake and sleepwalk control, lane power, the HSIC and UTMI pads, the
    fuse calibration and the OTG capability checks.  Port and lane numbers
    are small ([unsigned int] in the driver, at most 6 on these SoCs); the
    macros that take one are written on unbounded integers, and the
    theorems about them keep to the numbers the driver's tables hold,
    where no C arithmetic wraps around. *)

(** ** More registers and fields (names as in the driver) *)

Definition FUSE_SKU_CALIB_HS_CURR_LEVEL_PADX_SHIFT (x : Z) : Z :=
  if negb (x =? 0) then 11 + (x - 1) * 6 else 0.
Definition FUSE_SKU_CALIB_HS_CURR_LEVEL_PAD_MASK : Z := 0x3f.
Definition FUSE_SKU_CALIB_HS_TERM_RANGE_ADJ_SHIFT : Z := 7.
Definition FUSE_SKU_CALIB_HS_TERM_RANGE_ADJ_MASK : Z := 0xf.

Definition FUSE_USB_CALIB_EXT_RPD_CTRL_SHIFT : Z := 0.
Definition FUSE_USB_CALIB_EXT_RPD_CTRL_MASK : Z := 0x1f.

(** From [soc/tegra/fuse.h]. *)
Definition TEGRA_FUSE_SKU_CALIB_0 : Z := 0xf0.
Definition TEGRA_FUSE_USB_CALIB_EXT_0 : Z := 0x250.

Definition XUSB_PADCTL_USB2_PAD_MUX : Z := 0x004.
Definition XUSB_PADCTL_USB2_PAD_MUX_HSIC_PAD_TRK_SHIFT : Z := 16.
Definition XUSB_PADCTL_USB2_PAD_MUX_HSIC_PAD_TRK_MASK : Z := 0x3.
Definition XUSB_PADCTL_USB2_PAD_MUX_HSIC_PAD_TRK_XUSB : Z := 0x1.
Definition XUSB_PADCTL_USB2_PAD_MUX_USB2_BIAS_PAD_SHIFT : Z := 18.
Definition XUSB_PADCTL_USB2_PAD_MUX_USB2_BIAS_PAD_MASK : Z := 0x3.
Definition XUSB_PADCTL_USB2_PAD_MUX_USB2_BIAS_PAD_XUSB : Z := 0x1.

Definition XUSB_PADCTL_USB2_PORT_CAP : Z := 0x008.
Definition XUSB_PADCTL_USB2_PORT_CAP_PORTX_CAP_DISABLED (x : Z) : Z := Z.shiftl 0x0 (x * 4).
Definition XUSB_PADCTL_USB2_PORT_CAP_PORTX_CAP_HOST (x : Z) : Z := Z.shiftl 0x1 (x * 4).
Definition XUSB_PADCTL_USB2_PORT_CAP_PORTX_CAP_DEVICE (x : Z) : Z := Z.shiftl 0x2 (x * 4).
Definition XUSB_PADCTL_USB2_PORT_CAP_PORTX_CAP_OTG (x : Z) : Z := Z.shiftl 0x3 (x * 4).
Definition XUSB_PADCTL_USB2_PORT_CAP_PORTX_CAP_MASK (x : Z) : Z := Z.shiftl 0x3 (x * 4).

Definition XUSB_PADCTL_ELPG_PROGRAM_0 : Z := 0x20.
Definition USB2_PORT_WAKE_INTERRUPT_ENABLE (x : Z) : Z := BIT x.
Definition USB2_PORT_WAKEUP_EVENT (x : Z) : Z := BIT (x + 7).
Definition SS_PORT_WAKE_INTERRUPT_ENABLE (x : Z) : Z := BIT (x + 14).
Definition SS_PORT_WAKEUP_EVENT (x : Z) : Z := BIT (x + 21).
Definition USB2_HSIC_PORT_WAKE_INTERRUPT_ENABLE (x : Z) : Z := BIT (x + 28).
Definition USB2_HSIC_PORT_WAKEUP_EVENT (x : Z) : Z := BIT (x + 30).
Definition ALL_WAKE_EVENTS : Z :=
  Z.lor (Z.lor (Z.lor (Z.lor (Z.lor (Z.lor (Z.lor (Z.lor
    (USB2_PORT_WAKEUP_EVENT 0) (USB2_PORT_WAKEUP_EVENT 1))
    (USB2_PORT_WAKEUP_EVENT 2)) (USB2_PORT_WAKEUP_EVENT 3))
    (SS_PORT_WAKEUP_EVENT 0)) (SS_PORT_WAKEUP_EVENT 1))
    (SS_PORT_WAKEUP_EVENT 2)) (SS_PORT_WAKEUP_EVENT 3))
    (USB2_HSIC_PORT_WAKEUP_EVENT 0).

Definition XUSB_PADCTL_USB3_PAD_MUX : Z := 0x028.
Definition XUSB_PADCTL_USB3_PAD_MUX_PCIE_IDDQ_DISABLE (x : Z) : Z := Z.shiftl 1 (1 + x).
Definition XUSB_PADCTL_USB3_PAD_MUX_SATA_IDDQ_DISABLE (x : Z) : Z := Z.shiftl 1 (8 + x).

Definition XUSB_PADCTL_USB2_BATTERY_CHRG_OTGPADX_CTL0 (x : Z) : Z := 0x080 + x * 0x40.
Definition ZIP : Z := Z.shiftl 1 18.
Definition ZIN : Z := Z.shiftl 1 22.

Definition XUSB_PADCTL_USB2_BATTERY_CHRG_OTGPADX_CTL1 (x : Z) : Z := 0x084 + x * 0x40.
Definition XUSB_PADCTL_USB2_BATTERY_CHRG_OTGPAD_CTL1_VREG_LEV_SHIFT : Z := 7.
Definition XUSB_PADCTL_USB2_BATTERY_CHRG_OTGPAD_CTL1_VREG_LEV_MASK : Z := 0x3.
Definition XUSB_PADCTL_USB2_BATTERY_CHRG_OTGPAD_CTL1_VREG_FIX18 : Z := Z.shiftl 1 6.

Definition XUSB_PADCTL_USB2_OTG_PADX_CTL0 (x : Z) : Z := 0x088 + x * 0x40.
Definition XUSB_PADCTL_USB2_OTG_PAD_CTL0_PD_ZI : Z := Z.shiftl 1 29.
Definition XUSB_PADCTL_USB2_OTG_PAD_CTL0_PD2 : Z := Z.shiftl 1 27.
Definition XUSB_PADCTL_USB2_OTG_PAD_CTL0_PD : Z := Z.shiftl 1 26.
Definition XUSB_PADCTL_USB2_OTG_PAD_CTL0_HS_CURR_LEVEL_SHIFT : Z := 0.
Definition XUSB_PADCTL_USB2_OTG_PAD_CTL0_HS_CURR_LEVEL_MASK : Z := 0x3f.

Definition XUSB_PADCTL_USB2_OTG_PADX_CTL_1 (x : Z) : Z := 0x8c + x * 0x40.
Definition TERM_RANGE_ADJ (x : Z) : Z := Z.shiftl (Z.land x 0xf) 3.
Definition RPD_CTRL (x : Z) : Z := Z.shiftl (Z.land x 0x1f) 26.
(** [(((x) << 26) & 0x1f)]; the driver applies it to a [u32], so the shift
    is a 32-bit one. *)
Definition RPD_CTRL_VALUE (x : Z) : Z := Z.land (u32 (Z.shiftl x 26)) 0x1f.

Definition XUSB_PADCTL_USB2_BIAS_PAD_CTL0 : Z := 0x284.
Definition XUSB_PADCTL_USB2_BIAS_PAD_CTL0_PD : Z := Z.shiftl 1 11.
Definition XUSB_PADCTL_USB2_BIAS_PAD_CTL0_HS_DISCON_LEVEL_SHIFT : Z := 3.
Definition XUSB_PADCTL_USB2_BIAS_PAD_CTL0_HS_DISCON_LEVEL_MASK : Z := 0x7.
Definition XUSB_PADCTL_USB2_BIAS_PAD_CTL0_HS_DISCON_LEVEL_VAL : Z := 0x7.
Definition XUSB_PADCTL_USB2_BIAS_PAD_CTL0_HS_SQUELCH_LEVEL_SHIFT : Z := 0.
Definition XUSB_PADCTL_USB2_BIAS_PAD_CTL0_HS_SQUELCH_LEVEL_MASK : Z := 0x7.
Definition XUSB_PADCTL_USB2_BIAS_PAD_CTL0_HS_SQUELCH_LEVEL_VAL : Z := 0x2.

Definition XUSB_PADCTL_USB2_BIAS_PAD_CTL_1 : Z := 0x288.
Definition TCTRL_VALUE (x : Z) : Z := Z.shiftr (Z.land x 0x3f) 0.
Definition PCTRL_VALUE (x : Z) : Z := Z.land (Z.shiftr x 6) 0x3f.
Definition USB2_TRK_START_TIMER (x : Z) : Z := Z.shiftl (Z.land x 0x7f) 12.
Definition USB2_TRK_DONE_RESET_TIMER (x : Z) : Z := Z.shiftl (Z.land x 0x7f) 19.
Definition USB2_PD_TRK : Z := BIT 26.

Definition XUSB_PADCTL_HSIC_PADX_CTL0 (x : Z) : Z := 0x300 + x * 0x20.
Definition XUSB_PADCTL_HSIC_PAD_CTL0_RPU_STROBE : Z := Z.shiftl 1 18.
Definition XUSB_PADCTL_HSIC_PAD_CTL0_RPU_DATA1 : Z := Z.shiftl 1 17.
Definition XUSB_PADCTL_HSIC_PAD_CTL0_RPU_DATA0 : Z := Z.shiftl 1 16.
Definition XUSB_PADCTL_HSIC_PAD_CTL0_RPD_STROBE : Z := Z.shiftl 1 15.
Definition XUSB_PADCTL_HSIC_PAD_CTL0_RPD_DATA1 : Z := Z.shiftl 1 14.
Definition XUSB_PADCTL_HSIC_PAD_CTL0_RPD_DATA0 : Z := Z.shiftl 1 13.





Definition XUSB_PADCTL_UPHY_MISC_PAD_PX_CTL1 (x : Z) : Z := 0x460 + x * 0x40.
Definition XUSB_PADCTL_UPHY_MISC_PAD_CTL1_AUX_RX_IDLE_MODE_SHIFT : Z := 20.
Definition XUSB_PADCTL_UPHY_MISC_PAD_CTL1_AUX_RX_IDLE_MODE_MASK : Z := 0x3.
Definition XUSB_PADCTL_UPHY_MISC_PAD_CTL1_AUX_RX_IDLE_MODE_VAL : Z := 0x1.
Definition XUSB_PADCTL_UPHY_MISC_PAD_CTL1_AUX_RX_TERM_EN : Z := BIT 18.
Definition XUSB_PADCTL_UPHY_MISC_PAD_CTL1_AUX_RX_MODE_OVRD : Z := BIT 13.

Definition XUSB_PADCTL_UPHY_MISC_PAD_PX_CTL8 (x : Z) : Z := 0x47c + x * 0x40.

Definition XUSB_PADCTL_UPHY_MISC_PAD_S0_CTL1 : Z := 0x960.

Definition pcie_lane_data : list init_data :=
  [ mk_init_data 0x97 0x0080 ].

Definition usb3_lane_data : list init_data :=
  [ mk_init_data 0x1 0x0002; mk_init_data 0x4 0x0032; mk_init_data 0x7 0x0022;
    mk_init_data 0x35 0x2587; mk_init_data 0x49 0x0FC7; mk_init_data 0x52 0x0001;
    mk_init_data 0x53 0x3C0F; mk_init_data 0x56 0xC00F; mk_init_data 0x5D 0xFF07;
    mk_init_data 0x5E 0x141A; mk_init_data 0x97 0x0080 ].

(** ** Phys, ports and what the board says about them *)

(** The four [struct phy_ops] tables of the driver; a phy that belongs to
    another driver has different ones. *)
Inductive phy_ops :=
| tegra210_usb2_phy_ops
| tegra210_hsic_phy_ops
| tegra210_pcie_phy_ops
| tegra210_sata_phy_ops
| foreign_phy_ops.

(** [struct phy]: its operations and the lane that [phy_get_drvdata]
    gives.  A [struct phy *] that may be [NULL] is an [option phy]. *)
Record phy := mk_phy {
  ops : phy_ops;
  phy_get_drvdata : tegra_xusb_lane
}.

(** [port->port_cap] *)
Inductive usb_port_cap :=
| USB_PORT_DISABLED | USB_DEVICE_CAP | USB_HOST_CAP | USB_OTG_CAP.

Definition usb_port_cap_eqb (a b : usb_port_cap) : bool :=
  match a, b with
  | USB_PORT_DISABLED, USB_PORT_DISABLED => true
  | USB_DEVICE_CAP, USB_DEVICE_CAP => true
  | USB_HOST_CAP, USB_HOST_CAP => true
  | USB_OTG_CAP, USB_OTG_CAP => true
  | _, _ => false
  end.

(** The names under which the driver asks for product settings:
    [prod_c_utmi%d], [prod_c_bias], [prod_c_hsic%d] and [prod_c_ss%d]. *)
Inductive prod_name :=
| prod_c_utmi (index : Z)
| prod_c_bias
| prod_c_hsic (index : Z)
| prod_c_ss (index : Z).

(** [struct tegra_utmi_pad_config] *)
Record tegra_utmi_pad_config := mk_utmi_pad_config {
  tctrl : Z;
  pctrl : Z;
  rpd_ctrl : Z
}.

(** [struct tegra210_xusb_fuse_calibration]; [hs_curr_level] is an array
    of four. *)
Record tegra210_xusb_fuse_calibration := mk_fuse_calibration {
  hs_curr_level : Z -> Z;
  hs_term_range_adj : Z;
  fuse_rpd_ctrl : Z
}.

(** The trims of the HSIC lane ([struct tegra_xusb_hsic_lane]). *)
Record tegra_xusb_hsic_lane := mk_hsic_lane {
  strobe_trim : Z;
  rx_strobe_trim : Z;
  rx_data_trim : Z;
  tx_rtune_p : Z
}.

(** Calls that leave the driver from the routines of this part only: the
    tracking clock of the USB2 and of the HSIC pad, the supply of the HSIC
    pad, and the sleepwalk service of the power management controller. *)
Inductive padcall :=
| clk_prepare_enable_usb2_trk
| clk_disable_unprepare_usb2_trk
| clk_prepare_enable_hsic_trk
| clk_disable_unprepare_hsic_trk
| regulator_enable_hsic_supply
| regulator_disable_hsic_supply
| tegra_pmc_utmi_phy_enable_sleepwalk (port speed : Z) (config : tegra_utmi_pad_config)
| tegra_pmc_utmi_phy_disable_sleepwalk (port : Z)
| tegra_pmc_hsic_phy_enable_sleepwalk (port : Z)
| tegra_pmc_hsic_phy_disable_sleepwalk (port : Z).

(** What the routines of this part ask of the board and of the kernel,
    beside what [platform] holds.  Ports are looked up by number; data of a
    USB2 port that [tegra_xusb_usb2_port] above does not carry is given by
    port number as well. *)
Record board := mk_board {
  tegra_xusb_find_usb3_port : Z -> option tegra_xusb_usb3_port;
  usb3_port_cap : Z -> usb_port_cap;      (* port_cap of the USB3 port *)
  usb2_port_cap : Z -> usb_port_cap;      (* port_cap of the USB2 port *)
  usb3_port_fake : Z -> Z;                (* usb3_port_fake of the USB2 port *)
  hs_curr_level_offset : Z -> Z;          (* of the USB2 lane *)
  lane_function : tegra_xusb_lane -> Z;   (* lane->function *)
  tegra_xusb_lane_check : tegra_xusb_lane -> string -> bool;
  hsic_lane : tegra_xusb_hsic_lane;
  fuse : tegra210_xusb_fuse_calibration;  (* priv->fuse, read at probe time *)
  revision_before_A02 : bool;             (* tegra_sku_info.revision < TEGRA_REVISION_A02 *)
  prod_list : bool;                       (* priv->prod_list is not NULL *)
  (* tegra_prod_set_by_name(&padctl->regs, name, priv->prod_list): its
     result, and the register file as it leaves it *)
  tegra_prod_set_by_name : prod_name -> (Z -> Z) -> Z * (Z -> Z);
  padcall_result : world -> padcall -> Z
}.

(** ** State beside the controller's *)

(** What the routines of this part keep outside [world]: the use count of
    the USB2 pad, the OTG port, the power state of each USB2 lane, the pad
    configuration handed to the power management controller, and the
    calls listed in [padcall], the newest first, each with the number of
    events the controller's trace held when it was made. *)
Record pads := mk_pads {
  usb2_pad_enable : Z;                    (* to_usb2_pad(lane->pad)->enable *)
  usb2_otg_port_base_1 : Z;               (* padctl->usb2_otg_port_base_1 *)
  powered_on : Z -> bool;                 (* usb2->powered_on, by lane *)
  utmi_pad_cfg : tegra_utmi_pad_config;   (* priv->utmi_pad_cfg *)
  padcalls : list (nat * padcall)
}.

Definition with_usb2_pad_enable (n : Z) (s : pads) : pads :=
  mk_pads n (usb2_otg_port_base_1 s) (powered_on s) (utmi_pad_cfg s) (padcalls s).

Definition with_usb2_otg_port_base_1 (n : Z) (s : pads) : pads :=
  mk_pads (usb2_pad_enable s) n (powered_on s) (utmi_pad_cfg s) (padcalls s).

Definition with_powered_on (index : Z) (b : bool) (s : pads) : pads :=
  mk_pads (usb2_pad_enable s) (usb2_otg_port_base_1 s)
          (fun i => if i =? index then b else powered_on s i)
          (utmi_pad_cfg s) (padcalls s).

Definition with_utmi_pad_cfg (c : tegra_utmi_pad_config) (s : pads) : pads :=
  mk_pads (usb2_pad_enable s) (usb2_otg_port_base_1 s) (powered_on s) c (padcalls s).

Definition with_padcall (at_event : nat) (c : padcall) (s : pads) : pads :=
  mk_pads (usb2_pad_enable s) (usb2_otg_port_base_1 s) (powered_on s) (utmi_pad_cfg s)
          ((at_event, c) :: padcalls s).

(** Conversion of an [unsigned int] to [int], as for an argument. *)
Definition to_int (x : Z) : Z := if x <? 2 ^ 31 then x else x - 2 ^ 32.

(** Conversion of an [int] to [bool], as for [return -ENODEV;] in a
    function that returns [bool]. *)
Definition to_bool (x : Z) : bool := negb (x =? 0).

Definition with_regs (r : Z -> Z) (w : world) : world :=
  mk_world r (now w) (trace w) (enable w) (lock w) (otg_vbus_on w).

(** [udelay(d)]: busy waiting, [d] microseconds pass. *)
Definition udelay (d : Z) : M unit := fun w => Some (tt, elapse d w).

(** [dev_info] and [dev_warn] go to the same log as [dev_err]. *)
Definition dev_info (msg : string) : M unit := emit (EvErr msg).
Definition dev_warn (msg : string) : M unit := emit (EvErr msg).

(** ** Driver routines, continued *)

Section Pads.

Variable pf : platform.
Variable bd : board.

(** [tegra_prod_set_by_name] works on the register block directly, not
    through [padctl_writel]. *)
Definition tegra_prod_set (name : prod_name) : M Z :=
  fun w => Some (fst (tegra_prod_set_by_name bd name (regs w)),
                 with_regs (snd (tegra_prod_set_by_name bd name (regs w))) w).

(** A call of [padcall]: the board answers, and the call is logged. *)
Definition do_padcall (c : padcall) (s : pads) : M (Z * pads) :=
  fun w => Some ((padcall_result bd w c, with_padcall (List.length (trace w)) c s), w).

Definition is_utmi_phy (p : phy) : bool :=
  match ops p with tegra210_usb2_phy_ops => true | _ => false end.

Definition is_hsic_phy (p : phy) : bool :=
  match ops p with tegra210_hsic_phy_ops => true | _ => false end.

Definition is_usb3_phy (p : phy) : bool :=
  match ops p with tegra210_pcie_phy_ops => true | _ => false end.

(** *** HSIC idle and LFPS detection *)

Definition tegra210_hsic_set_idle (index : Z) (idle : bool) : M Z :=
  rmw pf (XUSB_PADCTL_HSIC_PADX_CTL0 index) (fun value =>
    let value :=
      clear_bits value (Z.lor (Z.lor XUSB_PADCTL_HSIC_PAD_CTL0_RPU_DATA0
                                     XUSB_PADCTL_HSIC_PAD_CTL0_RPU_DATA1)
                              XUSB_PADCTL_HSIC_PAD_CTL0_RPD_STROBE) in
    if idle then
      set_bits value (Z.lor (Z.lor XUSB_PADCTL_HSIC_PAD_CTL0_RPD_DATA0
                                   XUSB_PADCTL_HSIC_PAD_CTL0_RPD_DATA1)
                            XUSB_PADCTL_HSIC_PAD_CTL0_RPU_STROBE)
    else
      clear_bits value (Z.lor (Z.lor XUSB_PADCTL_HSIC_PAD_CTL0_RPD_DATA0
                                     XUSB_PADCTL_HSIC_PAD_CTL0_RPD_DATA1)
                              XUSB_PADCTL_HSIC_PAD_CTL0_RPU_STROBE)) ;;
  ret 0.

(** [lane->pad == padctl->pcie] is the test that the lane belongs to the
    pad named pcie. *)
Definition tegra210_usb3_set_lfps_detect (index : Z) (enable : bool) : M Z :=
  match tegra_xusb_find_usb3_port bd index with
  | None => ret (- ENODEV)
  | Some port =>
      let lane := usb3_lane port in
      let offset :=
        if String.eqb (lane_pad_name lane) "pcie"
        then XUSB_PADCTL_UPHY_MISC_PAD_PX_CTL1 (lane_index lane)
        else XUSB_PADCTL_UPHY_MISC_PAD_S0_CTL1 in
      rmw pf offset (fun value =>
        let value :=
          clear_bits value
            (Z.lor (Z.lor (Z.shiftl XUSB_PADCTL_UPHY_MISC_PAD_CTL1_AUX_RX_IDLE_MODE_MASK
                                    XUSB_PADCTL_UPHY_MISC_PAD_CTL1_AUX_RX_IDLE_MODE_SHIFT)
                          XUSB_PADCTL_UPHY_MISC_PAD_CTL1_AUX_RX_TERM_EN)
                   XUSB_PADCTL_UPHY_MISC_PAD_CTL1_AUX_RX_MODE_OVRD) in
        if negb enable then
          set_bits value
            (Z.lor (Z.lor (Z.shiftl XUSB_PADCTL_UPHY_MISC_PAD_CTL1_AUX_RX_IDLE_MODE_VAL
                                    XUSB_PADCTL_UPHY_MISC_PAD_CTL1_AUX_RX_IDLE_MODE_SHIFT)
                          XUSB_PADCTL_UPHY_MISC_PAD_CTL1_AUX_RX_TERM_EN)
                   XUSB_PADCTL_UPHY_MISC_PAD_CTL1_AUX_RX_MODE_OVRD)
        else value) ;;
      ret 0
  end.

(** *** USB2 (UTMI) lanes: wake *)

Definition tegra210_utmi_phy_enable_wake (p : phy) : M Z :=
  let index := lane_index (phy_get_drvdata p) in
  mutex_lock ;;
  rmw pf XUSB_PADCTL_ELPG_PROGRAM_0 (fun reg =>
    set_bits (clear_bits reg ALL_WAKE_EVENTS) (USB2_PORT_WAKEUP_EVENT index)) ;;
  usleep_range pf 10 20 ;;
  rmw pf XUSB_PADCTL_ELPG_PROGRAM_0 (fun reg =>
    set_bits (clear_bits reg ALL_WAKE_EVENTS) (USB2_PORT_WAKE_INTERRUPT_ENABLE index)) ;;
  mutex_unlock ;;
  ret 0.

Definition tegra210_utmi_phy_disable_wake (p : phy) : M Z :=
  let index := lane_index (phy_get_drvdata p) in
  mutex_lock ;;
  rmw pf XUSB_PADCTL_ELPG_PROGRAM_0 (fun reg =>
    clear_bits (clear_bits reg ALL_WAKE_EVENTS) (USB2_PORT_WAKE_INTERRUPT_ENABLE index)) ;;
  usleep_range pf 10 20 ;;
  rmw pf XUSB_PADCTL_ELPG_PROGRAM_0 (fun reg =>
    set_bits (clear_bits reg ALL_WAKE_EVENTS) (USB2_PORT_WAKEUP_EVENT index)) ;;
  mutex_unlock ;;
  ret 0.

Definition tegra210_utmi_phy_get_pad_config (port : Z) : M tegra_utmi_pad_config :=
  reg <- padctl_readl pf XUSB_PADCTL_USB2_BIAS_PAD_CTL_1 ;;
  let config_tctrl := TCTRL_VALUE reg in
  let config_pctrl := PCTRL_VALUE reg in
  reg <- padctl_readl pf (XUSB_PADCTL_USB2_OTG_PADX_CTL_1 port) ;;
  ret (mk_utmi_pad_config config_tctrl config_pctrl (RPD_CTRL_VALUE reg)).

(** [return -ENODEV;] in a function that returns [bool]. *)
Definition is_utmi_phy_has_otg_cap (p : option phy) : M bool :=
  match p with
  | None => ret false
  | Some p =>
      let index := lane_index (phy_get_drvdata p) in
      match tegra_xusb_find_usb2_port pf index with
      | None => dev_err "no port found for USB2 lane" ;; ret (to_bool (- ENODEV))
      | Some port => ret (usb_port_cap_eqb (usb2_port_cap bd index) USB_OTG_CAP)
      end
  end.

(** *** HSIC lanes: init, exit and wake *)

Definition tegra210_hsic_phy_init (p : phy) : M Z :=
  mutex_lock ;;
  rmw pf XUSB_PADCTL_USB2_PAD_MUX (fun value =>
    set_bits (clear_bits value (Z.shiftl XUSB_PADCTL_USB2_PAD_MUX_HSIC_PAD_TRK_MASK
                                         XUSB_PADCTL_USB2_PAD_MUX_HSIC_PAD_TRK_SHIFT))
             (Z.shiftl XUSB_PADCTL_USB2_PAD_MUX_HSIC_PAD_TRK_XUSB
                       XUSB_PADCTL_USB2_PAD_MUX_HSIC_PAD_TRK_SHIFT)) ;;
  mutex_unlock ;;
  tegra210_xusb_padctl_enable pf.

Definition tegra210_hsic_phy_exit (p : phy) : M Z :=
  tegra210_xusb_padctl_disable pf.

Definition tegra210_hsic_phy_enable_wake (p : phy) : M Z :=
  let index := lane_index (phy_get_drvdata p) in
  mutex_lock ;;
  rmw pf XUSB_PADCTL_ELPG_PROGRAM_0 (fun reg =>
    set_bits (clear_bits reg ALL_WAKE_EVENTS) (USB2_HSIC_PORT_WAKEUP_EVENT index)) ;;
  usleep_range pf 10 20 ;;
  rmw pf XUSB_PADCTL_ELPG_PROGRAM_0 (fun reg =>
    set_bits (clear_bits reg ALL_WAKE_EVENTS)
             (USB2_HSIC_PORT_WAKE_INTERRUPT_ENABLE index)) ;;
  mutex_unlock ;;
  ret 0.

(** The first update is [reg &= ~~USB2_HSIC_PORT_WAKE_INTERRUPT_ENABLE(index);],
    with two complements. *)
Definition tegra210_hsic_phy_disable_wake (p : phy) : M Z :=
  let index := lane_index (phy_get_drvdata p) in
  mutex_lock ;;
  rmw pf XUSB_PADCTL_ELPG_PROGRAM_0 (fun reg =>
    clear_bits (clear_bits reg ALL_WAKE_EVENTS)
               (Z.lnot (USB2_HSIC_PORT_WAKE_INTERRUPT_ENABLE index))) ;;
  usleep_range pf 10 20 ;;
  rmw pf XUSB_PADCTL_ELPG_PROGRAM_0 (fun reg =>
    set_bits (clear_bits reg ALL_WAKE_EVENTS) (USB2_HSIC_PORT_WAKEUP_EVENT index)) ;;
  mutex_unlock ;;
  ret 0.

(** *** PCIe and SATA lanes *)

Fixpoint write_lane_init_data (l : list init_data) (offset : Z) : M unit :=
  match l with
  | [] => ret tt
  | d :: l' =>
      let reg := 0 in
      let reg := set_bits reg (CFG_ADDR (cfg_addr d)) in
      let reg := set_bits reg (CFG_WDATA (cfg_wdata d)) in
      let reg := set_bits reg CFG_RESET in
      let reg := set_bits reg CFG_WS in
      padctl_writel reg offset ;;
      write_lane_init_data l' offset
  end.

Definition tegra210_pcie_lane_defaults (lane : tegra_xusb_lane) : M unit :=
  if lane_function bd lane =? 1 then
    write_lane_init_data usb3_lane_data
      (XUSB_PADCTL_UPHY_MISC_PAD_PX_CTL8 (lane_index lane))
  else if (lane_function bd lane =? 0) || (lane_function bd lane =? 3) then
    write_lane_init_data pcie_lane_data
      (XUSB_PADCTL_UPHY_MISC_PAD_PX_CTL8 (lane_index lane))
  else ret tt.

Definition tegra210_pcie_phy_init (p : phy) : M Z :=
  tegra210_xusb_padctl_enable pf.

Definition tegra210_pcie_phy_exit (p : phy) : M Z :=
  tegra210_xusb_padctl_disable pf.

Definition tegra210_pcie_phy_power_on (p : phy) : M Z :=
  let lane := phy_get_drvdata p in
  let power_on (err : Z) : M Z :=
    c <- t210b01_compatible pf ;;
    when (c =? 1) (tegra210_pcie_lane_defaults lane) ;;
    rmw pf XUSB_PADCTL_USB3_PAD_MUX (fun value =>
      set_bits value (XUSB_PADCTL_USB3_PAD_MUX_PCIE_IDDQ_DISABLE (lane_index lane))) ;;
    mutex_unlock ;;
    ret err in
  mutex_lock ;;
  if tegra_xusb_lane_check bd lane "xusb" && prod_list bd then
    index <- tegra210_usb3_lane_map pf lane ;;
    match tegra_xusb_find_usb3_port bd index with
    | None =>
        dev_err "no port found for USB3 lane" ;;
        mutex_unlock ;;
        ret (- ENODEV)
    | Some port =>
        err <- tegra_prod_set (prod_c_ss (usb3_index port)) ;;
        power_on err
    end
  else power_on 0.

Definition tegra210_pcie_phy_power_off (p : phy) : M Z :=
  let lane := phy_get_drvdata p in
  mutex_lock ;;
  rmw pf XUSB_PADCTL_USB3_PAD_MUX (fun value =>
    clear_bits value (XUSB_PADCTL_USB3_PAD_MUX_PCIE_IDDQ_DISABLE (lane_index lane))) ;;
  mutex_unlock ;;
  ret 0.

Definition tegra210_sata_phy_init (p : phy) : M Z :=
  tegra210_xusb_padctl_enable pf.

Definition tegra210_sata_phy_exit (p : phy) : M Z :=
  tegra210_xusb_padctl_disable pf.

Definition tegra210_sata_phy_power_on (p : phy) : M Z :=
  let lane := phy_get_drvdata p in
  mutex_lock ;;
  rmw pf XUSB_PADCTL_USB3_PAD_MUX (fun value =>
    set_bits value (XUSB_PADCTL_USB3_PAD_MUX_SATA_IDDQ_DISABLE (lane_index lane))) ;;
  mutex_unlock ;;
  ret 0.

Definition tegra210_sata_phy_power_off (p : phy) : M Z :=
  let lane := phy_get_drvdata p in
  mutex_lock ;;
  rmw pf XUSB_PADCTL_USB3_PAD_MUX (fun value =>
    clear_bits value (XUSB_PADCTL_USB3_PAD_MUX_SATA_IDDQ_DISABLE (lane_index lane))) ;;
  mutex_unlock ;;
  ret 0.

(** *** USB3 lanes: sleepwalk and wake *)

Definition tegra210_usb3_phy_enable_sleepwalk (p : phy) : M Z :=
  index <- tegra210_usb3_lane_map pf (phy_get_drvdata p) ;;
  mutex_lock ;;
  rmw pf XUSB_PADCTL_ELPG_PROGRAM_1 (fun reg =>
    set_bits reg (SSPX_ELPG_CLAMP_EN_EARLY index)) ;;
  usleep_range pf 100 200 ;;
  rmw pf XUSB_PADCTL_ELPG_PROGRAM_1 (fun reg =>
    set_bits reg (SSPX_ELPG_CLAMP_EN index)) ;;
  usleep_range pf 250 350 ;;
  mutex_unlock ;;
  ret 0.

Definition tegra210_usb3_phy_disable_sleepwalk (p : phy) : M Z :=
  index <- tegra210_usb3_lane_map pf (phy_get_drvdata p) ;;
  mutex_lock ;;
  rmw pf XUSB_PADCTL_ELPG_PROGRAM_1 (fun reg =>
    clear_bits reg (SSPX_ELPG_CLAMP_EN_EARLY index)) ;;
  usleep_range pf 100 200 ;;
  rmw pf XUSB_PADCTL_ELPG_PROGRAM_1 (fun reg =>
    clear_bits reg (SSPX_ELPG_CLAMP_EN index)) ;;
  mutex_unlock ;;
  ret 0.

Definition tegra210_usb3_phy_enable_wake (p : phy) : M Z :=
  index <- tegra210_usb3_lane_map pf (phy_get_drvdata p) ;;
  mutex_lock ;;
  rmw pf XUSB_PADCTL_ELPG_PROGRAM_0 (fun reg =>
    set_bits (clear_bits reg ALL_WAKE_EVENTS) (SS_PORT_WAKEUP_EVENT index)) ;;
  usleep_range pf 10 20 ;;
  rmw pf XUSB_PADCTL_ELPG_PROGRAM_0 (fun reg =>
    set_bits (clear_bits reg ALL_WAKE_EVENTS) (SS_PORT_WAKE_INTERRUPT_ENABLE index)) ;;
  mutex_unlock ;;
  ret 0.

Definition tegra210_usb3_phy_disable_wake (p : phy) : M Z :=
  index <- tegra210_usb3_lane_map pf (phy_get_drvdata p) ;;
  mutex_lock ;;
  rmw pf XUSB_PADCTL_ELPG_PROGRAM_0 (fun reg =>
    clear_bits (clear_bits reg ALL_WAKE_EVENTS) (SS_PORT_WAKE_INTERRUPT_ENABLE index)) ;;
  usleep_range pf 10 20 ;;
  rmw pf XUSB_PADCTL_ELPG_PROGRAM_0 (fun reg =>
    set_bits (clear_bits reg ALL_WAKE_EVENTS) (SS_PORT_WAKEUP_EVENT index)) ;;
  mutex_unlock ;;
  ret 0.

(** *** OTG capability *)

Definition is_usb3_phy_has_otg_cap (p : option phy) : M bool :=
  match p with
  | None => ret false
  | Some p =>
      index <- tegra210_usb3_lane_map pf (phy_get_drvdata p) ;;
      match tegra_xusb_find_usb3_port bd index with
      | None => dev_err "no port found for USB3 lane" ;; ret false
      | Some port => ret (usb_port_cap_eqb (usb3_port_cap bd index) USB_OTG_CAP)
      end
  end.

(** Both tests look at [phy->ops], so the phy is not [NULL] here. *)
Definition tegra210_xusb_padctl_has_otg_cap (p : phy) : M bool :=
  if is_utmi_phy p then is_utmi_phy_has_otg_cap (Some p)
  else if is_usb3_phy p then is_usb3_phy_has_otg_cap (Some p)
  else ret false.

(** *** UTMI pads *)



(** The register read is that of pad 0, whichever lane the phy stands
    for. *)
Definition tegra210_utmi_port_reset_quirk (p : option phy) : M Z :=
  match p with
  | None => ret (- ENODEV)
  | Some p =>
      reg <- padctl_readl pf (XUSB_PADCTL_USB2_BATTERY_CHRG_OTGPADX_CTL0 0) ;;
      if bit_set ZIP reg || bit_set ZIN reg then
        tegra210_xusb_padctl_vbus_override pf false ;;
        tegra210_xusb_padctl_vbus_override pf true ;;
        ret 1
      else ret 0
  end.

(** *** Remote wake *)

Definition tegra210_usb3_phy_remote_wake_detected (port : Z) : M Z :=
  reg <- padctl_readl pf XUSB_PADCTL_ELPG_PROGRAM_0 ;;
  if bit_set (SS_PORT_WAKE_INTERRUPT_ENABLE port) reg
     && bit_set (SS_PORT_WAKEUP_EVENT port) reg
  then ret 1 else ret 0.

Definition tegra210_utmi_phy_remote_wake_detected (port : Z) : M Z :=
  reg <- padctl_readl pf XUSB_PADCTL_ELPG_PROGRAM_0 ;;
  if bit_set (USB2_PORT_WAKE_INTERRUPT_ENABLE port) reg
     && bit_set (USB2_PORT_WAKEUP_EVENT port) reg
  then ret 1 else ret 0.

Definition tegra210_hsic_phy_remote_wake_detected (port : Z) : M Z :=
  reg <- padctl_readl pf XUSB_PADCTL_ELPG_PROGRAM_0 ;;
  if bit_set (USB2_HSIC_PORT_WAKE_INTERRUPT_ENABLE port) reg
     && bit_set (USB2_HSIC_PORT_WAKEUP_EVENT port) reg
  then ret 1 else ret 0.

(** The port number is handed over as an [int]. *)
Definition tegra210_xusb_padctl_remote_wake_detected (p : option phy) : M Z :=
  match p with
  | None => ret 0
  | Some p =>
      let lane := phy_get_drvdata p in
      if is_utmi_phy p then
        tegra210_utmi_phy_remote_wake_detected (to_int (lane_index lane))
      else if is_hsic_phy p then
        tegra210_hsic_phy_remote_wake_detected (to_int (lane_index lane))
      else if is_usb3_phy p then
        index <- tegra210_usb3_lane_map pf lane ;;
        tegra210_usb3_phy_remote_wake_detected (to_int index)
      else ret (- EINVAL)
  end.

Definition tegra210_xusb_padctl_phy_wake (p : option phy) (enable : bool) : M Z :=
  match p with
  | None => ret 0
  | Some p =>
      if is_usb3_phy p then
        if enable then tegra210_usb3_phy_enable_wake p
        else tegra210_usb3_phy_disable_wake p
      else if is_utmi_phy p then
        if enable then tegra210_utmi_phy_enable_wake p
        else tegra210_utmi_phy_disable_wake p
      else if is_hsic_phy p then
        if enable then tegra210_hsic_phy_enable_wake p
        else tegra210_hsic_phy_disable_wake p
      else ret (- EINVAL)
  end.

(** [priv->utmi_pad_cfg] is filled in before the power management
    controller is called with it. *)
Definition tegra210_xusb_padctl_phy_sleepwalk (p : option phy) (enable : bool)
           (speed : Z) (s : pads) : M (Z * pads) :=
  match p with
  | None => ret (0, s)
  | Some p =>
      let lane := phy_get_drvdata p in
      if is_usb3_phy p then
        r <- (if enable then tegra210_usb3_phy_enable_sleepwalk p
              else tegra210_usb3_phy_disable_sleepwalk p) ;;
        ret (r, s)
      else if is_utmi_phy p then
        config <- tegra210_utmi_phy_get_pad_config (to_int (lane_index lane)) ;;
        let s := with_utmi_pad_cfg config s in
        if enable then
          do_padcall (tegra_pmc_utmi_phy_enable_sleepwalk
                        (to_int (lane_index lane)) speed (utmi_pad_cfg s)) s
        else
          do_padcall (tegra_pmc_utmi_phy_disable_sleepwalk (to_int (lane_index lane))) s
      else if is_hsic_phy p then
        if enable then
          do_padcall (tegra_pmc_hsic_phy_enable_sleepwalk (to_int (lane_index lane))) s
        else
          do_padcall (tegra_pmc_hsic_phy_disable_sleepwalk (to_int (lane_index lane))) s
      else ret (- EINVAL, s)
  end.

(** *** USB2 (UTMI) lanes: init, exit and power *)

Definition tegra210_usb2_phy_init (p : phy) (s : pads) : M (Z * pads) :=
  let index := lane_index (phy_get_drvdata p) in
  match tegra_xusb_find_usb2_port pf index with
  | None => dev_err "no port found for USB2 lane" ;; ret (- ENODEV, s)
  | Some port =>
      mutex_lock ;;
      rmw pf XUSB_PADCTL_USB2_PAD_MUX (fun value =>
        set_bits (clear_bits value (Z.shiftl XUSB_PADCTL_USB2_PAD_MUX_USB2_BIAS_PAD_MASK
                                             XUSB_PADCTL_USB2_PAD_MUX_USB2_BIAS_PAD_SHIFT))
                 (Z.shiftl XUSB_PADCTL_USB2_PAD_MUX_USB2_BIAS_PAD_XUSB
                           XUSB_PADCTL_USB2_PAD_MUX_USB2_BIAS_PAD_SHIFT)) ;;
      (* only enable regulator when OC is disabled for host only ports *)
      err <- (if supply port && usb_port_cap_eqb (usb2_port_cap bd index) USB_HOST_CAP
                 && (negb (oc_pinctrl pf) || (oc_pin port <? 0))
              then call pf (regulator_enable index)
              else ret 0) ;;
      if negb (err =? 0) then mutex_unlock ;; ret (err, s)
      else
        s <- (if usb_port_cap_eqb (usb2_port_cap bd index) USB_OTG_CAP then
                when (negb (usb2_otg_port_base_1 s =? 0))
                     (dev_warn "enabling OTG on multiple USB2 ports") ;;
                dev_info "enabled OTG on UTMI pad" ;;
                ret (with_usb2_otg_port_base_1 (index + 1) s)
              else ret s) ;;
        mutex_unlock ;;
        r <- tegra210_xusb_padctl_enable pf ;;
        ret (r, s)
  end.

(** [index == padctl->usb2_otg_port_base_1 - 1] compares as unsigned. *)
Definition tegra210_usb2_phy_exit (p : phy) (s : pads) : M (Z * pads) :=
  let index := lane_index (phy_get_drvdata p) in
  match tegra_xusb_find_usb2_port pf index with
  | None => dev_err "no port found for USB2 lane" ;; ret (- ENODEV, s)
  | Some port =>
      mutex_lock ;;
      (if supply port && usb_port_cap_eqb (usb2_port_cap bd index) USB_HOST_CAP
       then call pf (regulator_disable index) ;; ret tt
       else ret tt) ;;
      let s := if index =? u32 (usb2_otg_port_base_1 s - 1)
               then with_usb2_otg_port_base_1 0 s else s in
      mutex_unlock ;;
      r <- tegra210_xusb_padctl_disable pf ;;
      ret (r, s)
  end.

Definition tegra210_usb2_phy_power_on (p : phy) (s : pads) : M (Z * pads) :=
  let index := lane_index (phy_get_drvdata p) in
  match tegra_xusb_find_usb2_port pf index with
  | None => dev_err "no port found for USB2 lane" ;; ret (- ENODEV, s)
  | Some port =>
      mutex_lock ;;
      when (prod_list bd)
        (tegra_prod_set (prod_c_utmi index) ;;
         tegra_prod_set prod_c_bias ;;
         ret tt) ;;
      when (negb (usb3_port_fake bd index =? -1))
        (rmw pf XUSB_PADCTL_SS_PORT_MAP (fun value =>
           set_bits (clear_bits value
                       (XUSB_PADCTL_SS_PORT_MAP_PORTX_MAP_MASK (usb3_port_fake bd index)))
                    (XUSB_PADCTL_SS_PORT_MAP_PORTX_MAP (usb3_port_fake bd index) index)) ;;
         rmw pf XUSB_PADCTL_ELPG_PROGRAM_1 (fun value =>
           clear_bits value (SSPX_ELPG_VCORE_DOWN (usb3_port_fake bd index))) ;;
         usleep_range pf 100 200 ;;
         rmw pf XUSB_PADCTL_ELPG_PROGRAM_1 (fun value =>
           clear_bits value (SSPX_ELPG_CLAMP_EN_EARLY (usb3_port_fake bd index))) ;;
         usleep_range pf 100 200 ;;
         rmw pf XUSB_PADCTL_ELPG_PROGRAM_1 (fun value =>
           clear_bits value (SSPX_ELPG_CLAMP_EN (usb3_port_fake bd index)))) ;;
      rmw pf XUSB_PADCTL_USB2_BIAS_PAD_CTL0 (fun value =>
        let value :=
          clear_bits value
            (Z.lor (Z.shiftl XUSB_PADCTL_USB2_BIAS_PAD_CTL0_HS_SQUELCH_LEVEL_MASK
                             XUSB_PADCTL_USB2_BIAS_PAD_CTL0_HS_SQUELCH_LEVEL_SHIFT)
                   (Z.shiftl XUSB_PADCTL_USB2_BIAS_PAD_CTL0_HS_DISCON_LEVEL_MASK
                             XUSB_PADCTL_USB2_BIAS_PAD_CTL0_HS_DISCON_LEVEL_SHIFT)) in
        let value :=
          set_bits value (Z.shiftl XUSB_PADCTL_USB2_BIAS_PAD_CTL0_HS_DISCON_LEVEL_VAL
                                   XUSB_PADCTL_USB2_BIAS_PAD_CTL0_HS_DISCON_LEVEL_SHIFT) in
        if revision_before_A02 bd then
          set_bits value (Z.shiftl XUSB_PADCTL_USB2_BIAS_PAD_CTL0_HS_SQUELCH_LEVEL_VAL
                                   XUSB_PADCTL_USB2_BIAS_PAD_CTL0_HS_SQUELCH_LEVEL_SHIFT)
        else value) ;;
      rmw pf XUSB_PADCTL_USB2_PORT_CAP (fun value =>
        let value := clear_bits value (XUSB_PADCTL_USB2_PORT_CAP_PORTX_CAP_MASK index) in
        match usb2_port_cap bd index with
        | USB_PORT_DISABLED =>
            set_bits value (XUSB_PADCTL_USB2_PORT_CAP_PORTX_CAP_DISABLED index)
        | USB_DEVICE_CAP =>
            set_bits value (XUSB_PADCTL_USB2_PORT_CAP_PORTX_CAP_DEVICE index)
        | USB_HOST_CAP =>
            set_bits value (XUSB_PADCTL_USB2_PORT_CAP_PORTX_CAP_HOST index)
        | USB_OTG_CAP =>
            set_bits value (XUSB_PADCTL_USB2_PORT_CAP_PORTX_CAP_OTG index)
        end) ;;
      rmw pf (XUSB_PADCTL_USB2_OTG_PADX_CTL0 index) (fun value =>
        let value :=
          clear_bits value
            (Z.lor (Z.lor (Z.lor (Z.shiftl XUSB_PADCTL_USB2_OTG_PAD_CTL0_HS_CURR_LEVEL_MASK
                                           XUSB_PADCTL_USB2_OTG_PAD_CTL0_HS_CURR_LEVEL_SHIFT)
                                 XUSB_PADCTL_USB2_OTG_PAD_CTL0_PD)
                          XUSB_PADCTL_USB2_OTG_PAD_CTL0_PD2)
                   XUSB_PADCTL_USB2_OTG_PAD_CTL0_PD_ZI) in
        set_bits value
          (Z.shiftl (u32 (hs_curr_level (fuse bd) index + hs_curr_level_offset bd index))
                    XUSB_PADCTL_USB2_OTG_PAD_CTL0_HS_CURR_LEVEL_SHIFT)) ;;
      rmw pf (XUSB_PADCTL_USB2_OTG_PADX_CTL_1 index) (fun value =>
        let value := clear_bits value (TERM_RANGE_ADJ (Z.lnot 0)) in
        let value := clear_bits value (RPD_CTRL (Z.lnot 0)) in
        let value := set_bits value (TERM_RANGE_ADJ (hs_term_range_adj (fuse bd))) in
        set_bits value (RPD_CTRL (fuse_rpd_ctrl (fuse bd)))) ;;
      rmw pf (XUSB_PADCTL_USB2_BATTERY_CHRG_OTGPADX_CTL1 index) (fun value =>
        set_bits (clear_bits value
                    (Z.shiftl XUSB_PADCTL_USB2_BATTERY_CHRG_OTGPAD_CTL1_VREG_LEV_MASK
                              XUSB_PADCTL_USB2_BATTERY_CHRG_OTGPAD_CTL1_VREG_LEV_SHIFT))
                 XUSB_PADCTL_USB2_BATTERY_CHRG_OTGPAD_CTL1_VREG_FIX18) ;;
      if usb2_pad_enable s >? 0 then
        mutex_unlock ;;
        ret (0, with_usb2_pad_enable (u32 (usb2_pad_enable s + 1)) s)
      else
        r <- do_padcall clk_prepare_enable_usb2_trk s ;;
        let err := fst r in
        let s := snd r in
        if negb (err =? 0) then mutex_unlock ;; ret (err, s)
        else
          rmw pf XUSB_PADCTL_USB2_BIAS_PAD_CTL_1 (fun value =>
            let value := clear_bits value (USB2_TRK_START_TIMER (Z.lnot 0)) in
            let value := clear_bits value (USB2_TRK_DONE_RESET_TIMER (Z.lnot 0)) in
            let value := set_bits value (USB2_TRK_START_TIMER 0x1e) in
            set_bits value (USB2_TRK_DONE_RESET_TIMER 0xa)) ;;
          rmw pf XUSB_PADCTL_USB2_BIAS_PAD_CTL0 (fun value =>
            clear_bits value XUSB_PADCTL_USB2_BIAS_PAD_CTL0_PD) ;;
          udelay 1 ;;
          rmw pf XUSB_PADCTL_USB2_BIAS_PAD_CTL_1 (fun value =>
            clear_bits value USB2_PD_TRK) ;;
          udelay 50 ;;
          r <- do_padcall clk_disable_unprepare_usb2_trk s ;;
          let s := snd r in
          mutex_unlock ;;
          ret (0, with_usb2_pad_enable (u32 (usb2_pad_enable s + 1)) s)
  end.

Definition tegra210_usb2_phy_power_off (p : phy) (s : pads) : M (Z * pads) :=
  let index := lane_index (phy_get_drvdata p) in
  match tegra_xusb_find_usb2_port pf index with
  | None => dev_err "no port found for USB2 lane" ;; ret (- ENODEV, s)
  | Some port =>
      mutex_lock ;;
      warned <- WARN_ON (usb2_pad_enable s =? 0) ;;
      if warned then mutex_unlock ;; ret (0, s)
      else
        (* if (--pad->enable > 0) goto out; *)
        let s := with_usb2_pad_enable (u32 (usb2_pad_enable s - 1)) s in
        if usb2_pad_enable s >? 0 then mutex_unlock ;; ret (0, s)
        else
          when (negb (usb3_port_fake bd index =? -1))
            (rmw pf XUSB_PADCTL_ELPG_PROGRAM_1 (fun value =>
               set_bits value (SSPX_ELPG_CLAMP_EN_EARLY (usb3_port_fake bd index))) ;;
             usleep_range pf 100 200 ;;
             rmw pf XUSB_PADCTL_ELPG_PROGRAM_1 (fun value =>
               set_bits value (SSPX_ELPG_CLAMP_EN (usb3_port_fake bd index))) ;;
             usleep_range pf 250 350 ;;
             rmw pf XUSB_PADCTL_ELPG_PROGRAM_1 (fun value =>
               set_bits value (SSPX_ELPG_VCORE_DOWN (usb3_port_fake bd index))) ;;
             rmw pf XUSB_PADCTL_SS_PORT_MAP (fun value =>
               set_bits (clear_bits value
                           (XUSB_PADCTL_SS_PORT_MAP_PORTX_MAP_MASK (usb3_port_fake bd index)))
                        (XUSB_PADCTL_SS_PORT_MAP_PORTX_MAP_DISABLED
                           (usb3_port_fake bd index)))) ;;
          rmw pf XUSB_PADCTL_USB2_BIAS_PAD_CTL0 (fun value =>
            set_bits value XUSB_PADCTL_USB2_BIAS_PAD_CTL0_PD) ;;
          mutex_unlock ;;
          ret (0, s)
  end.

(** *** HSIC lanes: power *)



(** *** Fuses *)

Definition with_hs_curr_level (i v : Z) (f : tegra210_xusb_fuse_calibration)
  : tegra210_xusb_fuse_calibration :=
  mk_fuse_calibration (fun j => if j =? i then v else hs_curr_level f j)
                      (hs_term_range_adj f) (fuse_rpd_ctrl f).

Definition with_hs_term_range_adj (v : Z) (f : tegra210_xusb_fuse_calibration)
  : tegra210_xusb_fuse_calibration :=
  mk_fuse_calibration (hs_curr_level f) v (fuse_rpd_ctrl f).

Definition with_rpd_ctrl (v : Z) (f : tegra210_xusb_fuse_calibration)
  : tegra210_xusb_fuse_calibration :=
  mk_fuse_calibration (hs_curr_level f) (hs_term_range_adj f) v.

(** [for (i = 0; i < ARRAY_SIZE(fuse->hs_curr_level); i++)], with [n]
    rounds to go. *)
Fixpoint read_hs_curr_levels (n : nat) (i value : Z)
         (f : tegra210_xusb_fuse_calibration) : tegra210_xusb_fuse_calibration :=
  match n with
  | O => f
  | S n' =>
      read_hs_curr_levels n' (i + 1) value
        (with_hs_curr_level i
           (Z.land (Z.shiftr value (FUSE_SKU_CALIB_HS_CURR_LEVEL_PADX_SHIFT i))
                   FUSE_SKU_CALIB_HS_CURR_LEVEL_PAD_MASK) f)
  end.

End Pads.

(** [tegra_fuse_readl(offset, &value)] is given as a function from the
    offset to the error code and the [u32] read; the calibration that
    [fuse] points to is passed in and handed back with the error code. *)
Definition tegra210_xusb_read_fuse_calibration (tegra_fuse_readl : Z -> Z * Z)
           (f : tegra210_xusb_fuse_calibration)
  : Z * tegra210_xusb_fuse_calibration :=
  let err := fst (tegra_fuse_readl TEGRA_FUSE_SKU_CALIB_0) in
  let value := u32 (snd (tegra_fuse_readl TEGRA_FUSE_SKU_CALIB_0)) in
  if err <? 0 then (err, f)
  else
    let f := read_hs_curr_levels 4 0 value f in
    let f := with_hs_term_range_adj
               (Z.land (Z.shiftr value FUSE_SKU_CALIB_HS_TERM_RANGE_ADJ_SHIFT)
                       FUSE_SKU_CALIB_HS_TERM_RANGE_ADJ_MASK) f in
    let err := fst (tegra_fuse_readl TEGRA_FUSE_USB_CALIB_EXT_0) in
    let value := u32 (snd (tegra_fuse_readl TEGRA_FUSE_USB_CALIB_EXT_0)) in
    if err <? 0 then (err, f)
    else
      (0, with_rpd_ctrl
            (Z.land (Z.shiftr value FUSE_USB_CALIB_EXT_RPD_CTRL_SHIFT)
                    FUSE_USB_CALIB_EXT_RPD_CTRL_MASK) f).

(** ** Wake control seen from outside *)

(** The wake routines write [XUSB_PADCTL_ELPG_PROGRAM_0] twice, with a
    sleep of 10 to 20 microseconds in between. *)
Definition wake_writes (w w' : world) (v1 v2 : Z) : Prop :=
  emitted w w' [ EvWrite v1 XUSB_PADCTL_ELPG_PROGRAM_0; EvSleep 10 20;
                 EvWrite v2 XUSB_PADCTL_ELPG_PROGRAM_0 ].

(** Arming wake for the port whose wake event is bit [event] and whose
    wake interrupt enable is bit [intr]: the first write carries a one in
    the port's own event bit and a zero in every other event bit, the
    second a zero in every event bit and a one in the port's enable bit;
    the bits that are no event bits are written as they were read before
    the call. *)
Definition wake_armed (pf : platform) (event intr : Z) (w w' : world) : Prop :=
  let old := register_value pf w XUSB_PADCTL_ELPG_PROGRAM_0 in
  exists v1 v2,
    wake_writes w w' v1 v2 /\
    (forall i, 0 <= i < 32 ->
       Z.testbit v1 i
       = (i =? event) || (negb (Z.testbit ALL_WAKE_EVENTS i) && Z.testbit old i)) /\
    (forall i, 0 <= i < 32 ->
       Z.testbit v2 i
       = (i =? intr) || (negb (Z.testbit ALL_WAKE_EVENTS i) && Z.testbit old i)) /\
    register_value pf w' XUSB_PADCTL_ELPG_PROGRAM_0 = v2 /\
    lock w' = false.

(** Disarming it: the first write clears the port's enable bit, the second
    carries a one in the port's own event bit; every other event bit is
    written as zero both times. *)
Definition wake_disarmed (pf : platform) (event intr : Z) (w w' : world) : Prop :=
  let old := register_value pf w XUSB_PADCTL_ELPG_PROGRAM_0 in
  exists v1 v2,
    wake_writes w w' v1 v2 /\
    (forall i, 0 <= i < 32 ->
       Z.testbit v1 i
       = negb (i =? intr) && negb (Z.testbit ALL_WAKE_EVENTS i) && Z.testbit old i) /\
    (forall i, 0 <= i < 32 ->
       Z.testbit v2 i
       = (i =? event)
         || (negb (i =? intr) && negb (Z.testbit ALL_WAKE_EVENTS i) && Z.testbit old i)) /\
    register_value pf w' XUSB_PADCTL_ELPG_PROGRAM_0 = v2 /\
    lock w' = false.

(** What [tegra210_hsic_phy_disable_wake] does instead: its first write
    keeps the port's enable bit as it was read and carries a zero in every
    other bit of the register. *)
Definition hsic_wake_disable_effect (pf : platform) (event intr : Z) (w w' : world)
  : Prop :=
  let old := register_value pf w XUSB_PADCTL_ELPG_PROGRAM_0 in
  exists v1 v2,
    wake_writes w w' v1 v2 /\
    (forall i, 0 <= i < 32 -> Z.testbit v1 i = (i =? intr) && Z.testbit old i) /\
    (forall i, 0 <= i < 32 ->
       Z.testbit v2 i = (i =? event) || ((i =? intr) && Z.testbit old i)) /\
    register_value pf w' XUSB_PADCTL_ELPG_PROGRAM_0 = v2 /\
    lock w' = false.

(** A lane of the USB2 pad, of the PCIe pad, and their phys. *)
Definition usb2_phy (index : Z) : phy :=
  mk_phy tegra210_usb2_phy_ops (mk_lane index "usb2").

Definition hsic_phy (index : Z) : phy :=
  mk_phy tegra210_hsic_phy_ops (mk_lane index "hsic").

Definition pcie_phy (index : Z) : phy :=
  mk_phy tegra210_pcie_phy_ops (mk_lane index "pcie").

Definition sata_phy (index : Z) : phy :=
  mk_phy tegra210_sata_phy_ops (mk_lane index "sata").

(** ** Sleepwalk of a SuperSpeed port seen from outside *)

(** The two clamp bits that sleepwalk works on. *)
Definition SSPX_ELPG_SLEEPWALK_CLAMPS (index : Z) : Z :=
  Z.lor (SSPX_ELPG_CLAMP_EN_EARLY index) (SSPX_ELPG_CLAMP_EN index).

(** Entering sleepwalk sets early-clamp, waits 100 to 200 microseconds,
    sets clamp, and waits 250 to 350 microseconds. *)
Definition usb3_sleepwalk_entered (pf : platform) (index : Z) (w w' : world) : Prop :=
  exists c1 c2,
    emitted w w' [ EvWrite c1 XUSB_PADCTL_ELPG_PROGRAM_1; EvSleep 100 200;
                   EvWrite c2 XUSB_PADCTL_ELPG_PROGRAM_1; EvSleep 250 350 ] /\
    c1 = Z.lor (register_value pf w XUSB_PADCTL_ELPG_PROGRAM_1)
               (SSPX_ELPG_CLAMP_EN_EARLY index) /\
    c2 = Z.lor (register_value pf w XUSB_PADCTL_ELPG_PROGRAM_1)
               (SSPX_ELPG_SLEEPWALK_CLAMPS index) /\
    register_value pf w' XUSB_PADCTL_ELPG_PROGRAM_1 = c2 /\
    lock w' = false.

(** Leaving it clears early-clamp, waits 100 to 200 microseconds, and
    clears clamp. *)
Definition usb3_sleepwalk_left (pf : platform) (index : Z) (w w' : world) : Prop :=
  exists c1 c2,
    emitted w w' [ EvWrite c1 XUSB_PADCTL_ELPG_PROGRAM_1; EvSleep 100 200;
                   EvWrite c2 XUSB_PADCTL_ELPG_PROGRAM_1 ] /\
    c1 = Z.land (register_value pf w XUSB_PADCTL_ELPG_PROGRAM_1)
                (Z.lnot (SSPX_ELPG_CLAMP_EN_EARLY index)) /\
    c2 = Z.land (register_value pf w XUSB_PADCTL_ELPG_PROGRAM_1)
                (Z.lnot (SSPX_ELPG_SLEEPWALK_CLAMPS index)) /\
    register_value pf w' XUSB_PADCTL_ELPG_PROGRAM_1 = c2 /\
    lock w' = false.

(** ** More boards and states to run the model on *)

(** A board without product settings, fake SuperSpeed ports or SuperSpeed
    ports; all its USB2 ports are host ports, and every call of [padcall]
    succeeds. *)
Definition plain_board : board :=
  mk_board (fun _ => None) (fun _ => USB_HOST_CAP) (fun _ => USB_HOST_CAP)
           (fun _ => -1) (fun _ => 0) (fun _ => 0) (fun _ _ => false)
           (mk_hsic_lane 0 0 0 0)
           (mk_fuse_calibration (fun _ => 0) 0 0) false false
           (fun _ r => (0, r)) (fun _ _ => 0).

(** No pad in use, no lane powered, nothing called yet. *)
Definition no_pads : pads :=
  mk_pads 0 0 (fun _ => false) (mk_utmi_pad_config 0 0 0) [].

(** A controller whose pull-down control field of USB2 pad 1 (bits 26 to
    30 of [XUSB_PADCTL_USB2_OTG_PADX_CTL_1]) holds 0x1f, and whose bias pad
    reports [tctrl] 0x25 and [pctrl] 0x16. *)
Definition calibrated_world : world :=
  mk_world (fun o => if o =? XUSB_PADCTL_USB2_OTG_PADX_CTL_1 1 then 0x7c000000
                     else if o =? XUSB_PADCTL_USB2_BIAS_PAD_CTL_1 then 0x5a5
                     else 0) 0 [] 0 false false.

(** ** Calls and pads seen from outside *)

(** [called s s' cs]: between [s] and [s'] the calls [cs] were logged, in
    program order. *)
Definition called (s s' : pads) (cs : list padcall) : Prop :=
  map snd (padcalls s') = rev cs ++ map snd (padcalls s).







(** What [tegra210_usb2_phy_power_on] writes for its own lane, whatever
    the use count of the pad: the fake SuperSpeed port if the USB2 port has
    one ([fake] is not -1), then bias levels, port capability, current
    level, termination and pull-down trims, and the regulator level. *)
Definition usb2_lane_setup_actions (index fake : Z) : list action :=
  (if negb (fake =? -1)
   then [ DoWrite XUSB_PADCTL_SS_PORT_MAP; DoWrite XUSB_PADCTL_ELPG_PROGRAM_1;
          DoWrite XUSB_PADCTL_ELPG_PROGRAM_1; DoWrite XUSB_PADCTL_ELPG_PROGRAM_1 ]
   else []) ++
  [ DoWrite XUSB_PADCTL_USB2_BIAS_PAD_CTL0;
    DoWrite XUSB_PADCTL_USB2_PORT_CAP;
    DoWrite (XUSB_PADCTL_USB2_OTG_PADX_CTL0 index);
    DoWrite (XUSB_PADCTL_USB2_OTG_PADX_CTL_1 index);
    DoWrite (XUSB_PADCTL_USB2_BATTERY_CHRG_OTGPADX_CTL1 index) ].

(** What it writes to start bias pad tracking, when the pad was not in
    use. *)
Definition usb2_tracking_actions : list action :=
  [ DoWrite XUSB_PADCTL_USB2_BIAS_PAD_CTL_1;
    DoWrite XUSB_PADCTL_USB2_BIAS_PAD_CTL0;
    DoWrite XUSB_PADCTL_USB2_BIAS_PAD_CTL_1 ].

(** What the last [tegra210_usb2_phy_power_off] writes. *)
Definition usb2_pad_off_actions (fake : Z) : list action :=
  (if negb (fake =? -1)
   then [ DoWrite XUSB_PADCTL_ELPG_PROGRAM_1; DoWrite XUSB_PADCTL_ELPG_PROGRAM_1;
          DoWrite XUSB_PADCTL_ELPG_PROGRAM_1; DoWrite XUSB_PADCTL_SS_PORT_MAP ]
   else []) ++
  [ DoWrite XUSB_PADCTL_USB2_BIAS_PAD_CTL0 ].

(** The calls that switch a regulator. *)
Definition is_regulator_call (a : action) : bool :=
  match a with
  | DoCall (regulator_enable _) => true
  | DoCall (regulator_disable _) => true
  | _ => false
  end.

(** A USB2 port 0 that is a host port with a supply and an over-current
    pin, on a board with over-current pin control. *)
Definition oc_board : platform :=
  mk_platform (Some "nvidia,tegra210-xusb-padctl"%string) false false true
              (fun i => if i =? 0 then Some (mk_usb2_port true 1) else None)
              4000%positive responsive_pll (fun _ => 150)
              (fun _ _ => 0) (fun _ => false) (fun _ _ => 0).

(** ** The fuse word seen from outside *)

(** The calibration word [TEGRA_FUSE_SKU_CALIB_0] that holds the four
    current levels and the termination range adjustment given. *)
Definition sku_calib_word (l0 l1 l2 l3 term : Z) : Z :=
  Z.lor (Z.lor (Z.lor (Z.lor l0 (Z.shiftl term 7)) (Z.shiftl l1 11)) (Z.shiftl l2 17))
        (Z.shiftl l3 23).

(** Fuses that read as [sku] and [ext], without error. *)
Definition fuses (sku ext : Z) (offset : Z) : Z * Z :=
  if offset =? TEGRA_FUSE_SKU_CALIB_0 then (0, sku)
  else if offset =? TEGRA_FUSE_USB_CALIB_EXT_0 then (0, ext)
  else (- EINVAL, 0).


Definition blank_fuse_calibration : tegra210_xusb_fuse_calibration :=
  mk_fuse_calibration (fun _ => 0) 0 0.

(** ** Boards with product settings *)

(** Product settings of which those of the SuperSpeed pads cannot be
    applied; they leave the registers alone. *)
Definition prod_ss_fails (name : prod_name) (r : Z -> Z) : Z * (Z -> Z) :=
  match name with
  | prod_c_ss _ => (- EINVAL, r)
  | _ => (0, r)
  end.

(** [bd] with product settings [set], every lane muxed to XUSB, and the
    SuperSpeed ports [found]. *)
Definition with_prod (found : Z -> option tegra_xusb_usb3_port)
           (set : prod_name -> (Z -> Z) -> Z * (Z -> Z)) (bd : board) : board :=
  mk_board found (usb3_port_cap bd) (usb2_port_cap bd)
           (usb3_port_fake bd) (hs_curr_level_offset bd) (lane_function bd)
           (fun _ _ => true) (hsic_lane bd) (fuse bd)
           (revision_before_A02 bd) true set (padcall_result bd).

(** SuperSpeed port 1 on lane pcie-5, and no other. *)
Definition usb3_port_1_only (index : Z) : option tegra_xusb_usb3_port :=
  if index =? 1 then Some (mk_usb3_port 1 false 0 (mk_lane 5 "pcie")) else None.

(** ** Configuration words seen from outside *)

(** The entry that a word written to a lane's configuration register
    carries: the address in bits 16 to 23, the data in bits 0 to 15. *)
Definition init_data_of (value : Z) : init_data :=
  mk_init_data (Z.land (Z.shiftr value 16) 0xff) (Z.land value 0xffff).

(** The entries written to [offset], in the order of the events. *)
Fixpoint init_data_written (offset : Z) (es : list event) : list init_data :=
  match es with
  | [] => []
  | EvWrite v o :: es' =>
      if o =? offset then init_data_of v :: init_data_written offset es'
      else init_data_written offset es'
  | _ :: es' => init_data_written offset es'
  end.

(** The table that [lane->function] selects for a PCIe lane. *)
Definition lane_init_table (function : Z) : list init_data :=
  if function =? 1 then usb3_lane_data
  else if (function =? 0) || (function =? 3) then pcie_lane_data
  else [].

(** ** The pulls of the HSIC pad seen from outside *)

Definition XUSB_PADCTL_HSIC_PAD_CTL0_PULLS : Z :=
  Z.lor (Z.lor (Z.lor XUSB_PADCTL_HSIC_PAD_CTL0_RPD_DATA0 XUSB_PADCTL_HSIC_PAD_CTL0_RPD_DATA1)
               (Z.lor XUSB_PADCTL_HSIC_PAD_CTL0_RPD_STROBE XUSB_PADCTL_HSIC_PAD_CTL0_RPU_DATA0))
        (Z.lor XUSB_PADCTL_HSIC_PAD_CTL0_RPU_DATA1 XUSB_PADCTL_HSIC_PAD_CTL0_RPU_STROBE).

(** The idle state of the HSIC bus: data lines pulled down, strobe
    pulled up. *)
Definition XUSB_PADCTL_HSIC_PAD_CTL0_IDLE : Z :=
  Z.lor (Z.lor XUSB_PADCTL_HSIC_PAD_CTL0_RPD_DATA0 XUSB_PADCTL_HSIC_PAD_CTL0_RPD_DATA1)
        XUSB_PADCTL_HSIC_PAD_CTL0_RPU_STROBE.

(** [plain_board] with an OTG-capable USB2 port 0. *)
Definition otg_board : board :=
  mk_board (fun _ => None) (fun _ => USB_HOST_CAP)
           (fun i => if i =? 0 then USB_OTG_CAP else USB_HOST_CAP)
           (fun _ => -1) (fun _ => 0) (fun _ => 0) (fun _ _ => false)
           (mk_hsic_lane 0 0 0 0)
           (mk_fuse_calibration (fun _ => 0) 0 0) false false
           (fun _ r => (0, r)) (fun _ _ => 0).

(** ** Power on and off, step by step *)

(** The product settings of the names [names], applied one after the
    other to the register block when the board has product settings. *)
Definition prod_steps (bd : board) (names : list prod_name) : list step :=
  if prod_list bd
  then map (fun name => Settings (fun r => snd (tegra_prod_set_by_name bd name r))) names
  else [].



(** The fake SuperSpeed port [fake] of a USB2 lane mapped to the lane and
    taken out of its power-down states, if the lane has one. *)
Definition usb2_fake_port_on_steps (fake index : Z) : list step :=
  if negb (fake =? -1)
  then [ SetField XUSB_PADCTL_SS_PORT_MAP
                  (XUSB_PADCTL_SS_PORT_MAP_PORTX_MAP_MASK fake)
                  (XUSB_PADCTL_SS_PORT_MAP_PORTX_MAP fake index);
         ClearBits XUSB_PADCTL_ELPG_PROGRAM_1 (SSPX_ELPG_VCORE_DOWN fake);
         Sleep 100 200;
         ClearBits XUSB_PADCTL_ELPG_PROGRAM_1 (SSPX_ELPG_CLAMP_EN_EARLY fake);
         Sleep 100 200;
         ClearBits XUSB_PADCTL_ELPG_PROGRAM_1 (SSPX_ELPG_CLAMP_EN fake) ]
  else [].

(** The same port put back into its power-down states and unmapped. *)
Definition usb2_fake_port_off_steps (fake : Z) : list step :=
  if negb (fake =? -1)
  then [ SetBits XUSB_PADCTL_ELPG_PROGRAM_1 (SSPX_ELPG_CLAMP_EN_EARLY fake);
         Sleep 100 200;
         SetBits XUSB_PADCTL_ELPG_PROGRAM_1 (SSPX_ELPG_CLAMP_EN fake);
         Sleep 250 350;
         SetBits XUSB_PADCTL_ELPG_PROGRAM_1 (SSPX_ELPG_VCORE_DOWN fake);
         SetField XUSB_PADCTL_SS_PORT_MAP
                  (XUSB_PADCTL_SS_PORT_MAP_PORTX_MAP_MASK fake)
                  (XUSB_PADCTL_SS_PORT_MAP_PORTX_MAP_DISABLED fake) ]
  else [].

Definition usb2_port_cap_bits (cap : usb_port_cap) (index : Z) : Z :=
  match cap with
  | USB_PORT_DISABLED => XUSB_PADCTL_USB2_PORT_CAP_PORTX_CAP_DISABLED index
  | USB_DEVICE_CAP => XUSB_PADCTL_USB2_PORT_CAP_PORTX_CAP_DEVICE index
  | USB_HOST_CAP => XUSB_PADCTL_USB2_PORT_CAP_PORTX_CAP_HOST index
  | USB_OTG_CAP => XUSB_PADCTL_USB2_PORT_CAP_PORTX_CAP_OTG index
  end.

(** What every [tegra210_usb2_phy_power_on] does between taking the lock
    and looking at the use count of the pad: the product settings of the
    lane and of the bias pad, the fake SuperSpeed port, the levels of the
    bias pad, which all lanes share, and then port capability, current
    level, trims and regulator level of the lane. *)
Definition usb2_lane_setup_steps (bd : board) (index : Z) : list step :=
  prod_steps bd [prod_c_utmi index; prod_c_bias] ++
  usb2_fake_port_on_steps (usb3_port_fake bd index) index ++
  [ SetField XUSB_PADCTL_USB2_BIAS_PAD_CTL0
             (Z.lor (Z.shiftl XUSB_PADCTL_USB2_BIAS_PAD_CTL0_HS_SQUELCH_LEVEL_MASK
                              XUSB_PADCTL_USB2_BIAS_PAD_CTL0_HS_SQUELCH_LEVEL_SHIFT)
                    (Z.shiftl XUSB_PADCTL_USB2_BIAS_PAD_CTL0_HS_DISCON_LEVEL_MASK
                              XUSB_PADCTL_USB2_BIAS_PAD_CTL0_HS_DISCON_LEVEL_SHIFT))
             (if revision_before_A02 bd
              then Z.lor (Z.shiftl XUSB_PADCTL_USB2_BIAS_PAD_CTL0_HS_DISCON_LEVEL_VAL
                                   XUSB_PADCTL_USB2_BIAS_PAD_CTL0_HS_DISCON_LEVEL_SHIFT)
                         (Z.shiftl XUSB_PADCTL_USB2_BIAS_PAD_CTL0_HS_SQUELCH_LEVEL_VAL
                                   XUSB_PADCTL_USB2_BIAS_PAD_CTL0_HS_SQUELCH_LEVEL_SHIFT)
              else Z.shiftl XUSB_PADCTL_USB2_BIAS_PAD_CTL0_HS_DISCON_LEVEL_VAL
                            XUSB_PADCTL_USB2_BIAS_PAD_CTL0_HS_DISCON_LEVEL_SHIFT);
    SetField XUSB_PADCTL_USB2_PORT_CAP
             (XUSB_PADCTL_USB2_PORT_CAP_PORTX_CAP_MASK index)
             (usb2_port_cap_bits (usb2_port_cap bd index) index);
    SetField (XUSB_PADCTL_USB2_OTG_PADX_CTL0 index)
             (Z.lor (Z.lor (Z.lor (Z.shiftl XUSB_PADCTL_USB2_OTG_PAD_CTL0_HS_CURR_LEVEL_MASK
                                            XUSB_PADCTL_USB2_OTG_PAD_CTL0_HS_CURR_LEVEL_SHIFT)
                                  XUSB_PADCTL_USB2_OTG_PAD_CTL0_PD)
                           XUSB_PADCTL_USB2_OTG_PAD_CTL0_PD2)
                    XUSB_PADCTL_USB2_OTG_PAD_CTL0_PD_ZI)
             (Z.shiftl (u32 (hs_curr_level (fuse bd) index + hs_curr_level_offset bd index))
                       XUSB_PADCTL_USB2_OTG_PAD_CTL0_HS_CURR_LEVEL_SHIFT);
    SetField (XUSB_PADCTL_USB2_OTG_PADX_CTL_1 index)
             (Z.lor (TERM_RANGE_ADJ (Z.lnot 0)) (RPD_CTRL (Z.lnot 0)))
             (Z.lor (TERM_RANGE_ADJ (hs_term_range_adj (fuse bd)))
                    (RPD_CTRL (fuse_rpd_ctrl (fuse bd))));
    SetField (XUSB_PADCTL_USB2_BATTERY_CHRG_OTGPADX_CTL1 index)
             (Z.shiftl XUSB_PADCTL_USB2_BATTERY_CHRG_OTGPAD_CTL1_VREG_LEV_MASK
                       XUSB_PADCTL_USB2_BATTERY_CHRG_OTGPAD_CTL1_VREG_LEV_SHIFT)
             XUSB_PADCTL_USB2_BATTERY_CHRG_OTGPAD_CTL1_VREG_FIX18 ].

(** Bias pad tracking, which only a power-on that finds the pad unused
    runs: timers set, bias pad powered up, 1 microsecond, tracking powered
    up, 50 microseconds. *)
Definition usb2_tracking_steps : list step :=
  [ SetField XUSB_PADCTL_USB2_BIAS_PAD_CTL_1
             (Z.lor (USB2_TRK_START_TIMER (Z.lnot 0)) (USB2_TRK_DONE_RESET_TIMER (Z.lnot 0)))
             (Z.lor (USB2_TRK_START_TIMER 0x1e) (USB2_TRK_DONE_RESET_TIMER 0xa));
    ClearBits XUSB_PADCTL_USB2_BIAS_PAD_CTL0 XUSB_PADCTL_USB2_BIAS_PAD_CTL0_PD;
    Delay 1;
    ClearBits XUSB_PADCTL_USB2_BIAS_PAD_CTL_1 USB2_PD_TRK;
    Delay 50 ].

(** The whole of a [tegra210_usb2_phy_power_on] of lane [index] that has
    found its port: with tracking or without. *)
Definition usb2_power_on_steps (bd : board) (index : Z) (tracking : bool) : list step :=
  [Lock] ++ usb2_lane_setup_steps bd index ++
  (if tracking then usb2_tracking_steps else []) ++ [Unlock].

(** The whole of a [tegra210_usb2_phy_power_off] with a use count that is
    not 0: the last user powers the pad down, after the fake SuperSpeed
    port of its lane; any other user only takes and releases the lock. *)
Definition usb2_power_off_steps (bd : board) (index : Z) (last : bool) : list step :=
  [Lock] ++
  (if last
   then usb2_fake_port_off_steps (usb3_port_fake bd index) ++
        [ SetBits XUSB_PADCTL_USB2_BIAS_PAD_CTL0 XUSB_PADCTL_USB2_BIAS_PAD_CTL0_PD ]
   else []) ++ [Unlock].



(* ================================================================== *)
(** * Part II: proofs                                                   *)
(* ================================================================== *)

(** ** Bits *)

Lemma testbit_u32 x i : 0 <= i -> Z.testbit (u32 x) i = Z.testbit x i && (i <? 32).
Proof.
  intros Hi. unfold u32. rewrite Z.land_spec.
  change 0xffffffff with (Z.ones 32).
  destruct (Z.ltb_spec i 32).
  - rewrite Z.ones_spec_low by lia. reflexivity.
  - rewrite Z.ones_spec_high by lia. reflexivity.
Qed.

Lemma testbit_clear_bits v m i : 0 <= i ->
  Z.testbit (clear_bits v m) i = Z.testbit v i && negb (Z.testbit m i).
Proof.
  intros. unfold clear_bits. rewrite Z.land_spec, Z.lnot_spec by lia. reflexivity.
Qed.

Lemma testbit_set_bits v m i :
  Z.testbit (set_bits v m) i = Z.testbit v i || Z.testbit m i.
Proof. unfold set_bits. apply Z.lor_spec. Qed.

Lemma u32_range x : 0 <= u32 x < 2 ^ 32.
Proof.
  unfold u32. change 0xffffffff with (Z.ones 32).
  rewrite Z.land_ones by lia. apply Z.mod_pos_bound. lia.
Qed.

Lemma u32_small x : 0 <= x < 2 ^ 32 -> u32 x = x.
Proof.
  intros. unfold u32. change 0xffffffff with (Z.ones 32).
  rewrite Z.land_ones by lia. apply Z.mod_small. assumption.
Qed.

Lemma u32_idem x : u32 (u32 x) = u32 x.
Proof. apply u32_small, u32_range. Qed.

Ltac has_var c := match c with context [?x] => is_var x end.

(** Replaces every [Z.testbit c k] on closed [c] and [k] by its value. *)
Ltac eval_testbits :=
  repeat match goal with
  | |- context [Z.testbit ?c ?k] =>
      tryif has_var c then fail else
      tryif has_var k then fail else
      let b := eval vm_compute in (Z.testbit c k) in
      match b with
      | true => change (Z.testbit c k) with true
      | false => change (Z.testbit c k) with false
      end
  end.

Ltac push_testbit :=
  repeat first
    [ rewrite testbit_u32 by lia
    | rewrite testbit_set_bits
    | rewrite testbit_clear_bits by lia ].

(** ** Weakest preconditions for the monad *)

Lemma wp_ret {A} (a : A) w (Q : A -> world -> Prop) : Q a w -> wp (ret a) w Q.
Proof. intros H. exists a, w. split; [reflexivity|assumption]. Qed.

Lemma wp_bind {A B} (m : M A) (k : A -> M B) w (Q : B -> world -> Prop) :
  wp m w (fun a w' => wp (k a) w' Q) -> wp (bind m k) w Q.
Proof.
  intros (a & w' & Hm & b & w'' & Hk & HQ).
  exists b, w''. unfold bind. rewrite Hm. split; assumption.
Qed.

Lemma wp_weaken {A} (m : M A) w (Q Q' : A -> world -> Prop) :
  wp m w Q -> (forall a w', Q a w' -> Q' a w') -> wp m w Q'.
Proof. intros (a & w' & Hm & HQ) H. exists a, w'. auto. Qed.

Lemma wp_run {A} (m : M A) w (Q : A -> world -> Prop) a w' :
  wp m w Q -> m w = Some (a, w') -> Q a w'.
Proof. intros (a0 & w0 & Hm & HQ) E. rewrite Hm in E. inversion E; subst. exact HQ. Qed.

Section Rules.

Variable pf : platform.

Lemma wp_readl offset w (Q : Z -> world -> Prop) :
  Q (register_value pf w offset) w -> wp (padctl_readl pf offset) w Q.
Proof. intros H. eexists _, _. split; [reflexivity|exact H]. Qed.

Lemma wp_writel value offset w (Q : unit -> world -> Prop) :
  Q tt (record (EvWrite (u32 value) offset) (store (u32 value) offset w)) ->
  wp (padctl_writel value offset) w Q.
Proof. intros H. eexists _, _. split; [reflexivity|exact H]. Qed.

Lemma wp_rmw offset f w (Q : unit -> world -> Prop) :
  (forall v, v = u32 (f (register_value pf w offset)) ->
             Q tt (record (EvWrite v offset) (store v offset w))) ->
  wp (rmw pf offset f) w Q.
Proof. intros H. eexists _, _. split; [reflexivity|]. apply H. reflexivity. Qed.

Lemma wp_usleep min max w (Q : unit -> world -> Prop) :
  (forall d, d = Z.max min (Z.min max (sleep_len pf w)) ->
             Q tt (record (EvSleep min max) (elapse d w))) ->
  wp (usleep_range pf min max) w Q.
Proof. intros H. eexists _, _. split; [reflexivity|]. apply H. reflexivity. Qed.

Lemma wp_call c w (Q : Z -> world -> Prop) :
  (forall r, r = call_result pf w c -> Q r (record (EvCall c) w)) ->
  wp (call pf c) w Q.
Proof. intros H. eexists _, _. split; [reflexivity|]. apply H. reflexivity. Qed.

Lemma wp_emit e w (Q : unit -> world -> Prop) :
  Q tt (record e w) -> wp (emit e) w Q.
Proof. intros H. eexists _, _. split; [reflexivity|exact H]. Qed.

Lemma wp_jiffies w (Q : Z -> world -> Prop) :
  Q (now w / Zpos (usecs_per_jiffy pf)) w -> wp (jiffies pf) w Q.
Proof. intros H. eexists _, _. split; [reflexivity|exact H]. Qed.

Lemma wp_mutex_lock w (Q : unit -> world -> Prop) :
  lock w = false -> Q tt (with_lock true w) -> wp mutex_lock w Q.
Proof.
  intros Hl H. exists tt, (with_lock true w). unfold mutex_lock. rewrite Hl.
  split; [reflexivity|exact H].
Qed.

Lemma wp_mutex_unlock w (Q : unit -> world -> Prop) :
  Q tt (with_lock false w) -> wp mutex_unlock w Q.
Proof. intros H. eexists _, _. split; [reflexivity|exact H]. Qed.

Lemma wp_get_enable w (Q : Z -> world -> Prop) : Q (enable w) w -> wp get_enable w Q.
Proof. intros H. eexists _, _. split; [reflexivity|exact H]. Qed.

Lemma wp_set_enable n w (Q : unit -> world -> Prop) :
  Q tt (with_enable (u32 n) w) -> wp (set_enable n) w Q.
Proof. intros H. eexists _, _. split; [reflexivity|exact H]. Qed.

Lemma wp_get_otg_vbus_on w (Q : bool -> world -> Prop) : Q (otg_vbus_on w) w -> wp get_otg_vbus_on w Q.
Proof. intros H. eexists _, _. split; [reflexivity|exact H]. Qed.

Lemma wp_set_otg_vbus_on b w (Q : unit -> world -> Prop) :
  Q tt (with_otg_vbus_on b w) -> wp (set_otg_vbus_on b) w Q.
Proof. intros H. eexists _, _. split; [reflexivity|exact H]. Qed.

Lemma wp_ask {A} (f : world -> A) w (Q : A -> world -> Prop) :
  Q (f w) w -> wp (fun w => Some (f w, w)) w Q.
Proof. intros H. eexists _, _. split; [reflexivity|exact H]. Qed.

End Rules.

(** ** Steps that change nothing a caller can see *)

Lemma quiet_refl w : quiet w w.
Proof. repeat split. auto. Qed.

Lemma quiet_trans w1 w2 w3 : quiet w1 w2 -> quiet w2 w3 -> quiet w1 w3.
Proof.
  unfold quiet. intros (A1 & A2 & A3 & A4 & A5 & A6) (B1 & B2 & B3 & B4 & B5 & B6).
  repeat split; try congruence. auto.
Qed.

Lemma quiet_sleep min max d w : quiet w (record (EvSleep min max) (elapse d w)).
Proof. repeat split. intros e He. right. exact He. Qed.

Lemma quiet_err msg w : quiet w (record (EvErr msg) w).
Proof. repeat split. intros e He. right. exact He. Qed.

Section Polling.

Variable pf : platform.

Lemma wp_when_err (c : bool) msg w (Q : unit -> world -> Prop) :
  (forall w', quiet w w' -> (c = true -> In (EvErr msg) (trace w')) -> Q tt w') ->
  wp (when c (dev_err msg)) w Q.
Proof.
  intros H. destruct c; cbn [when].
  - apply wp_emit. apply H; [apply quiet_err|]. intros _. left. reflexivity.
  - apply wp_ret. apply H; [apply quiet_refl|]. discriminate.
Qed.

Lemma wp_compatible w (Q : Z -> world -> Prop) :
  (forall w', quiet w w' -> Q (compatible_code pf) w') ->
  wp (t210b01_compatible pf) w Q.
Proof.
  intros H. unfold t210b01_compatible, compatible_code in *.
  destruct (compatible pf) as [s|].
  - destruct (strstr s "tegra210b01"); apply wp_ret, H, quiet_refl.
  - apply wp_bind, wp_emit, wp_ret, H, quiet_err.
Qed.

Lemma compatible_code_cases : 
  compatible_code pf = 1 \/ compatible_code pf = 0 \/ compatible_code pf = - ENODEV.
Proof.
  unfold compatible_code. destruct (compatible pf) as [s|]; [|auto].
  destruct (strstr s "tegra210b01"); auto.
Qed.

(** The polling loop returns before its round budget is used up: every
    round that does not leave the loop sleeps for at least 10
    microseconds, and the loop is left once the deadline has passed. *)
Lemma poll_rounds_returns n offset done timeout w :
  timeout * Zpos (usecs_per_jiffy pf) - now w <= Z.of_nat n ->
  wp (poll_rounds pf (S n) offset done timeout) w (fun _ w' => quiet w w').
Proof.
  revert w. induction n as [|n IH]; intros w Hm.
  - cbn [poll_rounds]. apply wp_bind, wp_jiffies.
    unfold time_before.
    destruct (Z.ltb_spec (now w / Zpos (usecs_per_jiffy pf)) timeout) as [Hlt|Hge].
    + exfalso.
      assert (timeout <= now w / Zpos (usecs_per_jiffy pf)).
      { apply Z.div_le_lower_bound; lia. }
      lia.
    + apply wp_ret, quiet_refl.
  - cbn [poll_rounds]. apply wp_bind, wp_jiffies.
    unfold time_before.
    destruct (Z.ltb_spec (now w / Zpos (usecs_per_jiffy pf)) timeout) as [Hlt|Hge].
    + apply wp_bind, wp_readl.
      destruct (done (register_value pf w offset)).
      * apply wp_ret, quiet_refl.
      * apply wp_bind, wp_usleep. intros d Hd.
        eapply wp_weaken.
        -- apply IH. cbn [now record elapse]. lia.
        -- cbv beta. intros _ w' Hq.
           eapply quiet_trans; [apply quiet_sleep|exact Hq].
    + apply wp_ret, quiet_refl.
Qed.

Lemma wp_poll offset done err w (Q : Z -> world -> Prop) :
  (forall err' w', quiet w w' -> Q err' w') ->
  wp (poll pf offset done err) w Q.
Proof.
  intros H. unfold poll. apply wp_bind, wp_jiffies. cbv zeta.
  apply wp_bind. eapply wp_weaken.
  - unfold poll_budget. apply poll_rounds_returns.
    pose proof (Z.mul_div_le (now w) (Zpos (usecs_per_jiffy pf)) ltac:(lia)).
    assert (0 <= msecs_to_jiffies pf 100).
    { unfold msecs_to_jiffies. apply Z.div_pos; lia. }
    rewrite Z2Nat.id by nia. nia.
  - cbv beta. intros _ w' Hq.
    apply wp_bind, wp_jiffies, wp_ret, H, Hq.
Qed.

End Polling.

(** ** Symbolic execution *)

Ltac wp_prim :=
  lazymatch goal with
  | |- wp (ret _) _ _ => apply wp_ret
  | |- wp (rmw _ _ _) _ _ => apply wp_rmw; intros ?v ?Hv; cbv beta in Hv
  | |- wp (padctl_writel _ _) _ _ => apply wp_writel
  | |- wp (padctl_readl _ _) _ _ => apply wp_readl
  | |- wp (usleep_range _ _ _) _ _ => apply wp_usleep; intros ?d ?Hd
  | |- wp (call _ _) _ _ => apply wp_call; intros ?r ?Hr
  | |- wp (when _ (dev_err _)) _ _ =>
      apply wp_when_err; intros ?w [?Hregs [?Hacts [?Hen [?Hlk [?Hotg ?Hmono]]]]] ?Hlog
  | |- wp (emit _) _ _ => apply wp_emit
  | |- wp (dev_err _) _ _ => apply wp_emit
  | |- wp (t210b01_compatible _) _ _ =>
      apply wp_compatible; intros ?w [?Hregs [?Hacts [?Hen [?Hlk [?Hotg ?Hmono]]]]]
  | |- wp (poll _ _ _ _) _ _ =>
      apply wp_poll; intros ?err ?w [?Hregs [?Hacts [?Hen [?Hlk [?Hotg ?Hmono]]]]]
  | |- wp mutex_unlock _ _ => apply wp_mutex_unlock
  | |- wp get_enable _ _ => apply wp_get_enable
  | |- wp (set_enable _) _ _ => apply wp_set_enable
  | |- wp get_otg_vbus_on _ _ => apply wp_get_otg_vbus_on
  | |- wp (set_otg_vbus_on _) _ _ => apply wp_set_otg_vbus_on
  | |- wp (fun w => Some (_, w)) _ _ => apply wp_ask
  end; cbv beta.

Ltac wp_step :=
  lazymatch goal with
  | |- wp (bind _ _) _ _ => apply wp_bind; wp_step
  | |- wp (let _ := _ in _) _ _ => cbv zeta; wp_step
  | |- _ => wp_prim
  end.

(** Pushes the projections of a state through the state changes and the
    quiet steps recorded in the context. *)
Ltac chase :=
  repeat first
    [ progress cbn [trace regs enable lock otg_vbus_on now
                    record store elapse with_enable with_lock with_otg_vbus_on
                    actions action_of]
    | match goal with
      | H : actions (trace ?x) = _ |- context [actions (trace ?x)] => rewrite H
      | H : regs ?x = _ |- context [regs ?x] => rewrite H
      | H : enable ?x = _ |- context [enable ?x] => rewrite H
      | H : lock ?x = _ |- context [lock ?x] => rewrite H
      | H : otg_vbus_on ?x = _ |- context [otg_vbus_on ?x] => rewrite H
      end ].

Ltac eval_eqbs :=
  repeat match goal with
  | |- context [Z.eqb ?a ?b] =>
      tryif has_var a then fail else
      tryif has_var b then fail else
      let r := eval vm_compute in (Z.eqb a b) in
      match r with
      | true => change (Z.eqb a b) with true
      | false => change (Z.eqb a b) with false
      end
  end; cbv iota.

Lemma land_bit_zero v k : 0 <= k -> Z.testbit v k = false -> Z.land v (Z.shiftl 1 k) = 0.
Proof.
  intros Hk Hb. apply Z.bits_inj'. intros i Hi.
  rewrite Z.land_spec, Z.bits_0, Z.shiftl_spec by lia.
  destruct (Z.eq_dec i k) as [->|Hne].
  - rewrite Hb. reflexivity.
  - replace (Z.testbit 1 (i - k)) with false; [apply andb_false_r|].
    destruct (Z.ltb_spec i k).
    + rewrite Z.testbit_neg_r by lia. reflexivity.
    + symmetry. replace 1 with (2 ^ 0) by reflexivity. rewrite Z.pow2_bits_false; [reflexivity|lia].
Qed.

Section PllS.

Variable pf : platform.

Lemma register_value_bit w offset k :
  0 <= k < 32 -> Z.testbit (status_bits offset) k = false ->
  Z.testbit (register_value pf w offset) k = Z.testbit (regs w offset) k.
Proof.
  intros Hk Hs. unfold register_value. push_testbit.
  rewrite Z.land_spec, Hs.
  destruct (Z.ltb_spec k 32); [|lia].
  rewrite andb_false_r, orb_false_r, !andb_true_r. reflexivity.
Qed.

(** Finds an event in the trace of a state built from earlier ones. *)
Ltac chase_in :=
  repeat first
    [ assumption
    | progress cbn [trace record store elapse with_enable with_lock with_otg_vbus_on In]
    | match goal with
      | H : forall e, In e (trace ?x) -> In e (trace ?y) |- In _ (trace ?y) => apply H
      | H : ?c = true -> In _ _, C : ?c = true |- _ => specialize (H C)
      end
    | right ].

Ltac overrides_off :=
  unfold overrides_released; repeat split; apply land_bit_zero; try lia;
  (rewrite register_value_bit by (try lia; reflexivity));
  chase; eval_eqbs;
  match goal with H : ?v = _ |- Z.testbit ?v _ = _ => rewrite H end;
  push_testbit; eval_testbits; rewrite ?andb_false_r; reflexivity.

Lemma wp_pex_uphy_enable w (Q : Z -> world -> Prop) :
  (forall w',
      performed w w' (pex_uphy_actions (compatible_code pf =? 1)) ->
      overrides_released pf XUSB_PADCTL_UPHY_PLL_P0_CTL1 XUSB_PADCTL_UPHY_PLL_P0_CTL2
                         XUSB_PADCTL_UPHY_PLL_P0_CTL8 w' ->
      enable w' = enable w -> lock w' = lock w -> otg_vbus_on w' = otg_vbus_on w ->
      (call_result pf w (reset_control_deassert pex_rst) < 0 ->
       In (EvErr "failed to deassert UPHY PEX PLL reset") (trace w')) ->
      Q 0 w') ->
  wp (tegra210_pex_uphy_enable pf) w Q.
Proof.
  intros HQ. unfold tegra210_pex_uphy_enable.
  do 3 wp_step.
  apply wp_bind.
  destruct (compatible_code pf =? 1) eqn:Hc.
  - cbn [write_pll_init_data usb3_pll_g1_init_data].
    repeat wp_step.
    apply HQ; [unfold performed; chase; reflexivity | overrides_off
              | chase; reflexivity .. | ].
    intros Hneg. apply Z.ltb_lt in Hneg. subst r. chase_in.
  - repeat wp_step.
    apply HQ; [unfold performed; chase; reflexivity | overrides_off
              | chase; reflexivity .. | ].
    intros Hneg. apply Z.ltb_lt in Hneg. subst r. chase_in.
Qed.

Lemma wp_sata_uphy_enable w (Q : Z -> world -> Prop) :
  (forall w',
      performed w w' sata_uphy_actions ->
      overrides_released pf XUSB_PADCTL_UPHY_PLL_S0_CTL1 XUSB_PADCTL_UPHY_PLL_S0_CTL2
                         XUSB_PADCTL_UPHY_PLL_S0_CTL8 w' ->
      enable w' = enable w -> lock w' = lock w -> otg_vbus_on w' = otg_vbus_on w ->
      (call_result pf w (reset_control_deassert sata_rst) < 0 ->
       In (EvErr "failed to deassert UPHY SATA PLL reset") (trace w')) ->
      Q 0 w') ->
  wp (tegra210_sata_uphy_enable pf) w Q.
Proof.
  intros HQ. unfold tegra210_sata_uphy_enable.
  repeat wp_step.
  apply HQ; [unfold performed; chase; reflexivity | overrides_off
            | chase; reflexivity .. | ].
  intros Hneg. apply Z.ltb_lt in Hneg. subst r. chase_in.
Qed.

End PllS.

Lemma wp_compatible_as pf code w (Q : Z -> world -> Prop) :
  compatible_code pf = code ->
  (forall w', quiet w w' -> Q code w') ->
  wp (t210b01_compatible pf) w Q.
Proof. intros <-. apply wp_compatible. Qed.

Ltac wp_auto :=
  lazymatch goal with
  | |- wp (bind _ _) _ _ => apply wp_bind; wp_auto
  | |- wp (if _ then _ else _) _ _ => progress eval_eqbs; wp_auto
  | Hc : compatible_code _ = ?c |- wp (t210b01_compatible _) _ _ =>
      apply (wp_compatible_as _ c _ _ Hc);
      intros ?w [?Hregs [?Hacts [?Hen [?Hlk [?Hotg ?Hmono]]]]]; cbv beta
  | |- wp (tegra210_pex_uphy_enable _) _ _ =>
      apply wp_pex_uphy_enable; unfold performed;
      intros ?w ?Hacts ?Hrel ?Hen ?Hlk ?Hotg _; cbv beta;
      try match goal with
          | Hc : compatible_code _ = _, H : context [compatible_code _] |- _ =>
              rewrite Hc in H
          end
  | |- wp (tegra210_sata_uphy_enable _) _ _ =>
      apply wp_sata_uphy_enable; unfold performed;
      intros ?w ?Hacts ?Hrel ?Hen ?Hlk ?Hotg _; cbv beta
  | |- _ => wp_prim
  end.

Lemma land_bit_one v k : 0 <= k -> Z.testbit v k = true ->
  Z.land v (Z.shiftl 1 k) = Z.shiftl 1 k.
Proof.
  intros Hk Hb. apply Z.bits_inj'. intros i Hi.
  rewrite Z.land_spec, Z.shiftl_spec by lia.
  destruct (Z.eq_dec i k) as [->|Hne].
  - rewrite Hb. reflexivity.
  - replace (Z.testbit 1 (i - k)) with false; [apply andb_false_r|].
    destruct (Z.ltb_spec i k).
    + rewrite Z.testbit_neg_r by lia. reflexivity.
    + symmetry. replace 1 with (2 ^ 0) by reflexivity.
      rewrite Z.pow2_bits_false; [reflexivity|lia].
Qed.

Lemma clamps_zero v :
  Z.testbit v 29 = false -> Z.testbit v 30 = false -> Z.testbit v 31 = false ->
  Z.land v AUX_MUX_LP0_CLAMPS = 0.
Proof.
  intros H29 H30 H31. unfold AUX_MUX_LP0_CLAMPS.
  rewrite !Z.land_lor_distr_r.
  unfold AUX_MUX_LP0_CLAMP_EN, AUX_MUX_LP0_CLAMP_EN_EARLY, AUX_MUX_LP0_VCORE_DOWN, BIT.
  rewrite !land_bit_zero by (assumption || lia). reflexivity.
Qed.

Lemma clamps_one v :
  Z.testbit v 29 = true -> Z.testbit v 30 = true -> Z.testbit v 31 = true ->
  Z.land v AUX_MUX_LP0_CLAMPS = AUX_MUX_LP0_CLAMPS.
Proof.
  intros H29 H30 H31. unfold AUX_MUX_LP0_CLAMPS.
  rewrite !Z.land_lor_distr_r.
  unfold AUX_MUX_LP0_CLAMP_EN, AUX_MUX_LP0_CLAMP_EN_EARLY, AUX_MUX_LP0_VCORE_DOWN, BIT.
  rewrite !land_bit_one by (assumption || lia). reflexivity.
Qed.

(** Follows one bit of a register back through the writes of a run. *)
Ltac chase_bit :=
  repeat first
    [ rewrite register_value_bit by (try lia; reflexivity)
    | progress (chase; eval_eqbs)
    | match goal with H : ?v = _ |- context [Z.testbit ?v _] => rewrite H end
    | progress (push_testbit; eval_testbits;
                rewrite ?andb_false_r, ?andb_true_r, ?orb_true_r, ?orb_false_r) ].

Section Shared.

Variable pf : platform.

Lemma wp_padctl_enable_first w :
  lock w = false -> enable w = 0 ->
  wp (tegra210_xusb_padctl_enable pf) w (first_enable_post pf w).
Proof.
  intros Hl He. unfold tegra210_xusb_padctl_enable.
  apply wp_bind, wp_mutex_lock; [exact Hl|].
  do 2 wp_auto. cbn [enable with_lock]. rewrite He.
  change (0 >? 0) with false. cbv iota. change (u32 (0 + 1)) with 1.
  do 3 wp_auto.
  destruct (r <? 0) eqn:Eneg.
  { wp_auto. apply Z.ltb_lt in Eneg. unfold first_enable_post, performed.
    repeat split; chase; try reflexivity.
    left. repeat split; chase; try reflexivity; try assumption. left. reflexivity. }
  destruct (compatible_code_cases pf) as [Hc|[Hc|Hc]].
  - (* tegra210b01 *)
    do 2 wp_auto. destruct (r0 <? 0) eqn:Eneg'.
    { wp_auto. apply Z.ltb_lt in Eneg'. unfold first_enable_post, performed.
      repeat split; chase; try reflexivity.
      left. repeat split; chase; try reflexivity; try assumption. right. reflexivity. }
    repeat wp_auto.
    unfold first_enable_post, performed. repeat split; chase; try reflexivity.
    right. repeat split; chase; rewrite ?Hc; try reflexivity.
    apply clamps_zero; chase_bit; reflexivity.
  - (* tegra210 *)
    do 2 wp_auto. rewrite Eneg. repeat wp_auto.
    unfold first_enable_post, performed. repeat split; chase; try reflexivity.
    right. repeat split; chase; rewrite ?Hc; try reflexivity.
    apply clamps_zero; chase_bit; reflexivity.
  - (* no compatible property *)
    do 2 wp_auto. rewrite Eneg. repeat wp_auto.
    unfold first_enable_post, performed. repeat split; chase; try reflexivity.
    right. repeat split; chase; rewrite ?Hc; try reflexivity.
    apply clamps_zero; chase_bit; reflexivity.
Qed.

Lemma wp_padctl_enable_nested w :
  lock w = false -> 0 < enable w ->
  wp (tegra210_xusb_padctl_enable pf) w (fun r w' =>
    r = 0 /\ enable w' = u32 (enable w + 1) /\ lock w' = false /\
    regs w' = regs w /\ trace w' = trace w /\ otg_vbus_on w' = otg_vbus_on w).
Proof.
  intros Hl He. unfold tegra210_xusb_padctl_enable.
  apply wp_bind, wp_mutex_lock; [exact Hl|].
  do 2 wp_auto. cbn [enable with_lock].
  replace (enable w >? 0) with true by (symmetry; apply Z.gtb_lt; lia).
  repeat wp_auto. repeat split.
Qed.

Lemma wp_padctl_disable_zero w :
  lock w = false -> enable w = 0 ->
  wp (tegra210_xusb_padctl_disable pf) w (fun r w' =>
    r = 0 /\ enable w' = 0 /\ lock w' = false /\
    regs w' = regs w /\ trace w' = EvWarn :: trace w /\
    otg_vbus_on w' = otg_vbus_on w).
Proof.
  intros Hl He. unfold tegra210_xusb_padctl_disable, WARN_ON.
  apply wp_bind, wp_mutex_lock; [exact Hl|].
  wp_auto. cbn [enable with_lock]. rewrite He. change (0 =? 0) with true.
  cbn [when]. repeat wp_auto. repeat split. cbn. exact He.
Qed.

Lemma wp_padctl_disable_nested w :
  lock w = false -> 1 < enable w < 2 ^ 32 ->
  wp (tegra210_xusb_padctl_disable pf) w (fun r w' =>
    r = 0 /\ enable w' = enable w - 1 /\ lock w' = false /\
    regs w' = regs w /\ trace w' = trace w /\ otg_vbus_on w' = otg_vbus_on w).
Proof.
  intros Hl He. unfold tegra210_xusb_padctl_disable, WARN_ON.
  apply wp_bind, wp_mutex_lock; [exact Hl|].
  wp_auto. cbn [enable with_lock].
  replace (enable w =? 0) with false by (symmetry; apply Z.eqb_neq; lia).
  cbn [when]. do 4 wp_auto. cbn [enable with_enable with_lock].
  rewrite u32_small by lia.
  replace (enable w - 1 >? 0) with true by (symmetry; apply Z.gtb_lt; lia).
  repeat wp_auto. repeat split.
Qed.

Lemma wp_padctl_disable_last w :
  lock w = false -> enable w = 1 ->
  wp (tegra210_xusb_padctl_disable pf) w (fun r w' =>
    r = 0 /\ enable w' = 0 /\ lock w' = false /\
    performed w w' padctl_disable_actions /\ top_clamps_applied pf w' /\
    otg_vbus_on w' = otg_vbus_on w).
Proof.
  intros Hl He. unfold tegra210_xusb_padctl_disable, WARN_ON.
  apply wp_bind, wp_mutex_lock; [exact Hl|].
  wp_auto. cbn [enable with_lock]. rewrite He. change (1 =? 0) with false.
  cbn [when]. do 4 wp_auto. cbn [enable with_enable with_lock].
  change (u32 (1 - 1) >? 0) with false. cbv iota.
  repeat wp_auto. unfold performed. repeat split; chase; try reflexivity.
  apply clamps_one; chase_bit; reflexivity.
Qed.

Lemma returns_unlocked {A} (m : M A) w x :
  (mutex_lock ;; m) w = Some x -> lock w = false.
Proof.
  unfold bind, mutex_lock. destruct (lock w); [discriminate|reflexivity].
Qed.

Lemma padctl_enable_unlocked w x :
  tegra210_xusb_padctl_enable pf w = Some x -> lock w = false.
Proof. apply returns_unlocked. Qed.

Lemma padctl_disable_unlocked w x :
  tegra210_xusb_padctl_disable pf w = Some x -> lock w = false.
Proof. apply returns_unlocked. Qed.

Lemma padctl_enable_refcount w r w' :
  0 <= enable w < 2 ^ 32 -> tegra210_xusb_padctl_enable pf w = Some (r, w') ->
  enable w' = u32 (enable w + 1).
Proof.
  intros Hwf E. pose proof (padctl_enable_unlocked _ _ E) as Hl.
  destruct (Z.eq_dec (enable w) 0) as [He|He].
  - destruct (wp_run _ _ _ _ _ (wp_padctl_enable_first w Hl He) E) as (H1 & _).
    rewrite H1, He. reflexivity.
  - destruct (wp_run _ _ _ _ _ (wp_padctl_enable_nested w Hl ltac:(lia)) E)
      as (_ & H1 & _). exact H1.
Qed.

Lemma padctl_disable_refcount w r w' :
  0 <= enable w < 2 ^ 32 -> tegra210_xusb_padctl_disable pf w = Some (r, w') ->
  (enable w = 0 /\ enable w' = 0) \/ (0 < enable w /\ enable w' = enable w - 1).
Proof.
  intros Hwf E. pose proof (padctl_disable_unlocked _ _ E) as Hl.
  destruct (Z.eq_dec (enable w) 0) as [He|He].
  - destruct (wp_run _ _ _ _ _ (wp_padctl_disable_zero w Hl He) E) as (_ & H1 & _).
    left. auto.
  - right. split; [lia|].
    destruct (Z.eq_dec (enable w) 1) as [He1|He1].
    + destruct (wp_run _ _ _ _ _ (wp_padctl_disable_last w Hl He1) E) as (_ & H1 & _).
      lia.
    + destruct (wp_run _ _ _ _ _ (wp_padctl_disable_nested w Hl ltac:(lia)) E)
        as (_ & H1 & _). exact H1.
Qed.

Lemma reachable_refcount_range w0 w :
  0 <= enable w0 < 2 ^ 32 -> reachable pf w0 w -> 0 <= enable w < 2 ^ 32.
Proof.
  intros Hwf Hr. induction Hr as [|w c r w' Hr IH E]; [exact Hwf|].
  destruct c; cbn [run_call] in E.
  - rewrite (padctl_enable_refcount _ _ _ IH E). apply u32_range.
  - destruct (padctl_disable_refcount _ _ _ IH E) as [[_ ->]|[Hpos ->]]; lia.
Qed.

End Shared.

(** ** Runs, step by step *)

Lemma steps_run_app pf l1 l2 w w1 w2 :
  steps_run pf l1 w w1 -> steps_run pf l2 w1 w2 -> steps_run pf (l1 ++ l2) w w2.
Proof.
  revert w. induction l1 as [|s l1 IH]; intros w H1 H2; cbn [steps_run app] in *.
  - subst w1. exact H2.
  - destruct H1 as (w0 & Hs & H1). exists w0. split; [exact Hs|]. apply IH; assumption.
Qed.

Lemma steps_run_one pf s w w' : step_run pf s w w' -> steps_run pf [s] w w'.
Proof. intros H. exists w'. split; [exact H|reflexivity]. Qed.

Lemma does_ret {A} pf (a : A) w (Q : A -> list step -> world -> Prop) :
  Q a [] w -> does pf (ret a) w Q.
Proof. intros H. exists a, [], w. repeat split. exact H. Qed.

Lemma does_bind {A B} pf (m : M A) (k : A -> M B) w
      (Q : B -> list step -> world -> Prop) :
  does pf m w (fun a l1 w1 => does pf (k a) w1 (fun b l2 w2 => Q b (l1 ++ l2) w2)) ->
  does pf (bind m k) w Q.
Proof.
  intros (a & l1 & w1 & Hm & H1 & b & l2 & w2 & Hk & H2 & HQ).
  exists b, (l1 ++ l2), w2. split; [|split; [|exact HQ]].
  - unfold bind. rewrite Hm. exact Hk.
  - eapply steps_run_app; eassumption.
Qed.

Section StepRules.

Variable pf : platform.

Lemma does_one {A} (m : M A) a s w w' (Q : A -> list step -> world -> Prop) :
  m w = Some (a, w') -> step_run pf s w w' -> Q a [s] w' -> does pf m w Q.
Proof.
  intros Hm Hs HQ. exists a, [s], w'.
  split; [exact Hm|]. split; [apply steps_run_one; exact Hs|exact HQ].
Qed.

Lemma does_rmw_set offset bits w (Q : unit -> list step -> world -> Prop) :
  (forall w', Q tt [SetBits offset bits] w') ->
  does pf (rmw pf offset (fun value => set_bits value bits)) w Q.
Proof.
  intros H. eapply does_one with (s := SetBits offset bits); [reflexivity|reflexivity|apply H].
Qed.

Lemma does_rmw_clear offset bits w (Q : unit -> list step -> world -> Prop) :
  (forall w', Q tt [ClearBits offset bits] w') ->
  does pf (rmw pf offset (fun value => clear_bits value bits)) w Q.
Proof.
  intros H. eapply does_one with (s := ClearBits offset bits); [reflexivity|reflexivity|apply H].
Qed.

Lemma does_rmw_field offset mask bits w (Q : unit -> list step -> world -> Prop) :
  (forall w', Q tt [SetField offset mask bits] w') ->
  does pf (rmw pf offset (fun value => set_bits (clear_bits value mask) bits)) w Q.
Proof.
  intros H. eapply does_one with (s := SetField offset mask bits); [reflexivity|reflexivity|apply H].
Qed.

Lemma does_writel value offset w (Q : unit -> list step -> world -> Prop) :
  (forall w', Q tt [Store value offset] w') ->
  does pf (padctl_writel value offset) w Q.
Proof.
  intros H. eapply does_one with (s := Store value offset); [reflexivity|reflexivity|apply H].
Qed.

(** A read is no step. *)
Lemma does_readl offset w (Q : Z -> list step -> world -> Prop) :
  Q (register_value pf w offset) [] w -> does pf (padctl_readl pf offset) w Q.
Proof. intros H. exists (register_value pf w offset), [], w. repeat split. exact H. Qed.

Lemma does_usleep min max w (Q : unit -> list step -> world -> Prop) :
  min <= max ->
  (forall w', Q tt [Sleep min max] w') ->
  does pf (usleep_range pf min max) w Q.
Proof.
  intros Hm H.
  assert (Hd : min <= Z.max min (Z.min max (sleep_len pf w)) <= max) by lia.
  eapply does_one with (s := Sleep min max); [reflexivity| |apply H].
  eexists. split; [exact Hd|reflexivity].
Qed.

Lemma does_call c w (Q : Z -> list step -> world -> Prop) :
  (forall w', Q (call_result pf w c) [Call c] w') -> does pf (call pf c) w Q.
Proof.
  intros H. eapply does_one with (s := Call c); [reflexivity|reflexivity|apply H].
Qed.

Lemma does_log msg w (Q : unit -> list step -> world -> Prop) :
  (forall w', Q tt [Log msg] w') -> does pf (dev_err msg) w Q.
Proof.
  intros H. eapply does_one with (s := Log msg); [reflexivity|reflexivity|apply H].
Qed.

Lemma does_when_log (c : bool) msg w (Q : unit -> list step -> world -> Prop) :
  (forall w', Q tt (if c then [Log msg] else []) w') ->
  does pf (when c (dev_err msg)) w Q.
Proof.
  intros H. destruct c; cbn [when].
  - apply does_log. exact H.
  - apply does_ret, H.
Qed.

Lemma does_compatible w (Q : Z -> list step -> world -> Prop) :
  (forall w', Q (compatible_code pf)
                (match compatible pf with
                 | None => [Log "Failed to get compatible property"]
                 | Some _ => []
                 end) w') ->
  does pf (t210b01_compatible pf) w Q.
Proof.
  intros H. unfold t210b01_compatible, compatible_code in *.
  destruct (compatible pf) as [s|].
  - destruct (strstr s "tegra210b01"); apply does_ret, H.
  - apply does_bind, does_log. intros w'. apply does_ret. cbn [app]. apply H.
Qed.

(** The polling loop, round by round: it returns before its budget of
    rounds is used up, after rounds that all went on, and it is left
    either past the deadline or with the bit read as waited for. *)
Lemma poll_rounds_polled n offset done timeout w :
  timeout * Zpos (usecs_per_jiffy pf) - now w <= Z.of_nat n ->
  exists k w',
    poll_rounds pf (S n) offset done timeout w = Some (tt, w') /\
    polled pf offset done timeout k w w' /\
    (timeout <= jiffies_at pf w' \/
     (jiffies_at pf w' < timeout /\ done (register_value pf w' offset) = true)).
Proof.
  revert w. induction n as [|n IH]; intros w Hm.
  - cbn [poll_rounds]. unfold bind, jiffies, time_before. fold (jiffies_at pf w).
    destruct (Z.ltb_spec (jiffies_at pf w) timeout) as [Hlt|Hge].
    + exfalso.
      assert (timeout <= jiffies_at pf w).
      { unfold jiffies_at. apply Z.div_le_lower_bound; lia. }
      lia.
    + exists O, w. split; [reflexivity|]. split; [reflexivity|]. left. exact Hge.
  - cbn [poll_rounds]. unfold bind at 1, jiffies, time_before. fold (jiffies_at pf w).
    destruct (Z.ltb_spec (jiffies_at pf w) timeout) as [Hlt|Hge].
    + unfold bind at 1, padctl_readl.
      destruct (done (register_value pf w offset)) eqn:Hd.
      * exists O, w. split; [reflexivity|]. split; [reflexivity|]. right. auto.
      * unfold bind at 1, usleep_range.
        set (d := Z.max 10 (Z.min 20 (sleep_len pf w))).
        assert (Hdr : 10 <= d <= 20) by (subst d; lia).
        destruct (IH (record (EvSleep 10 20) (elapse d w))) as (k & w' & E & Hp & Hx).
        { cbn [now record elapse]. lia. }
        exists (S k), w'. split; [exact E|]. split; [|exact Hx].
        cbn [polled]. split; [exact Hlt|]. split; [exact Hd|].
        exists d. split; [exact Hdr|exact Hp].
    + exists O, w. split; [reflexivity|]. split; [reflexivity|]. left. exact Hge.
Qed.

Lemma does_poll offset done err w (Q : Z -> list step -> world -> Prop) :
  (forall t w', poll_run pf offset done t w w' ->
                Q (if t then - ETIMEDOUT else err) [Poll offset done t] w') ->
  does pf (poll pf offset done err) w Q.
Proof.
  intros H.
  destruct (poll_rounds_polled (Z.to_nat (msecs_to_jiffies pf 100 * Zpos (usecs_per_jiffy pf)))
              offset done (jiffies_at pf w + msecs_to_jiffies pf 100) w)
    as (k & w' & E & Hp & Hx).
  { pose proof (Z.mul_div_le (now w) (Zpos (usecs_per_jiffy pf)) ltac:(lia)).
    assert (0 <= msecs_to_jiffies pf 100).
    { unfold msecs_to_jiffies. apply Z.div_pos; lia. }
    unfold jiffies_at. rewrite Z2Nat.id by nia. nia. }
  set (t := time_after_eq (jiffies_at pf w') (jiffies_at pf w + msecs_to_jiffies pf 100)).
  assert (Hr : poll_run pf offset done t w w').
  { unfold poll_run. cbv zeta. exists k. split; [exact Hp|].
    subst t. unfold time_after_eq.
    destruct (Z.leb_spec (jiffies_at pf w + msecs_to_jiffies pf 100) (jiffies_at pf w'))
      as [Hle|Hgt]; [exact Hle|].
    destruct Hx as [Hx|Hx]; [lia|exact Hx]. }
  eapply does_one with (s := Poll offset done t); [|exact Hr|apply H; exact Hr].
  unfold poll, poll_budget. unfold bind at 1, jiffies at 1. fold (jiffies_at pf w).
  cbv zeta. unfold bind at 1. rewrite E.
  unfold bind, jiffies, ret. fold (jiffies_at pf w'). reflexivity.
Qed.

End StepRules.

Ltac does_step :=
  lazymatch goal with
  | |- does _ (bind _ _) _ _ => apply does_bind; does_step
  | |- does _ (let _ := _ in _) _ _ => cbv zeta; does_step
  | |- does _ (ret _) _ _ => apply does_ret
  | |- does _ (rmw _ _ _) _ _ =>
      first [apply does_rmw_field | apply does_rmw_set | apply does_rmw_clear]; intros ?w
  | |- does _ (padctl_writel _ _) _ _ => apply does_writel; intros ?w
  | |- does _ (padctl_readl _ _) _ _ => apply does_readl
  | |- does _ (usleep_range _ _ _) _ _ => apply does_usleep; [lia|intros ?w]
  | |- does _ (call _ _) _ _ => apply does_call; intros ?w
  | |- does _ (when _ (dev_err _)) _ _ => apply does_when_log; intros ?w
  | |- does _ (dev_err _) _ _ => apply does_log; intros ?w
  | |- does _ (t210b01_compatible _) _ _ => apply does_compatible; intros ?w
  end; cbv beta.

(** ** The calibration routines, step by step *)

(** With a PLL that never reports, a status bit never reads as set. *)
Lemma never_reports_status pf w offset :
  never_reports pf ->
  Z.land (register_value pf w offset) (status_bits offset) = 0.
Proof.
  intros H. unfold register_value, clear_bits. rewrite (H w offset), Z.lor_0_r.
  unfold u32. change 0xffffffff with (Z.ones 32). Z.bitblast.
Qed.

Lemma silent_poll_times_out pf offset t w w' :
  never_reports pf ->
  poll_run pf offset (bit_set (status_bits offset)) t w w' -> t = true.
Proof.
  intros H (n & _ & Hx). destruct t; [reflexivity|].
  destruct Hx as (_ & Hd). unfold bit_set in Hd.
  rewrite (never_reports_status pf w' offset H) in Hd. discriminate Hd.
Qed.

Lemma timeout_logged (t1 t2 t3 t4 t5 : bool) err :
  ((if t5 then - ETIMEDOUT
    else if t4 then - ETIMEDOUT
    else if t3 then - ETIMEDOUT
    else if t2 then - ETIMEDOUT
    else if t1 then - ETIMEDOUT else err) =? - ETIMEDOUT)
  = any_timeout (mk_poll_timeouts t1 t2 t3 t4 t5) || (err =? - ETIMEDOUT).
Proof. destruct t1, t2, t3, t4, t5; reflexivity. Qed.

Ltac poll_step t H := apply does_bind, does_poll; intros t ?w H; cbv beta.

Ltac same_steps Hc :=
  rewrite timeout_logged;
  unfold uphy_steps, uphy_calibration_steps, pll_setup_steps, pll_override_steps,
    pll_clock_steps, pll_bring_up_steps, pll_hand_over_steps, pll_control_steps,
    pll_block_of, reset_failure_message;
  rewrite ?Hc;
  cbn [pll_ctl1 pll_ctl2 pll_ctl4 pll_ctl5 pll_ctl8 pll_timeout_message
       pll_hw_control_enable pll_hw_sequence_start
       cal_done_timeout cal_clear_timeout lock_timeout rcal_done_timeout
       rcal_clear_timeout map usb3_pll_g1_init_data];
  rewrite <- ?app_assoc; cbn [app]; reflexivity.

Section Calibration.

Variable pf : platform.

Lemma pex_uphy_enable_steps w :
  does pf (tegra210_pex_uphy_enable pf) w (fun a l _ =>
    a = 0 /\
    exists t,
      l = uphy_steps pf pex_rst (call_result pf w (reset_control_deassert pex_rst)) t /\
      (never_reports pf ->
       cal_done_timeout t = true /\ lock_timeout t = true /\ rcal_done_timeout t = true)).
Proof.
  unfold tegra210_pex_uphy_enable.
  do 3 does_step. apply does_bind.
  destruct (compatible_code pf =? 1) eqn:Hc.
  - cbn [write_pll_init_data usb3_pll_g1_init_data].
    repeat does_step.
    poll_step t1 H1. repeat does_step. poll_step t2 H2. repeat does_step.
    poll_step t3 H3. repeat does_step. poll_step t4 H4. repeat does_step.
    poll_step t5 H5. repeat does_step.
    split; [reflexivity|]. exists (mk_poll_timeouts t1 t2 t3 t4 t5).
    split; [same_steps Hc|].
    intros Hn. cbn [cal_done_timeout lock_timeout rcal_done_timeout].
    split; [exact (silent_poll_times_out pf XUSB_PADCTL_UPHY_PLL_P0_CTL2 _ _ _ Hn H1)|].
    split; [exact (silent_poll_times_out pf XUSB_PADCTL_UPHY_PLL_P0_CTL1 _ _ _ Hn H3)
           |exact (silent_poll_times_out pf XUSB_PADCTL_UPHY_PLL_P0_CTL8 _ _ _ Hn H4)].
  - repeat does_step.
    poll_step t1 H1. repeat does_step. poll_step t2 H2. repeat does_step.
    poll_step t3 H3. repeat does_step. poll_step t4 H4. repeat does_step.
    poll_step t5 H5. repeat does_step.
    split; [reflexivity|]. exists (mk_poll_timeouts t1 t2 t3 t4 t5).
    split; [same_steps Hc|].
    intros Hn. cbn [cal_done_timeout lock_timeout rcal_done_timeout].
    split; [exact (silent_poll_times_out pf XUSB_PADCTL_UPHY_PLL_P0_CTL2 _ _ _ Hn H1)|].
    split; [exact (silent_poll_times_out pf XUSB_PADCTL_UPHY_PLL_P0_CTL1 _ _ _ Hn H3)
           |exact (silent_poll_times_out pf XUSB_PADCTL_UPHY_PLL_P0_CTL8 _ _ _ Hn H4)].
Qed.

Lemma sata_uphy_enable_steps w :
  does pf (tegra210_sata_uphy_enable pf) w (fun a l _ =>
    a = 0 /\
    exists t,
      l = uphy_steps pf sata_rst (call_result pf w (reset_control_deassert sata_rst)) t /\
      (never_reports pf ->
       cal_done_timeout t = true /\ lock_timeout t = true /\ rcal_done_timeout t = true)).
Proof.
  unfold tegra210_sata_uphy_enable.
  destruct (sata_used_by_xusb pf) eqn:Hu.
  - repeat does_step.
    poll_step t1 H1. repeat does_step. poll_step t2 H2. repeat does_step.
    poll_step t3 H3. repeat does_step. poll_step t4 H4. repeat does_step.
    poll_step t5 H5. repeat does_step.
    split; [reflexivity|]. exists (mk_poll_timeouts t1 t2 t3 t4 t5).
    split; [same_steps Hu|].
    intros Hn. cbn [cal_done_timeout lock_timeout rcal_done_timeout].
    split; [exact (silent_poll_times_out pf XUSB_PADCTL_UPHY_PLL_S0_CTL2 _ _ _ Hn H1)|].
    split; [exact (silent_poll_times_out pf XUSB_PADCTL_UPHY_PLL_S0_CTL1 _ _ _ Hn H3)
           |exact (silent_poll_times_out pf XUSB_PADCTL_UPHY_PLL_S0_CTL8 _ _ _ Hn H4)].
  - repeat does_step.
    poll_step t1 H1. repeat does_step. poll_step t2 H2. repeat does_step.
    poll_step t3 H3. repeat does_step. poll_step t4 H4. repeat does_step.
    poll_step t5 H5. repeat does_step.
    split; [reflexivity|]. exists (mk_poll_timeouts t1 t2 t3 t4 t5).
    split; [same_steps Hu|].
    intros Hn. cbn [cal_done_timeout lock_timeout rcal_done_timeout].
    split; [exact (silent_poll_times_out pf XUSB_PADCTL_UPHY_PLL_S0_CTL2 _ _ _ Hn H1)|].
    split; [exact (silent_poll_times_out pf XUSB_PADCTL_UPHY_PLL_S0_CTL1 _ _ _ Hn H3)
           |exact (silent_poll_times_out pf XUSB_PADCTL_UPHY_PLL_S0_CTL8 _ _ _ Hn H4)].
Qed.

End Calibration.

Lemma performed_trans w1 w2 w3 a b :
  performed w1 w2 a -> performed w2 w3 b -> performed w1 w3 (a ++ b).
Proof.
  unfold performed. intros H1 H2. rewrite H2, H1, rev_app_distr, app_assoc. reflexivity.
Qed.

Lemma performed_actions_since w w' acts :
  performed w w' acts -> actions_since w w' = acts.
Proof.
  unfold performed, actions_since. intros ->.
  rewrite length_app, length_rev.
  replace (List.length acts + List.length (actions (trace w))
           - List.length (actions (trace w)))%nat
    with (List.length (rev acts)) by (rewrite length_rev; lia).
  rewrite firstn_app, Nat.sub_diag, firstn_all. cbn [firstn].
  rewrite app_nil_r. apply rev_involutive.
Qed.

Lemma performed_same_trace w1 w2 w3 a :
  trace w2 = trace w1 -> performed w2 w3 a -> performed w1 w3 a.
Proof. unfold performed. intros ->. auto. Qed.

Lemma In_logged msg w : In (EvErr msg) (trace w) -> logged msg w = true.
Proof.
  intros H. unfold logged. apply existsb_exists. exists (EvErr msg).
  split; [exact H|apply String.eqb_refl].
Qed.

Lemma uphy_enable_runs pf r w :
  exists w', uphy_enable pf r w = Some (0, w') /\
    performed w w' (uphy_actions pf r) /\
    uphy_overrides_released pf r w' /\
    (call_result pf w (reset_control_deassert r) < 0 ->
     logged (reset_failure_message r) w' = true).
Proof.
  assert (H : wp (uphy_enable pf r) w (fun a w' =>
            a = 0 /\ performed w w' (uphy_actions pf r) /\
            uphy_overrides_released pf r w' /\
            (call_result pf w (reset_control_deassert r) < 0 ->
             In (EvErr (reset_failure_message r)) (trace w')))).
  { destruct r;
      cbn [uphy_enable uphy_actions uphy_overrides_released reset_failure_message].
    - apply wp_pex_uphy_enable. intros w' H1 H2 _ _ _ H3. auto.
    - apply wp_sata_uphy_enable. intros w' H1 H2 _ _ _ H3. auto. }
  destruct H as (a & w' & E & -> & H1 & H2 & H3). exists w'.
  repeat split; auto. intros Hneg. apply In_logged. auto.
Qed.

Lemma uphy_enable_result pf r w a w' :
  uphy_enable pf r w = Some (a, w') -> a = 0.
Proof.
  intros E. destruct (uphy_enable_runs pf r w) as (w0 & H & _).
  rewrite H in E. congruence.
Qed.

(** Both accounts of a run of a calibration routine: the steps it takes,
    with the polls and what they end in, and what it leaves behind. *)
Lemma uphy_enable_steps pf r w :
  exists t w',
    uphy_enable pf r w = Some (0, w') /\
    steps_run pf (uphy_steps pf r (call_result pf w (reset_control_deassert r)) t) w w' /\
    performed w w' (uphy_actions pf r) /\
    uphy_overrides_released pf r w' /\
    (call_result pf w (reset_control_deassert r) < 0 ->
     logged (reset_failure_message r) w' = true) /\
    (never_reports pf ->
     cal_done_timeout t = true /\ lock_timeout t = true /\ rcal_done_timeout t = true).
Proof.
  assert (H : does pf (uphy_enable pf r) w (fun a l _ =>
            a = 0 /\
            exists t,
              l = uphy_steps pf r (call_result pf w (reset_control_deassert r)) t /\
              (never_reports pf ->
               cal_done_timeout t = true /\ lock_timeout t = true
               /\ rcal_done_timeout t = true))).
  { destruct r; cbn [uphy_enable];
      [apply pex_uphy_enable_steps|apply sata_uphy_enable_steps]. }
  destruct H as (a & l & w' & E & Hrun & -> & t & -> & Hn).
  destruct (uphy_enable_runs pf r w) as (w0 & E0 & H1 & H2 & H3).
  rewrite E in E0. injection E0 as <-.
  exists t, w'. split; [exact E|]. split; [exact Hrun|]. split; [exact H1|].
  split; [exact H2|]. split; [exact H3|exact Hn].
Qed.

(** C1.  Whatever the PLL's status bits do, both calibration routines
    return 0 after the steps of [uphy_steps], taken in this order and with
    nothing in between: every register update with its value, every
    sleep, every call and every message.  Each of the five polls of steps
    5 to 8 either reads its status bit as waited for or runs into its
    deadline of 100 ms ([poll_timeouts] says which), and the steps that
    follow a poll are the same in both cases: a poll that times out is
    only remembered for the one message logged before the hand-over to
    the hardware sequencer.  The three override bits read back as
    cleared.  With a PLL that never reports, the three polls that wait
    for a status bit to come up do time out, and the run is as said. *)
Theorem pll_calibration_goes_on_after_poll_timeouts pf r w :
  exists t w',
    uphy_enable pf r w = Some (0, w') /\
    steps_run pf (uphy_steps pf r (call_result pf w (reset_control_deassert r)) t) w w' /\
    performed w w' (uphy_actions pf r) /\
    uphy_overrides_released pf r w' /\
    (never_reports pf ->
     cal_done_timeout t = true /\ lock_timeout t = true /\ rcal_done_timeout t = true).
Proof.
  destruct (uphy_enable_steps pf r w) as (t & w' & H1 & H2 & H3 & H4 & _ & H5).
  exists t, w'. split; [exact H1|]. split; [exact H2|]. split; [exact H3|].
  split; [exact H4|exact H5].
Qed.

Lemma pll_calibration_goes_on_after_poll_timeouts_witness :
  never_reports (with_hw dead_pll tegra210_board) /\
  (exists t w',
     uphy_enable (with_hw dead_pll tegra210_board) pex_rst idle_world = Some (0, w') /\
     steps_run (with_hw dead_pll tegra210_board)
       (uphy_steps (with_hw dead_pll tegra210_board) pex_rst 0 t) idle_world w' /\
     cal_done_timeout t = true /\ lock_timeout t = true /\ rcal_done_timeout t = true) /\
  (exists t w',
     uphy_enable (with_hw dead_pll tegra210_board) sata_rst idle_world = Some (0, w') /\
     steps_run (with_hw dead_pll tegra210_board)
       (uphy_steps (with_hw dead_pll tegra210_board) sata_rst 0 t) idle_world w' /\
     cal_done_timeout t = true /\ lock_timeout t = true /\ rcal_done_timeout t = true).
Proof.
  assert (Hn : never_reports (with_hw dead_pll tegra210_board))
    by (intros w offset; reflexivity).
  split; [exact Hn|]. split.
  - destruct (pll_calibration_goes_on_after_poll_timeouts
                (with_hw dead_pll tegra210_board) pex_rst idle_world)
      as (t & w' & E & Hs & _ & _ & Ht).
    exists t, w'. split; [exact E|]. split; [exact Hs|exact (Ht Hn)].
  - destruct (pll_calibration_goes_on_after_poll_timeouts
                (with_hw dead_pll tegra210_board) sata_rst idle_world)
      as (t & w' & E & Hs & _ & _ & Ht).
    exists t, w'. split; [exact E|]. split; [exact Hs|exact (Ht Hn)].
Defined.

(** With a PLL whose status bits never come up, three of the five polls
    of the PCIe calibration run into their deadline (300 ms pass) and the
    timeout is logged; the routine still performs all its steps and
    returns 0. *)
Example pex_calibration_with_dead_pll :
  exists w', uphy_enable (with_hw dead_pll tegra210_board) pex_rst idle_world
             = Some (0, w') /\
    (300000 <=? now w') = true /\
    logged "UPHY PEX PLL calibration timeout" w' = true /\
    performed idle_world w' (pex_uphy_actions false).
Proof.
  eexists. split; [vm_compute; reflexivity|].
  repeat split; vm_compute; reflexivity.
Qed.

(** C4, as the code has it.  When the reset line of a PLL cannot be
    released, the calibration routine logs the failure and goes on: after
    the call and the message it takes every step of the calibration, with
    the values, sleeps and polls of [uphy_calibration_steps], and returns
    0, not the error code. *)
Theorem reset_failure_is_logged_and_ignored pf r w :
  call_result pf w (reset_control_deassert r) < 0 ->
  exists t w', uphy_enable pf r w = Some (0, w') /\
    steps_run pf
      (Call (reset_control_deassert r) :: Log (reset_failure_message r) ::
       uphy_calibration_steps pf r (call_result pf w (reset_control_deassert r)) t)
      w w' /\
    logged (reset_failure_message r) w' = true /\
    performed w w' (uphy_actions pf r) /\
    uphy_overrides_released pf r w'.
Proof.
  intros Hneg.
  destruct (uphy_enable_steps pf r w) as (t & w' & H1 & H2 & H3 & H4 & H5 & _).
  exists t, w'. split; [exact H1|]. split; [|auto].
  unfold uphy_steps in H2. apply Z.ltb_lt in Hneg. rewrite Hneg in H2. exact H2.
Qed.

Lemma reset_failure_is_logged_and_ignored_witness :
  call_result (with_call_result reset_fails tegra210_board) idle_world
              (reset_control_deassert pex_rst) < 0 /\
  exists t w', uphy_enable (with_call_result reset_fails tegra210_board) pex_rst idle_world
             = Some (0, w') /\
    steps_run (with_call_result reset_fails tegra210_board)
      (Call (reset_control_deassert pex_rst) :: Log (reset_failure_message pex_rst) ::
       uphy_calibration_steps (with_call_result reset_fails tegra210_board) pex_rst
         (call_result (with_call_result reset_fails tegra210_board) idle_world
                      (reset_control_deassert pex_rst)) t)
      idle_world w' /\
    logged (reset_failure_message pex_rst) w' = true /\
    performed idle_world w'
      (uphy_actions (with_call_result reset_fails tegra210_board) pex_rst) /\
    uphy_overrides_released (with_call_result reset_fails tegra210_board) pex_rst w'.
Proof.
  split; [reflexivity|].
  apply (reset_failure_is_logged_and_ignored
           (with_call_result reset_fails tegra210_board) pex_rst idle_world).
  reflexivity.
Defined.

(** C4 does not hold as the specification has it: on a board whose PCIe
    PLL reset cannot be released (-EINVAL), the routine does not return
    -EINVAL; it returns 0 after all its steps. *)
Lemma reset_failure_is_not_returned :
  call_result (with_call_result reset_fails tegra210_board) idle_world
              (reset_control_deassert pex_rst) = - EINVAL /\
  (forall w', uphy_enable (with_call_result reset_fails tegra210_board) pex_rst
                idle_world <> Some (- EINVAL, w')) /\
  exists w', uphy_enable (with_call_result reset_fails tegra210_board) pex_rst
               idle_world = Some (0, w') /\
             performed idle_world w' (pex_uphy_actions false).
Proof.
  split; [reflexivity|]. split.
  - intros w' E. apply uphy_enable_result in E. discriminate E.
  - eexists. split; vm_compute; reflexivity.
Qed.

Lemma enable_actions_counts code :
  code = 1 \/ code = 0 \/ code = - ENODEV ->
  count_action (is_call (starts_calibration pex_rst))
               (padctl_enable_actions code ++ padctl_disable_actions) = 1%nat /\
  count_action (is_call (starts_calibration sata_rst))
               (padctl_enable_actions code ++ padctl_disable_actions)
  = (if code =? 0 then 1%nat else 0%nat) /\
  count_action (is_write_to XUSB_PADCTL_ELPG_PROGRAM_1) (padctl_enable_actions code) = 3%nat.
Proof. intros [->|[->| ->]]; repeat split. Qed.

(** C2.  From a count of zero, when the first shared enable succeeds, the
    sequence enable, enable, disable, disable returns four times and
    leaves the count at zero.  Over the four calls the calibration of the
    PCIe PLL is started once (and that of the SATA PLL once where the SoC
    has one), all within the first enable, which ends by releasing the
    three top-level clamps with three writes; the second enable and the
    first disable write no register and add nothing to the trace; the last
    disable re-applies the clamps with three writes and does nothing
    else. *)
Theorem nested_enable_disable pf w0 w1 :
  enable w0 = 0 ->
  tegra210_xusb_padctl_enable pf w0 = Some (0, w1) ->
  exists w2 w3 w4,
    tegra210_xusb_padctl_enable pf w1 = Some (0, w2) /\
    tegra210_xusb_padctl_disable pf w2 = Some (0, w3) /\
    tegra210_xusb_padctl_disable pf w3 = Some (0, w4) /\
    (enable w1 = 1 /\ enable w2 = 2 /\ enable w3 = 1 /\ enable w4 = 0) /\
    (* the first enable *)
    (actions_since w0 w1 = padctl_enable_actions (compatible_code pf) /\
     count_action (is_write_to XUSB_PADCTL_ELPG_PROGRAM_1) (actions_since w0 w1) = 3%nat /\
     top_clamps_released pf w1) /\
    (* the calls in between *)
    (regs w2 = regs w1 /\ trace w2 = trace w1) /\
    (regs w3 = regs w2 /\ trace w3 = trace w2) /\
    (* the last disable *)
    (actions_since w3 w4 = padctl_disable_actions /\ top_clamps_applied pf w4) /\
    (* all four calls *)
    actions_since w0 w4
    = padctl_enable_actions (compatible_code pf) ++ padctl_disable_actions /\
    count_action (is_call (starts_calibration pex_rst)) (actions_since w0 w4) = 1%nat /\
    count_action (is_call (starts_calibration sata_rst)) (actions_since w0 w4)
    = (if compatible_code pf =? 0 then 1%nat else 0%nat).
Proof.
  intros He0 E1.
  pose proof (padctl_enable_unlocked _ _ _ E1) as Hl0.
  destruct (wp_run _ _ _ _ _ (wp_padctl_enable_first pf w0 Hl0 He0) E1)
    as (He1 & _ & [(Hneg & _)|(_ & Hl1 & Hp1 & Hc1)]); [lia|].
  destruct (wp_padctl_enable_nested pf w1 Hl1 ltac:(lia))
    as (r2 & w2 & E2 & -> & He2 & Hl2 & Hr2 & Ht2 & _).
  rewrite He1 in He2. change (u32 (1 + 1)) with 2 in He2.
  destruct (wp_padctl_disable_nested pf w2 Hl2 ltac:(lia))
    as (r3 & w3 & E3 & -> & He3 & Hl3 & Hr3 & Ht3 & _).
  rewrite He2 in He3. change (2 - 1) with 1 in He3.
  destruct (wp_padctl_disable_last pf w3 Hl3 He3)
    as (r4 & w4 & E4 & -> & He4 & Hl4 & Hp4 & Hc4 & _).
  exists w2, w3, w4.
  pose proof (enable_actions_counts _ (compatible_code_cases pf)) as (C1 & C2 & C3).
  assert (Hp : performed w0 w4
                 (padctl_enable_actions (compatible_code pf) ++ padctl_disable_actions)).
  { eapply performed_trans; [exact Hp1|].
    eapply performed_same_trace; [|exact Hp4]. congruence. }
  rewrite (performed_actions_since _ _ _ Hp1), (performed_actions_since _ _ _ Hp4),
    (performed_actions_since _ _ _ Hp).
  repeat split; assumption.
Qed.

Lemma nested_enable_disable_witness :
  enable idle_world = 0 /\
  exists w1,
    tegra210_xusb_padctl_enable tegra210_board idle_world = Some (0, w1) /\
    exists w2 w3 w4,
      tegra210_xusb_padctl_enable tegra210_board w1 = Some (0, w2) /\
      tegra210_xusb_padctl_disable tegra210_board w2 = Some (0, w3) /\
      tegra210_xusb_padctl_disable tegra210_board w3 = Some (0, w4) /\
      enable w4 = 0 /\
      count_action (is_call (starts_calibration pex_rst)) (actions_since idle_world w4)
      = 1%nat.
Proof.
  split; [reflexivity|].
  eexists. split; [vm_compute; reflexivity|].
  match goal with
  | |- exists w2 w3 w4,
        tegra210_xusb_padctl_enable _ ?w1 = _ /\ _ =>
      destruct (nested_enable_disable tegra210_board idle_world w1
                  ltac:(reflexivity) ltac:(vm_compute; reflexivity))
        as (w2 & w3 & w4 & E2 & E3 & E4 & (_ & _ & _ & He4) & _ & _ & _ & _ & _ & Hn & _)
  end.
  exists w2, w3, w4. auto.
Defined.

(** C5, as the code has it.  A shared enable that fails returns a
    negative error code only on the 0 to 1 transition, and then leaves the
    count at one, not at zero, with the controller's mutex still held and
    no register written. *)
Theorem failed_enable_leaves_count_raised pf w r w' :
  0 <= enable w < 2 ^ 32 ->
  tegra210_xusb_padctl_enable pf w = Some (r, w') ->
  r < 0 ->
  enable w = 0 /\ enable w' = 1 /\ lock w' = true /\ regs w' = regs w.
Proof.
  intros Hwf E Hneg. pose proof (padctl_enable_unlocked _ _ _ E) as Hl.
  destruct (Z.eq_dec (enable w) 0) as [He|He].
  - destruct (wp_run _ _ _ _ _ (wp_padctl_enable_first pf w Hl He) E)
      as (He1 & _ & [(_ & Hl1 & Hr1 & _)|(Hz & _)]); [auto|lia].
  - destruct (wp_run _ _ _ _ _ (wp_padctl_enable_nested pf w Hl ltac:(lia)) E)
      as (Hz & _). lia.
Qed.

Lemma failed_enable_leaves_count_raised_witness :
  exists w',
    0 <= enable idle_world < 2 ^ 32 /\
    tegra210_xusb_padctl_enable (with_call_result plle_fails tegra210_board) idle_world
    = Some (- EINVAL, w') /\
    - EINVAL < 0 /\
    enable idle_world = 0 /\ enable w' = 1 /\ lock w' = true /\
    regs w' = regs idle_world.
Proof.
  eexists.
  assert (E : tegra210_xusb_padctl_enable (with_call_result plle_fails tegra210_board)
                idle_world = Some (- EINVAL, _)) by (vm_compute; reflexivity).
  split; [change (0 <= 0 < 2 ^ 32); lia|]. split; [exact E|]. split; [reflexivity|].
  exact (failed_enable_leaves_count_raised
           (with_call_result plle_fails tegra210_board) idle_world _ _
           ltac:(change (0 <= 0 < 2 ^ 32); lia) E ltac:(reflexivity)).
Defined.

(** C8.  In every state the controller can reach by shared enables and
    disables, the count stays within the range of an unsigned int; there a
    disable that finds the count at zero warns, returns 0, and changes
    neither the count nor any register (the warning is all it adds to the
    trace); and no disable ever wraps the count around: it either finds
    zero and leaves zero, or takes one off a positive count. *)
Theorem disable_at_zero_is_rejected pf w0 w :
  0 <= enable w0 < 2 ^ 32 ->
  reachable pf w0 w ->
  0 <= enable w < 2 ^ 32 /\
  (lock w = false -> enable w = 0 ->
   exists w', tegra210_xusb_padctl_disable pf w = Some (0, w') /\
              enable w' = 0 /\ regs w' = regs w /\ emitted w w' [EvWarn] /\
              lock w' = false) /\
  (forall r w', tegra210_xusb_padctl_disable pf w = Some (r, w') ->
                (enable w = 0 /\ enable w' = 0) \/
                (0 < enable w /\ enable w' = enable w - 1)).
Proof.
  intros Hwf Hr. pose proof (reachable_refcount_range pf w0 w Hwf Hr) as Hrange.
  split; [exact Hrange|]. split.
  - intros Hl He.
    destruct (wp_padctl_disable_zero pf w Hl He)
      as (r & w' & E & -> & He' & Hl' & Hr' & Ht' & _).
    exists w'. repeat split; assumption.
  - intros r w' E. exact (padctl_disable_refcount pf w r w' Hrange E).
Qed.

Lemma disable_at_zero_is_rejected_witness :
  0 <= enable idle_world < 2 ^ 32 /\
  reachable tegra210_board idle_world idle_world /\
  exists w', tegra210_xusb_padctl_disable tegra210_board idle_world = Some (0, w') /\
             enable w' = 0 /\ regs w' = regs idle_world /\
             emitted idle_world w' [EvWarn] /\ lock w' = false.
Proof.
  split; [change (0 <= 0 < 2 ^ 32); lia|]. split; [apply reachable_start|].
  exact (proj1 (proj2 (disable_at_zero_is_rejected tegra210_board idle_world idle_world
                         ltac:(change (0 <= 0 < 2 ^ 32); lia) (reachable_start _ _)))
               eq_refl eq_refl).
Defined.

(** On a tegra210b01 the first enable also enables the UPHY management
    clock, writes the PLL's init table instead of the calibration and DCO
    trims, and leaves the SATA PLL alone. *)
Example first_enable_on_tegra210b01 :
  exists w1,
    tegra210_xusb_padctl_enable
      (with_compatible (Some "nvidia,tegra210b01-xusb-padctl"%string) tegra210_board)
      idle_world = Some (0, w1) /\
    actions_since idle_world w1 = padctl_enable_actions 1 /\
    count_action (is_call (starts_calibration sata_rst)) (actions_since idle_world w1)
    = 0%nat.
Proof.
  eexists. split; [vm_compute; reflexivity|].
  split; vm_compute; reflexivity.
Qed.

(** ** The lane tables *)

Lemma lane_key_eqb type index lane :
  (index =? lane_index lane) && String.eqb type (lane_pad_name lane) = true <->
  mk_lane index type = lane.
Proof.
  destruct lane as [i n]. cbn [lane_index lane_pad_name].
  rewrite andb_true_iff, Z.eqb_eq, String.eqb_eq. split.
  - intros [-> ->]. reflexivity.
  - intros H. inversion H. auto.
Qed.

Lemma port_find_lane_in usable port map lane :
  tegra_xusb_port_find_lane usable port map = Some lane -> In lane (map_lanes map).
Proof.
  induction map as [|m map IH]; cbn [tegra_xusb_port_find_lane map_lanes]; [discriminate|].
  destruct (map_type m) as [type|]; [|discriminate].
  destruct ((map_port m =? port) && usable (mk_lane (map_index m) type)).
  - intros H. inversion H. left. reflexivity.
  - intros H. right. auto.
Qed.

(** In a table that names no lane twice, the reverse lookup of a lane
    found by the forward lookup gives back the port looked up. *)
Lemma find_lane_then_find_port usable port function map lane :
  NoDup (map_lanes map) ->
  tegra_xusb_port_find_lane usable port map = Some lane ->
  tegra210_usb3_lane_find_port_index lane map function = port.
Proof.
  induction map as [|m map IH];
    cbn [tegra_xusb_port_find_lane tegra210_usb3_lane_find_port_index map_lanes];
    [discriminate|].
  destruct (map_type m) as [type|]; [|discriminate].
  intros Hnd Hf. inversion Hnd as [|? ? Hnotin Hnd']; subst.
  destruct ((map_port m =? port) && usable (mk_lane (map_index m) type)) eqn:Hhit.
  - inversion Hf; subst. cbn [lane_index lane_pad_name].
    rewrite Z.eqb_refl, String.eqb_refl. cbn [andb].
    apply andb_true_iff in Hhit. destruct Hhit as [Hp _].
    apply Z.eqb_eq in Hp. exact Hp.
  - destruct ((map_index m =? lane_index lane) && String.eqb type (lane_pad_name lane))
      eqn:Hkey.
    + apply lane_key_eqb in Hkey. subst lane.
      exfalso. apply Hnotin. eapply port_find_lane_in. exact Hf.
    + apply IH; assumption.
Qed.

Lemma tegra210_usb3_map_NoDup : NoDup (map_lanes tegra210_usb3_map).
Proof.
  cbn. repeat constructor; cbn; intuition discriminate.
Qed.

Lemma tegra210b01_usb3_map_NoDup : NoDup (map_lanes tegra210b01_usb3_map).
Proof.
  cbn. repeat constructor; cbn; intuition discriminate.
Qed.

(** C3, as the code has it.  In either table, a port that resolves to a
    lane is found again by the reverse lookup of that lane, so no two
    ports resolve to the same lane.  The revision-B table is a bijection
    between its lanes and its ports. *)
Theorem usb3_port_lane_round_trip usable map port lane :
  map = tegra210_usb3_map \/ map = tegra210b01_usb3_map ->
  tegra_xusb_port_find_lane usable port map = Some lane ->
  tegra210_usb3_lane_find_port_index lane map "xusb" = port /\
  (forall port', tegra_xusb_port_find_lane usable port' map = Some lane -> port' = port) /\
  lane_map_bijective tegra210b01_usb3_map.
Proof.
  intros Hmap Hf.
  assert (Hnd : NoDup (map_lanes map)).
  { destruct Hmap as [-> | ->];
      [apply tegra210_usb3_map_NoDup|apply tegra210b01_usb3_map_NoDup]. }
  split; [|split].
  - apply (find_lane_then_find_port usable); assumption.
  - intros port' Hf'.
    rewrite <- (find_lane_then_find_port usable port "xusb" map lane Hnd Hf).
    rewrite <- (find_lane_then_find_port usable port' "xusb" map lane Hnd Hf').
    reflexivity.
  - intros l1 l2 H1 H2. cbn in H1, H2.
    repeat match goal with
           | H : _ \/ _ |- _ => destruct H as [H|H]
           | H : False |- _ => destruct H
           end; subst; cbn; intros E; try reflexivity; discriminate E.
Qed.

Lemma usb3_port_lane_round_trip_witness :
  (tegra210_usb3_map = tegra210_usb3_map \/ tegra210_usb3_map = tegra210b01_usb3_map) /\
  tegra_xusb_port_find_lane (fun _ => true) 0 tegra210_usb3_map
  = Some (mk_lane 6 "pcie") /\
  tegra210_usb3_lane_find_port_index (mk_lane 6 "pcie") tegra210_usb3_map "xusb" = 0.
Proof.
  split; [left; reflexivity|]. split; [reflexivity|].
  exact (proj1 (usb3_port_lane_round_trip (fun _ => true) tegra210_usb3_map 0
                  (mk_lane 6 "pcie") (or_introl eq_refl) eq_refl)).
Defined.

(** C3 does not hold as the specification has it: the baseline table is
    not a bijection.  Lanes pcie-0 and pcie-3 both stand for port 2, so
    the reverse lookup of pcie-3 followed by the forward lookup ends at
    pcie-0. *)
Lemma tegra210_usb3_map_is_not_a_bijection :
  ~ lane_map_bijective tegra210_usb3_map /\
  tegra210_usb3_lane_find_port_index (mk_lane 3 "pcie") tegra210_usb3_map "xusb" = 2 /\
  tegra_xusb_port_find_lane (fun _ => true) 2 tegra210_usb3_map = Some (mk_lane 0 "pcie").
Proof.
  split; [|split; reflexivity].
  intros H.
  specialize (H (mk_lane 0 "pcie") (mk_lane 3 "pcie")).
  assert (E : mk_lane 0 "pcie" = mk_lane 3 "pcie").
  { apply H; cbn; auto 10. }
  discriminate E.
Qed.

(** The same round trip through the driver's entry points, which pick the
    table by the SoC revision: a port mapped by [tegra210_usb3_port_map]
    is the port [tegra210_usb3_lane_map] finds for its lane. *)
Lemma t210b01_compatible_present pf w :
  compatible_code pf = 0 \/ compatible_code pf = 1 ->
  t210b01_compatible pf w = Some (compatible_code pf, w).
Proof.
  unfold t210b01_compatible, compatible_code.
  destruct (compatible pf) as [s|].
  - destruct (strstr s "tegra210b01"); reflexivity.
  - intros [H|H]; discriminate H.
Qed.

Corollary usb3_port_map_then_lane_map pf usable port lane w w1 :
  compatible_code pf = 0 \/ compatible_code pf = 1 ->
  tegra210_usb3_port_map pf usable port w = Some (Some lane, w1) ->
  tegra210_usb3_lane_map pf lane w1 = Some (port, w1).
Proof.
  intros Hc E. unfold tegra210_usb3_port_map, tegra210_usb3_lane_map, bind in *.
  rewrite t210b01_compatible_present in * by exact Hc.
  destruct Hc as [Hc|Hc]; rewrite Hc in *.
  - change (0 =? 1) with false in *. change (0 =? 0) with true. cbv iota in *.
    unfold ret in *.
    assert (Hf : tegra_xusb_port_find_lane usable port tegra210_usb3_map = Some lane)
      by congruence.
    assert (Hw : w1 = w) by congruence. subst w1.
    rewrite (find_lane_then_find_port usable port "xusb" _ lane
               tegra210_usb3_map_NoDup Hf).
    reflexivity.
  - change (1 =? 1) with true in *. cbv iota in *. unfold ret in *.
    assert (Hf : tegra_xusb_port_find_lane usable port tegra210b01_usb3_map = Some lane)
      by congruence.
    assert (Hw : w1 = w) by congruence. subst w1.
    rewrite (find_lane_then_find_port usable port "xusb" _ lane
               tegra210b01_usb3_map_NoDup Hf).
    reflexivity.
Qed.

(** ** The OTG arbiter *)

Lemma register_value_plain pf w offset :
  status_bits offset = 0 -> register_value pf w offset = u32 (regs w offset).
Proof.
  intros H. unfold register_value, clear_bits. rewrite H.
  rewrite Z.land_0_r, Z.lor_0_r. change (Z.lnot 0) with (-1).
  rewrite Z.land_m1_r. reflexivity.
Qed.

Ltac unfold_bits :=
  unfold u32, set_bits, clear_bits, VBUS_OVERRIDE_VBUS_ON, ID_OVERRIDE_FLOATING,
    ID_OVERRIDE_GROUNDED, ID_OVERRIDE, BIT in *;
  change (Z.land (Z.lnot 0) 0xf) with (Z.ones 4) in *;
  change (Z.land 8 0xf) with (Z.shiftl (Z.ones 1) 3) in *;
  change (Z.land 0 0xf) with 0 in *;
  change 0xffffffff with (Z.ones 32) in *;
  change (Z.shiftl 1 14) with (Z.shiftl (Z.ones 1) 14) in *.

Lemma vbus_on_value old :
  let new := u32 (set_bits (clear_bits (set_bits old VBUS_OVERRIDE_VBUS_ON)
                                       (ID_OVERRIDE (Z.lnot 0)))
                           ID_OVERRIDE_FLOATING) in
  Z.land new VBUS_OVERRIDE_VBUS_ON = VBUS_OVERRIDE_VBUS_ON /\
  Z.land new (ID_OVERRIDE (Z.lnot 0)) = ID_OVERRIDE_FLOATING /\
  (forall i, 0 <= i < 32 -> i <> 14 -> ~ 18 <= i < 22 -> Z.testbit new i = Z.testbit old i).
Proof.
  cbv zeta. repeat split.
  - unfold_bits. Z.bitblast.
  - unfold_bits. Z.bitblast.
  - intros i Hi H14 H18. unfold_bits. Z.bitblast_core.
Qed.

Lemma vbus_off_value old :
  let new := u32 (clear_bits old VBUS_OVERRIDE_VBUS_ON) in
  Z.land new VBUS_OVERRIDE_VBUS_ON = 0 /\
  Z.land new (ID_OVERRIDE (Z.lnot 0)) = Z.land (u32 old) (ID_OVERRIDE (Z.lnot 0)) /\
  (forall i, 0 <= i < 32 -> i <> 14 -> Z.testbit new i = Z.testbit old i).
Proof.
  cbv zeta. repeat split.
  - unfold_bits. Z.bitblast.
  - unfold_bits. Z.bitblast.
  - intros i Hi H14. unfold_bits. Z.bitblast_core.
Qed.

Ltac emitted_now :=
  unfold emitted;
  cbn [trace record store elapse with_enable with_lock with_otg_vbus_on rev app];
  reflexivity.

(** C10.  [vbus_override(true)] sets the VBUS-on bit and, in the same
    write, forces the ID-override field to floating, whatever it was; no
    other bit of the register changes.  [vbus_override(false)] clears the
    VBUS-on bit and changes nothing else, so the ID-override field reads
    as before. *)
Theorem vbus_override_register_update pf w :
  (exists w' new,
      tegra210_xusb_padctl_vbus_override pf true w = Some (0, w') /\
      emitted w w' [EvWrite new XUSB_PADCTL_USB2_VBUS_ID;
                    EvCall schedule_work_otg_vbus_work] /\
      register_value pf w' XUSB_PADCTL_USB2_VBUS_ID = new /\
      Z.land new VBUS_OVERRIDE_VBUS_ON = VBUS_OVERRIDE_VBUS_ON /\
      id_override_reads pf w' = ID_OVERRIDE_FLOATING /\
      (forall i, 0 <= i < 32 -> i <> 14 -> ~ 18 <= i < 22 ->
         Z.testbit new i = Z.testbit (register_value pf w XUSB_PADCTL_USB2_VBUS_ID) i)) /\
  (exists w' new,
      tegra210_xusb_padctl_vbus_override pf false w = Some (0, w') /\
      emitted w w' [EvWrite new XUSB_PADCTL_USB2_VBUS_ID;
                    EvCall schedule_work_otg_vbus_work] /\
      register_value pf w' XUSB_PADCTL_USB2_VBUS_ID = new /\
      Z.land new VBUS_OVERRIDE_VBUS_ON = 0 /\
      id_override_reads pf w' = id_override_reads pf w /\
      (forall i, 0 <= i < 32 -> i <> 14 ->
         Z.testbit new i = Z.testbit (register_value pf w XUSB_PADCTL_USB2_VBUS_ID) i)).
Proof.
  split.
  - destruct (vbus_on_value (register_value pf w XUSB_PADCTL_USB2_VBUS_ID))
      as (H1 & H2 & H3).
    eexists _, _.
    split; [unfold tegra210_xusb_padctl_vbus_override;
            cbn [bind ret padctl_readl padctl_writel call]; reflexivity|].
    assert (Hread : forall v,
      register_value pf
        (record (EvCall schedule_work_otg_vbus_work)
           (record (EvWrite (u32 v) XUSB_PADCTL_USB2_VBUS_ID)
              (store (u32 v) XUSB_PADCTL_USB2_VBUS_ID w)))
        XUSB_PADCTL_USB2_VBUS_ID = u32 v).
    { intros v. rewrite register_value_plain by reflexivity.
      cbn [regs record store]. rewrite Z.eqb_refl. apply u32_idem. }
    split; [emitted_now|]. split; [apply Hread|].
    split; [exact H1|]. split; [|exact H3].
    unfold id_override_reads. rewrite Hread. exact H2.
  - destruct (vbus_off_value (register_value pf w XUSB_PADCTL_USB2_VBUS_ID))
      as (H1 & H2 & H3).
    eexists _, _.
    split; [unfold tegra210_xusb_padctl_vbus_override;
            cbn [bind ret padctl_readl padctl_writel call]; reflexivity|].
    assert (Hread : forall v,
      register_value pf
        (record (EvCall schedule_work_otg_vbus_work)
           (record (EvWrite (u32 v) XUSB_PADCTL_USB2_VBUS_ID)
              (store (u32 v) XUSB_PADCTL_USB2_VBUS_ID w)))
        XUSB_PADCTL_USB2_VBUS_ID = u32 v).
    { intros v. rewrite register_value_plain by reflexivity.
      cbn [regs record store]. rewrite Z.eqb_refl. apply u32_idem. }
    split; [emitted_now|]. split; [apply Hread|].
    split; [exact H1|]. split; [|exact H3].
    unfold id_override_reads. rewrite Hread, H2.
    unfold register_value. rewrite u32_idem. reflexivity.
Qed.

(** After [id_override(true)] the field reads grounded; the override that
    follows it turns it to floating. *)
Example vbus_override_undoes_id_override :
  exists w1 w2,
    tegra210_xusb_padctl_id_override tegra210_board true idle_world = Some (0, w1) /\
    id_override_reads tegra210_board w1 = ID_OVERRIDE_GROUNDED /\
    tegra210_xusb_padctl_vbus_override tegra210_board true w1 = Some (0, w2) /\
    id_override_reads tegra210_board w2 = ID_OVERRIDE_FLOATING.
Proof.
  eexists _, _.
  split; [vm_compute; reflexivity|]. split; [vm_compute; reflexivity|].
  split; [vm_compute; reflexivity|]. vm_compute. reflexivity.
Qed.

(** ** The deferred VBUS work *)

Ltac prefix_of l base :=
  lazymatch l with
  | base => constr:(@nil event)
  | ?e :: ?l' => let p := prefix_of l' base in constr:(e :: p)
  end.

Ltac no_branch c :=
  lazymatch c with
  | context [if _ then _ else _] => fail
  | context [match _ with _ => _ end] => fail
  | _ => idtac
  end.

(** Splits a finished run [E : m w = Some _] of branching code into its
    paths, deciding the innermost conditions first. *)
Ltac inv_run E :=
  repeat first
    [ discriminate E
    | progress unfold bind, ret, mutex_lock, mutex_unlock, call, when, dev_err, emit,
        get_otg_vbus_on, set_otg_vbus_on, padctl_readl in E
    | progress cbv beta iota zeta in E
    | progress cbn [lock otg_vbus_on record store with_lock with_otg_vbus_on] in E
    | match type of E with
      | context [if ?c then _ else _] => no_branch c; destruct c eqn:?
      | context [match ?x with _ => _ end] => no_branch x; destruct x eqn:?
      end ].

Lemma otg_vbus_handle_effect pf index w w' :
  tegra210_xusb_padctl_otg_vbus_handle pf index w = Some (tt, w') ->
  exists es, emitted w w' es /\ regs w' = regs w /\
    (existsb switches_vbus_on es = true ->
     id_override_reads pf w = ID_OVERRIDE_GROUNDED).
Proof.
  intros E. unfold tegra210_xusb_padctl_otg_vbus_handle in E.
  cbn [bind padctl_readl] in E. fold (id_override_reads pf w) in E.
  destruct (id_override_reads pf w =? ID_OVERRIDE_GROUNDED) eqn:Hg.
  - apply Z.eqb_eq in Hg.
    unfold tegra210_xusb_padctl_vbus_power_on in E.
    inv_run E; injection E as <-;
      match goal with
      | |- exists es, emitted ?w ?W es /\ _ =>
          let t := eval cbn [trace record store with_lock with_otg_vbus_on] in (trace W) in
          let p := prefix_of t (trace w) in
          exists (rev p)
      end;
      (split; [emitted_now|]); (split; [reflexivity|]); intros _; exact Hg.
  - unfold tegra210_xusb_padctl_vbus_power_off in E.
    inv_run E; injection E as <-;
      match goal with
      | |- exists es, emitted ?w ?W es /\ _ =>
          let t := eval cbn [trace record store with_lock with_otg_vbus_on] in (trace W) in
          let p := prefix_of t (trace w) in
          exists (rev p)
      end;
      (split; [emitted_now|]); (split; [reflexivity|]);
      cbn [rev app existsb switches_vbus_on orb]; intros Hon; discriminate Hon.
Qed.

Lemma emitted_events_since w w' es : emitted w w' es -> events_since w w' = es.
Proof.
  unfold emitted, events_since. intros ->.
  rewrite length_app, length_rev.
  replace (List.length es + List.length (trace w) - List.length (trace w))%nat
    with (List.length (rev es)) by (rewrite length_rev; lia).
  rewrite firstn_app, Nat.sub_diag, firstn_all. cbn [firstn].
  rewrite app_nil_r. apply rev_involutive.
Qed.

(** C9.  After any sequence of ID overrides, VBUS overrides and runs of
    the deferred work, a run of the work's handler that switches bus power
    on (by the regulator or by the VBUS-enable pin) found the ID-override
    field reading grounded, which is not floating, and the field still
    reads so when the handler returns. *)
Theorem vbus_goes_on_only_when_id_is_grounded pf ops w0 w index w' :
  run_otg_ops pf ops w0 = Some (tt, w) ->
  tegra210_xusb_padctl_otg_vbus_handle pf index w = Some (tt, w') ->
  existsb switches_vbus_on (events_since w w') = true ->
  id_override_reads pf w = ID_OVERRIDE_GROUNDED /\
  id_override_reads pf w' = ID_OVERRIDE_GROUNDED /\
  ID_OVERRIDE_GROUNDED <> ID_OVERRIDE_FLOATING.
Proof.
  intros _ E Hon.
  destruct (otg_vbus_handle_effect pf index w w' E) as (es & Hes & Hregs & Hg).
  rewrite (emitted_events_since _ _ _ Hes) in Hon. specialize (Hg Hon).
  split; [exact Hg|]. split; [|discriminate].
  unfold id_override_reads in *.
  rewrite register_value_plain in * by reflexivity.
  rewrite Hregs. exact Hg.
Qed.

Lemma vbus_goes_on_only_when_id_is_grounded_witness :
  exists w w',
    run_otg_ops tegra210_board [op_vbus_override true; op_id_override true] idle_world
    = Some (tt, w) /\
    tegra210_xusb_padctl_otg_vbus_handle tegra210_board 0 w = Some (tt, w') /\
    existsb switches_vbus_on (events_since w w') = true /\
    id_override_reads tegra210_board w = ID_OVERRIDE_GROUNDED /\
    id_override_reads tegra210_board w' = ID_OVERRIDE_GROUNDED /\
    ID_OVERRIDE_GROUNDED <> ID_OVERRIDE_FLOATING.
Proof.
  eexists _, _.
  split; [vm_compute; reflexivity|].
  split; [vm_compute; reflexivity|].
  split; [vm_compute; reflexivity|].
  apply (vbus_goes_on_only_when_id_is_grounded tegra210_board
           [op_vbus_override true; op_id_override true] idle_world _ 0 _);
    vm_compute; reflexivity.
Defined.

(** With the ID field floating, as a VBUS override leaves it, the handler
    switches nothing on. *)
Example handler_leaves_vbus_off_while_floating :
  exists w w',
    run_otg_ops tegra210_board [op_id_override true; op_vbus_override true] idle_world
    = Some (tt, w) /\
    id_override_reads tegra210_board w = ID_OVERRIDE_FLOATING /\
    tegra210_xusb_padctl_otg_vbus_handle tegra210_board 0 w = Some (tt, w') /\
    events_since w w' = [].
Proof.
  eexists _, _.
  split; [vm_compute; reflexivity|].
  split; [vm_compute; reflexivity|].
  split; [vm_compute; reflexivity|].
  vm_compute. reflexivity.
Qed.

(** ** SuperSpeed port power sequencing *)

(** Writing a field of [n] bits at bit [s] and reading it back. *)
Lemma field_written x v s n :
  0 <= s -> 0 <= n -> s + n <= 32 ->
  Z.land (Z.shiftr (u32 (set_bits (clear_bits x (Z.shiftl (Z.ones n) s))
                                  (Z.shiftl (Z.land v (Z.ones n)) s))) s) (Z.ones n)
  = Z.land v (Z.ones n).
Proof.
  intros. unfold u32, set_bits, clear_bits.
  change 0xffffffff with (Z.ones 32). Z.bitblast.
Qed.

Lemma field_unmapped x s :
  0 <= s -> s + 3 <= 32 ->
  Z.land (u32 (set_bits (clear_bits x (Z.shiftl (Z.ones 3) s))
                        (Z.shiftl (Z.land (Z.ones 3) (Z.ones 3)) s)))
         (Z.shiftl (Z.ones 3) s)
  = Z.shiftl (Z.ones 3) s.
Proof.
  intros. unfold u32, set_bits, clear_bits.
  change 0xffffffff with (Z.ones 32). Z.bitblast.
Qed.

Ltac offsets :=
  unfold XUSB_PADCTL_SS_PORT_MAP, XUSB_PADCTL_ELPG_PROGRAM_1,
    XUSB_PADCTL_UPHY_USB3_PADX_ECTL1, XUSB_PADCTL_UPHY_USB3_PADX_ECTL2,
    XUSB_PADCTL_UPHY_USB3_PADX_ECTL3, XUSB_PADCTL_UPHY_USB3_PADX_ECTL4,
    XUSB_PADCTL_UPHY_USB3_PADX_ECTL6 in *.

(** Decides the comparisons of register offsets in the goal. *)
Ltac decide_eqbs :=
  repeat match goal with
  | |- context [Z.eqb ?a ?a] => rewrite (Z.eqb_refl a)
  | |- context [Z.eqb ?a ?b] =>
      replace (Z.eqb a b) with false by (symmetry; apply Z.eqb_neq; offsets; lia)
  end; cbv iota.

Section Ports.

Variable pf : platform.

(** Reads a plain register after some writes. *)
Ltac read_back :=
  rewrite ?(register_value_plain pf _ XUSB_PADCTL_ELPG_PROGRAM_1) by reflexivity;
  rewrite ?(register_value_plain pf _ XUSB_PADCTL_SS_PORT_MAP) by reflexivity;
  chase; decide_eqbs.

Lemma wp_usb3_port_disable usb3 w :
  0 <= usb3_index usb3 < 4 ->
  wp (tegra210_usb3_port_disable pf usb3) w
     (fun _ w' => usb3_port_disable_effect pf usb3 w w').
Proof.
  intros Hi. unfold tegra210_usb3_port_disable, usb3_port_disable_effect.
  cbv zeta. repeat wp_step.
  exists v, v0, v1, v2.
  assert (Hu : u32 v = v) by (rewrite Hv; apply u32_idem).
  assert (Hu0 : u32 v0 = v0) by (rewrite Hv0; apply u32_idem).
  assert (Hu1 : u32 v1 = v1) by (rewrite Hv1; apply u32_idem).
  assert (Hu2 : u32 v2 = v2) by (rewrite Hv2; apply u32_idem).
  split; [emitted_now|].
  split; [exact Hv|].
  split; [rewrite Hv0; read_back; rewrite Hu; reflexivity|].
  split; [rewrite Hv1; read_back; rewrite Hu0; reflexivity|].
  split.
  { rewrite Hv2. unfold XUSB_PADCTL_SS_PORT_MAP_PORTX_MAP_MASK,
      XUSB_PADCTL_SS_PORT_MAP_PORTX_MAP, XUSB_PADCTL_SS_PORT_MAP_PORTX_MAP_DISABLED.
    change 0x7 with (Z.ones 3). apply field_unmapped; lia. }
  split; read_back; assumption.
Qed.

Lemma field_written_value x v s n :
  0 <= s -> 0 <= n -> s + n <= 32 -> 0 <= v < 2 ^ n ->
  Z.land (Z.shiftr (u32 (set_bits (clear_bits x (Z.shiftl (Z.ones n) s))
                                  (Z.shiftl v s))) s) (Z.ones n) = v.
Proof.
  intros Hs Hn Hsn Hv.
  assert (E : Z.land v (Z.ones n) = v).
  { rewrite Z.land_ones by lia. apply Z.mod_small. exact Hv. }
  rewrite <- E at 1. rewrite field_written by lia. exact E.
Qed.

Lemma flag_written x (b : bool) s rest :
  0 <= s -> s + 4 < 32 -> Z.testbit rest (s + 4) = false ->
  Z.testbit (u32 (set_bits
     (clear_bits (if negb b then clear_bits x (Z.shiftl 1 (s + 4))
                  else set_bits x (Z.shiftl 1 (s + 4)))
                 (Z.shiftl (Z.ones 3) s)) rest)) (s + 4) = b.
Proof.
  intros Hs Hk Hr. unfold u32, set_bits, clear_bits in *.
  change 0xffffffff with (Z.ones 32). change 1 with (Z.ones 1).
  destruct b; cbn [negb]; Z.bitblast_core; rewrite ?Hr;
    repeat match goal with
           | |- context [Z.testbit x ?i] => destruct (Z.testbit x i)
           end; reflexivity.
Qed.

Lemma wp_usb3_port_enable usb3 w :
  0 <= usb3_index usb3 < 4 ->
  wp (tegra210_usb3_port_enable pf usb3) w
     (fun r w' => r = 0 /\ usb3_port_enable_effect pf usb3 w w').
Proof.
  intros Hi. unfold tegra210_usb3_port_enable, usb3_port_enable_effect.
  cbv zeta. repeat wp_step. split; [reflexivity|].
  exists v, v0, v1, v2, v3, v4, v5.
  assert (Hu3 : u32 v3 = v3) by (rewrite Hv3; apply u32_idem).
  assert (Hu4 : u32 v4 = v4) by (rewrite Hv4; apply u32_idem).
  assert (Hu5 : u32 v5 = v5) by (rewrite Hv5; apply u32_idem).
  assert (Hu : u32 v = v) by (rewrite Hv; apply u32_idem).
  split; [emitted_now|].
  split.
  { rewrite Hv. unfold XUSB_PADCTL_SS_PORT_MAP_PORTX_MAP_MASK,
      XUSB_PADCTL_SS_PORT_MAP_PORTX_MAP.
    change 0x7 with (Z.ones 3). apply field_written; lia. }
  split.
  { rewrite Hv. unfold XUSB_PADCTL_SS_PORT_MAP_PORTX_MAP_MASK,
      XUSB_PADCTL_SS_PORT_MAP_PORTX_MAP, XUSB_PADCTL_SS_PORT_MAP_PORTX_INTERNAL.
    change 0x7 with (Z.ones 3).
    apply flag_written; [lia|lia|].
    rewrite Z.shiftl_spec by lia.
    replace (usb3_index usb3 * 5 + 4 - usb3_index usb3 * 5) with 4 by lia.
    rewrite Z.land_spec. apply andb_false_r. }
  split.
  { rewrite Hv0. apply (field_written_value _ 2 16 2); [lia|lia|lia|]. cbn. lia. }
  split.
  { rewrite Hv1. rewrite <- (Z.shiftr_0_r (u32 _)).
    apply (field_written_value _ 0xfc 0 16); [lia|lia|lia|]. cbn. lia. }
  split.
  { rewrite Hv2. apply (field_written_value _ 0x1c7 16 16); [lia|lia|lia|]. cbn. lia. }
  split; [rewrite Hv3; read_back; reflexivity|].
  split; [rewrite Hv4; read_back; rewrite Hu3; reflexivity|].
  split; [rewrite Hv5; read_back; rewrite Hu4; reflexivity|].
  split; read_back; assumption.
Qed.

End Ports.

(** C6, as the code has it.  Powering a SuperSpeed port on returns 0 after
    writing, in this order: the port map register, which gets the port's
    internal flag and, in the port's field, the low three bits of
    [usb3->port] (not the index of the lane); the termination control,
    CTLE, DFE, CDR and equalizer trims; and the port's clamp bits, cleared
    in the order core-rail-down, early-clamp, clamp with a sleep of 100 to
    200 microseconds after each of the first two.  On return the port map
    register reads back what was written. *)
Theorem usb3_port_enable_sequence pf usb3 w :
  0 <= usb3_index usb3 < 4 ->
  exists w', tegra210_usb3_port_enable pf usb3 w = Some (0, w') /\
             usb3_port_enable_effect pf usb3 w w'.
Proof.
  intros Hi. destruct (wp_usb3_port_enable pf usb3 w Hi) as (r & w' & E & -> & H).
  exists w'. split; assumption.
Qed.

Lemma usb3_port_enable_sequence_witness :
  0 <= usb3_index usb3_port_0 < 4 /\
  exists w', tegra210_usb3_port_enable tegra210_board usb3_port_0 powered_down_world
             = Some (0, w') /\
             usb3_port_enable_effect tegra210_board usb3_port_0 powered_down_world w'.
Proof.
  split; [cbn; lia|].
  apply (usb3_port_enable_sequence tegra210_board usb3_port_0 powered_down_world).
  cbn; lia.
Defined.

(** C6 does not hold as the specification has it.  For port 0 of its
    example, mapped to lane pcie-6, the port map register is the first
    register written, not the last, the clamp bits are cleared after the
    trims, not before, and the port's field of the port map register reads
    back 1, the port's [usb3->port], not 6. *)
Lemma usb3_port_enable_writes_the_map_first :
  exists w',
    tegra210_usb3_port_enable tegra210_board usb3_port_0 powered_down_world
    = Some (0, w') /\
    events_since powered_down_world w' =
      [ EvWrite 0x39ce1 XUSB_PADCTL_SS_PORT_MAP;
        EvWrite 0x20000 0xa60; EvWrite 0xfc 0xa64; EvWrite 0xc0077f1f 0xa68;
        EvWrite 0x1c70000 0xa6c; EvWrite 0xfcf01368 0xa74;
        EvWrite 0xfffffffb XUSB_PADCTL_ELPG_PROGRAM_1; EvSleep 100 200;
        EvWrite 0xfffffff9 XUSB_PADCTL_ELPG_PROGRAM_1; EvSleep 100 200;
        EvWrite 0xfffffff8 XUSB_PADCTL_ELPG_PROGRAM_1 ] /\
    power_on_order_of_the_spec 0 (events_since powered_down_world w') = false /\
    Z.land (Z.shiftr (register_value tegra210_board w' XUSB_PADCTL_SS_PORT_MAP) (0 * 5)) 0x7
    = 1 /\
    lane_index (usb3_lane usb3_port_0) = 6.
Proof.
  eexists. split; [vm_compute; reflexivity|].
  split; [vm_compute; reflexivity|].
  split; [vm_compute; reflexivity|].
  split; vm_compute; reflexivity.
Qed.

(** C7, as the code has it.  Powering a SuperSpeed port off sets its
    early-clamp bit, waits 100 to 200 microseconds, sets its clamp bit,
    waits 250 to 350 microseconds, sets its core-rail-down bit, and then
    writes 7, the unmapped value, into the port's field of the port map
    register. *)
Theorem usb3_port_disable_sequence pf usb3 w :
  0 <= usb3_index usb3 < 4 ->
  exists w', tegra210_usb3_port_disable pf usb3 w = Some (tt, w') /\
             usb3_port_disable_effect pf usb3 w w'.
Proof.
  intros Hi. destruct (wp_usb3_port_disable pf usb3 w Hi) as ([] & w' & E & H).
  exists w'. split; assumption.
Qed.

Lemma usb3_port_disable_sequence_witness :
  0 <= usb3_index usb3_port_0 < 4 /\
  exists w', tegra210_usb3_port_disable tegra210_board usb3_port_0 idle_world
             = Some (tt, w') /\
             usb3_port_disable_effect tegra210_board usb3_port_0 idle_world w'.
Proof.
  split; [cbn; lia|].
  apply (usb3_port_disable_sequence tegra210_board usb3_port_0 idle_world).
  cbn; lia.
Defined.

(** C7 does not hold as the specification has it.  For port 0 with its
    clamps off, the first write sets early-clamp (bit 1) and leaves clamp
    (bit 0) clear, so clamp is not applied before early-clamp. *)
Lemma usb3_port_disable_sets_early_clamp_first :
  exists w',
    tegra210_usb3_port_disable tegra210_board usb3_port_0 idle_world = Some (tt, w') /\
    events_since idle_world w' =
      [ EvWrite 2 XUSB_PADCTL_ELPG_PROGRAM_1; EvSleep 100 200;
        EvWrite 3 XUSB_PADCTL_ELPG_PROGRAM_1; EvSleep 250 350;
        EvWrite 7 XUSB_PADCTL_ELPG_PROGRAM_1;
        EvWrite 7 XUSB_PADCTL_SS_PORT_MAP ] /\
    power_off_order_of_the_spec 0 (events_since idle_world w') = false /\
    power_off_order_of_the_driver 0 (events_since idle_world w') = true.
Proof.
  eexists. split; [vm_compute; reflexivity|].
  split; [vm_compute; reflexivity|].
  split; vm_compute; reflexivity.
Qed.

(** ** Steps of the pad routines *)

Lemma two_fields v a b c d :
  set_bits (set_bits (clear_bits (clear_bits v a) b) c) d
  = set_bits (clear_bits v (Z.lor a b)) (Z.lor c d).
Proof.
  unfold set_bits, clear_bits. Z.bitblast.
Qed.








(** What a routine that [does] something has done when it has returned. *)
Lemma does_run {A} pf (m : M A) w a w' (Q : A -> list step -> world -> Prop) :
  does pf m w Q -> m w = Some (a, w') -> exists l, steps_run pf l w w' /\ Q a l w'.
Proof.
  intros (a0 & l & w0 & E0 & Hs & HQ) E. rewrite E in E0. injection E0 as <- <-.
  exists l. split; assumption.
Qed.

Lemma set_bits_when (c : bool) v a b :
  (if c then set_bits (set_bits v a) b else set_bits v a)
  = set_bits v (if c then Z.lor a b else a).
Proof.
  destruct c; [|reflexivity]. unfold set_bits. symmetry. apply Z.lor_assoc.
Qed.

Section PadRules.

Variable pf : platform.
Variable bd : board.

Lemma does_mutex_lock w (Q : unit -> list step -> world -> Prop) :
  lock w = false -> (forall w', Q tt [Lock] w') -> does pf mutex_lock w Q.
Proof.
  intros Hl H. eapply does_one with (s := Lock) (w' := with_lock true w); [| |apply H].
  - unfold mutex_lock. rewrite Hl. reflexivity.
  - split; [exact Hl|reflexivity].
Qed.

Lemma does_mutex_unlock w (Q : unit -> list step -> world -> Prop) :
  (forall w', Q tt [Unlock] w') -> does pf mutex_unlock w Q.
Proof.
  intros H. eapply does_one with (s := Unlock); [reflexivity|reflexivity|apply H].
Qed.

Lemma does_udelay d w (Q : unit -> list step -> world -> Prop) :
  (forall w', Q tt [Delay d] w') -> does pf (udelay d) w Q.
Proof.
  intros H. eapply does_one with (s := Delay d); [reflexivity|reflexivity|apply H].
Qed.

Lemma does_prod_set name w (Q : Z -> list step -> world -> Prop) :
  (forall r w', Q r [Settings (fun r => snd (tegra_prod_set_by_name bd name r))] w') ->
  does pf (tegra_prod_set bd name) w Q.
Proof.
  intros H.
  eapply does_one with (s := Settings (fun r => snd (tegra_prod_set_by_name bd name r)));
    [reflexivity|reflexivity|apply H].
Qed.

(** A call that belongs to the pad changes no register and is no step. *)
Lemma does_padcall c s w (Q : Z * pads -> list step -> world -> Prop) :
  (forall r n, Q (r, with_padcall n c s) [] w) -> does pf (do_padcall bd c s) w Q.
Proof.
  intros H. exists (padcall_result bd w c, with_padcall (List.length (trace w)) c s), [], w.
  repeat split. apply H.
Qed.

(** Steps that are taken under a condition. *)
Lemma does_when (c : bool) (m : M unit) l w (Q : unit -> list step -> world -> Prop) :
  (forall w0 (Q' : unit -> list step -> world -> Prop),
      (forall w', Q' tt l w') -> does pf m w0 Q') ->
  (forall w', Q tt (if c then l else []) w') ->
  does pf (when c m) w Q.
Proof.
  intros Hm H. destruct c; cbn [when].
  - apply Hm. exact H.
  - apply does_ret, H.
Qed.

(** A register updated in a way that comes to clearing one field and
    setting bits in it. *)
Lemma does_rmw_as_field offset f mask bits w (Q : unit -> list step -> world -> Prop) :
  (forall v, f v = set_bits (clear_bits v mask) bits) ->
  (forall w', Q tt [SetField offset mask bits] w') ->
  does pf (rmw pf offset f) w Q.
Proof.
  intros Hf H. eapply does_one with (s := SetField offset mask bits); [reflexivity| |apply H].
  cbn [step_run]. unfold written. rewrite <- Hf. reflexivity.
Qed.

End PadRules.

Ltac pad_step bd :=
  lazymatch goal with
  | |- does _ (bind _ _) _ _ => apply does_bind; pad_step bd
  | |- does _ (let _ := _ in _) _ _ => cbv zeta; pad_step bd
  | |- does _ mutex_unlock _ _ => apply does_mutex_unlock; intros ?w
  | |- does _ (udelay _) _ _ => apply does_udelay; intros ?w
  | |- does _ (tegra_prod_set _ _) _ _ => apply does_prod_set; intros ?r ?w
  | |- does _ (do_padcall _ _ _) _ _ => apply does_padcall; intros ?r ?n
  | |- does _ (rmw _ _ (fun value =>
                 set_bits (set_bits (clear_bits (clear_bits value ?a) ?b) ?c) ?d)) _ _ =>
      apply does_rmw_as_field with (mask := Z.lor a b) (bits := Z.lor c d);
      [intros ?v; apply two_fields|intros ?w]
  | |- _ => does_step
  end; cbv beta.

(** ** The other routines: symbolic execution *)

Lemma testbit_BIT n i : 0 <= n -> 0 <= i -> Z.testbit (BIT n) i = (i =? n).
Proof.
  intros Hn Hi. unfold BIT. rewrite Z.shiftl_spec by lia.
  destruct (Z.eqb_spec i n) as [->|Hne].
  - rewrite Z.sub_diag. reflexivity.
  - destruct (Z.ltb_spec i n).
    + apply Z.testbit_neg_r. lia.
    + change 1 with (2 ^ 0). apply Z.pow2_bits_false. lia.
Qed.

Lemma wp_udelay d w (Q : unit -> world -> Prop) :
  Q tt (elapse d w) -> wp (udelay d) w Q.
Proof. intros H. eexists _, _. split; [reflexivity|exact H]. Qed.

Lemma wp_do_padcall bd c s w (Q : Z * pads -> world -> Prop) :
  (forall r, r = padcall_result bd w c ->
             Q (r, with_padcall (List.length (trace w)) c s) w) ->
  wp (do_padcall bd c s) w Q.
Proof. intros H. eexists _, _. split; [reflexivity|]. apply H. reflexivity. Qed.

Lemma wp_tegra_prod_set bd name w (Q : Z -> world -> Prop) :
  (forall r f, (r, f) = tegra_prod_set_by_name bd name (regs w) ->
               Q r (with_regs f w)) ->
  wp (tegra_prod_set bd name) w Q.
Proof.
  intros H. eexists _, _. split; [reflexivity|]. apply H.
  symmetry. apply surjective_pairing.
Qed.

Ltac chase2 :=
  repeat first
    [ progress cbn [trace regs enable lock otg_vbus_on now
                    record store elapse with_enable with_lock with_otg_vbus_on with_regs
                    actions action_of fst snd
                    usb2_pad_enable usb2_otg_port_base_1 powered_on utmi_pad_cfg padcalls
                    with_usb2_pad_enable with_usb2_otg_port_base_1 with_powered_on
                    with_utmi_pad_cfg with_padcall]
    | match goal with
      | H : regs ?x = _ |- context [regs ?x] => rewrite H
      | H : enable ?x = _ |- context [enable ?x] => rewrite H
      | H : lock ?x = _ |- context [lock ?x] => rewrite H
      | H : otg_vbus_on ?x = _ |- context [otg_vbus_on ?x] => rewrite H
      end ].

(** One step of a routine of the second part. *)
Ltac wp_more :=
  lazymatch goal with
  | |- wp (bind _ _) _ _ => apply wp_bind; wp_more
  | |- wp (let _ := _ in _) _ _ => cbv zeta; wp_more
  | |- wp mutex_lock _ _ => apply wp_mutex_lock; [chase2; try assumption; reflexivity|]
  | |- wp (udelay _) _ _ => apply wp_udelay
  | |- wp (dev_info _) _ _ => apply wp_emit
  | |- wp (dev_warn _) _ _ => apply wp_emit
  | |- wp (do_padcall _ _ _) _ _ => apply wp_do_padcall; intros ?r ?Hr
  | |- wp (tegra_prod_set _ _) _ _ => apply wp_tegra_prod_set; intros ?r ?f ?Hprod
  | |- _ => wp_prim
  end.

Lemma read_after_write pf v offset w :
  status_bits offset = 0 ->
  register_value pf (store (u32 v) offset w) offset = u32 v.
Proof.
  intros H. rewrite register_value_plain by exact H.
  cbn [regs store]. rewrite Z.eqb_refl. apply u32_idem.
Qed.

Lemma register_value_u32 pf w offset :
  u32 (register_value pf w offset) = register_value pf w offset.
Proof. apply u32_idem. Qed.

Lemma register_value_high pf w offset i :
  32 <= i -> Z.testbit (register_value pf w offset) i = false.
Proof.
  intros Hi. rewrite <- register_value_u32, testbit_u32 by lia.
  replace (i <? 32) with false by (symmetry; apply Z.ltb_ge; lia).
  apply andb_false_r.
Qed.

(** ** Wake *)

Lemma all_wake_events_bits k :
  (7 <= k < 11 \/ 21 <= k < 25 \/ k = 30) -> Z.testbit ALL_WAKE_EVENTS k = true.
Proof.
  intros H.
  assert (k = 7 \/ k = 8 \/ k = 9 \/ k = 10 \/ k = 21 \/ k = 22 \/ k = 23 \/ k = 24
          \/ k = 30) as Hk by lia.
  repeat (destruct Hk as [->|Hk]; [reflexivity|]). subst k. reflexivity.
Qed.

Lemma all_wake_events_not k :
  0 <= k -> ~ (7 <= k < 11 \/ 21 <= k < 25 \/ k = 30) ->
  Z.testbit ALL_WAKE_EVENTS k = false.
Proof.
  intros H0 H. change ALL_WAKE_EVENTS with 0x41e00780.
  destruct (Z.ltb_spec k 31).
  - assert (k = 0 \/ k = 1 \/ k = 2 \/ k = 3 \/ k = 4 \/ k = 5 \/ k = 6 \/ k = 11
            \/ k = 12 \/ k = 13 \/ k = 14 \/ k = 15 \/ k = 16 \/ k = 17 \/ k = 18
            \/ k = 19 \/ k = 20 \/ k = 25 \/ k = 26 \/ k = 27 \/ k = 28 \/ k = 29)
      as Hk by lia.
    repeat (destruct Hk as [->|Hk]; [reflexivity|]). subst k. reflexivity.
  - apply Z.bits_above_log2; [lia|]. change (Z.log2 0x41e00780) with 30. lia.
Qed.

Section Wake.

Variable pf : platform.

Lemma wp_arm event intr w :
  lock w = false -> 0 <= event -> 0 <= intr ->
  Z.testbit ALL_WAKE_EVENTS event = true ->
  wp (mutex_lock ;;
      rmw pf XUSB_PADCTL_ELPG_PROGRAM_0 (fun reg =>
        set_bits (clear_bits reg ALL_WAKE_EVENTS) (BIT event)) ;;
      usleep_range pf 10 20 ;;
      rmw pf XUSB_PADCTL_ELPG_PROGRAM_0 (fun reg =>
        set_bits (clear_bits reg ALL_WAKE_EVENTS) (BIT intr)) ;;
      mutex_unlock ;;
      ret 0) w
     (fun r w' => r = 0 /\ wake_armed pf event intr w w').
Proof.
  intros Hl He Hi Hall. repeat wp_more. split; [reflexivity|].
  assert (R1 : register_value pf (with_lock true w) XUSB_PADCTL_ELPG_PROGRAM_0
               = register_value pf w XUSB_PADCTL_ELPG_PROGRAM_0)
    by (rewrite !register_value_plain by reflexivity; reflexivity).
  rewrite R1 in Hv.
  assert (B1 : forall i, 0 <= i < 32 ->
            Z.testbit v i = (i =? event)
              || (negb (Z.testbit ALL_WAKE_EVENTS i)
                  && Z.testbit (register_value pf w XUSB_PADCTL_ELPG_PROGRAM_0) i)).
  { intros i Hi32. rewrite Hv. push_testbit. rewrite testbit_BIT by lia.
    replace (i <? 32) with true by (symmetry; apply Z.ltb_lt; lia).
    rewrite andb_true_r, orb_comm, (andb_comm (Z.testbit _ i)). reflexivity. }
  assert (U : u32 v = v) by (rewrite Hv; apply u32_idem).
  assert (R2 : register_value pf
                 (record (EvSleep 10 20)
                    (elapse d (record (EvWrite v XUSB_PADCTL_ELPG_PROGRAM_0)
                                 (store v XUSB_PADCTL_ELPG_PROGRAM_0 (with_lock true w)))))
                 XUSB_PADCTL_ELPG_PROGRAM_0 = v).
  { rewrite register_value_plain by reflexivity. cbn [regs record elapse store].
    rewrite Z.eqb_refl. exact U. }
  rewrite R2 in Hv0.
  exists v, v0. split; [unfold wake_writes; emitted_now|].
  split; [exact B1|]. split.
  { intros i Hi32. rewrite Hv0. push_testbit. rewrite testbit_BIT, B1 by lia.
    replace (i <? 32) with true by (symmetry; apply Z.ltb_lt; lia).
    rewrite andb_true_r.
    destruct (i =? event) eqn:E.
    - apply Z.eqb_eq in E. rewrite E, Hall.
      destruct (event =? intr),
        (Z.testbit (register_value pf w XUSB_PADCTL_ELPG_PROGRAM_0) event); reflexivity.
    - destruct (Z.testbit ALL_WAKE_EVENTS i), (i =? intr),
        (Z.testbit (register_value pf w XUSB_PADCTL_ELPG_PROGRAM_0) i); reflexivity. }
  split; [|reflexivity].
  rewrite register_value_plain by reflexivity. cbn [regs record with_lock store].
  rewrite Z.eqb_refl. rewrite Hv0. apply u32_idem.
Qed.

Lemma wp_disarm event intr w :
  lock w = false -> 0 <= event -> 0 <= intr ->
  wp (mutex_lock ;;
      rmw pf XUSB_PADCTL_ELPG_PROGRAM_0 (fun reg =>
        clear_bits (clear_bits reg ALL_WAKE_EVENTS) (BIT intr)) ;;
      usleep_range pf 10 20 ;;
      rmw pf XUSB_PADCTL_ELPG_PROGRAM_0 (fun reg =>
        set_bits (clear_bits reg ALL_WAKE_EVENTS) (BIT event)) ;;
      mutex_unlock ;;
      ret 0) w
     (fun r w' => r = 0 /\ wake_disarmed pf event intr w w').
Proof.
  intros Hl He Hi. repeat wp_more. split; [reflexivity|].
  assert (R1 : register_value pf (with_lock true w) XUSB_PADCTL_ELPG_PROGRAM_0
               = register_value pf w XUSB_PADCTL_ELPG_PROGRAM_0)
    by (rewrite !register_value_plain by reflexivity; reflexivity).
  rewrite R1 in Hv.
  assert (B1 : forall i, 0 <= i < 32 ->
            Z.testbit v i = negb (i =? intr) && negb (Z.testbit ALL_WAKE_EVENTS i)
                            && Z.testbit (register_value pf w XUSB_PADCTL_ELPG_PROGRAM_0) i).
  { intros i Hi32. rewrite Hv. push_testbit. rewrite testbit_BIT by lia.
    replace (i <? 32) with true by (symmetry; apply Z.ltb_lt; lia).
    destruct (Z.testbit ALL_WAKE_EVENTS i), (i =? intr),
      (Z.testbit (register_value pf w XUSB_PADCTL_ELPG_PROGRAM_0) i); reflexivity. }
  assert (U : u32 v = v) by (rewrite Hv; apply u32_idem).
  assert (R2 : register_value pf
                 (record (EvSleep 10 20)
                    (elapse d (record (EvWrite v XUSB_PADCTL_ELPG_PROGRAM_0)
                                 (store v XUSB_PADCTL_ELPG_PROGRAM_0 (with_lock true w)))))
                 XUSB_PADCTL_ELPG_PROGRAM_0 = v).
  { rewrite register_value_plain by reflexivity. cbn [regs record elapse store].
    rewrite Z.eqb_refl. exact U. }
  rewrite R2 in Hv0.
  exists v, v0. split; [unfold wake_writes; emitted_now|].
  split; [exact B1|]. split.
  { intros i Hi32. rewrite Hv0. push_testbit. rewrite testbit_BIT, B1 by lia.
    replace (i <? 32) with true by (symmetry; apply Z.ltb_lt; lia).
    rewrite andb_true_r.
    destruct (Z.testbit ALL_WAKE_EVENTS i), (i =? intr), (i =? event),
      (Z.testbit (register_value pf w XUSB_PADCTL_ELPG_PROGRAM_0) i); reflexivity. }
  split; [|reflexivity].
  rewrite register_value_plain by reflexivity. cbn [regs record with_lock store].
  rewrite Z.eqb_refl. rewrite Hv0. apply u32_idem.
Qed.

Lemma wp_hsic_disarm event intr w :
  lock w = false -> 0 <= event -> 0 <= intr ->
  Z.testbit ALL_WAKE_EVENTS intr = false ->
  wp (mutex_lock ;;
      rmw pf XUSB_PADCTL_ELPG_PROGRAM_0 (fun reg =>
        clear_bits (clear_bits reg ALL_WAKE_EVENTS) (Z.lnot (BIT intr))) ;;
      usleep_range pf 10 20 ;;
      rmw pf XUSB_PADCTL_ELPG_PROGRAM_0 (fun reg =>
        set_bits (clear_bits reg ALL_WAKE_EVENTS) (BIT event)) ;;
      mutex_unlock ;;
      ret 0) w
     (fun r w' => r = 0 /\ hsic_wake_disable_effect pf event intr w w').
Proof.
  intros Hl He Hi Hni. repeat wp_more. split; [reflexivity|].
  assert (R1 : register_value pf (with_lock true w) XUSB_PADCTL_ELPG_PROGRAM_0
               = register_value pf w XUSB_PADCTL_ELPG_PROGRAM_0)
    by (rewrite !register_value_plain by reflexivity; reflexivity).
  rewrite R1 in Hv.
  assert (B1 : forall i, 0 <= i < 32 ->
            Z.testbit v i
            = (i =? intr) && Z.testbit (register_value pf w XUSB_PADCTL_ELPG_PROGRAM_0) i).
  { intros i Hi32. rewrite Hv. push_testbit. rewrite Z.lnot_spec, testbit_BIT by lia.
    replace (i <? 32) with true by (symmetry; apply Z.ltb_lt; lia).
    destruct (i =? intr) eqn:E.
    - apply Z.eqb_eq in E. rewrite E, Hni.
      destruct (Z.testbit (register_value pf w XUSB_PADCTL_ELPG_PROGRAM_0) intr);
        reflexivity.
    - destruct (Z.testbit ALL_WAKE_EVENTS i),
        (Z.testbit (register_value pf w XUSB_PADCTL_ELPG_PROGRAM_0) i); reflexivity. }
  assert (U : u32 v = v) by (rewrite Hv; apply u32_idem).
  assert (R2 : register_value pf
                 (record (EvSleep 10 20)
                    (elapse d (record (EvWrite v XUSB_PADCTL_ELPG_PROGRAM_0)
                                 (store v XUSB_PADCTL_ELPG_PROGRAM_0 (with_lock true w)))))
                 XUSB_PADCTL_ELPG_PROGRAM_0 = v).
  { rewrite register_value_plain by reflexivity. cbn [regs record elapse store].
    rewrite Z.eqb_refl. exact U. }
  rewrite R2 in Hv0.
  exists v, v0. split; [unfold wake_writes; emitted_now|].
  split; [exact B1|]. split.
  { intros i Hi32. rewrite Hv0. push_testbit. rewrite testbit_BIT, B1 by lia.
    replace (i <? 32) with true by (symmetry; apply Z.ltb_lt; lia).
    rewrite andb_true_r.
    destruct (i =? intr) eqn:E.
    - apply Z.eqb_eq in E. rewrite E, Hni.
      destruct (intr =? event),
        (Z.testbit (register_value pf w XUSB_PADCTL_ELPG_PROGRAM_0) intr); reflexivity.
    - destruct (i =? event); reflexivity. }
  split; [|reflexivity].
  rewrite register_value_plain by reflexivity. cbn [regs record with_lock store].
  rewrite Z.eqb_refl. rewrite Hv0. apply u32_idem.
Qed.

End Wake.

(** X1.  With the lock free and for a USB2 lane 0 to 3,
    [tegra210_utmi_phy_enable_wake] returns 0 with the lock released after
    two writes to [XUSB_PADCTL_ELPG_PROGRAM_0]: the first acknowledges the
    lane's own wake event (bit index + 7) and no other, the second sets
    the lane's wake interrupt enable (bit index); 
    [tegra210_utmi_phy_disable_wake] clears that enable and then
    acknowledges the lane's event.  Neither changes the interrupt enable
    of another port, and neither writes a one to another port's event
    bit. *)
Theorem utmi_wake_arm_and_disarm pf p w :
  lock w = false ->
  0 <= lane_index (phy_get_drvdata p) < 4 ->
  (exists w', tegra210_utmi_phy_enable_wake pf p w = Some (0, w') /\
              wake_armed pf (lane_index (phy_get_drvdata p) + 7)
                         (lane_index (phy_get_drvdata p)) w w') /\
  (exists w', tegra210_utmi_phy_disable_wake pf p w = Some (0, w') /\
              wake_disarmed pf (lane_index (phy_get_drvdata p) + 7)
                            (lane_index (phy_get_drvdata p)) w w').
Proof.
  intros Hl Hi. split.
  - destruct (wp_arm pf (lane_index (phy_get_drvdata p) + 7)
                (lane_index (phy_get_drvdata p)) w Hl ltac:(lia) ltac:(lia))
      as (r & w' & E & -> & H).
    { apply all_wake_events_bits. lia. }
    exists w'. split; [exact E|exact H].
  - destruct (wp_disarm pf (lane_index (phy_get_drvdata p) + 7)
                (lane_index (phy_get_drvdata p)) w Hl ltac:(lia) ltac:(lia))
      as (r & w' & E & -> & H).
    exists w'. split; [exact E|exact H].
Qed.

Lemma utmi_wake_arm_and_disarm_witness :
  lock idle_world = false /\
  0 <= lane_index (phy_get_drvdata (usb2_phy 2)) < 4 /\
  (exists w', tegra210_utmi_phy_enable_wake tegra210_board (usb2_phy 2) idle_world
              = Some (0, w') /\
              wake_armed tegra210_board (lane_index (phy_get_drvdata (usb2_phy 2)) + 7)
                         (lane_index (phy_get_drvdata (usb2_phy 2))) idle_world w') /\
  (exists w', tegra210_utmi_phy_disable_wake tegra210_board (usb2_phy 2) idle_world
              = Some (0, w') /\
              wake_disarmed tegra210_board (lane_index (phy_get_drvdata (usb2_phy 2)) + 7)
                            (lane_index (phy_get_drvdata (usb2_phy 2))) idle_world w').
Proof.
  split; [reflexivity|]. split; [cbn; lia|].
  apply (utmi_wake_arm_and_disarm tegra210_board (usb2_phy 2) idle_world);
    [reflexivity | cbn; lia].
Defined.

(** X2.  For a lane that [tegra210_usb3_lane_map] resolves to a SuperSpeed
    port 0 to 3, and with the lock free, [tegra210_usb3_phy_enable_wake]
    acknowledges that port's wake event (bit port + 21) and then sets its
    wake interrupt enable (bit port + 14); 
    [tegra210_usb3_phy_disable_wake] clears the enable and then
    acknowledges the event.  Both return 0 with the lock released, and
    leave the enables and events of the other ports alone. *)
Theorem usb3_wake_arm_and_disarm pf p index w :
  lock w = false ->
  tegra210_usb3_lane_map pf (phy_get_drvdata p) w = Some (index, w) ->
  0 <= index < 4 ->
  (exists w', tegra210_usb3_phy_enable_wake pf p w = Some (0, w') /\
              wake_armed pf (index + 21) (index + 14) w w') /\
  (exists w', tegra210_usb3_phy_disable_wake pf p w = Some (0, w') /\
              wake_disarmed pf (index + 21) (index + 14) w w').
Proof.
  intros Hl Hm Hi. split.
  - destruct (wp_arm pf (index + 21) (index + 14) w Hl ltac:(lia) ltac:(lia))
      as (r & w' & E & -> & H).
    { apply all_wake_events_bits. lia. }
    exists w'. split; [|exact H].
    unfold tegra210_usb3_phy_enable_wake. unfold bind at 1. rewrite Hm. exact E.
  - destruct (wp_disarm pf (index + 21) (index + 14) w Hl ltac:(lia) ltac:(lia))
      as (r & w' & E & -> & H).
    exists w'. split; [|exact H].
    unfold tegra210_usb3_phy_disable_wake. unfold bind at 1. rewrite Hm. exact E.
Qed.

Lemma usb3_wake_arm_and_disarm_witness :
  lock idle_world = false /\
  tegra210_usb3_lane_map tegra210_board (phy_get_drvdata (pcie_phy 5)) idle_world
  = Some (1, idle_world) /\
  0 <= 1 < 4 /\
  (exists w', tegra210_usb3_phy_enable_wake tegra210_board (pcie_phy 5) idle_world
              = Some (0, w') /\
              wake_armed tegra210_board (1 + 21) (1 + 14) idle_world w') /\
  (exists w', tegra210_usb3_phy_disable_wake tegra210_board (pcie_phy 5) idle_world
              = Some (0, w') /\
              wake_disarmed tegra210_board (1 + 21) (1 + 14) idle_world w').
Proof.
  split; [reflexivity|]. split; [reflexivity|]. split; [lia|].
  apply (usb3_wake_arm_and_disarm tegra210_board (pcie_phy 5) 1 idle_world);
    [reflexivity | reflexivity | lia].
Defined.

(** X3.  For the HSIC lane (index 0) and with the lock free,
    [tegra210_hsic_phy_enable_wake] acknowledges the lane's wake event
    (bit 30) and sets its wake interrupt enable (bit 28), as the other
    lane kinds do.  [tegra210_hsic_phy_disable_wake] does not clear the
    enable: its first write keeps bit 28 as it was read and writes zero to
    every other bit of the register, so that the wake interrupt enables of
    all USB2 and SuperSpeed ports are cleared instead; its second write
    acknowledges the lane's event. *)
Theorem hsic_wake_arm_and_disarm pf p w :
  lock w = false ->
  lane_index (phy_get_drvdata p) = 0 ->
  (exists w', tegra210_hsic_phy_enable_wake pf p w = Some (0, w') /\
              wake_armed pf 30 28 w w') /\
  (exists w', tegra210_hsic_phy_disable_wake pf p w = Some (0, w') /\
              hsic_wake_disable_effect pf 30 28 w w' /\
              (forall i, 0 <= i < 28 ->
                 Z.testbit (register_value pf w' XUSB_PADCTL_ELPG_PROGRAM_0) i = false) /\
              Z.testbit (register_value pf w' XUSB_PADCTL_ELPG_PROGRAM_0) 28
              = Z.testbit (register_value pf w XUSB_PADCTL_ELPG_PROGRAM_0) 28).
Proof.
  intros Hl Hi. split.
  - destruct (wp_arm pf 30 28 w Hl ltac:(lia) ltac:(lia) ltac:(reflexivity))
      as (r & w' & E & -> & H).
    exists w'. split; [|exact H].
    unfold tegra210_hsic_phy_enable_wake. rewrite Hi. exact E.
  - destruct (wp_hsic_disarm pf 30 28 w Hl ltac:(lia) ltac:(lia) ltac:(reflexivity))
      as (r & w' & E & -> & H).
    exists w'. split; [|split; [exact H|]].
    { unfold tegra210_hsic_phy_disable_wake. rewrite Hi. exact E. }
    destruct H as (v1 & v2 & _ & _ & B2 & R & _). rewrite R. split.
    + intros i Hi28. rewrite B2 by lia.
      replace (i =? 30) with false by (symmetry; apply Z.eqb_neq; lia).
      replace (i =? 28) with false by (symmetry; apply Z.eqb_neq; lia).
      reflexivity.
    + rewrite B2 by lia. reflexivity.
Qed.

Lemma hsic_wake_arm_and_disarm_witness :
  lock idle_world = false /\
  lane_index (phy_get_drvdata (hsic_phy 0)) = 0 /\
  (exists w', tegra210_hsic_phy_enable_wake tegra210_board (hsic_phy 0) idle_world
              = Some (0, w') /\
              wake_armed tegra210_board 30 28 idle_world w') /\
  (exists w', tegra210_hsic_phy_disable_wake tegra210_board (hsic_phy 0) idle_world
              = Some (0, w') /\
              hsic_wake_disable_effect tegra210_board 30 28 idle_world w' /\
              (forall i, 0 <= i < 28 ->
                 Z.testbit (register_value tegra210_board w' XUSB_PADCTL_ELPG_PROGRAM_0) i
                 = false) /\
              Z.testbit (register_value tegra210_board w' XUSB_PADCTL_ELPG_PROGRAM_0) 28
              = Z.testbit (register_value tegra210_board idle_world
                             XUSB_PADCTL_ELPG_PROGRAM_0) 28).
Proof.
  split; [reflexivity|]. split; [reflexivity|].
  apply (hsic_wake_arm_and_disarm tegra210_board (hsic_phy 0) idle_world); reflexivity.
Defined.

(** With every wake interrupt enabled beforehand, disabling wake on the
    HSIC lane leaves only the HSIC enable (bit 28) set, beside the
    acknowledged event (bit 30). *)
Example hsic_disable_wake_clears_the_other_enables :
  let w := mk_world (fun o => if o =? XUSB_PADCTL_ELPG_PROGRAM_0 then 0x1003c00f else 0)
                    0 [] 0 false false in
  exists w', tegra210_hsic_phy_disable_wake tegra210_board (hsic_phy 0) w = Some (0, w') /\
             events_since w w' = [ EvWrite 0x10000000 XUSB_PADCTL_ELPG_PROGRAM_0;
                                   EvSleep 10 20;
                                   EvWrite 0x50000000 XUSB_PADCTL_ELPG_PROGRAM_0 ].
Proof.
  eexists. split; [vm_compute; reflexivity|]. vm_compute. reflexivity.
Qed.

(** ** Sleepwalk *)

Lemma record_neq e w : record e w <> w.
Proof.
  intros H. apply (f_equal trace) in H. cbn [trace record] in H.
  apply (f_equal (@List.length event)) in H. cbn [List.length] in H. lia.
Qed.

(** A lane lookup that leaves the state as it was gives the same port in
    every state. *)
Lemma usb3_lane_map_stable pf lane index w :
  tegra210_usb3_lane_map pf lane w = Some (index, w) ->
  forall w', tegra210_usb3_lane_map pf lane w' = Some (index, w').
Proof.
  unfold tegra210_usb3_lane_map, t210b01_compatible.
  destruct (compatible pf) as [s|].
  - destruct (strstr s "tegra210b01"); cbn [bind ret]; intros E w';
      [change (1 =? 1) with true in *
      |change (0 =? 1) with false in *; change (0 =? 0) with true in *];
      cbv iota in *; injection E as <-; reflexivity.
  - cbn [bind ret dev_err emit]. change (- ENODEV =? 1) with false.
    change (- ENODEV =? 0) with false. cbv iota. intros E.
    injection E as _ E. exfalso. exact (record_neq _ _ E).
Qed.

Lemma u32_lor_bit x k :
  0 <= k < 32 -> u32 (set_bits (u32 x) (BIT k)) = Z.lor (u32 x) (BIT k).
Proof.
  intros Hk. unfold u32, set_bits, BIT. change 0xffffffff with (Z.ones 32).
  change 1 with (Z.ones 1). Z.bitblast.
Qed.

Lemma u32_land_lnot x m :
  u32 (clear_bits (u32 x) m) = Z.land (u32 x) (Z.lnot m).
Proof.
  unfold u32, clear_bits. change 0xffffffff with (Z.ones 32). Z.bitblast.
Qed.

Section Sleepwalk.

Variable pf : platform.

Lemma wp_sleepwalk_enter index w :
  lock w = false -> 0 <= index < 4 ->
  wp (mutex_lock ;;
      rmw pf XUSB_PADCTL_ELPG_PROGRAM_1 (fun reg =>
        set_bits reg (SSPX_ELPG_CLAMP_EN_EARLY index)) ;;
      usleep_range pf 100 200 ;;
      rmw pf XUSB_PADCTL_ELPG_PROGRAM_1 (fun reg =>
        set_bits reg (SSPX_ELPG_CLAMP_EN index)) ;;
      usleep_range pf 250 350 ;;
      mutex_unlock ;;
      ret 0) w
     (fun r w' => r = 0 /\ usb3_sleepwalk_entered pf index w w').
Proof.
  intros Hl Hi. repeat wp_more. split; [reflexivity|].
  assert (R1 : register_value pf (with_lock true w) XUSB_PADCTL_ELPG_PROGRAM_1
               = register_value pf w XUSB_PADCTL_ELPG_PROGRAM_1)
    by (rewrite !register_value_plain by reflexivity; reflexivity).
  rewrite R1 in Hv.
  rewrite <- register_value_u32 in Hv.
  unfold SSPX_ELPG_CLAMP_EN_EARLY in Hv. rewrite u32_lor_bit in Hv by lia.
  rewrite register_value_u32 in Hv. fold (SSPX_ELPG_CLAMP_EN_EARLY index) in Hv.
  assert (U : u32 v = v).
  { rewrite Hv. rewrite <- register_value_u32. unfold SSPX_ELPG_CLAMP_EN_EARLY.
    rewrite <- u32_lor_bit by lia. apply u32_idem. }
  assert (R2 : register_value pf
                 (record (EvSleep 100 200)
                    (elapse d (record (EvWrite v XUSB_PADCTL_ELPG_PROGRAM_1)
                                 (store v XUSB_PADCTL_ELPG_PROGRAM_1 (with_lock true w)))))
                 XUSB_PADCTL_ELPG_PROGRAM_1 = v).
  { rewrite register_value_plain by reflexivity. cbn [regs record elapse store].
    rewrite Z.eqb_refl. exact U. }
  rewrite R2 in Hv0. rewrite <- U in Hv0.
  unfold SSPX_ELPG_CLAMP_EN in Hv0. rewrite u32_lor_bit in Hv0 by lia.
  rewrite U in Hv0. fold (SSPX_ELPG_CLAMP_EN index) in Hv0.
  assert (V0 : v0 = Z.lor (register_value pf w XUSB_PADCTL_ELPG_PROGRAM_1)
                          (SSPX_ELPG_SLEEPWALK_CLAMPS index)).
  { rewrite Hv0, Hv. unfold SSPX_ELPG_SLEEPWALK_CLAMPS. symmetry. apply Z.lor_assoc. }
  exists v, v0. split; [emitted_now|]. split; [exact Hv|]. split; [exact V0|].
  split; [|reflexivity].
  rewrite register_value_plain by reflexivity.
  cbn [regs record with_lock elapse store]. rewrite Z.eqb_refl.
  rewrite Hv0, <- U. unfold SSPX_ELPG_CLAMP_EN. rewrite <- u32_lor_bit by lia.
  apply u32_idem.
Qed.

Lemma wp_sleepwalk_leave index w :
  lock w = false -> 0 <= index < 4 ->
  wp (mutex_lock ;;
      rmw pf XUSB_PADCTL_ELPG_PROGRAM_1 (fun reg =>
        clear_bits reg (SSPX_ELPG_CLAMP_EN_EARLY index)) ;;
      usleep_range pf 100 200 ;;
      rmw pf XUSB_PADCTL_ELPG_PROGRAM_1 (fun reg =>
        clear_bits reg (SSPX_ELPG_CLAMP_EN index)) ;;
      mutex_unlock ;;
      ret 0) w
     (fun r w' => r = 0 /\ usb3_sleepwalk_left pf index w w').
Proof.
  intros Hl Hi. repeat wp_more. split; [reflexivity|].
  assert (R1 : register_value pf (with_lock true w) XUSB_PADCTL_ELPG_PROGRAM_1
               = register_value pf w XUSB_PADCTL_ELPG_PROGRAM_1)
    by (rewrite !register_value_plain by reflexivity; reflexivity).
  rewrite R1 in Hv.
  rewrite <- register_value_u32, u32_land_lnot, register_value_u32 in Hv.
  assert (U : u32 v = v).
  { rewrite Hv. rewrite <- register_value_u32, <- u32_land_lnot. apply u32_idem. }
  assert (R2 : register_value pf
                 (record (EvSleep 100 200)
                    (elapse d (record (EvWrite v XUSB_PADCTL_ELPG_PROGRAM_1)
                                 (store v XUSB_PADCTL_ELPG_PROGRAM_1 (with_lock true w)))))
                 XUSB_PADCTL_ELPG_PROGRAM_1 = v).
  { rewrite register_value_plain by reflexivity. cbn [regs record elapse store].
    rewrite Z.eqb_refl. exact U. }
  rewrite R2 in Hv0. rewrite <- U in Hv0. rewrite u32_land_lnot, U in Hv0.
  assert (V0 : v0 = Z.land (register_value pf w XUSB_PADCTL_ELPG_PROGRAM_1)
                           (Z.lnot (SSPX_ELPG_SLEEPWALK_CLAMPS index))).
  { rewrite Hv0, Hv. unfold SSPX_ELPG_SLEEPWALK_CLAMPS.
    rewrite <- Z.land_assoc. f_equal. Z.bitblast. }
  exists v, v0. split; [emitted_now|]. split; [exact Hv|]. split; [exact V0|].
  split; [|reflexivity].
  rewrite register_value_plain by reflexivity.
  cbn [regs record with_lock elapse store]. rewrite Z.eqb_refl.
  rewrite Hv0, <- U, <- u32_land_lnot. apply u32_idem.
Qed.

End Sleepwalk.

(** X4.  For a lane that [tegra210_usb3_lane_map] resolves to SuperSpeed
    port [index], and with the lock free,
    [tegra210_usb3_phy_enable_sleepwalk] sets the port's early-clamp bit,
    waits 100 to 200 microseconds, sets its clamp bit and waits 250 to
    350 microseconds: these are the first four steps of
    [tegra210_usb3_port_disable] for that port.
    [tegra210_usb3_phy_disable_sleepwalk] run after it clears the two
    bits again, early-clamp first.  Neither touches the port's
    core-rail-down bit or any bit of another port, and both release the
    lock and return 0. *)
Theorem usb3_sleepwalk_clamps pf p usb3 w :
  lock w = false ->
  tegra210_usb3_lane_map pf (phy_get_drvdata p) w = Some (usb3_index usb3, w) ->
  0 <= usb3_index usb3 < 4 ->
  exists w1 w2 wd,
    tegra210_usb3_phy_enable_sleepwalk pf p w = Some (0, w1) /\
    usb3_sleepwalk_entered pf (usb3_index usb3) w w1 /\
    tegra210_usb3_port_disable pf usb3 w = Some (tt, wd) /\
    events_since w w1 = firstn 4 (events_since w wd) /\
    tegra210_usb3_phy_disable_sleepwalk pf p w1 = Some (0, w2) /\
    usb3_sleepwalk_left pf (usb3_index usb3) w1 w2 /\
    register_value pf w2 XUSB_PADCTL_ELPG_PROGRAM_1
    = Z.land (register_value pf w XUSB_PADCTL_ELPG_PROGRAM_1)
             (Z.lnot (SSPX_ELPG_SLEEPWALK_CLAMPS (usb3_index usb3))).
Proof.
  intros Hl Hm Hi.
  destruct (wp_sleepwalk_enter pf (usb3_index usb3) w Hl Hi) as (r & w1 & E1 & -> & H1).
  assert (Hl1 : lock w1 = false) by (destruct H1 as (? & ? & ? & ? & ? & ? & L); exact L).
  destruct (wp_sleepwalk_leave pf (usb3_index usb3) w1 Hl1 Hi) as (r & w2 & E2 & -> & H2).
  destruct (wp_usb3_port_disable pf usb3 w Hi) as ([] & wd & Ed & Hd).
  exists w1, w2, wd.
  split. { unfold tegra210_usb3_phy_enable_sleepwalk. unfold bind at 1. rewrite Hm. exact E1. }
  split; [exact H1|]. split; [exact Ed|].
  split.
  { destruct H1 as (c1 & c2 & Hem & Hc1 & Hc2 & _).
    destruct Hd as (d1 & d2 & d3 & m & Hemd & Hd1 & Hd2 & _).
    rewrite (emitted_events_since _ _ _ Hem), (emitted_events_since _ _ _ Hemd).
    cbn [firstn].
    assert (d1 = c1) as ->.
    { rewrite Hd1, Hc1. rewrite <- register_value_u32. unfold SSPX_ELPG_CLAMP_EN_EARLY.
      apply u32_lor_bit. lia. }
    assert (d2 = c2) as ->.
    { rewrite Hd2, Hc2, Hc1. unfold SSPX_ELPG_SLEEPWALK_CLAMPS.
      rewrite Z.lor_assoc. rewrite <- (register_value_u32 pf w).
      unfold SSPX_ELPG_CLAMP_EN_EARLY at 1 2. rewrite <- u32_lor_bit by lia.
      unfold SSPX_ELPG_CLAMP_EN. apply u32_lor_bit. lia. }
    reflexivity. }
  split. { unfold tegra210_usb3_phy_disable_sleepwalk. unfold bind at 1.
           rewrite (usb3_lane_map_stable _ _ _ _ Hm w1). exact E2. }
  split; [exact H2|].
  destruct H1 as (c1 & c2 & _ & _ & Hc2 & R1 & _).
  destruct H2 as (e1 & e2 & _ & _ & He2 & R2 & _).
  rewrite R2, He2, R1, Hc2.
  Z.bitblast.
Qed.

Lemma usb3_sleepwalk_clamps_witness :
  lock idle_world = false /\
  tegra210_usb3_lane_map tegra210_board (phy_get_drvdata (pcie_phy 6)) idle_world
  = Some (usb3_index usb3_port_0, idle_world) /\
  0 <= usb3_index usb3_port_0 < 4 /\
  exists w1 w2 wd,
    tegra210_usb3_phy_enable_sleepwalk tegra210_board (pcie_phy 6) idle_world
    = Some (0, w1) /\
    usb3_sleepwalk_entered tegra210_board (usb3_index usb3_port_0) idle_world w1 /\
    tegra210_usb3_port_disable tegra210_board usb3_port_0 idle_world = Some (tt, wd) /\
    events_since idle_world w1 = firstn 4 (events_since idle_world wd) /\
    tegra210_usb3_phy_disable_sleepwalk tegra210_board (pcie_phy 6) w1 = Some (0, w2) /\
    usb3_sleepwalk_left tegra210_board (usb3_index usb3_port_0) w1 w2 /\
    register_value tegra210_board w2 XUSB_PADCTL_ELPG_PROGRAM_1
    = Z.land (register_value tegra210_board idle_world XUSB_PADCTL_ELPG_PROGRAM_1)
             (Z.lnot (SSPX_ELPG_SLEEPWALK_CLAMPS (usb3_index usb3_port_0))).
Proof.
  split; [reflexivity|]. split; [reflexivity|]. split; [cbn; lia|].
  apply (usb3_sleepwalk_clamps tegra210_board (pcie_phy 6) usb3_port_0 idle_world);
    [reflexivity | reflexivity | cbn; lia].
Defined.

(** ** The pad configuration for sleepwalk *)

Lemma RPD_CTRL_VALUE_zero x : RPD_CTRL_VALUE x = 0.
Proof.
  unfold RPD_CTRL_VALUE, u32. change 0x1f with (Z.ones 5).
  apply Z.bits_inj'. intros i Hi.
  rewrite !Z.land_spec, Z.shiftl_spec, Z.bits_0 by lia.
  destruct (Z.ltb_spec i 5).
  - rewrite (Z.testbit_neg_r x) by lia. reflexivity.
  - rewrite Z.ones_spec_high by lia. apply andb_false_r.
Qed.

Lemma to_int_small x : 0 <= x < 2 ^ 31 -> to_int x = x.
Proof.
  intros H. unfold to_int.
  replace (x <? 2 ^ 31) with true by (symmetry; apply Z.ltb_lt; lia). reflexivity.
Qed.

(** X5.  For a UTMI phy of lane 0 to 3,
    [tegra210_xusb_padctl_phy_sleepwalk] reads the pad configuration with
    [tegra210_utmi_phy_get_pad_config], stores it in [priv->utmi_pad_cfg]
    and, to enable sleepwalk, hands it to
    [tegra_pmc_utmi_phy_enable_sleepwalk], whose result it returns: 
    [tctrl] is bits 0 to 5 and [pctrl] bits 6 to 11 of
    [XUSB_PADCTL_USB2_BIAS_PAD_CTL_1], and [rpd_ctrl] is 0 whatever
    [XUSB_PADCTL_USB2_OTG_PADX_CTL_1] holds, because [RPD_CTRL_VALUE]
    shifts left before it masks.  No register is written and the lock is
    not taken. *)
Theorem utmi_sleepwalk_pad_config pf bd p speed s w :
  is_utmi_phy p = true ->
  0 <= lane_index (phy_get_drvdata p) < 4 ->
  let index := lane_index (phy_get_drvdata p) in
  let config :=
    mk_utmi_pad_config
      (Z.land (register_value pf w XUSB_PADCTL_USB2_BIAS_PAD_CTL_1) 0x3f)
      (Z.land (Z.shiftr (register_value pf w XUSB_PADCTL_USB2_BIAS_PAD_CTL_1) 6) 0x3f)
      0 in
  tegra210_utmi_phy_get_pad_config pf index w = Some (config, w) /\
  tegra210_xusb_padctl_phy_sleepwalk pf bd (Some p) true speed s w
  = Some ((padcall_result bd w (tegra_pmc_utmi_phy_enable_sleepwalk index speed config),
           with_padcall (List.length (trace w))
             (tegra_pmc_utmi_phy_enable_sleepwalk index speed config)
             (with_utmi_pad_cfg config s)), w) /\
  tegra210_xusb_padctl_phy_sleepwalk pf bd (Some p) false speed s w
  = Some ((padcall_result bd w (tegra_pmc_utmi_phy_disable_sleepwalk index),
           with_padcall (List.length (trace w))
             (tegra_pmc_utmi_phy_disable_sleepwalk index)
             (with_utmi_pad_cfg config s)), w).
Proof.
  intros Hu Hi index config.
  assert (Hc : tegra210_utmi_phy_get_pad_config pf index w = Some (config, w)).
  { unfold tegra210_utmi_phy_get_pad_config, config.
    cbn [bind ret padctl_readl]. rewrite RPD_CTRL_VALUE_zero.
    unfold TCTRL_VALUE, PCTRL_VALUE. rewrite Z.shiftr_0_r. reflexivity. }
  assert (Hp : is_usb3_phy p = false).
  { unfold is_utmi_phy, is_usb3_phy in *. destruct (ops p); try discriminate; reflexivity. }
  split; [exact Hc|].
  unfold tegra210_xusb_padctl_phy_sleepwalk. rewrite Hp, Hu.
  fold index. rewrite (to_int_small index) by (unfold index; lia).
  split; unfold bind at 1; rewrite Hc; reflexivity.
Qed.

Lemma utmi_sleepwalk_pad_config_witness :
  is_utmi_phy (usb2_phy 1) = true /\
  0 <= lane_index (phy_get_drvdata (usb2_phy 1)) < 4 /\
  exists c, tegra210_utmi_phy_get_pad_config tegra210_board 1 calibrated_world
            = Some (c, calibrated_world) /\
            tctrl c = 0x25 /\ pctrl c = 0x16 /\ rpd_ctrl c = 0 /\
            Z.land (Z.shiftr (register_value tegra210_board calibrated_world
                                (XUSB_PADCTL_USB2_OTG_PADX_CTL_1 1)) 26) 0x1f = 0x1f.
Proof.
  split; [reflexivity|]. split; [cbn; lia|].
  destruct (utmi_sleepwalk_pad_config tegra210_board plain_board (usb2_phy 1) 0
              no_pads calibrated_world eq_refl ltac:(cbn; lia)) as (H & _).
  eexists. split; [exact H|]. repeat split.
Defined.

(** ** The HSIC pad *)


Ltac called_now :=
  unfold called;
  cbn [padcalls with_padcall with_usb2_pad_enable with_usb2_otg_port_base_1
       with_powered_on with_utmi_pad_cfg map snd rev app];
  reflexivity.

Ltac performed_now := unfold performed; chase2; reflexivity.



Section Hsic.

Variable pf : platform.
Variable bd : board.



End Hsic.



(** ** The USB2 pad *)

Section Usb2.

Variable pf : platform.
Variable bd : board.

Lemma wp_when (c : bool) (m : M unit) w (Q : unit -> world -> Prop) :
  (c = true -> wp m w Q) -> (c = false -> Q tt w) -> wp (when c m) w Q.
Proof.
  intros Ht Hf. destruct c; cbn [when]; [apply Ht; reflexivity|].
  apply wp_ret, Hf. reflexivity.
Qed.

Lemma wp_usb2_prod index w (Q : unit -> world -> Prop) :
  (forall w1, lock w1 = lock w -> trace w1 = trace w -> Q tt w1) ->
  wp (when (prod_list bd)
        (tegra_prod_set bd (prod_c_utmi index) ;; tegra_prod_set bd prod_c_bias ;; ret tt))
     w Q.
Proof.
  intros HQ. apply wp_when; intros _.
  - repeat wp_more. apply HQ; reflexivity.
  - apply HQ; reflexivity.
Qed.

Lemma wp_usb2_phy_power_on p port s w :
  let index := lane_index (phy_get_drvdata p) in
  tegra_xusb_find_usb2_port pf index = Some port ->
  lock w = false ->
  0 <= usb2_pad_enable s < 2 ^ 32 - 1 ->
  wp (tegra210_usb2_phy_power_on pf bd p s) w (fun rs w' =>
    lock w' = false /\
    ((0 < usb2_pad_enable s /\ fst rs = 0 /\
      usb2_pad_enable (snd rs) = usb2_pad_enable s + 1 /\
      called s (snd rs) [] /\
      performed w w' (usb2_lane_setup_actions index (usb3_port_fake bd index))) \/
     (usb2_pad_enable s = 0 /\ fst rs <> 0 /\
      usb2_pad_enable (snd rs) = 0 /\
      called s (snd rs) [ clk_prepare_enable_usb2_trk ] /\
      performed w w' (usb2_lane_setup_actions index (usb3_port_fake bd index))) \/
     (usb2_pad_enable s = 0 /\ fst rs = 0 /\
      usb2_pad_enable (snd rs) = 1 /\
      called s (snd rs) [ clk_prepare_enable_usb2_trk; clk_disable_unprepare_usb2_trk ] /\
      performed w w' (usb2_lane_setup_actions index (usb3_port_fake bd index)
                      ++ usb2_tracking_actions) /\
      Z.land (register_value pf w' XUSB_PADCTL_USB2_BIAS_PAD_CTL0)
             XUSB_PADCTL_USB2_BIAS_PAD_CTL0_PD = 0)) /\
    usb2_otg_port_base_1 (snd rs) = usb2_otg_port_base_1 s /\
    powered_on (snd rs) = powered_on s).
Proof.
  intros index Hp Hl Hn. unfold tegra210_usb2_phy_power_on. fold index. rewrite Hp.
  wp_more. apply wp_bind, wp_usb2_prod. intros w1 Hl1 Ht1. cbv beta.
  cbn [lock with_lock] in Hl1. cbn [trace with_lock] in Ht1.
  apply wp_bind.
  assert (Hfake : forall (Q : unit -> world -> Prop),
    (forall w2, lock w2 = true ->
       actions (trace w2)
       = rev (if negb (usb3_port_fake bd index =? -1)
              then [ DoWrite XUSB_PADCTL_SS_PORT_MAP; DoWrite XUSB_PADCTL_ELPG_PROGRAM_1;
                     DoWrite XUSB_PADCTL_ELPG_PROGRAM_1; DoWrite XUSB_PADCTL_ELPG_PROGRAM_1 ]
              else []) ++ actions (trace w) -> Q tt w2) ->
    wp (when (negb (usb3_port_fake bd index =? -1))
          (rmw pf XUSB_PADCTL_SS_PORT_MAP (fun value =>
             set_bits (clear_bits value
                         (XUSB_PADCTL_SS_PORT_MAP_PORTX_MAP_MASK (usb3_port_fake bd index)))
                      (XUSB_PADCTL_SS_PORT_MAP_PORTX_MAP (usb3_port_fake bd index) index)) ;;
           rmw pf XUSB_PADCTL_ELPG_PROGRAM_1 (fun value =>
             clear_bits value (SSPX_ELPG_VCORE_DOWN (usb3_port_fake bd index))) ;;
           usleep_range pf 100 200 ;;
           rmw pf XUSB_PADCTL_ELPG_PROGRAM_1 (fun value =>
             clear_bits value (SSPX_ELPG_CLAMP_EN_EARLY (usb3_port_fake bd index))) ;;
           usleep_range pf 100 200 ;;
           rmw pf XUSB_PADCTL_ELPG_PROGRAM_1 (fun value =>
             clear_bits value (SSPX_ELPG_CLAMP_EN (usb3_port_fake bd index))))) w1 Q).
  { intros Q HQ. apply wp_when; intros Hc; rewrite Hc in HQ.
    - repeat wp_more. apply HQ; [chase2; first [reflexivity|assumption]|].
      chase2. rewrite Ht1. reflexivity.
    - apply HQ; [exact Hl1|]. rewrite Ht1. reflexivity. }
  apply Hfake. intros w2 Hl2 Ha2. cbv beta.
  do 5 wp_more.
  destruct (usb2_pad_enable s >? 0) eqn:Egt.
  - apply Z.gtb_lt in Egt. repeat wp_more. cbn [fst snd].
    split; [reflexivity|]. split; [|split; reflexivity].
    left. split; [exact Egt|]. split; [reflexivity|].
    split; [chase2; apply u32_small; lia|]. split; [called_now|].
    unfold performed, usb2_lane_setup_actions. chase2. rewrite Ha2.
    destruct (negb (usb3_port_fake bd index =? -1)); reflexivity.
  - assert (H0 : usb2_pad_enable s = 0).
    { destruct (Z.gtb_spec (usb2_pad_enable s) 0); [discriminate|lia]. }
    wp_more. cbv zeta. cbn [fst snd].
    destruct (r =? 0) eqn:Er; cbn [negb].
    + repeat wp_more. cbv zeta. cbn [fst snd].
      split; [reflexivity|]. split; [|split; reflexivity].
      right. right. split; [exact H0|]. split; [reflexivity|].
      split; [chase2; rewrite H0; reflexivity|]. split; [called_now|].
      split.
      { unfold performed, usb2_lane_setup_actions, usb2_tracking_actions. chase2.
        rewrite Ha2. destruct (negb (usb3_port_fake bd index =? -1)); reflexivity. }
      unfold XUSB_PADCTL_USB2_BIAS_PAD_CTL0_PD. apply land_bit_zero; [lia|].
      chase_bit. reflexivity.
    + apply Z.eqb_neq in Er. repeat wp_more. cbn [fst snd].
      split; [reflexivity|]. split; [|split; reflexivity].
      right. left. split; [exact H0|]. split; [exact Er|].
      split; [chase2; exact H0|]. split; [called_now|].
      unfold performed, usb2_lane_setup_actions. chase2. rewrite Ha2.
      destruct (negb (usb3_port_fake bd index =? -1)); reflexivity.
Qed.

Lemma wp_usb2_phy_power_off p port s w :
  let index := lane_index (phy_get_drvdata p) in
  tegra_xusb_find_usb2_port pf index = Some port ->
  lock w = false ->
  0 <= usb2_pad_enable s < 2 ^ 32 ->
  wp (tegra210_usb2_phy_power_off pf bd p s) w (fun rs w' =>
    fst rs = 0 /\ lock w' = false /\ called s (snd rs) [] /\
    usb2_otg_port_base_1 (snd rs) = usb2_otg_port_base_1 s /\
    powered_on (snd rs) = powered_on s /\
    ((usb2_pad_enable s = 0 /\ usb2_pad_enable (snd rs) = 0 /\
      regs w' = regs w /\ trace w' = EvWarn :: trace w) \/
     (1 < usb2_pad_enable s /\ usb2_pad_enable (snd rs) = usb2_pad_enable s - 1 /\
      regs w' = regs w /\ trace w' = trace w) \/
     (usb2_pad_enable s = 1 /\ usb2_pad_enable (snd rs) = 0 /\
      performed w w' (usb2_pad_off_actions (usb3_port_fake bd index)) /\
      Z.land (register_value pf w' XUSB_PADCTL_USB2_BIAS_PAD_CTL0)
             XUSB_PADCTL_USB2_BIAS_PAD_CTL0_PD
      = XUSB_PADCTL_USB2_BIAS_PAD_CTL0_PD))).
Proof.
  intros index Hp Hl Hn. unfold tegra210_usb2_phy_power_off, WARN_ON. fold index.
  rewrite Hp. wp_more.
  destruct (usb2_pad_enable s =? 0) eqn:E0.
  - apply Z.eqb_eq in E0. cbn [when]. repeat wp_more. cbn [fst snd].
    repeat split; try called_now. left. repeat split; assumption.
  - apply Z.eqb_neq in E0. cbn [when]. do 2 wp_more. cbv zeta.
    cbn [usb2_pad_enable with_usb2_pad_enable].
    rewrite u32_small by lia.
    destruct (usb2_pad_enable s - 1 >? 0) eqn:Egt.
    + apply Z.gtb_lt in Egt. repeat wp_more. cbn [fst snd].
      repeat split; try called_now. right. left. repeat split. lia.
    + assert (H1 : usb2_pad_enable s = 1).
      { destruct (Z.gtb_spec (usb2_pad_enable s - 1) 0); [discriminate|lia]. }
      apply wp_bind, wp_when; intros Hc.
      * repeat wp_more. cbn [fst snd].
        repeat split; try called_now. right. right.
        split; [exact H1|]. split; [chase2; lia|]. split.
        { unfold performed, usb2_pad_off_actions. rewrite Hc. chase2. reflexivity. }
        unfold XUSB_PADCTL_USB2_BIAS_PAD_CTL0_PD. apply land_bit_one; [lia|].
        chase_bit. reflexivity.
      * repeat wp_more. cbn [fst snd].
        repeat split; try called_now. right. right.
        split; [exact H1|]. split; [chase2; lia|]. split.
        { unfold performed, usb2_pad_off_actions. rewrite Hc. chase2. reflexivity. }
        unfold XUSB_PADCTL_USB2_BIAS_PAD_CTL0_PD. apply land_bit_one; [lia|].
        chase_bit. reflexivity.
Qed.

End Usb2.

Lemma usb2_power_on_unlocked pf bd p port s w x :
  tegra_xusb_find_usb2_port pf (lane_index (phy_get_drvdata p)) = Some port ->
  tegra210_usb2_phy_power_on pf bd p s w = Some x -> lock w = false.
Proof.
  intros Hp. unfold tegra210_usb2_phy_power_on. rewrite Hp. apply returns_unlocked.
Qed.

Lemma usb2_power_off_unlocked pf bd p port s w x :
  tegra_xusb_find_usb2_port pf (lane_index (phy_get_drvdata p)) = Some port ->
  tegra210_usb2_phy_power_off pf bd p s w = Some x -> lock w = false.
Proof.
  intros Hp. unfold tegra210_usb2_phy_power_off. rewrite Hp. apply returns_unlocked.
Qed.

Lemma called_nil_trans s1 s2 s3 : called s1 s2 [] -> called s2 s3 [] -> called s1 s3 [].
Proof. unfold called. cbn [rev app]. congruence. Qed.

Section Usb2Steps.

Variable pf : platform.
Variable bd : board.

(** Every power-on that finds its port takes the steps of
    [usb2_power_on_steps], with tracking when it finds the pad unused and
    returns 0. *)
Lemma usb2_phy_power_on_steps p port s w :
  tegra_xusb_find_usb2_port pf (lane_index (phy_get_drvdata p)) = Some port ->
  lock w = false ->
  does pf (tegra210_usb2_phy_power_on pf bd p s) w (fun rs l _ =>
    l = usb2_power_on_steps bd (lane_index (phy_get_drvdata p))
          (negb (usb2_pad_enable s >? 0) && (fst rs =? 0))).
Proof.
  intros Hp Hl. unfold tegra210_usb2_phy_power_on. rewrite Hp. cbv zeta.
  apply does_bind, does_mutex_lock; [exact Hl|]. intros w1. cbv beta.
  apply does_bind. eapply does_when.
  { intros w0 Q' HQ'. repeat pad_step bd. apply HQ'. }
  intros w2. cbv beta.
  apply does_bind. eapply does_when.
  { intros w0 Q' HQ'. repeat pad_step bd. apply HQ'. }
  intros w3. cbv beta.
  apply does_bind. eapply does_rmw_as_field.
  { intros v. cbv beta. rewrite set_bits_when. reflexivity. }
  intros w4. cbv beta.
  apply does_bind.
  eapply does_rmw_as_field
    with (bits := usb2_port_cap_bits (usb2_port_cap bd (lane_index (phy_get_drvdata p)))
                    (lane_index (phy_get_drvdata p))).
  { intros v. destruct (usb2_port_cap bd (lane_index (phy_get_drvdata p))); reflexivity. }
  intros w5. cbv beta.
  do 3 pad_step bd.
  destruct (usb2_pad_enable s >? 0) eqn:Egt; cbn [negb andb].
  - repeat pad_step bd.
    unfold usb2_power_on_steps, usb2_lane_setup_steps, prod_steps, usb2_fake_port_on_steps.
    rewrite <- ?app_assoc. cbn [app map]. reflexivity.
  - pad_step bd. cbn [fst snd].
    destruct (r =? 0) eqn:Er; cbn [negb].
    + repeat pad_step bd. cbn [fst]. change (0 =? 0) with true. cbv iota.
      unfold usb2_power_on_steps, usb2_lane_setup_steps, prod_steps, usb2_fake_port_on_steps,
        usb2_tracking_steps.
      rewrite <- ?app_assoc. cbn [app map]. reflexivity.
    + repeat pad_step bd. cbn [fst]. rewrite Er.
      unfold usb2_power_on_steps, usb2_lane_setup_steps, prod_steps, usb2_fake_port_on_steps.
      rewrite <- ?app_assoc. cbn [app map]. reflexivity.
Qed.

(** A power-off of a pad in use takes the steps of [usb2_power_off_steps]:
    those of the last user when the use count goes to 0. *)
Lemma usb2_phy_power_off_steps p port s w :
  tegra_xusb_find_usb2_port pf (lane_index (phy_get_drvdata p)) = Some port ->
  lock w = false ->
  usb2_pad_enable s <> 0 ->
  does pf (tegra210_usb2_phy_power_off pf bd p s) w (fun rs l _ =>
    l = usb2_power_off_steps bd (lane_index (phy_get_drvdata p))
          (negb (u32 (usb2_pad_enable s - 1) >? 0))).
Proof.
  intros Hp Hl Hn. unfold tegra210_usb2_phy_power_off, WARN_ON. rewrite Hp. cbv zeta.
  apply Z.eqb_neq in Hn. rewrite Hn. cbn [when].
  apply does_bind, does_mutex_lock; [exact Hl|]. intros w1. cbv beta.
  do 2 pad_step bd. cbv iota. cbn [usb2_pad_enable with_usb2_pad_enable].
  destruct (u32 (usb2_pad_enable s - 1) >? 0) eqn:Egt; cbn [negb].
  - repeat pad_step bd. reflexivity.
  - apply does_bind. eapply does_when.
    { intros w0 Q' HQ'. repeat pad_step bd. apply HQ'. }
    intros w2. cbv beta. repeat pad_step bd.
    unfold usb2_power_off_steps, usb2_fake_port_off_steps.
    rewrite <- ?app_assoc. cbn [app]. reflexivity.
Qed.

End Usb2Steps.

(** X8.  Two lanes of the USB2 pad powered on and then off, starting with
    the pad unused and with a first [tegra210_usb2_phy_power_on] that
    succeeds: the use count of the pad goes 1, 2, 1, 0.  Both power-ons
    take the lock, apply the product settings of their lane and of the
    bias pad if the board has product settings, and program their lane,
    which includes the levels of [XUSB_PADCTL_USB2_BIAS_PAD_CTL0] that all
    lanes share; only the first goes on to run bias pad tracking, and the
    second releases the lock right after the regulator level of its lane.
    The tracking clock is enabled and disabled again inside the first call
    and not touched afterwards.  The first power-off takes and
    releases the lock and nothing else: it writes no register and logs
    nothing, so nothing of its lane is powered down.  The second power-off
    powers the bias pad down, after the fake SuperSpeed port of its own
    lane if it has one. *)
Theorem usb2_pad_use_count pf bd a b port_a port_b s0 w0 s1 w1 :
  tegra_xusb_find_usb2_port pf (lane_index (phy_get_drvdata a)) = Some port_a ->
  tegra_xusb_find_usb2_port pf (lane_index (phy_get_drvdata b)) = Some port_b ->
  usb2_pad_enable s0 = 0 ->
  tegra210_usb2_phy_power_on pf bd a s0 w0 = Some ((0, s1), w1) ->
  exists s2 w2 s3 w3 s4 w4,
    tegra210_usb2_phy_power_on pf bd b s1 w1 = Some ((0, s2), w2) /\
    tegra210_usb2_phy_power_off pf bd a s2 w2 = Some ((0, s3), w3) /\
    tegra210_usb2_phy_power_off pf bd b s3 w3 = Some ((0, s4), w4) /\
    (usb2_pad_enable s1 = 1 /\ usb2_pad_enable s2 = 2 /\
     usb2_pad_enable s3 = 1 /\ usb2_pad_enable s4 = 0) /\
    (* the tracking clock *)
    called s0 s1 [ clk_prepare_enable_usb2_trk; clk_disable_unprepare_usb2_trk ] /\
    called s1 s4 [] /\
    (* the first power-on *)
    steps_run pf (usb2_power_on_steps bd (lane_index (phy_get_drvdata a)) true) w0 w1 /\
    (* the second power-on *)
    steps_run pf (usb2_power_on_steps bd (lane_index (phy_get_drvdata b)) false) w1 w2 /\
    performed w1 w2 (usb2_lane_setup_actions (lane_index (phy_get_drvdata b))
                       (usb3_port_fake bd (lane_index (phy_get_drvdata b)))) /\
    (* the first power-off *)
    steps_run pf (usb2_power_off_steps bd (lane_index (phy_get_drvdata a)) false) w2 w3 /\
    (regs w3 = regs w2 /\ trace w3 = trace w2) /\
    (* the second power-off *)
    steps_run pf (usb2_power_off_steps bd (lane_index (phy_get_drvdata b)) true) w3 w4 /\
    performed w3 w4 (usb2_pad_off_actions
                       (usb3_port_fake bd (lane_index (phy_get_drvdata b)))) /\
    Z.land (register_value pf w4 XUSB_PADCTL_USB2_BIAS_PAD_CTL0)
           XUSB_PADCTL_USB2_BIAS_PAD_CTL0_PD
    = XUSB_PADCTL_USB2_BIAS_PAD_CTL0_PD /\
    lock w4 = false.
Proof.
  intros Ha Hb H0 E1.
  pose proof (usb2_power_on_unlocked _ _ _ _ _ _ _ Ha E1) as Hl0.
  destruct (wp_run _ _ _ _ _ (wp_usb2_phy_power_on pf bd a port_a s0 w0 Ha Hl0
                                ltac:(lia)) E1)
    as (Hl1 & [(Hpos & _)|[(_ & Hne & _)|(_ & _ & Hc1 & Hcl1 & _)]] & _);
    cbn [fst snd] in *; [lia|congruence|].
  destruct (wp_usb2_phy_power_on pf bd b port_b s1 w1 Hb Hl1 ltac:(lia))
    as ([r2 s2] & w2 & E2 & Hl2 & [(_ & Hr2 & Hc2 & Hcl2 & Hp2)|[(Hz & _)|(Hz & _)]] & _);
    cbn [fst snd] in *; [|lia|lia].
  subst r2. rewrite Hc1 in Hc2.
  destruct (wp_usb2_phy_power_off pf bd a port_a s2 w2 Ha Hl2 ltac:(lia))
    as ([r3 s3] & w3 & E3 & Hr3 & Hl3 & Hcl3 & _ & _
        & [(Hz & _)|[(_ & Hc3 & Hregs3 & Htr3)|(Hz & _)]]);
    cbn [fst snd] in *; [lia| |lia].
  subst r3. rewrite Hc2 in Hc3.
  destruct (wp_usb2_phy_power_off pf bd b port_b s3 w3 Hb Hl3 ltac:(lia))
    as ([r4 s4] & w4 & E4 & Hr4 & Hl4 & Hcl4 & _ & _
        & [(Hz & _)|[(Hz & _)|(_ & Hc4 & Hp4 & Hpd4)]]);
    cbn [fst snd] in *; [lia|lia|].
  subst r4.
  destruct (does_run _ _ _ _ _ _ (usb2_phy_power_on_steps pf bd a port_a s0 w0 Ha Hl0) E1)
    as (l1 & Hs1 & ->).
  destruct (does_run _ _ _ _ _ _ (usb2_phy_power_on_steps pf bd b port_b s1 w1 Hb Hl1) E2)
    as (l2 & Hs2 & ->).
  destruct (does_run _ _ _ _ _ _
              (usb2_phy_power_off_steps pf bd a port_a s2 w2 Ha Hl2 ltac:(lia)) E3)
    as (l3 & Hs3 & ->).
  destruct (does_run _ _ _ _ _ _
              (usb2_phy_power_off_steps pf bd b port_b s3 w3 Hb Hl3 ltac:(lia)) E4)
    as (l4 & Hs4 & ->).
  rewrite H0 in Hs1. rewrite Hc1 in Hs2. rewrite Hc2 in Hs3. rewrite Hc3 in Hs4.
  cbn [fst] in Hs1, Hs2.
  change (negb (0 >? 0) && (0 =? 0)) with true in Hs1.
  change (negb (1 >? 0) && (0 =? 0)) with false in Hs2.
  change (negb (u32 (1 + 1 - 1) >? 0)) with false in Hs3.
  change (negb (u32 (1 + 1 - 1 - 1) >? 0)) with true in Hs4.
  exists s2, w2, s3, w3, s4, w4.
  split; [exact E2|]. split; [exact E3|]. split; [exact E4|].
  split; [repeat split; lia|]. split; [exact Hcl1|].
  split; [eapply called_nil_trans; [exact Hcl2|];
          eapply called_nil_trans; [exact Hcl3|exact Hcl4]|].
  split; [exact Hs1|]. split; [exact Hs2|]. split; [exact Hp2|].
  split; [exact Hs3|]. split; [split; assumption|].
  split; [exact Hs4|].
  split; [exact Hp4|]. split; [exact Hpd4|exact Hl4].
Qed.

Lemma usb2_pad_use_count_witness :
  tegra_xusb_find_usb2_port tegra210_board (lane_index (phy_get_drvdata (usb2_phy 0)))
  = Some (mk_usb2_port true (-1)) /\
  usb2_pad_enable no_pads = 0 /\
  exists s1 w1,
    tegra210_usb2_phy_power_on tegra210_board plain_board (usb2_phy 0) no_pads idle_world
    = Some ((0, s1), w1) /\
    exists s2 w2 s3 w3 s4 w4,
      tegra210_usb2_phy_power_on tegra210_board plain_board (usb2_phy 0) s1 w1
      = Some ((0, s2), w2) /\
      tegra210_usb2_phy_power_off tegra210_board plain_board (usb2_phy 0) s2 w2
      = Some ((0, s3), w3) /\
      tegra210_usb2_phy_power_off tegra210_board plain_board (usb2_phy 0) s3 w3
      = Some ((0, s4), w4) /\
      steps_run tegra210_board (usb2_power_on_steps plain_board 0 false) w1 w2 /\
      usb2_pad_enable s4 = 0 /\ lock w4 = false.
Proof.
  split; [reflexivity|]. split; [reflexivity|].
  eexists _, _. split; [vm_compute; reflexivity|].
  match goal with
  | |- exists s2 w2 s3 w3 s4 w4, tegra210_usb2_phy_power_on _ _ _ ?s1 ?w1 = _ /\ _ =>
      destruct (usb2_pad_use_count tegra210_board plain_board (usb2_phy 0) (usb2_phy 0)
                  (mk_usb2_port true (-1)) (mk_usb2_port true (-1))
                  no_pads idle_world s1 w1 eq_refl eq_refl eq_refl)
        as (s2 & w2 & s3 & w3 & s4 & w4 & E2 & E3 & E4 & (_ & _ & _ & H4) & H)
  end.
  { vm_compute. reflexivity. }
  exists s2, w2, s3, w3, s4, w4.
  split; [exact E2|]. split; [exact E3|]. split; [exact E4|].
  destruct H as (_ & _ & _ & Hs2 & H). split; [exact Hs2|]. split; [exact H4|].
  destruct H as (_ & _ & _ & _ & _ & _ & Hl). exact Hl.
Defined.



(** ** Init and exit of a USB2 lane *)

Section Usb2Init.

Variable pf : platform.
Variable bd : board.

Lemma enable_actions_no_regulator code :
  code = 1 \/ code = 0 \/ code = - ENODEV ->
  filter is_regulator_call (padctl_enable_actions code) = [].
Proof. intros [->|[->| ->]]; reflexivity. Qed.

(** The shared enable and disable switch no regulator. *)
Lemma wp_padctl_enable_actions w :
  lock w = false -> 0 <= enable w ->
  wp (tegra210_xusb_padctl_enable pf) w (fun _ w' =>
    exists acts, performed w w' acts /\ filter is_regulator_call acts = []).
Proof.
  intros Hl He. destruct (Z.eq_dec (enable w) 0) as [H0|H0].
  - eapply wp_weaken; [apply wp_padctl_enable_first; assumption|].
    cbv beta. intros r w' (_ & _ & [(_ & _ & _ & [Hp|Hp])|(_ & _ & Hp & _)]).
    + eexists. split; [exact Hp|reflexivity].
    + eexists. split; [exact Hp|reflexivity].
    + eexists. split; [exact Hp|].
      apply enable_actions_no_regulator, compatible_code_cases.
  - eapply wp_weaken; [apply wp_padctl_enable_nested; [assumption|lia]|].
    cbv beta. intros r w' (_ & _ & _ & _ & Ht & _).
    exists []. split; [|reflexivity]. unfold performed. rewrite Ht. reflexivity.
Qed.

Lemma wp_padctl_disable_actions w :
  lock w = false -> 0 <= enable w < 2 ^ 32 ->
  wp (tegra210_xusb_padctl_disable pf) w (fun _ w' =>
    exists acts, performed w w' acts /\ filter is_regulator_call acts = []).
Proof.
  intros Hl He. destruct (Z.eq_dec (enable w) 0) as [H0|H0].
  - eapply wp_weaken; [apply wp_padctl_disable_zero; assumption|].
    cbv beta. intros r w' (_ & _ & _ & _ & Ht & _).
    exists []. split; [|reflexivity]. unfold performed. rewrite Ht. reflexivity.
  - destruct (Z.eq_dec (enable w) 1) as [H1|H1].
    + eapply wp_weaken; [apply wp_padctl_disable_last; assumption|].
      cbv beta. intros r w' (_ & _ & _ & Hp & _).
      eexists. split; [exact Hp|reflexivity].
    + eapply wp_weaken; [apply wp_padctl_disable_nested; [assumption|lia]|].
      cbv beta. intros r w' (_ & _ & _ & _ & Ht & _).
      exists []. split; [|reflexivity]. unfold performed. rewrite Ht. reflexivity.
Qed.

Lemma performed_after w w1 w' pre acts :
  actions (trace w1) = rev pre ++ actions (trace w) ->
  performed w1 w' acts -> performed w w' (pre ++ acts).
Proof. intros H1 H2. eapply performed_trans; [exact H1|exact H2]. Qed.

Lemma wp_usb2_phy_init p port s w :
  let index := lane_index (phy_get_drvdata p) in
  tegra_xusb_find_usb2_port pf index = Some port ->
  lock w = false -> 0 <= enable w ->
  wp (tegra210_usb2_phy_init pf bd p s) w (fun rs w' =>
    exists acts,
      performed w w' acts /\
      filter is_regulator_call acts
      = if supply port && usb_port_cap_eqb (usb2_port_cap bd index) USB_HOST_CAP
           && (negb (oc_pinctrl pf) || (oc_pin port <? 0))
        then [ DoCall (regulator_enable index) ] else []).
Proof.
  intros index Hp Hl He. unfold tegra210_usb2_phy_init. fold index. rewrite Hp.
  do 2 wp_more. apply wp_bind.
  destruct (supply port && usb_port_cap_eqb (usb2_port_cap bd index) USB_HOST_CAP
            && (negb (oc_pinctrl pf) || (oc_pin port <? 0))).
  - wp_more. destruct (r =? 0); cbn [negb].
    + apply wp_bind.
      assert (Hotg : forall (Q : pads -> world -> Prop) w1,
        (forall s1 w2, lock w2 = lock w1 -> enable w2 = enable w1 ->
                       actions (trace w2) = actions (trace w1) -> Q s1 w2) ->
        wp (if usb_port_cap_eqb (usb2_port_cap bd index) USB_OTG_CAP
            then when (negb (usb2_otg_port_base_1 s =? 0))
                      (dev_warn "enabling OTG on multiple USB2 ports") ;;
                 dev_info "enabled OTG on UTMI pad" ;;
                 ret (with_usb2_otg_port_base_1 (index + 1) s)
            else ret s) w1 Q).
      { intros Q w1 HQ. destruct (usb_port_cap_eqb (usb2_port_cap bd index) USB_OTG_CAP).
        - apply wp_bind, wp_when; intros _; repeat wp_more; apply HQ; reflexivity.
        - wp_more. apply HQ; reflexivity. }
      apply Hotg. intros s1 w2 Hl2 He2 Ha2. cbv beta.
      wp_more. apply wp_bind. eapply wp_weaken.
      { apply wp_padctl_enable_actions; chase2; [reflexivity|].
        cbn [enable record store with_lock] in He2. lia. }
      cbv beta. intros r0 w' (acts & Hpf & Hreg). wp_more.
      exists ([DoWrite XUSB_PADCTL_USB2_PAD_MUX; DoCall (regulator_enable index)] ++ acts).
      split.
      * eapply performed_after; [|exact Hpf]. chase2. rewrite Ha2. chase2. reflexivity.
      * cbn [app filter is_regulator_call]. rewrite Hreg. reflexivity.
    + repeat wp_more.
      exists [DoWrite XUSB_PADCTL_USB2_PAD_MUX; DoCall (regulator_enable index)].
      split; [performed_now|reflexivity].
  - wp_more. change (0 =? 0) with true. cbn [negb].
    apply wp_bind.
    assert (Hotg : forall (Q : pads -> world -> Prop) w1,
      (forall s1 w2, lock w2 = lock w1 -> enable w2 = enable w1 ->
                     actions (trace w2) = actions (trace w1) -> Q s1 w2) ->
      wp (if usb_port_cap_eqb (usb2_port_cap bd index) USB_OTG_CAP
          then when (negb (usb2_otg_port_base_1 s =? 0))
                    (dev_warn "enabling OTG on multiple USB2 ports") ;;
               dev_info "enabled OTG on UTMI pad" ;;
               ret (with_usb2_otg_port_base_1 (index + 1) s)
          else ret s) w1 Q).
    { intros Q w1 HQ. destruct (usb_port_cap_eqb (usb2_port_cap bd index) USB_OTG_CAP).
      - apply wp_bind, wp_when; intros _; repeat wp_more; apply HQ; reflexivity.
      - wp_more. apply HQ; reflexivity. }
    apply Hotg. intros s1 w2 Hl2 He2 Ha2. cbv beta.
    wp_more. apply wp_bind. eapply wp_weaken.
    { apply wp_padctl_enable_actions; chase2; [reflexivity|].
      cbn [enable record store with_lock] in He2. lia. }
    cbv beta. intros r0 w' (acts & Hpf & Hreg). wp_more.
    exists ([DoWrite XUSB_PADCTL_USB2_PAD_MUX] ++ acts).
    split.
    * eapply performed_after; [|exact Hpf]. chase2. rewrite Ha2. chase2. reflexivity.
    * cbn [app filter is_regulator_call]. exact Hreg.
Qed.

Lemma wp_usb2_phy_exit p port s w :
  let index := lane_index (phy_get_drvdata p) in
  tegra_xusb_find_usb2_port pf index = Some port ->
  lock w = false -> 0 <= enable w < 2 ^ 32 ->
  wp (tegra210_usb2_phy_exit pf bd p s) w (fun rs w' =>
    exists acts,
      performed w w' acts /\
      filter is_regulator_call acts
      = if supply port && usb_port_cap_eqb (usb2_port_cap bd index) USB_HOST_CAP
        then [ DoCall (regulator_disable index) ] else []).
Proof.
  intros index Hp Hl He. unfold tegra210_usb2_phy_exit. fold index. rewrite Hp.
  wp_more. apply wp_bind.
  destruct (supply port && usb_port_cap_eqb (usb2_port_cap bd index) USB_HOST_CAP).
  - do 2 wp_more. cbv zeta. wp_more. apply wp_bind. eapply wp_weaken.
    { apply wp_padctl_disable_actions; chase2; [reflexivity|]. exact He. }
    cbv beta. intros r0 w' (acts & Hpf & Hreg). wp_more.
    exists ([DoCall (regulator_disable index)] ++ acts).
    split.
    * eapply performed_after; [|exact Hpf]. chase2. reflexivity.
    * cbn [app filter is_regulator_call]. rewrite Hreg. reflexivity.
  - wp_more. cbv zeta. wp_more. apply wp_bind. eapply wp_weaken.
    { apply wp_padctl_disable_actions; chase2; [reflexivity|]. exact He. }
    cbv beta. intros r0 w' (acts & Hpf & Hreg). wp_more.
    exists acts. split; [|exact Hreg].
    eapply performed_same_trace; [|exact Hpf]. reflexivity.
Qed.

End Usb2Init.

(** X10.  [tegra210_usb2_phy_init] and [tegra210_usb2_phy_exit] return
    when the lock is free, and the regulator calls they make do not pair
    up.  For a host port with a supply, init enables the supply only when
    over-current detection is off for the port (no pin control, or no
    pin), while exit disables it in every case; so with over-current
    detection on, a lane that is initialised and then exited has its
    supply disabled without having enabled it.  For any other port neither
    makes a regulator call. *)
Theorem usb2_init_exit_regulator_calls pf bd p port s w :
  let index := lane_index (phy_get_drvdata p) in
  let host := supply port && usb_port_cap_eqb (usb2_port_cap bd index) USB_HOST_CAP in
  tegra_xusb_find_usb2_port pf index = Some port ->
  lock w = false -> 0 <= enable w < 2 ^ 32 ->
  (exists r s' w',
      tegra210_usb2_phy_init pf bd p s w = Some ((r, s'), w') /\
      filter is_regulator_call (actions_since w w')
      = if host && (negb (oc_pinctrl pf) || (oc_pin port <? 0))
        then [ DoCall (regulator_enable index) ] else []) /\
  (exists r s' w',
      tegra210_usb2_phy_exit pf bd p s w = Some ((r, s'), w') /\
      filter is_regulator_call (actions_since w w')
      = if host then [ DoCall (regulator_disable index) ] else []).
Proof.
  intros index host Hp Hl He. split.
  - destruct (wp_usb2_phy_init pf bd p port s w Hp Hl ltac:(lia))
      as ([r s'] & w' & E & acts & Hpf & Hreg).
    exists r, s', w'. split; [exact E|].
    rewrite (performed_actions_since _ _ _ Hpf). exact Hreg.
  - destruct (wp_usb2_phy_exit pf bd p port s w Hp Hl He)
      as ([r s'] & w' & E & acts & Hpf & Hreg).
    exists r, s', w'. split; [exact E|].
    rewrite (performed_actions_since _ _ _ Hpf). exact Hreg.
Qed.

Lemma usb2_init_exit_regulator_calls_witness :
  tegra_xusb_find_usb2_port oc_board (lane_index (phy_get_drvdata (usb2_phy 0)))
  = Some (mk_usb2_port true 1) /\
  lock idle_world = false /\ 0 <= enable idle_world < 2 ^ 32 /\
  (exists r s' w',
      tegra210_usb2_phy_init oc_board plain_board (usb2_phy 0) no_pads idle_world
      = Some ((r, s'), w') /\
      filter is_regulator_call (actions_since idle_world w') = []) /\
  (exists r s' w',
      tegra210_usb2_phy_exit oc_board plain_board (usb2_phy 0) no_pads idle_world
      = Some ((r, s'), w') /\
      filter is_regulator_call (actions_since idle_world w')
      = [ DoCall (regulator_disable 0) ]).
Proof.
  split; [reflexivity|]. split; [reflexivity|]. split; [cbn; lia|].
  apply (usb2_init_exit_regulator_calls oc_board plain_board (usb2_phy 0)
           (mk_usb2_port true 1) no_pads idle_world);
    [reflexivity | reflexivity | cbn; lia].
Defined.

(** ** OTG capability *)

(** X11.  [tegra210_xusb_padctl_has_otg_cap] answers [true] for a UTMI phy
    whose lane has no USB2 port: [is_utmi_phy_has_otg_cap] returns
    [-ENODEV] there, which is not zero and so converts to [true].  For a
    PCIe phy whose lane has no USB3 port the answer is [false].  Both log
    the missing port and change nothing else. *)
Theorem has_otg_cap_without_port pf bd p q index w :
  is_utmi_phy p = true ->
  tegra_xusb_find_usb2_port pf (lane_index (phy_get_drvdata p)) = None ->
  is_usb3_phy q = true ->
  tegra210_usb3_lane_map pf (phy_get_drvdata q) w = Some (index, w) ->
  tegra_xusb_find_usb3_port bd index = None ->
  tegra210_xusb_padctl_has_otg_cap pf bd p w
  = Some (true, record (EvErr "no port found for USB2 lane") w) /\
  tegra210_xusb_padctl_has_otg_cap pf bd q w
  = Some (false, record (EvErr "no port found for USB3 lane") w).
Proof.
  intros Hu Hp Hq Hm Hf. split.
  - unfold tegra210_xusb_padctl_has_otg_cap, is_utmi_phy_has_otg_cap.
    rewrite Hu, Hp. reflexivity.
  - assert (Hnu : is_utmi_phy q = false).
    { unfold is_utmi_phy, is_usb3_phy in *. destruct (ops q); try discriminate; reflexivity. }
    unfold tegra210_xusb_padctl_has_otg_cap, is_usb3_phy_has_otg_cap.
    rewrite Hnu, Hq. unfold bind at 1. rewrite Hm, Hf. reflexivity.
Qed.

Lemma has_otg_cap_without_port_witness :
  is_utmi_phy (usb2_phy 1) = true /\
  tegra_xusb_find_usb2_port tegra210_board (lane_index (phy_get_drvdata (usb2_phy 1))) = None /\
  is_usb3_phy (pcie_phy 6) = true /\
  tegra210_usb3_lane_map tegra210_board (phy_get_drvdata (pcie_phy 6)) idle_world
  = Some (0, idle_world) /\
  tegra_xusb_find_usb3_port plain_board 0 = None /\
  tegra210_xusb_padctl_has_otg_cap tegra210_board plain_board (usb2_phy 1) idle_world
  = Some (true, record (EvErr "no port found for USB2 lane") idle_world) /\
  tegra210_xusb_padctl_has_otg_cap tegra210_board plain_board (pcie_phy 6) idle_world
  = Some (false, record (EvErr "no port found for USB3 lane") idle_world).
Proof.
  do 5 (split; [reflexivity|]).
  apply (has_otg_cap_without_port tegra210_board plain_board (usb2_phy 1) (pcie_phy 6) 0
           idle_world); reflexivity.
Defined.

(** ** The port reset quirk *)

Lemma land_lor_zero_iff v a b :
  Z.land v (Z.lor a b) = 0 <-> Z.land v a = 0 /\ Z.land v b = 0.
Proof.
  rewrite Z.land_lor_distr_r. split.
  - intros H. apply Z.lor_eq_0_iff in H. exact H.
  - intros [-> ->]. reflexivity.
Qed.

(** X12.  [tegra210_utmi_port_reset_quirk] looks at the ZIP and ZIN bits
    of [XUSB_PADCTL_USB2_BATTERY_CHRG_OTGPADX_CTL0] of pad 0, whichever
    lane the phy stands for.  Without a phy it returns [-ENODEV]; with
    both bits clear it returns 0; neither touches anything.  With one of
    them set it returns 1 after clearing and then setting the VBUS
    override, each time scheduling the OTG work: the second write has the
    VBUS-on bit set and forces the ID-override field to floating, so that
    is how the register reads afterwards, whatever it held before. *)
Theorem utmi_port_reset_quirk_toggles_vbus pf p w :
  let reg := register_value pf w (XUSB_PADCTL_USB2_BATTERY_CHRG_OTGPADX_CTL0 0) in
  tegra210_utmi_port_reset_quirk pf None w = Some (- ENODEV, w) /\
  (Z.land reg (Z.lor ZIP ZIN) = 0 ->
   tegra210_utmi_port_reset_quirk pf (Some p) w = Some (0, w)) /\
  (Z.land reg (Z.lor ZIP ZIN) <> 0 ->
   exists v1 v2 w',
     tegra210_utmi_port_reset_quirk pf (Some p) w = Some (1, w') /\
     emitted w w' [ EvWrite v1 XUSB_PADCTL_USB2_VBUS_ID;
                    EvCall schedule_work_otg_vbus_work;
                    EvWrite v2 XUSB_PADCTL_USB2_VBUS_ID;
                    EvCall schedule_work_otg_vbus_work ] /\
     Z.land v1 VBUS_OVERRIDE_VBUS_ON = 0 /\
     Z.land v2 VBUS_OVERRIDE_VBUS_ON = VBUS_OVERRIDE_VBUS_ON /\
     Z.land v2 (ID_OVERRIDE (Z.lnot 0)) = ID_OVERRIDE_FLOATING /\
     register_value pf w' XUSB_PADCTL_USB2_VBUS_ID = v2 /\
     (forall i, 0 <= i < 32 -> i <> 14 -> ~ 18 <= i < 22 ->
        Z.testbit v2 i = Z.testbit (register_value pf w XUSB_PADCTL_USB2_VBUS_ID) i)).
Proof.
  intros reg. split; [reflexivity|].
  unfold tegra210_utmi_port_reset_quirk. cbn [bind padctl_readl]. fold reg.
  unfold bit_set. split.
  - intros H. apply land_lor_zero_iff in H. destruct H as [-> ->]. reflexivity.
  - intros H.
    assert (Hc : negb (Z.land reg ZIP =? 0) || negb (Z.land reg ZIN =? 0) = true).
    { destruct (Z.eqb_spec (Z.land reg ZIP) 0) as [E1|E1]; [|reflexivity].
      destruct (Z.eqb_spec (Z.land reg ZIN) 0) as [E2|E2]; [|reflexivity].
      exfalso. apply H. apply land_lor_zero_iff. split; assumption. }
    rewrite Hc.
    set (old := register_value pf w XUSB_PADCTL_USB2_VBUS_ID).
    destruct (vbus_off_value old) as (A1 & _ & A3).
    set (v1 := u32 (clear_bits old VBUS_OVERRIDE_VBUS_ON)) in *.
    destruct (vbus_on_value v1) as (B1 & B2 & B3).
    set (v2 := u32 (set_bits (clear_bits (set_bits v1 VBUS_OVERRIDE_VBUS_ON)
                                         (ID_OVERRIDE (Z.lnot 0)))
                             ID_OVERRIDE_FLOATING)) in *.
    assert (R1 : register_value pf
                   (record (EvCall schedule_work_otg_vbus_work)
                      (record (EvWrite v1 XUSB_PADCTL_USB2_VBUS_ID)
                         (store v1 XUSB_PADCTL_USB2_VBUS_ID w)))
                   XUSB_PADCTL_USB2_VBUS_ID = v1).
    { rewrite register_value_plain by reflexivity. cbn [regs record store].
      rewrite Z.eqb_refl. apply u32_idem. }
    exists v1, v2. eexists. split.
    { unfold tegra210_xusb_padctl_vbus_override.
      cbn [bind ret padctl_readl padctl_writel call]. fold old. fold v1.
      rewrite R1. fold v2. reflexivity. }
    split; [emitted_now|]. split; [exact A1|]. split; [exact B1|]. split; [exact B2|].
    split.
    { rewrite register_value_plain by reflexivity. cbn [regs record store].
      rewrite Z.eqb_refl. apply u32_idem. }
    intros i Hi H14 H18. rewrite B3 by assumption. apply A3; assumption.
Qed.

Lemma utmi_port_reset_quirk_toggles_vbus_witness :
  exists w',
    tegra210_utmi_port_reset_quirk tegra210_board (Some (usb2_phy 2))
      (store ZIP (XUSB_PADCTL_USB2_BATTERY_CHRG_OTGPADX_CTL0 0) idle_world)
    = Some (1, w') /\
    register_value tegra210_board w' XUSB_PADCTL_USB2_VBUS_ID
    = Z.lor VBUS_OVERRIDE_VBUS_ON ID_OVERRIDE_FLOATING.
Proof.
  destruct (utmi_port_reset_quirk_toggles_vbus tegra210_board (usb2_phy 2)
              (store ZIP (XUSB_PADCTL_USB2_BATTERY_CHRG_OTGPADX_CTL0 0) idle_world))
    as (_ & _ & H).
  destruct H as (v1 & v2 & w' & E & _ & _ & _ & _ & R & _).
  { vm_compute. discriminate. }
  exists w'. split; [exact E|].
  vm_compute in E. injection E as <-. vm_compute. reflexivity.
Defined.

(** ** Fuse calibration *)

Lemma read_hs_curr_levels_4 value f :
  read_hs_curr_levels 4 0 value f
  = with_hs_curr_level 3 (Z.land (Z.shiftr value 23) 0x3f)
      (with_hs_curr_level 2 (Z.land (Z.shiftr value 17) 0x3f)
         (with_hs_curr_level 1 (Z.land (Z.shiftr value 11) 0x3f)
            (with_hs_curr_level 0 (Z.land (Z.shiftr value 0) 0x3f) f))).
Proof. reflexivity. Qed.

(** X13.  [tegra210_xusb_read_fuse_calibration] takes the current level of
    pad 0 from bits 0 to 5 of the first fuse word, those of pads 1, 2 and
    3 from bits 11 to 16, 17 to 22 and 23 to 28, the termination range
    adjustment from bits 7 to 10, and the pull-down control from bits 0
    to 4 of the second word.  These fields do not overlap: a word put
    together from values within range reads back as those values, and the
    result is 0. *)
Theorem fuse_calibration_round_trip l0 l1 l2 l3 term rpd f :
  0 <= l0 < 64 -> 0 <= l1 < 64 -> 0 <= l2 < 64 -> 0 <= l3 < 64 ->
  0 <= term < 16 -> 0 <= rpd < 32 ->
  exists f',
    tegra210_xusb_read_fuse_calibration (fuses (sku_calib_word l0 l1 l2 l3 term) rpd) f
    = (0, f') /\
    hs_curr_level f' 0 = l0 /\ hs_curr_level f' 1 = l1 /\
    hs_curr_level f' 2 = l2 /\ hs_curr_level f' 3 = l3 /\
    hs_term_range_adj f' = term /\ fuse_rpd_ctrl f' = rpd /\
    (forall j, ~ 0 <= j < 4 -> hs_curr_level f' j = hs_curr_level f j).
Proof.
  intros H0 H1 H2 H3 Ht Hr.
  unfold tegra210_xusb_read_fuse_calibration.
  change (fuses _ _ TEGRA_FUSE_SKU_CALIB_0) with (0, sku_calib_word l0 l1 l2 l3 term).
  change (fuses _ rpd TEGRA_FUSE_USB_CALIB_EXT_0) with (0, rpd).
  cbn [fst snd]. change (0 <? 0) with false. cbv iota zeta.
  rewrite read_hs_curr_levels_4.
  eexists. split; [reflexivity|].
  cbn [hs_curr_level hs_term_range_adj fuse_rpd_ctrl with_hs_curr_level
       with_hs_term_range_adj with_rpd_ctrl].
  change (0 =? 3) with false. change (0 =? 2) with false. change (0 =? 1) with false.
  change (1 =? 3) with false. change (1 =? 2) with false. change (2 =? 3) with false.
  rewrite !Z.eqb_refl. cbv iota.
  assert (E0 : Z.land l0 (Z.ones 6) = l0) by (rewrite Z.land_ones by lia; apply Z.mod_small; lia).
  assert (E1 : Z.land l1 (Z.ones 6) = l1) by (rewrite Z.land_ones by lia; apply Z.mod_small; lia).
  assert (E2 : Z.land l2 (Z.ones 6) = l2) by (rewrite Z.land_ones by lia; apply Z.mod_small; lia).
  assert (E3 : Z.land l3 (Z.ones 6) = l3) by (rewrite Z.land_ones by lia; apply Z.mod_small; lia).
  assert (Et : Z.land term (Z.ones 4) = term)
    by (rewrite Z.land_ones by lia; apply Z.mod_small; lia).
  assert (Er : Z.land rpd (Z.ones 5) = rpd)
    by (rewrite Z.land_ones by lia; apply Z.mod_small; lia).
  unfold sku_calib_word, FUSE_SKU_CALIB_HS_TERM_RANGE_ADJ_SHIFT,
    FUSE_SKU_CALIB_HS_TERM_RANGE_ADJ_MASK, FUSE_USB_CALIB_EXT_RPD_CTRL_SHIFT,
    FUSE_USB_CALIB_EXT_RPD_CTRL_MASK, u32.
  change 0x3f with (Z.ones 6). change 0xf with (Z.ones 4). change 0x1f with (Z.ones 5).
  change 0xffffffff with (Z.ones 32).
  rewrite <- E0, <- E1, <- E2, <- E3, <- Et, <- Er.
  repeat split; try (Z.bitblast; fail).
  intros j Hj.
  destruct (Z.eqb_spec j 3); [lia|]. destruct (Z.eqb_spec j 2); [lia|].
  destruct (Z.eqb_spec j 1); [lia|]. destruct (Z.eqb_spec j 0); [lia|]. reflexivity.
Qed.

Lemma fuse_calibration_round_trip_witness :
  exists f',
    tegra210_xusb_read_fuse_calibration (fuses (sku_calib_word 0x21 0x22 0x23 0x24 0x9) 0x11)
      blank_fuse_calibration = (0, f') /\
    hs_curr_level f' 0 = 0x21 /\ hs_curr_level f' 1 = 0x22 /\
    hs_curr_level f' 2 = 0x23 /\ hs_curr_level f' 3 = 0x24 /\
    hs_term_range_adj f' = 0x9 /\ fuse_rpd_ctrl f' = 0x11 /\
    (forall j, ~ 0 <= j < 4 ->
       hs_curr_level f' j = hs_curr_level blank_fuse_calibration j).
Proof.
  apply (fuse_calibration_round_trip 0x21 0x22 0x23 0x24 0x9 0x11 blank_fuse_calibration);
    lia.
Defined.



(** ** PCIe and SATA lanes *)

(** A lane lookup that leaves the state as it was tells that the
    compatible string is there. *)
Lemma lane_map_compatible pf lane index w :
  tegra210_usb3_lane_map pf lane w = Some (index, w) ->
  exists c, forall w', t210b01_compatible pf w' = Some (c, w').
Proof.
  unfold tegra210_usb3_lane_map, t210b01_compatible.
  destruct (compatible pf) as [s|].
  - intros _. destruct (strstr s "tegra210b01"); eexists; intros w'; reflexivity.
  - cbn [bind ret dev_err emit]. change (- ENODEV =? 1) with false.
    change (- ENODEV =? 0) with false. cbv iota. intros E.
    injection E as _ E. exfalso. exact (record_neq _ _ E).
Qed.

Lemma wp_write_lane_init_data l offset w (Q : unit -> world -> Prop) :
  (forall w', lock w' = lock w ->
              (forall o, o <> offset -> regs w' o = regs w o) -> Q tt w') ->
  wp (write_lane_init_data l offset) w Q.
Proof.
  revert w Q. induction l as [|d l IH]; intros w Q H; cbn [write_lane_init_data].
  - apply wp_ret. apply H; reflexivity.
  - cbv zeta. apply wp_bind. apply wp_writel. apply IH. intros w' Hl Hr.
    apply H.
    + rewrite Hl. reflexivity.
    + intros o Ho. rewrite Hr by exact Ho. cbn [regs record store].
      destruct (Z.eqb_spec o offset); [contradiction|reflexivity].
Qed.

Lemma wp_pcie_lane_defaults bd lane w (Q : unit -> world -> Prop) :
  (forall w', lock w' = lock w ->
              (forall o, o <> XUSB_PADCTL_UPHY_MISC_PAD_PX_CTL8 (lane_index lane) ->
                         regs w' o = regs w o) -> Q tt w') ->
  wp (tegra210_pcie_lane_defaults bd lane) w Q.
Proof.
  intros H. unfold tegra210_pcie_lane_defaults.
  destruct (lane_function bd lane =? 1).
  - apply wp_write_lane_init_data, H.
  - destruct ((lane_function bd lane =? 0) || (lane_function bd lane =? 3)).
    + apply wp_write_lane_init_data, H.
    + apply wp_ret. apply H; reflexivity.
Qed.

Lemma iddq_disable_value x k :
  0 <= k < 32 -> u32 (set_bits (u32 x) (Z.shiftl 1 k)) = Z.lor (u32 x) (Z.shiftl 1 k).
Proof. intros Hk. apply (u32_lor_bit x k Hk). Qed.

Section PcieLane.

Variable pf : platform.
Variable bd : board.

(** What [tegra210_pcie_phy_power_on] does once the product settings are
    through. *)
Lemma wp_pcie_power_on_tail lane (err c : Z) w1 :
  (forall w', t210b01_compatible pf w' = Some (c, w')) ->
  0 <= lane_index lane < 7 ->
  wp (c <- t210b01_compatible pf ;;
      when (c =? 1) (tegra210_pcie_lane_defaults bd lane) ;;
      rmw pf XUSB_PADCTL_USB3_PAD_MUX (fun value =>
        set_bits value (XUSB_PADCTL_USB3_PAD_MUX_PCIE_IDDQ_DISABLE (lane_index lane))) ;;
      mutex_unlock ;;
      ret err) w1
     (fun r w' =>
        r = err /\ lock w' = false /\
        register_value pf w' XUSB_PADCTL_USB3_PAD_MUX
        = Z.lor (register_value pf w1 XUSB_PADCTL_USB3_PAD_MUX)
                (XUSB_PADCTL_USB3_PAD_MUX_PCIE_IDDQ_DISABLE (lane_index lane))).
Proof.
  intros Hc Hi. apply wp_bind. exists c, w1. split; [apply Hc|].
  apply wp_bind.
  assert (K : forall w2, regs w2 XUSB_PADCTL_USB3_PAD_MUX = regs w1 XUSB_PADCTL_USB3_PAD_MUX ->
    wp (rmw pf XUSB_PADCTL_USB3_PAD_MUX (fun value =>
          set_bits value (XUSB_PADCTL_USB3_PAD_MUX_PCIE_IDDQ_DISABLE (lane_index lane))) ;;
        mutex_unlock ;; ret err) w2
       (fun r w' =>
          r = err /\ lock w' = false /\
          register_value pf w' XUSB_PADCTL_USB3_PAD_MUX
          = Z.lor (register_value pf w1 XUSB_PADCTL_USB3_PAD_MUX)
                  (XUSB_PADCTL_USB3_PAD_MUX_PCIE_IDDQ_DISABLE (lane_index lane)))).
  { intros w2 Hr. repeat wp_more. split; [reflexivity|]. split; [reflexivity|].
    rewrite !register_value_plain in * by reflexivity.
    cbn [regs with_lock record store]. rewrite Z.eqb_refl. rewrite Hv, Hr, u32_idem.
    apply iddq_disable_value. lia. }
  apply wp_when.
  - intros _. apply wp_pcie_lane_defaults. intros w2 _ Hr. apply K. apply Hr.
    unfold XUSB_PADCTL_USB3_PAD_MUX, XUSB_PADCTL_UPHY_MISC_PAD_PX_CTL8. lia.
  - intros _. apply K. reflexivity.
Qed.

End PcieLane.

(** Without product settings the lane is taken out of IDDQ and nothing
    else happens to [XUSB_PADCTL_USB3_PAD_MUX]. *)
Lemma pcie_power_on_without_settings pf bd p index w :
  lock w = false ->
  0 <= lane_index (phy_get_drvdata p) < 7 ->
  tegra210_usb3_lane_map pf (phy_get_drvdata p) w = Some (index, w) ->
  tegra_xusb_lane_check bd (phy_get_drvdata p) "xusb" && prod_list bd = false ->
  exists w',
    tegra210_pcie_phy_power_on pf bd p w = Some (0, w') /\
    lock w' = false /\
    register_value pf w' XUSB_PADCTL_USB3_PAD_MUX
    = Z.lor (register_value pf w XUSB_PADCTL_USB3_PAD_MUX)
            (XUSB_PADCTL_USB3_PAD_MUX_PCIE_IDDQ_DISABLE (lane_index (phy_get_drvdata p))).
Proof.
  intros Hl Hi Hm Hset.
  destruct (lane_map_compatible pf _ _ _ Hm) as (c & Hc).
  unfold tegra210_pcie_phy_power_on. cbv zeta. rewrite Hset.
  unfold bind at 1. unfold mutex_lock at 1. rewrite Hl.
  destruct (wp_pcie_power_on_tail pf bd (phy_get_drvdata p) 0 c (with_lock true w) Hc Hi)
    as (r & w' & E & -> & Hl' & Hv).
  exists w'. split; [exact E|]. split; [exact Hl'|].
  rewrite Hv. rewrite !register_value_plain by reflexivity. reflexivity.
Qed.

(** X15.  [tegra210_pcie_phy_power_on] for a PCIe lane 0 to 6, with the
    lock free.  When the lane is muxed to XUSB and there are product
    settings, a lane without a SuperSpeed port gives [-ENODEV]: the lock
    is released and no register is written, so the lane stays in IDDQ.
    With a port the result is that of applying the product setting of
    that port, also when it is an error: the lane is taken out of IDDQ
    all the same (bit lane + 1 of [XUSB_PADCTL_USB3_PAD_MUX]).  Without
    product settings the result is 0 and the only change to
    [XUSB_PADCTL_USB3_PAD_MUX] is that bit. *)
Theorem pcie_power_on_outcomes pf bd p index w :
  lock w = false ->
  0 <= lane_index (phy_get_drvdata p) < 7 ->
  tegra210_usb3_lane_map pf (phy_get_drvdata p) w = Some (index, w) ->
  let lane := phy_get_drvdata p in
  let settings := tegra_xusb_lane_check bd lane "xusb" && prod_list bd in
  (settings = true -> tegra_xusb_find_usb3_port bd index = None ->
   exists w',
     tegra210_pcie_phy_power_on pf bd p w = Some (- ENODEV, w') /\
     lock w' = false /\ regs w' = regs w /\
     emitted w w' [ EvErr "no port found for USB3 lane" ]) /\
  (settings = true ->
   forall port, tegra_xusb_find_usb3_port bd index = Some port ->
   exists w',
     tegra210_pcie_phy_power_on pf bd p w
     = Some (fst (tegra_prod_set_by_name bd (prod_c_ss (usb3_index port)) (regs w)), w') /\
     lock w' = false /\
     Z.testbit (register_value pf w' XUSB_PADCTL_USB3_PAD_MUX) (1 + lane_index lane)
     = true) /\
  (settings = false ->
   exists w',
     tegra210_pcie_phy_power_on pf bd p w = Some (0, w') /\
     lock w' = false /\
     register_value pf w' XUSB_PADCTL_USB3_PAD_MUX
     = Z.lor (register_value pf w XUSB_PADCTL_USB3_PAD_MUX)
             (XUSB_PADCTL_USB3_PAD_MUX_PCIE_IDDQ_DISABLE (lane_index lane))).
Proof.
  intros Hl Hi Hm lane settings. subst lane settings.
  destruct (lane_map_compatible pf _ _ _ Hm) as (c & Hc).
  pose proof (usb3_lane_map_stable pf _ _ _ Hm) as Hs.
  unfold tegra210_pcie_phy_power_on. cbv zeta.
  split; [|split].
  - intros Hset Hf. rewrite Hset.
    unfold bind at 1. unfold mutex_lock at 1. rewrite Hl.
    unfold bind at 1. rewrite (Hs (with_lock true w)), Hf.
    eexists. split; [reflexivity|]. split; [reflexivity|]. split; [reflexivity|].
    emitted_now.
  - intros Hset port Hf. rewrite Hset.
    unfold bind at 1. unfold mutex_lock at 1. rewrite Hl.
    unfold bind at 1. rewrite (Hs (with_lock true w)), Hf.
    unfold bind at 1. unfold tegra_prod_set at 1.
    destruct (wp_pcie_power_on_tail pf bd (phy_get_drvdata p)
                (fst (tegra_prod_set_by_name bd (prod_c_ss (usb3_index port))
                        (regs (with_lock true w)))) c
                (with_regs (snd (tegra_prod_set_by_name bd (prod_c_ss (usb3_index port))
                                   (regs (with_lock true w)))) (with_lock true w))
                Hc Hi) as (r & w' & E & -> & Hl' & Hv).
    exists w'. split; [exact E|]. split; [exact Hl'|].
    rewrite Hv. rewrite Z.lor_spec.
    unfold XUSB_PADCTL_USB3_PAD_MUX_PCIE_IDDQ_DISABLE.
    fold (BIT (1 + lane_index (phy_get_drvdata p))).
    rewrite testbit_BIT by lia. rewrite Z.eqb_refl. apply orb_true_r.
  - intros Hset. exact (pcie_power_on_without_settings pf bd p index w Hl Hi Hm Hset).
Qed.

Lemma pcie_power_on_outcomes_witness :
  exists w',
    tegra210_pcie_phy_power_on tegra210_board
      (with_prod usb3_port_1_only prod_ss_fails plain_board) (pcie_phy 5) idle_world
    = Some (- EINVAL, w') /\
    lock w' = false /\
    Z.testbit (register_value tegra210_board w' XUSB_PADCTL_USB3_PAD_MUX) (1 + 5) = true.
Proof.
  destruct (pcie_power_on_outcomes tegra210_board
              (with_prod usb3_port_1_only prod_ss_fails plain_board) (pcie_phy 5) 1
              idle_world eq_refl ltac:(cbn; lia) eq_refl) as (_ & H & _).
  exact (H eq_refl (mk_usb3_port 1 false 0 (mk_lane 5 "pcie")) eq_refl).
Defined.

(** X16.  Powering a lane off again.  With the lock free and without
    product settings, [tegra210_pcie_phy_power_on] followed by
    [tegra210_pcie_phy_power_off] for a PCIe lane 0 to 6 leaves
    [XUSB_PADCTL_USB3_PAD_MUX] with bit lane + 1 clear and every other
    bit as it was; [tegra210_sata_phy_power_on] followed by
    [tegra210_sata_phy_power_off] for the SATA lane does the same with
    bit 8, which is the bit of no PCIe lane.  All four return 0 with the
    lock released. *)
Theorem lane_power_round_trip pf bd p q index w :
  lock w = false ->
  0 <= lane_index (phy_get_drvdata p) < 7 ->
  lane_index (phy_get_drvdata q) = 0 ->
  tegra210_usb3_lane_map pf (phy_get_drvdata p) w = Some (index, w) ->
  tegra_xusb_lane_check bd (phy_get_drvdata p) "xusb" && prod_list bd = false ->
  let mux w := register_value pf w XUSB_PADCTL_USB3_PAD_MUX in
  (exists w1 w2,
     tegra210_pcie_phy_power_on pf bd p w = Some (0, w1) /\
     tegra210_pcie_phy_power_off pf p w1 = Some (0, w2) /\
     lock w1 = false /\ lock w2 = false /\
     mux w1 = Z.lor (mux w) (BIT (1 + lane_index (phy_get_drvdata p))) /\
     mux w2 = Z.land (mux w) (Z.lnot (BIT (1 + lane_index (phy_get_drvdata p))))) /\
  (exists w1 w2,
     tegra210_sata_phy_power_on pf q w = Some (0, w1) /\
     tegra210_sata_phy_power_off pf q w1 = Some (0, w2) /\
     lock w1 = false /\ lock w2 = false /\
     mux w1 = Z.lor (mux w) (BIT 8) /\
     mux w2 = Z.land (mux w) (Z.lnot (BIT 8))).
Proof.
  intros Hl Hi Hq Hm Hset mux. split.
  - destruct (pcie_power_on_without_settings pf bd p index w Hl Hi Hm Hset)
      as (w1 & E1 & Hl1 & Hv1).
    exists w1. eexists. split; [exact E1|]. split.
    { unfold tegra210_pcie_phy_power_off, bind, mutex_lock. rewrite Hl1.
      cbn [rmw padctl_readl padctl_writel mutex_unlock ret]. reflexivity. }
    split; [exact Hl1|]. split; [reflexivity|]. split; [exact Hv1|].
    unfold mux. rewrite register_value_plain by reflexivity.
    cbn [regs with_lock record store]. rewrite Z.eqb_refl, u32_idem.
    assert (R : register_value pf (with_lock true w1) XUSB_PADCTL_USB3_PAD_MUX
                = register_value pf w1 XUSB_PADCTL_USB3_PAD_MUX)
      by (rewrite !register_value_plain by reflexivity; reflexivity).
    rewrite R, Hv1.
    rewrite <- (register_value_u32 pf w).
    unfold XUSB_PADCTL_USB3_PAD_MUX_PCIE_IDDQ_DISABLE, BIT, u32, clear_bits.
    change 0xffffffff with (Z.ones 32). change 1 with (Z.ones 1) at 1 3 5.
    Z.bitblast.
  - unfold tegra210_sata_phy_power_on, tegra210_sata_phy_power_off. rewrite Hq.
    eexists _, _. split.
    { unfold bind, mutex_lock. rewrite Hl.
      cbn [rmw padctl_readl padctl_writel mutex_unlock ret]. reflexivity. }
    split.
    { unfold bind, mutex_lock. cbn [lock with_lock record store].
      cbn [rmw padctl_readl padctl_writel mutex_unlock ret]. reflexivity. }
    split; [reflexivity|]. split; [reflexivity|].
    unfold mux. rewrite !register_value_plain by reflexivity.
    cbn [regs with_lock record store]. rewrite !Z.eqb_refl, !u32_idem.
    unfold XUSB_PADCTL_USB3_PAD_MUX_SATA_IDDQ_DISABLE, BIT, u32, clear_bits, set_bits.
    change (8 + 0) with 8.
    change 0xffffffff with (Z.ones 32). change (Z.shiftl 1 8) with (Z.shiftl (Z.ones 1) 8).
    split; Z.bitblast.
Qed.

Lemma lane_power_round_trip_witness :
  let mux w := register_value tegra210_board w XUSB_PADCTL_USB3_PAD_MUX in
  (exists w1 w2,
     tegra210_pcie_phy_power_on tegra210_board plain_board (pcie_phy 5) idle_world
     = Some (0, w1) /\
     tegra210_pcie_phy_power_off tegra210_board (pcie_phy 5) w1 = Some (0, w2) /\
     lock w1 = false /\ lock w2 = false /\
     mux w1 = Z.lor (mux idle_world) (BIT (1 + 5)) /\
     mux w2 = Z.land (mux idle_world) (Z.lnot (BIT (1 + 5)))) /\
  (exists w1 w2,
     tegra210_sata_phy_power_on tegra210_board (sata_phy 0) idle_world = Some (0, w1) /\
     tegra210_sata_phy_power_off tegra210_board (sata_phy 0) w1 = Some (0, w2) /\
     lock w1 = false /\ lock w2 = false /\
     mux w1 = Z.lor (mux idle_world) (BIT 8) /\
     mux w2 = Z.land (mux idle_world) (Z.lnot (BIT 8))).
Proof.
  apply (lane_power_round_trip tegra210_board plain_board (pcie_phy 5) (sata_phy 0) 1
           idle_world); [reflexivity | cbn; lia | reflexivity | reflexivity | reflexivity].
Defined.

(** ** Power of a UTMI pad *)




(** ** Remote wake *)

Lemma bit_set_BIT k v : 0 <= k -> bit_set (BIT k) v = Z.testbit v k.
Proof.
  intros Hk. unfold bit_set, BIT.
  destruct (Z.testbit v k) eqn:E.
  - destruct (Z.eqb_spec (Z.land v (Z.shiftl 1 k)) 0) as [H|H]; [|reflexivity].
    apply (f_equal (fun x => Z.testbit x k)) in H.
    rewrite Z.land_spec, E, Z.bits_0 in H. fold (BIT k) in H.
    rewrite testbit_BIT, Z.eqb_refl in H by lia. discriminate.
  - destruct (Z.eqb_spec (Z.land v (Z.shiftl 1 k)) 0) as [H|H]; [reflexivity|].
    exfalso. apply H. apply Z.bits_inj'. intros i Hi.
    rewrite Z.land_spec, Z.bits_0. fold (BIT k). rewrite testbit_BIT by lia.
    destruct (Z.eqb_spec i k) as [->|]; [rewrite E; reflexivity|apply andb_false_r].
Qed.

(** X18.  [tegra210_xusb_padctl_remote_wake_detected] reads
    [XUSB_PADCTL_ELPG_PROGRAM_0] once and writes nothing.  It returns 1
    when both the wake interrupt enable and the wake event of the lane
    are set, and 0 otherwise: bits lane and lane + 7 for a USB2 lane 0 to
    3, bits 28 and 30 for the HSIC lane, bits port + 14 and port + 21 for
    a PCIe lane that [tegra210_usb3_lane_map] resolves to SuperSpeed port
    0 to 3.  Without a phy it returns 0.  For a SATA phy, or a phy of
    another driver, it returns [-EINVAL], and so does
    [tegra210_xusb_padctl_phy_wake], without touching the lock or a
    register. *)
Theorem remote_wake_detected_bits pf p port enable w :
  let reg := register_value pf w XUSB_PADCTL_ELPG_PROGRAM_0 in
  let index := lane_index (phy_get_drvdata p) in
  let both (intr event : Z) := (if Z.testbit reg intr && Z.testbit reg event then 1 else 0) in
  tegra210_xusb_padctl_remote_wake_detected pf None w = Some (0, w) /\
  (ops p = tegra210_usb2_phy_ops -> 0 <= index < 4 ->
   tegra210_xusb_padctl_remote_wake_detected pf (Some p) w
   = Some (both index (index + 7), w)) /\
  (ops p = tegra210_hsic_phy_ops -> 0 <= index < 2 ->
   tegra210_xusb_padctl_remote_wake_detected pf (Some p) w
   = Some (both (index + 28) (index + 30), w)) /\
  (ops p = tegra210_pcie_phy_ops ->
   tegra210_usb3_lane_map pf (phy_get_drvdata p) w = Some (port, w) -> 0 <= port < 4 ->
   tegra210_xusb_padctl_remote_wake_detected pf (Some p) w
   = Some (both (port + 14) (port + 21), w)) /\
  (ops p = tegra210_sata_phy_ops \/ ops p = foreign_phy_ops ->
   tegra210_xusb_padctl_remote_wake_detected pf (Some p) w = Some (- EINVAL, w) /\
   tegra210_xusb_padctl_phy_wake pf (Some p) enable w = Some (- EINVAL, w)).
Proof.
  intros reg index both. split; [reflexivity|].
  unfold tegra210_xusb_padctl_remote_wake_detected, tegra210_xusb_padctl_phy_wake,
    is_utmi_phy, is_hsic_phy, is_usb3_phy.
  fold index.
  split; [|split; [|split]].
  - intros -> Hi. rewrite to_int_small by lia.
    unfold tegra210_utmi_phy_remote_wake_detected. cbn [bind padctl_readl]. fold reg.
    unfold USB2_PORT_WAKE_INTERRUPT_ENABLE, USB2_PORT_WAKEUP_EVENT.
    rewrite !bit_set_BIT by lia. unfold both.
    destruct (Z.testbit reg index && Z.testbit reg (index + 7)); reflexivity.
  - intros -> Hi. rewrite to_int_small by lia.
    unfold tegra210_hsic_phy_remote_wake_detected. cbn [bind padctl_readl]. fold reg.
    unfold USB2_HSIC_PORT_WAKE_INTERRUPT_ENABLE, USB2_HSIC_PORT_WAKEUP_EVENT.
    rewrite !bit_set_BIT by lia. unfold both.
    destruct (Z.testbit reg (index + 28) && Z.testbit reg (index + 30)); reflexivity.
  - intros -> Hm Hp. unfold bind at 1. rewrite Hm. rewrite to_int_small by lia.
    unfold tegra210_usb3_phy_remote_wake_detected. cbn [bind padctl_readl]. fold reg.
    unfold SS_PORT_WAKE_INTERRUPT_ENABLE, SS_PORT_WAKEUP_EVENT.
    rewrite !bit_set_BIT by lia. unfold both.
    destruct (Z.testbit reg (port + 14) && Z.testbit reg (port + 21)); reflexivity.
  - intros [-> | ->]; split; reflexivity.
Qed.

Lemma remote_wake_detected_bits_witness :
  tegra210_xusb_padctl_remote_wake_detected tegra210_board (Some (pcie_phy 5))
    (store (Z.lor (BIT 15) (BIT 22)) XUSB_PADCTL_ELPG_PROGRAM_0 idle_world)
  = Some (1, store (Z.lor (BIT 15) (BIT 22)) XUSB_PADCTL_ELPG_PROGRAM_0 idle_world).
Proof.
  destruct (remote_wake_detected_bits tegra210_board (pcie_phy 5) 1 true
              (store (Z.lor (BIT 15) (BIT 22)) XUSB_PADCTL_ELPG_PROGRAM_0 idle_world))
    as (_ & _ & _ & H & _).
  exact (H eq_refl eq_refl ltac:(lia)).
Defined.

(** ** Lane defaults *)

(** The word that carries one entry. *)
Lemma init_word_carries d :
  0 <= cfg_addr d < 256 -> 0 <= cfg_wdata d < 65536 ->
  let v := u32 (set_bits (set_bits (set_bits (set_bits 0 (CFG_ADDR (cfg_addr d)))
                                            (CFG_WDATA (cfg_wdata d))) CFG_RESET) CFG_WS) in
  init_data_of v = d /\ Z.testbit v 24 = true /\ Z.testbit v 27 = true.
Proof.
  intros Ha Hd. destruct d as [a x]. cbn [cfg_addr cfg_wdata] in *. cbv zeta.
  assert (Ea : Z.land a (Z.ones 8) = a) by (rewrite Z.land_ones by lia; apply Z.mod_small; lia).
  assert (Ex : Z.land x (Z.ones 16) = x)
    by (rewrite Z.land_ones by lia; apply Z.mod_small; lia).
  unfold init_data_of, u32, set_bits, CFG_ADDR, CFG_WDATA, CFG_RESET, CFG_WS.
  change 0xff with (Z.ones 8). change 0xffff with (Z.ones 16).
  change 0xffffffff with (Z.ones 32).
  change (Z.shiftl 1 27) with (Z.shiftl (Z.ones 1) 27).
  change (Z.shiftl 1 24) with (Z.shiftl (Z.ones 1) 24).
  split; [|split].
  - f_equal.
    + rewrite <- Ea at 2. Z.bitblast.
    + rewrite <- Ex at 2. Z.bitblast.
  - rewrite Z.land_spec, !Z.lor_spec.
    change (Z.testbit (Z.shiftl (Z.ones 1) 24) 24) with true.
    rewrite !orb_true_r. reflexivity.
  - rewrite Z.land_spec, !Z.lor_spec.
    change (Z.testbit (Z.shiftl (Z.ones 1) 27) 27) with true.
    rewrite !orb_true_r. reflexivity.
Qed.

Lemma write_lane_init_data_round_trip l offset w :
  Forall (fun d => 0 <= cfg_addr d < 256 /\ 0 <= cfg_wdata d < 65536) l ->
  exists es w',
    write_lane_init_data l offset w = Some (tt, w') /\
    emitted w w' es /\
    init_data_written offset es = l /\
    (forall e, In e es ->
       exists v, e = EvWrite v offset /\ Z.testbit v 24 = true /\ Z.testbit v 27 = true) /\
    lock w' = lock w.
Proof.
  revert w. induction l as [|d l IH]; intros w Hf.
  - exists [], w. repeat split. intros e [].
  - inversion Hf as [|d' l' [Ha Hd] Hf']; subst.
    destruct (init_word_carries d Ha Hd) as (E1 & E2 & E3). cbv zeta in E1, E2, E3.
    set (v := u32 (set_bits (set_bits (set_bits (set_bits 0 (CFG_ADDR (cfg_addr d)))
                                               (CFG_WDATA (cfg_wdata d))) CFG_RESET) CFG_WS))
      in *.
    destruct (IH (record (EvWrite v offset) (store v offset w)) Hf')
      as (es & w' & E & Hem & Hw & Hall & Hl).
    exists (EvWrite v offset :: es), w'. split.
    { cbn [write_lane_init_data]. cbv zeta. unfold bind at 1.
      cbn [padctl_writel]. fold v. exact E. }
    split.
    { unfold emitted in *. rewrite Hem. cbn [trace record rev].
      rewrite <- app_assoc. reflexivity. }
    split.
    { cbn [init_data_written]. rewrite Z.eqb_refl, Hw, E1. reflexivity. }
    split.
    { intros e [<-|Hin]; [exists v; repeat split; assumption|apply Hall, Hin]. }
    rewrite Hl. reflexivity.
Qed.

(** X19.  [tegra210_pcie_lane_defaults] writes the table that the
    function of the lane selects ([usb3_lane_data] for function 1,
    [pcie_lane_data] for functions 0 and 3, nothing for any other), one
    word per entry and in the order of the table, to
    [XUSB_PADCTL_UPHY_MISC_PAD_PX_CTL8] of the lane and nowhere else.
    Every word has the reset and write-strobe bits (27 and 24) set, and
    carries its entry without loss: the address read back from bits 16 to
    23 and the data from bits 0 to 15 are those of the table. *)
Theorem lane_defaults_write_the_table bd lane w :
  let offset := XUSB_PADCTL_UPHY_MISC_PAD_PX_CTL8 (lane_index lane) in
  exists w',
    tegra210_pcie_lane_defaults bd lane w = Some (tt, w') /\
    init_data_written offset (events_since w w') = lane_init_table (lane_function bd lane) /\
    List.length (events_since w w') = List.length (lane_init_table (lane_function bd lane)) /\
    (forall e, In e (events_since w w') ->
       exists v, e = EvWrite v offset /\ Z.testbit v 24 = true /\ Z.testbit v 27 = true) /\
    lock w' = lock w.
Proof.
  intros offset.
  assert (K : forall l,
             Forall (fun d => 0 <= cfg_addr d < 256 /\ 0 <= cfg_wdata d < 65536) l ->
             exists w',
               write_lane_init_data l offset w = Some (tt, w') /\
               init_data_written offset (events_since w w') = l /\
               List.length (events_since w w') = List.length l /\
               (forall e, In e (events_since w w') ->
                  exists v, e = EvWrite v offset /\ Z.testbit v 24 = true
                            /\ Z.testbit v 27 = true) /\
               lock w' = lock w).
  { intros l Hf.
    destruct (write_lane_init_data_round_trip l offset w Hf)
      as (es & w' & E & Hem & Hw & Hall & Hl).
    exists w'. rewrite (emitted_events_since _ _ _ Hem).
    split; [exact E|]. split; [exact Hw|]. split; [|split; [exact Hall|exact Hl]].
    rewrite <- Hw. clear - Hall.
    induction es as [|e es IH]; [reflexivity|].
    destruct (Hall e (or_introl eq_refl)) as (v & -> & _).
    cbn [init_data_written List.length]. rewrite Z.eqb_refl. cbn [List.length].
    rewrite IH; [reflexivity|]. intros e He. apply Hall. right. exact He. }
  unfold tegra210_pcie_lane_defaults, lane_init_table. fold offset.
  destruct (lane_function bd lane =? 1).
  - apply K. unfold usb3_lane_data. repeat constructor; cbn; lia.
  - destruct ((lane_function bd lane =? 0) || (lane_function bd lane =? 3)).
    + apply K. unfold pcie_lane_data. repeat constructor; cbn; lia.
    + apply (K []). constructor.
Qed.

(** ** The idle state of the HSIC bus *)

Lemma hsic_pad_registers index :
  0 <= index < 3 -> status_bits (XUSB_PADCTL_HSIC_PADX_CTL0 index) = 0.
Proof.
  intros H. assert (index = 0 \/ index = 1 \/ index = 2) as Hk by lia.
  destruct Hk as [->|[->| ->]]; reflexivity.
Qed.

(** X20.  [tegra210_hsic_set_idle] returns 0 after one write to
    [XUSB_PADCTL_HSIC_PADX_CTL0] of the pad.  Afterwards the pull-ups of
    the data lines and the pull-down of the strobe are off, whatever they
    were and whichever way the call goes; the pull-downs of the data
    lines and the pull-up of the strobe are on exactly when [idle] is
    true.  So no line is ever left pulled both ways, the result does not
    depend on the pulls found, and no other bit of the register
    changes. *)
Theorem hsic_set_idle_pulls pf index idle w :
  0 <= index < 3 ->
  exists w',
    tegra210_hsic_set_idle pf index idle w = Some (0, w') /\
    emitted w w' [ EvWrite (register_value pf w' (XUSB_PADCTL_HSIC_PADX_CTL0 index))
                           (XUSB_PADCTL_HSIC_PADX_CTL0 index) ] /\
    register_value pf w' (XUSB_PADCTL_HSIC_PADX_CTL0 index)
    = Z.lor (Z.land (register_value pf w (XUSB_PADCTL_HSIC_PADX_CTL0 index))
                    (Z.lnot XUSB_PADCTL_HSIC_PAD_CTL0_PULLS))
            (if idle then XUSB_PADCTL_HSIC_PAD_CTL0_IDLE else 0) /\
    lock w' = lock w.
Proof.
  intros Hi. pose proof (hsic_pad_registers index Hi) as Hp.
  unfold tegra210_hsic_set_idle. eexists. split.
  { cbn [bind rmw padctl_readl padctl_writel ret]. reflexivity. }
  rewrite (register_value_plain pf (record _ _)) by exact Hp.
  cbn [regs record store]. rewrite Z.eqb_refl, u32_idem.
  split; [emitted_now|]. split; [|reflexivity].
  rewrite <- (register_value_u32 pf w).
  generalize (register_value pf w (XUSB_PADCTL_HSIC_PADX_CTL0 index)). intros x.
  unfold XUSB_PADCTL_HSIC_PAD_CTL0_PULLS, XUSB_PADCTL_HSIC_PAD_CTL0_IDLE,
    XUSB_PADCTL_HSIC_PAD_CTL0_RPU_STROBE, XUSB_PADCTL_HSIC_PAD_CTL0_RPU_DATA1,
    XUSB_PADCTL_HSIC_PAD_CTL0_RPU_DATA0, XUSB_PADCTL_HSIC_PAD_CTL0_RPD_STROBE,
    XUSB_PADCTL_HSIC_PAD_CTL0_RPD_DATA1, XUSB_PADCTL_HSIC_PAD_CTL0_RPD_DATA0,
    u32, set_bits, clear_bits.
  change 0xffffffff with (Z.ones 32).
  change (Z.shiftl 1 18) with (Z.shiftl (Z.ones 1) 18).
  change (Z.shiftl 1 17) with (Z.shiftl (Z.ones 1) 17).
  change (Z.shiftl 1 16) with (Z.shiftl (Z.ones 1) 16).
  change (Z.shiftl 1 15) with (Z.shiftl (Z.ones 1) 15).
  change (Z.shiftl 1 14) with (Z.shiftl (Z.ones 1) 14).
  change (Z.shiftl 1 13) with (Z.shiftl (Z.ones 1) 13).
  destruct idle; Z.bitblast.
Qed.

Lemma hsic_set_idle_pulls_witness :
  exists w',
    tegra210_hsic_set_idle tegra210_board 0 true
      (store 0x3807f (XUSB_PADCTL_HSIC_PADX_CTL0 0) idle_world) = Some (0, w') /\
    register_value tegra210_board w' (XUSB_PADCTL_HSIC_PADX_CTL0 0) = 0x4607f.
Proof.
  destruct (hsic_set_idle_pulls tegra210_board 0 true
              (store 0x3807f (XUSB_PADCTL_HSIC_PADX_CTL0 0) idle_world))
    as (w' & E & _ & Hv & _); [lia|].
  exists w'. split; [exact E|]. rewrite Hv. reflexivity.
Defined.

(** ** The ID override *)

Lemma id_grounded_value old :
  let new := u32 (set_bits (clear_bits old (ID_OVERRIDE (Z.lnot 0))) ID_OVERRIDE_GROUNDED) in
  Z.land new (ID_OVERRIDE (Z.lnot 0)) = ID_OVERRIDE_GROUNDED /\
  Z.land new VBUS_OVERRIDE_VBUS_ON = Z.land (u32 old) VBUS_OVERRIDE_VBUS_ON /\
  (forall i, 0 <= i < 32 -> ~ 18 <= i < 22 -> Z.testbit new i = Z.testbit old i).
Proof.
  cbv zeta. repeat split.
  - unfold_bits. Z.bitblast.
  - unfold_bits. Z.bitblast.
  - intros i Hi H18. unfold_bits. Z.bitblast_core.
Qed.

Lemma id_floating_value old :
  let new := u32 (set_bits (clear_bits old (ID_OVERRIDE (Z.lnot 0))) ID_OVERRIDE_FLOATING) in
  Z.land new (ID_OVERRIDE (Z.lnot 0)) = ID_OVERRIDE_FLOATING /\
  Z.land new VBUS_OVERRIDE_VBUS_ON = Z.land (u32 old) VBUS_OVERRIDE_VBUS_ON /\
  (forall i, 0 <= i < 32 -> ~ 18 <= i < 22 -> Z.testbit new i = Z.testbit old i).
Proof.
  cbv zeta. repeat split.
  - unfold_bits. Z.bitblast.
  - unfold_bits. Z.bitblast.
  - intros i Hi H18. unfold_bits. Z.bitblast_core.
Qed.

(** X21.  [tegra210_xusb_padctl_id_override] returns 0 and schedules the
    OTG work once, after its last write.  Setting the override leaves
    the ID field of [XUSB_PADCTL_USB2_VBUS_ID] grounded and the VBUS
    override off, whatever the register held: if the VBUS override was
    on, a first write switches it off with the ID field as it was, and
    the routine sleeps 1000 to 2000 microseconds before the write that
    grounds the ID.  So no write grounds the ID with the VBUS override
    on.  Clearing the override sets the ID field to floating in one
    write and leaves the VBUS override as it was.  No bit outside the ID
    field and the VBUS-on bit changes. *)
Theorem id_override_grounds_with_vbus_off pf w :
  let old := register_value pf w XUSB_PADCTL_USB2_VBUS_ID in
  (exists w',
     let new := register_value pf w' XUSB_PADCTL_USB2_VBUS_ID in
     tegra210_xusb_padctl_id_override pf true w = Some (0, w') /\
     Z.land new (ID_OVERRIDE (Z.lnot 0)) = ID_OVERRIDE_GROUNDED /\
     Z.land new VBUS_OVERRIDE_VBUS_ON = 0 /\
     (forall i, 0 <= i < 32 -> i <> 14 -> ~ 18 <= i < 22 ->
        Z.testbit new i = Z.testbit old i) /\
     emitted w w'
       (if bit_set VBUS_OVERRIDE_VBUS_ON old
        then [ EvWrite (Z.land old (Z.lnot VBUS_OVERRIDE_VBUS_ON)) XUSB_PADCTL_USB2_VBUS_ID;
               EvSleep 1000 2000;
               EvWrite new XUSB_PADCTL_USB2_VBUS_ID;
               EvCall schedule_work_otg_vbus_work ]
        else [ EvWrite new XUSB_PADCTL_USB2_VBUS_ID;
               EvCall schedule_work_otg_vbus_work ])) /\
  (exists w',
     let new := register_value pf w' XUSB_PADCTL_USB2_VBUS_ID in
     tegra210_xusb_padctl_id_override pf false w = Some (0, w') /\
     Z.land new (ID_OVERRIDE (Z.lnot 0)) = ID_OVERRIDE_FLOATING /\
     Z.land new VBUS_OVERRIDE_VBUS_ON = Z.land old VBUS_OVERRIDE_VBUS_ON /\
     (forall i, 0 <= i < 32 -> ~ 18 <= i < 22 -> Z.testbit new i = Z.testbit old i) /\
     emitted w w' [ EvWrite new XUSB_PADCTL_USB2_VBUS_ID;
                    EvCall schedule_work_otg_vbus_work ]).
Proof.
  intros old.
  split.
  - unfold tegra210_xusb_padctl_id_override. cbn [bind padctl_readl]. fold old.
    destruct (bit_set VBUS_OVERRIDE_VBUS_ON old) eqn:Hb.
    + destruct (vbus_off_value old) as (A1 & _ & A3).
      set (v1 := u32 (clear_bits old VBUS_OVERRIDE_VBUS_ON)) in *.
      destruct (id_grounded_value v1) as (B1 & B2 & B3).
      set (v2 := u32 (set_bits (clear_bits v1 (ID_OVERRIDE (Z.lnot 0)))
                               ID_OVERRIDE_GROUNDED)) in *.
      assert (Hv1 : u32 v1 = v1) by apply u32_idem.
      assert (Hv2 : u32 v2 = v2) by apply u32_idem.
      eexists. cbv zeta.
      split; [cbn [bind ret padctl_readl padctl_writel usleep_range call]; reflexivity|].
      fold v1.
      repeat (progress (rewrite ?register_value_plain by reflexivity;
                        cbn [regs record store elapse];
                        rewrite ?Z.eqb_refl, ?Hv1)).
      fold v2. rewrite Hv2.
      split; [exact B1|].
      split; [rewrite B2, Hv1; exact A1|].
      split.
      { intros i Hi H14 H18. rewrite B3 by assumption. apply A3; assumption. }
      replace (Z.land old (Z.lnot VBUS_OVERRIDE_VBUS_ON)) with v1.
      { emitted_now. }
      unfold v1, old. rewrite <- (register_value_u32 pf w). apply u32_land_lnot.
    + destruct (id_grounded_value old) as (B1 & B2 & B3).
      set (v2 := u32 (set_bits (clear_bits old (ID_OVERRIDE (Z.lnot 0)))
                               ID_OVERRIDE_GROUNDED)) in *.
      assert (Hv2 : u32 v2 = v2) by apply u32_idem.
      eexists. cbv zeta.
      split; [cbn [bind ret padctl_readl padctl_writel call]; reflexivity|].
      fold v2.
      rewrite register_value_plain by reflexivity.
      cbn [regs record store]. rewrite Z.eqb_refl, Hv2.
      split; [exact B1|].
      split.
      { rewrite B2. unfold old. rewrite register_value_u32. fold old.
        unfold bit_set in Hb. apply negb_false_iff, Z.eqb_eq in Hb. exact Hb. }
      split; [intros i Hi _ H18; apply B3; assumption|emitted_now].
  - unfold tegra210_xusb_padctl_id_override. cbn [bind padctl_readl]. fold old.
    destruct (id_floating_value old) as (B1 & B2 & B3).
    set (v2 := u32 (set_bits (clear_bits old (ID_OVERRIDE (Z.lnot 0)))
                             ID_OVERRIDE_FLOATING)) in *.
    assert (Hv2 : u32 v2 = v2) by apply u32_idem.
    eexists. cbv zeta.
    split; [cbn [bind ret padctl_readl padctl_writel call]; reflexivity|].
    fold v2.
    rewrite register_value_plain by reflexivity.
    cbn [regs record store]. rewrite Z.eqb_refl, Hv2.
    split; [exact B1|].
    split; [rewrite B2; unfold old; rewrite register_value_u32; reflexivity|].
    split; [exact B3|emitted_now].
Qed.

(** ** VBUS power *)

(** X22.  [tegra210_xusb_padctl_vbus_power_on] and
    [tegra210_xusb_padctl_vbus_power_off] for a USB2 port with a supply,
    with the lock free.  Both release the lock and write no register.
    With over-current pin control and a pin for the port they switch the
    pin state and never touch the regulator.  Otherwise power-on enables
    the regulator only if it is not enabled and power-off disables it
    only if it is, so neither counts twice; when nothing is to be done
    the result is 0, and otherwise it is the result of the one call
    made.  Power-off of an always-on VBUS is refused with [-EINVAL]
    before the lock is looked at. *)
Theorem vbus_power_outcomes pf index port w :
  tegra_xusb_find_usb2_port pf index = Some port ->
  supply port = true ->
  lock w = false ->
  let oc := oc_pinctrl pf && (oc_pin port >=? 0) in
  let enabled := negb (regulator_is_enabled pf (with_lock true w) index =? 0) in
  (exists w',
     tegra210_xusb_padctl_vbus_power_on pf index w
     = Some (if oc
             then call_result pf (with_lock true w)
                    (tegra_xusb_select_vbus_en_state (oc_pin port) true)
             else if enabled then 0
             else call_result pf (with_lock true w) (regulator_enable index), w') /\
     performed w w'
       (if oc then [ DoCall (tegra_xusb_select_vbus_en_state (oc_pin port) true) ]
        else if enabled then [] else [ DoCall (regulator_enable index) ]) /\
     lock w' = false /\ regs w' = regs w) /\
  (otg_vbus_alwayson pf = false ->
   exists w',
     tegra210_xusb_padctl_vbus_power_off pf index w
     = Some (if oc
             then call_result pf (with_lock true w)
                    (tegra_xusb_select_vbus_en_state (oc_pin port) false)
             else if enabled
             then call_result pf (with_lock true w) (regulator_disable index)
             else 0, w') /\
     performed w w'
       (if oc then [ DoCall (tegra_xusb_select_vbus_en_state (oc_pin port) false) ]
        else if enabled then [ DoCall (regulator_disable index) ] else []) /\
     lock w' = false /\ regs w' = regs w) /\
  (otg_vbus_alwayson pf = true ->
   forall w0,
     tegra210_xusb_padctl_vbus_power_off pf index w0
     = Some (- EINVAL, record (EvErr "usb2 vbus cannot off due to alwayson") w0)).
Proof.
  intros Hf Hs Hl oc enabled. split; [|split].
  - unfold tegra210_xusb_padctl_vbus_power_on. rewrite Hf, Hs. cbn [negb].
    unfold bind at 1. unfold mutex_lock at 1. rewrite Hl. fold oc.
    destruct oc.
    + eexists. split; [cbn [bind ret call mutex_unlock]; reflexivity|].
      split; [performed_now|]. split; reflexivity.
    + unfold bind at 1. unfold bind at 1. unfold enabled.
      destruct (regulator_is_enabled pf (with_lock true w) index =? 0); cbn [negb].
      * unfold bind at 1. unfold call at 1.
        destruct (negb (call_result pf (with_lock true w) (regulator_enable index) =? 0));
          (eexists; split; [cbn [bind ret when dev_err emit mutex_unlock]; reflexivity|];
           split; [performed_now|]; split; reflexivity).
      * eexists. split; [cbn [bind ret mutex_unlock]; reflexivity|].
        split; [performed_now|]. split; reflexivity.
  - intros Ha. unfold tegra210_xusb_padctl_vbus_power_off. rewrite Hf, Ha, Hs. cbn [negb].
    unfold bind at 1. unfold mutex_lock at 1. rewrite Hl. fold oc.
    destruct oc.
    + eexists. split; [cbn [bind ret call mutex_unlock]; reflexivity|].
      split; [performed_now|]. split; reflexivity.
    + unfold bind at 1. unfold bind at 1. unfold enabled.
      destruct (regulator_is_enabled pf (with_lock true w) index =? 0); cbn [negb].
      * eexists. split; [cbn [bind ret mutex_unlock]; reflexivity|].
        split; [performed_now|]. split; reflexivity.
      * unfold bind at 1. unfold call at 1.
        destruct (negb (call_result pf (with_lock true w) (regulator_disable index) =? 0));
          (eexists; split; [cbn [bind ret when dev_err emit mutex_unlock]; reflexivity|];
           split; [performed_now|]; split; reflexivity).
  - intros Ha w0. unfold tegra210_xusb_padctl_vbus_power_off. rewrite Hf, Ha. reflexivity.
Qed.

Lemma vbus_power_outcomes_witness :
  exists w',
    tegra210_xusb_padctl_vbus_power_on tegra210_board 0 idle_world = Some (0, w') /\
    performed idle_world w' [ DoCall (regulator_enable 0) ] /\
    lock w' = false /\ regs w' = regs idle_world.
Proof.
  destruct (vbus_power_outcomes tegra210_board 0 (mk_usb2_port true (-1)) idle_world
              eq_refl eq_refl eq_refl) as (H & _).
  exact H.
Defined.

(** ** The OTG port *)

Section OtgPort.

Variable pf : platform.
Variable bd : board.

Lemma wp_usb2_phy_init_otg p port s w :
  let index := lane_index (phy_get_drvdata p) in
  tegra_xusb_find_usb2_port pf index = Some port ->
  lock w = false -> 0 <= enable w ->
  wp (tegra210_usb2_phy_init pf bd p s) w (fun rs w' =>
    snd rs = if usb_port_cap_eqb (usb2_port_cap bd index) USB_OTG_CAP
             then with_usb2_otg_port_base_1 (index + 1) s else s).
Proof.
  intros index Hp Hl He. unfold tegra210_usb2_phy_init. fold index. rewrite Hp.
  do 2 wp_more. apply wp_bind.
  assert (K : forall err w1,
    lock w1 = true -> enable w1 = enable w ->
    (negb (err =? 0) = true ->
     usb_port_cap_eqb (usb2_port_cap bd index) USB_OTG_CAP = false) ->
    wp (if negb (err =? 0) then mutex_unlock ;; ret (err, s)
        else
          s0 <- (if usb_port_cap_eqb (usb2_port_cap bd index) USB_OTG_CAP then
                   when (negb (usb2_otg_port_base_1 s =? 0))
                        (dev_warn "enabling OTG on multiple USB2 ports") ;;
                   dev_info "enabled OTG on UTMI pad" ;;
                   ret (with_usb2_otg_port_base_1 (index + 1) s)
                 else ret s) ;;
          mutex_unlock ;;
          r <- tegra210_xusb_padctl_enable pf ;;
          ret (r, s0)) w1
       (fun rs w' =>
          snd rs = if usb_port_cap_eqb (usb2_port_cap bd index) USB_OTG_CAP
                   then with_usb2_otg_port_base_1 (index + 1) s else s)).
  { intros err w1 Hl1 He1 Hcap. destruct (negb (err =? 0)).
    - repeat wp_more. cbn [snd]. rewrite Hcap by reflexivity. reflexivity.
    - apply wp_bind.
      destruct (usb_port_cap_eqb (usb2_port_cap bd index) USB_OTG_CAP).
      + apply wp_bind, wp_when; intros _; repeat wp_more; apply wp_bind;
          (eapply wp_weaken;
           [apply wp_padctl_enable_actions; chase2; [reflexivity|first [exact He|rewrite He1; exact He]]|]);
          cbv beta; intros r0 w' _; wp_more; reflexivity.
      + repeat wp_more. apply wp_bind.
        eapply wp_weaken;
          [apply wp_padctl_enable_actions; chase2; [reflexivity|first [exact He|rewrite He1; exact He]]|].
        cbv beta. intros r0 w' _. wp_more. reflexivity. }
  destruct (supply port && usb_port_cap_eqb (usb2_port_cap bd index) USB_HOST_CAP
            && (negb (oc_pinctrl pf) || (oc_pin port <? 0))) eqn:Hc.
  - wp_more. apply K; [reflexivity|reflexivity|]. intros _.
    apply andb_true_iff in Hc. destruct Hc as (Hc & _).
    apply andb_true_iff in Hc. destruct Hc as (_ & Hc).
    destruct (usb2_port_cap bd index); first [reflexivity|discriminate Hc].
  - wp_more. apply K; [reflexivity|reflexivity|]. intros H. discriminate H.
Qed.

Lemma wp_usb2_phy_exit_otg p port s w :
  let index := lane_index (phy_get_drvdata p) in
  tegra_xusb_find_usb2_port pf index = Some port ->
  lock w = false -> 0 <= enable w < 2 ^ 32 ->
  wp (tegra210_usb2_phy_exit pf bd p s) w (fun rs w' =>
    snd rs = if index =? u32 (usb2_otg_port_base_1 s - 1)
             then with_usb2_otg_port_base_1 0 s else s).
Proof.
  intros index Hp Hl He. unfold tegra210_usb2_phy_exit. fold index. rewrite Hp.
  wp_more. apply wp_bind.
  destruct (supply port && usb_port_cap_eqb (usb2_port_cap bd index) USB_HOST_CAP).
  - do 2 wp_more. cbv zeta. wp_more. apply wp_bind. eapply wp_weaken.
    { apply wp_padctl_disable_actions; chase2; [reflexivity|]. exact He. }
    cbv beta. intros r0 w' _. wp_more. reflexivity.
  - wp_more. cbv zeta. wp_more. apply wp_bind. eapply wp_weaken.
    { apply wp_padctl_disable_actions; chase2; [reflexivity|]. exact He. }
    cbv beta. intros r0 w' _. wp_more. reflexivity.
Qed.

End OtgPort.

(** X23.  [padctl->usb2_otg_port_base_1] across
    [tegra210_usb2_phy_init] and [tegra210_usb2_phy_exit] of a lane with
    a port, with the lock free.  Init of a lane whose port is
    OTG-capable records the lane (index + 1) whatever was recorded
    before, so of two OTG lanes the last one initialised is the one
    kept; init of any other lane leaves the record alone, also when it
    fails.  Exit clears the record exactly when it names the lane that
    exits, and never when nothing is recorded, since the comparison with
    [usb2_otg_port_base_1 - 1] is unsigned.  Neither changes the use
    count of the pad or the power state of a lane. *)
Theorem usb2_otg_port_record pf bd p port s w :
  let index := lane_index (phy_get_drvdata p) in
  tegra_xusb_find_usb2_port pf index = Some port ->
  lock w = false -> 0 <= enable w < 2 ^ 32 ->
  0 <= index < 2 ^ 32 - 1 -> 0 <= usb2_otg_port_base_1 s < 2 ^ 32 ->
  (exists r s' w',
     tegra210_usb2_phy_init pf bd p s w = Some ((r, s'), w') /\
     usb2_otg_port_base_1 s'
     = (if usb_port_cap_eqb (usb2_port_cap bd index) USB_OTG_CAP
        then index + 1 else usb2_otg_port_base_1 s) /\
     usb2_pad_enable s' = usb2_pad_enable s /\ powered_on s' = powered_on s) /\
  (exists r s' w',
     tegra210_usb2_phy_exit pf bd p s w = Some ((r, s'), w') /\
     usb2_otg_port_base_1 s'
     = (if usb2_otg_port_base_1 s =? index + 1 then 0 else usb2_otg_port_base_1 s) /\
     usb2_pad_enable s' = usb2_pad_enable s /\ powered_on s' = powered_on s).
Proof.
  intros index Hp Hl He Hi Hb. split.
  - destruct (wp_usb2_phy_init_otg pf bd p port s w Hp Hl ltac:(lia))
      as ([r s'] & w' & E & Hs). cbn [snd] in Hs. fold index in Hs.
    exists r, s', w'. split; [exact E|]. rewrite Hs.
    destruct (usb_port_cap_eqb (usb2_port_cap bd index) USB_OTG_CAP); repeat split.
  - destruct (wp_usb2_phy_exit_otg pf bd p port s w Hp Hl He)
      as ([r s'] & w' & E & Hs). cbn [snd] in Hs. fold index in Hs.
    exists r, s', w'. split; [exact E|]. rewrite Hs.
    destruct (Z.eq_dec (usb2_otg_port_base_1 s) 0) as [H0|H0].
    + rewrite H0. change (u32 (0 - 1)) with (2 ^ 32 - 1).
      replace (index =? 2 ^ 32 - 1) with false by (symmetry; apply Z.eqb_neq; lia).
      replace (0 =? index + 1) with false by (symmetry; apply Z.eqb_neq; lia).
      repeat split. exact H0.
    + rewrite (u32_small (usb2_otg_port_base_1 s - 1)) by lia.
      destruct (Z.eqb_spec index (usb2_otg_port_base_1 s - 1)) as [E1|E1].
      * replace (usb2_otg_port_base_1 s =? index + 1) with true
          by (symmetry; apply Z.eqb_eq; lia).
        repeat split.
      * replace (usb2_otg_port_base_1 s =? index + 1) with false
          by (symmetry; apply Z.eqb_neq; lia).
        repeat split.
Qed.

Lemma usb2_otg_port_record_witness :
  (exists r s' w',
     tegra210_usb2_phy_init tegra210_board otg_board (usb2_phy 0)
       (with_usb2_otg_port_base_1 3 no_pads) idle_world = Some ((r, s'), w') /\
     usb2_otg_port_base_1 s' = 0 + 1 /\
     usb2_pad_enable s' = 0 /\ powered_on s' = powered_on no_pads) /\
  (exists r s' w',
     tegra210_usb2_phy_exit tegra210_board otg_board (usb2_phy 0)
       (with_usb2_otg_port_base_1 3 no_pads) idle_world = Some ((r, s'), w') /\
     usb2_otg_port_base_1 s' = 3 /\
     usb2_pad_enable s' = 0 /\ powered_on s' = powered_on no_pads).
Proof.
  apply (usb2_otg_port_record tegra210_board otg_board (usb2_phy 0) (mk_usb2_port true (-1))
           (with_usb2_otg_port_base_1 3 no_pads) idle_world);
    [reflexivity | reflexivity | cbn; lia | cbn; lia | cbn; lia].
Defined.
